(** * A shallow embedding of the simple mountable file system (src/3/sfs_api.c)

    The C program keeps five global tables (superblock, i-node table, file
    descriptor table, root directory, free-block bitmap) and talks to an
    emulated block device.  The embedding threads one record [sfs] holding
    these globals and the disk through every API function.

    Conventions.
    - C integers are [Z]; every conversion between integer types of the C
      source is written out ([to_int], [to_uint], [to_u64]).  The target is
      the usual LP64 one: [int] and [unsigned int] have 32 bits, [size_t]
      and [uint64_t] have 64 bits, multi-byte values are little-endian.
    - A C array is a list; each indexing [a[i]] is the checked access
      [arr_get]/[arr_set].  An access outside the array is undefined
      behaviour in C and is the outcome [Fault] here.
    - The two [while] loops of [sfs_fwrite] and [sfs_fread] run on a fuel
      counter; running out of fuel is the outcome [NoFuel], and the file
      proves that the fuel handed out by the API functions always suffices.
    - A file name stored in a [char names[MAX_FILENAME]] field is the
      string in front of its first NUL byte, which is all that [strcmp],
      [strcpy] and [strlen] observe. *)

From Stdlib Require Import ZArith List Strings.String Strings.Ascii Strings.Byte Lia Bool.
From stdpp Require Import base list list_numbers.

Open Scope Z_scope.

Ltac Zify.zify_post_hook ::= Z.to_euclidean_division_equations.

(** ** Outcomes of running C code *)

Inductive outcome (A : Type) : Type :=
| Ret (a : A)      (* the call returned *)
| Fault            (* an array was indexed outside its bounds *)
| NoFuel.          (* the loop fuel of the model ran out *)

Arguments Ret {A} a.
Arguments Fault {A}.
Arguments NoFuel {A}.

Definition bind {A B : Type} (m : outcome A) (k : A -> outcome B) : outcome B :=
  match m with
  | Ret a => k a
  | Fault => Fault
  | NoFuel => NoFuel
  end.

Notation "'let!' x ':=' c 'in' k" := (bind c (fun x => k))
  (at level 10, x name, c at level 100, k at level 200).
Notation "'let!' ' p ':=' c 'in' k" := (bind c (fun x => match x with p => k end))
  (at level 10, p pattern, c at level 100, k at level 200).

(** ** Integer conversions of the C source *)

Definition to_uint (x : Z) : Z := x mod 2 ^ 32.
Definition to_int (x : Z) : Z := (x + 2 ^ 31) mod 2 ^ 32 - 2 ^ 31.
Definition to_u64 (x : Z) : Z := x mod 2 ^ 64.

(** ** Checked array accesses *)

Definition arr_get {A : Type} (l : list A) (i : Z) : outcome A :=
  if i <? 0 then Fault
  else match l !! Z.to_nat i with
       | Some x => Ret x
       | None => Fault
       end.

Definition arr_set {A : Type} (l : list A) (i : Z) (x : A) : outcome (list A) :=
  if (i <? 0) || (Z.of_nat (length l) <=? i) then Fault
  else Ret (<[Z.to_nat i := x]> l).

(** ** Constants of sfs_api.h *)

Definition MAX_FILENAME : Z := 60.
Definition BLOCK_SIZE : Z := 1024.
Definition NUM_INODES : Z := 128.
Definition NUM_FILE_INODES : Z := NUM_INODES - 1.
Definition NUM_DIRECT_POINTERS : Z := 12.
Definition PTR_SIZE : Z := 4.
Definition NUM_POINTERS_IN_INDIRECT : Z := BLOCK_SIZE / PTR_SIZE + 1.
Definition MAX_DATA_BLOCKS_PER_FILE : Z := 12 + NUM_POINTERS_IN_INDIRECT.
Definition MAX_DATA_BLOCKS_TOTAL : Z := NUM_FILE_INODES * MAX_DATA_BLOCKS_PER_FILE.
Definition MAX_DATA_BLOCKS_SCALED_DOWN : Z := MAX_DATA_BLOCKS_TOTAL / 16.

(* sizeof of the three record types of the header *)
Definition sizeof_inode_t : Z := 64.
Definition sizeof_directory_entry_t : Z := 64.
Definition sizeof_bitmap_entry_t : Z := 1.

Definition NUM_INODE_BLOCKS : Z := sizeof_inode_t * NUM_INODES / BLOCK_SIZE + 1.
Definition NUM_DATA_BLOCKS_FOR_DIR : Z :=
  sizeof_directory_entry_t * NUM_FILE_INODES / BLOCK_SIZE + 1.
Definition NUM_DATA_BLOCKS_FOR_BITMAP : Z :=
  (sizeof_bitmap_entry_t * MAX_DATA_BLOCKS_SCALED_DOWN) / BLOCK_SIZE + 1.
Definition NUM_TOTAL_BLOCKS : Z :=
  1 + NUM_DATA_BLOCKS_FOR_DIR + NUM_INODE_BLOCKS + MAX_DATA_BLOCKS_SCALED_DOWN
  + NUM_DATA_BLOCKS_FOR_BITMAP.
Definition DATA_BLOCKS_OFFSET : Z := 1 + NUM_DATA_BLOCKS_FOR_DIR + NUM_INODE_BLOCKS.
Definition BITMAP_BLOCK_OFFSET : Z := DATA_BLOCKS_OFFSET + MAX_DATA_BLOCKS_SCALED_DOWN.

(** The specification's largest file size (its section 3.1): 268 blocks. The
    source has no constant of this value; it bounds offsets by
    [MAX_DATA_BLOCKS_PER_FILE * BLOCK_SIZE], which is 269 blocks. *)
Definition MAX_FILE_BYTES : Z := 268 * BLOCK_SIZE.

(** ** Data structures of sfs_api.h *)

Record superblock_t := mk_super {
  magic : Z;
  block_size : Z;
  fs_size : Z;
  inode_table_len : Z;
  root_dir_inode : Z
}.

Record inode_t := mk_inode {
  mode : Z;
  link_cnt : Z;
  size : Z;
  direct : list Z;
  indirect : Z
}.

Record directory_entry_t := mk_dirent {
  entry_mode : Z;
  names : string
}.

Record file_descriptor_t := mk_fd {
  inode : Z;
  rwptr : Z
}.

(** A block is an array of BLOCK_SIZE bytes. *)
Abbreviation block := (list byte) (only parsing).

Definition zero_block : block := replicate (Z.to_nat BLOCK_SIZE) x00.

(** ** The emulated disk *)

(** Modelled from the spec: the block device (disk_emu.c) is not part of the
    sources; the spec's section 6.1 describes it as whole-block reads and
    writes on a store created by init_fresh_disk.  The data region is a map
    from block numbers to block contents.  The four metadata regions, which
    the file system only ever writes and reads whole as images of its
    tables, are kept as the tables themselves (the layout of the images in
    bytes is not modelled). *)
Record disk_t := mk_disk {
  disk_super : superblock_t;
  disk_inodes : list inode_t;
  disk_root : list directory_entry_t;
  disk_bitmap : list Z;
  disk_data : Z -> block
}.

(** Modelled from the spec: [read_blocks(start_address, 1, buffer)] of the
    absent disk emulator delivers the block last written at the address. *)
Definition read_blocks (d : disk_t) (start_address : Z) : block :=
  disk_data d start_address.

(** Modelled from the spec: [write_blocks(start_address, 1, buffer)] of the
    absent disk emulator replaces one block and leaves the others alone. *)
Definition write_blocks (d : disk_t) (start_address : Z) (buffer : block) : disk_t :=
  mk_disk (disk_super d) (disk_inodes d) (disk_root d) (disk_bitmap d)
          (fun a => if a =? start_address then buffer else disk_data d a).

(** The writes of the four tables to their regions. *)
Definition write_super (d : disk_t) (x : superblock_t) : disk_t :=
  mk_disk x (disk_inodes d) (disk_root d) (disk_bitmap d) (disk_data d).
Definition write_inodes (d : disk_t) (x : list inode_t) : disk_t :=
  mk_disk (disk_super d) x (disk_root d) (disk_bitmap d) (disk_data d).
Definition write_root (d : disk_t) (x : list directory_entry_t) : disk_t :=
  mk_disk (disk_super d) (disk_inodes d) x (disk_bitmap d) (disk_data d).
Definition write_bitmap (d : disk_t) (x : list Z) : disk_t :=
  mk_disk (disk_super d) (disk_inodes d) (disk_root d) x (disk_data d).

(** ** The global state of sfs_api.c *)

Record sfs := mk_sfs {
  num_files : Z;
  curr_file : Z;
  super : superblock_t;
  inodes : list inode_t;
  fdt : list file_descriptor_t;
  root : list directory_entry_t;
  free_blocks : list Z;
  disk : disk_t
}.

Definition set_num_files (s : sfs) (x : Z) : sfs :=
  mk_sfs x (curr_file s) (super s) (inodes s) (fdt s) (root s) (free_blocks s) (disk s).
Definition set_curr_file (s : sfs) (x : Z) : sfs :=
  mk_sfs (num_files s) x (super s) (inodes s) (fdt s) (root s) (free_blocks s) (disk s).
Definition set_super (s : sfs) (x : superblock_t) : sfs :=
  mk_sfs (num_files s) (curr_file s) x (inodes s) (fdt s) (root s) (free_blocks s) (disk s).
Definition set_inodes (s : sfs) (x : list inode_t) : sfs :=
  mk_sfs (num_files s) (curr_file s) (super s) x (fdt s) (root s) (free_blocks s) (disk s).
Definition set_fdt (s : sfs) (x : list file_descriptor_t) : sfs :=
  mk_sfs (num_files s) (curr_file s) (super s) (inodes s) x (root s) (free_blocks s) (disk s).
Definition set_root (s : sfs) (x : list directory_entry_t) : sfs :=
  mk_sfs (num_files s) (curr_file s) (super s) (inodes s) (fdt s) x (free_blocks s) (disk s).
Definition set_free_blocks (s : sfs) (x : list Z) : sfs :=
  mk_sfs (num_files s) (curr_file s) (super s) (inodes s) (fdt s) (root s) x (disk s).
Definition set_disk (s : sfs) (x : disk_t) : sfs :=
  mk_sfs (num_files s) (curr_file s) (super s) (inodes s) (fdt s) (root s) (free_blocks s) x.

(* field updates of one i-node, one directory entry, one descriptor *)
Definition with_mode (n : inode_t) (x : Z) : inode_t :=
  mk_inode x (link_cnt n) (size n) (direct n) (indirect n).
Definition with_link_cnt (n : inode_t) (x : Z) : inode_t :=
  mk_inode (mode n) x (size n) (direct n) (indirect n).
Definition with_size (n : inode_t) (x : Z) : inode_t :=
  mk_inode (mode n) (link_cnt n) x (direct n) (indirect n).
Definition with_direct (n : inode_t) (x : list Z) : inode_t :=
  mk_inode (mode n) (link_cnt n) (size n) x (indirect n).
Definition with_indirect (n : inode_t) (x : Z) : inode_t :=
  mk_inode (mode n) (link_cnt n) (size n) (direct n) x.

(** Assignments through the pointers [&inodes[i]], [&fdt[j]], [&root[i]]. *)

Definition upd_inode (s : sfs) (i : Z) (g : inode_t -> inode_t) : outcome sfs :=
  let! n := arr_get (inodes s) i in
  let! l := arr_set (inodes s) i (g n) in
  Ret (set_inodes s l).

Definition upd_fd (s : sfs) (j : Z) (g : file_descriptor_t -> file_descriptor_t)
  : outcome sfs :=
  let! f := arr_get (fdt s) j in
  let! l := arr_set (fdt s) j (g f) in
  Ret (set_fdt s l).

Definition upd_root (s : sfs) (i : Z) (g : directory_entry_t -> directory_entry_t)
  : outcome sfs :=
  let! e := arr_get (root s) i in
  let! l := arr_set (root s) i (g e) in
  Ret (set_root s l).

(** [free_blocks[i] = x] *)
Definition set_bitmap (s : sfs) (i : Z) (x : Z) : outcome sfs :=
  let! l := arr_set (free_blocks s) i x in
  Ret (set_free_blocks s l).

(** ** Buffers and block images *)

(** [memcpy(dst + off, src, |src|)] *)
Definition memcpy_at (dst : list byte) (off : Z) (src : list byte) : list byte :=
  take (Z.to_nat off) dst ++ src ++ drop (Z.to_nat off + length src)%nat dst.

(** Reading [cnt] bytes at [buf + off] from a caller's buffer. *)
Definition buf_read (buf : list byte) (off cnt : Z) : outcome (list byte) :=
  if Z.of_nat (length buf) <? off + cnt then Fault
  else Ret (take (Z.to_nat cnt) (drop (Z.to_nat off) buf)).

Definition byte_of_Z (z : Z) : byte :=
  match Byte.of_N (Z.to_N (z mod 256)) with
  | Some b => b
  | None => x00
  end.

Definition Z_of_byte (b : byte) : Z := Z.of_N (Byte.to_N b).

(** The image of an [unsigned int] in memory. *)
Definition encode_uint (z : Z) : list byte :=
  [byte_of_Z z; byte_of_Z (z / 2 ^ 8); byte_of_Z (z / 2 ^ 16); byte_of_Z (z / 2 ^ 24)].

Definition decode_uint (b0 b1 b2 b3 : byte) : Z :=
  Z_of_byte b0 + 2 ^ 8 * Z_of_byte b1 + 2 ^ 16 * Z_of_byte b2 + 2 ^ 24 * Z_of_byte b3.

(** [write_blocks(a, 1, ptr_buff)] stores the image of the pointer array. *)
Definition encode_ptrs (p : list Z) : block := flat_map encode_uint p.

(** [read_blocks(a, 1, ptr_buff)] reads a block into the array
    [unsigned int ptr_buff[NUM_POINTERS_IN_INDIRECT - 1]]. *)
Fixpoint decode_ptrs (n : nat) (b : list byte) : list Z :=
  match n with
  | O => []
  | S n' =>
      match b with
      | b0 :: b1 :: b2 :: b3 :: r => decode_uint b0 b1 b2 b3 :: decode_ptrs n' r
      | _ => []
      end
  end.

Definition load_ptr_buff (d : disk_t) (a : Z) : list Z :=
  decode_ptrs (Z.to_nat (NUM_POINTERS_IN_INDIRECT - 1)) (read_blocks d a).

(** The contents of a local array that has not been assigned yet.  The code
    never reads [ptr_buff] before loading or clearing it, so the value is
    not observable. *)
Definition indeterminate_ptr_buff : list Z :=
  replicate (Z.to_nat (NUM_POINTERS_IN_INDIRECT - 1)) 0.

(** ** Simple counted loops *)

Fixpoint for_range {S : Type} (n : nat) (i : Z) (body : Z -> S -> outcome S) (s : S)
  : outcome S :=
  match n with
  | O => Ret s
  | S n' => let! s' := body i s in for_range n' (i + 1) body s'
  end.

(** ** init_super, get_free_bitmap_address *)

Definition init_super (s : sfs) : sfs :=
  set_super s (mk_super 0xACBD0005 BLOCK_SIZE (BLOCK_SIZE * NUM_TOTAL_BLOCKS)
                        NUM_INODE_BLOCKS 0).

Fixpoint gfba_loop (fb : list Z) (n : nat) (i : Z) : outcome Z :=
  match n with
  | O => Ret (-1)
  | S n' =>
      let! x := arr_get fb i in
      if x =? 0 then Ret i else gfba_loop fb n' (i + 1)
  end.

Definition get_free_bitmap_address (s : sfs) : outcome Z :=
  gfba_loop (free_blocks s) (Z.to_nat MAX_DATA_BLOCKS_SCALED_DOWN) 0.

(** ** mksfs *)

(** Modelled from the spec: init_fresh_disk of the absent disk emulator
    creates the backing store; its blocks read as zero bytes until written. *)
Definition init_fresh_disk (s : sfs) : disk_t :=
  mk_disk (disk_super (disk s)) (disk_inodes (disk s)) (disk_root (disk s))
          (disk_bitmap (disk s)) (fun _ => zero_block).

Definition mksfs_fresh_body (i : Z) (s : sfs) : outcome sfs :=
  let! s1 := upd_inode s i (fun n => with_link_cnt n 0) in
  let! s2 := upd_fd s1 i (fun f => mk_fd (-1) (rwptr f)) in
  let! s3 := upd_root s2 (i - 1) (fun e => mk_dirent (entry_mode e) EmptyString) in
  upd_root s3 (i - 1) (fun e => mk_dirent 0 (names e)).

Definition mksfs_load_body (i : Z) (s : sfs) : outcome sfs :=
  let! n := arr_get (inodes s) i in
  let s1 := if link_cnt n =? 0 then s else set_num_files s (to_uint (num_files s + 1)) in
  let! s2 := upd_fd s1 i (fun f => mk_fd (-1) (rwptr f)) in
  upd_fd s2 i (fun f => mk_fd (inode f) 0).

Definition mksfs (fresh : Z) (s : sfs) : outcome sfs :=
  if fresh =? 0 then
    let s1 := set_super s (disk_super (disk s)) in
    let s2 := set_inodes s1 (disk_inodes (disk s)) in
    let s3 := set_root s2 (disk_root (disk s)) in
    let s4 := set_free_blocks s3 (disk_bitmap (disk s)) in
    let s5 := set_num_files (set_curr_file s4 0) 0 in
    let! s6 := for_range (Z.to_nat (NUM_INODES - 1)) 1 mksfs_load_body s5 in
    let! s7 := upd_fd s6 0 (fun f => mk_fd 0 (rwptr f)) in
    upd_fd s7 0 (fun f => mk_fd (inode f) 0)
  else
    let s0 := init_super s in
    let! s1 := for_range (Z.to_nat (NUM_INODES - 1)) 1 mksfs_fresh_body s0 in
    let s2 := set_curr_file (set_num_files s1 0) 0 in
    let! s3 := upd_fd s2 0 (fun f => mk_fd 0 (rwptr f)) in
    let! s4 := upd_fd s3 0 (fun f => mk_fd (inode f) 0) in
    let! s5 := upd_inode s4 0 (fun n => with_link_cnt n 1) in
    let s6 := set_free_blocks s5 (replicate (Z.to_nat MAX_DATA_BLOCKS_SCALED_DOWN) 0) in
    let d0 := init_fresh_disk s6 in
    let d1 := write_super d0 (super s6) in
    let d2 := write_inodes d1 (inodes s6) in
    let d3 := write_root d2 (root s6) in
    let d4 := write_bitmap d3 (free_blocks s6) in
    Ret (set_disk s6 d4).

(** The globals of a process that has just started: C initialises objects of
    static storage duration to zero. *)
Definition zero_inode : inode_t :=
  mk_inode 0 0 0 (replicate (Z.to_nat NUM_DIRECT_POINTERS) 0) 0.

Definition boot : sfs :=
  let sb := mk_super 0 0 0 0 0 in
  let ins := replicate (Z.to_nat NUM_INODES) zero_inode in
  let rt := replicate (Z.to_nat NUM_FILE_INODES) (mk_dirent 0 EmptyString) in
  let fb := replicate (Z.to_nat MAX_DATA_BLOCKS_SCALED_DOWN) 0 in
  mk_sfs 0 0 sb ins (replicate (Z.to_nat NUM_INODES) (mk_fd 0 0)) rt fb
         (mk_disk sb ins rt fb (fun _ => zero_block)).

(** ** sfs_getnextfilename *)

Fixpoint getnextfilename_loop (s : sfs) (n : nat) (i counter : Z)
  : outcome (option string) :=
  match n with
  | O => Ret None
  | S n' =>
      let! e := arr_get (root s) i in
      if negb (entry_mode e =? 1) then getnextfilename_loop s n' (i + 1) counter
      else if counter =? curr_file s then Ret (Some (names e))
      else getnextfilename_loop s n' (i + 1) (counter + 1)
  end.

Definition sfs_getnextfilename (s : sfs) : outcome (Z * option string * sfs) :=
  let! r := if num_files s >? 0
            then getnextfilename_loop s (Z.to_nat NUM_FILE_INODES) 0 0
            else Ret None in
  match r with
  | Some fname => Ret (1, Some fname, set_curr_file s (to_uint (curr_file s + 1)))
  | None => Ret (0, None, set_curr_file s 0)
  end.

(** ** sfs_getfilesize *)

Fixpoint getfilesize_loop (path : string) (s : sfs) (n : nat) (i sz : Z) : outcome Z :=
  match n with
  | O => Ret sz
  | S n' =>
      let! e := arr_get (root s) i in
      if String.eqb path (names e) then
        let! nd := arr_get (inodes s) (i + 1) in
        getfilesize_loop path s n' (i + 1) (to_int (size nd))
      else getfilesize_loop path s n' (i + 1) sz
  end.

Definition sfs_getfilesize (path : string) (s : sfs) : outcome Z :=
  getfilesize_loop path s (Z.to_nat NUM_FILE_INODES) 0 (-1).

(** ** sfs_fopen *)

(** The scan of the descriptor table for an entry found in the directory:
    [None] is the early [return -1] on a descriptor that already references
    the i-node, [Some free_fd] the value of [free_fd] after the loop. *)
Fixpoint fopen_scan (fds : list file_descriptor_t) (target : Z) (n : nat) (j free_fd : Z)
  : outcome (option Z) :=
  match n with
  | O => Ret (Some free_fd)
  | S n' =>
      let! f := arr_get fds j in
      if inode f =? target then Ret None
      else fopen_scan fds target n' (j + 1)
             (if (free_fd =? -1) && (inode f =? -1) then j else free_fd)
  end.

(** First loop of sfs_fopen; [None] when no directory entry has the name. *)
Fixpoint fopen_existing (name : string) (s : sfs) (n : nat) (i : Z)
  : outcome (option (Z * sfs)) :=
  match n with
  | O => Ret None
  | S n' =>
      let! e := arr_get (root s) i in
      if String.eqb name (names e) then
        let! r := fopen_scan (fdt s) (i + 1) (Z.to_nat (NUM_INODES - 1)) 1 (-1) in
        match r with
        | None => Ret (Some (-1, s))
        | Some free_fd =>
            if free_fd =? -1 then Ret (Some (-1, s))
            else
              let! s1 := upd_fd s free_fd (fun f => mk_fd (i + 1) (rwptr f)) in
              let! sz := sfs_getfilesize name s1 in
              let! s2 := upd_fd s1 free_fd (fun f => mk_fd (inode f) (to_u64 sz)) in
              let! s3 := upd_root s2 i (fun e => mk_dirent 1 (names e)) in
              let! s4 := upd_inode s3 (i + 1) (fun n => with_link_cnt n 1) in
              Ret (Some (free_fd, s4))
        end
      else fopen_existing name s n' (i + 1)
  end.

(** The inner loop of the creation path: the first free descriptor. *)
Fixpoint fopen_free_fd (fds : list file_descriptor_t) (n : nat) (j : Z)
  : outcome (option Z) :=
  match n with
  | O => Ret None
  | S n' =>
      let! f := arr_get fds j in
      if inode f =? -1 then Ret (Some j) else fopen_free_fd fds n' (j + 1)
  end.

Definition fopen_bind (name : string) (s : sfs) (i j : Z) : outcome sfs :=
  let! s1 := upd_fd s j (fun f => mk_fd i (rwptr f)) in
  let! s2 := upd_fd s1 j (fun f => mk_fd (inode f) 0) in
  let s3 := set_num_files s2 (to_uint (num_files s2 + 1)) in
  let! s4 := upd_inode s3 i (fun n => with_link_cnt n 1) in
  let! s5 := upd_inode s4 i (fun n => with_mode n 1) in
  let! s6 := upd_inode s5 i (fun n => with_size n 0) in
  let! s7 := upd_root s6 (i - 1) (fun e => mk_dirent (entry_mode e) name) in
  let! s8 := upd_root s7 (i - 1) (fun e => mk_dirent 1 (names e)) in
  let d1 := write_inodes (disk s8) (inodes s8) in
  let d2 := write_root d1 (root s8) in
  Ret (set_disk s8 d2).

(** Second loop of sfs_fopen: a free i-node and a free descriptor. *)
Fixpoint fopen_create (name : string) (s : sfs) (n : nat) (i : Z) : outcome (Z * sfs) :=
  match n with
  | O => Ret (-1, s)
  | S n' =>
      let! nd := arr_get (inodes s) i in
      if link_cnt nd =? 0 then
        let! r := fopen_free_fd (fdt s) (Z.to_nat (NUM_INODES - 1)) 1 in
        match r with
        | Some j => let! s' := fopen_bind name s i j in Ret (j, s')
        | None => fopen_create name s n' (i + 1)
        end
      else fopen_create name s n' (i + 1)
  end.

Definition strlen (name : string) : Z := Z.of_nat (String.length name).

Definition sfs_fopen (name : string) (s : sfs) : outcome (Z * sfs) :=
  if strlen name >=? MAX_FILENAME then Ret (-1, s)
  else
    let! r := fopen_existing name s (Z.to_nat NUM_FILE_INODES) 0 in
    match r with
    | Some res => Ret res
    | None => fopen_create name s (Z.to_nat (NUM_INODES - 1)) 1
    end.

(** ** sfs_fclose *)

Definition sfs_fclose (fileID : Z) (s : sfs) : outcome (Z * sfs) :=
  if (fileID >? 0) && (fileID <? NUM_INODES) then
    let! f := arr_get (fdt s) fileID in
    if negb (inode f =? -1) then
      let! s1 := upd_fd s fileID (fun f => mk_fd (-1) (rwptr f)) in
      let! s2 := upd_fd s1 fileID (fun f => mk_fd (inode f) 0) in
      Ret (0, s2)
    else Ret (-1, s)
  else Ret (-1, s).

(** ** sfs_fseek *)

Definition sfs_fseek (fileID loc : Z) (s : sfs) : outcome (Z * sfs) :=
  if (fileID >? 0) && (fileID <? NUM_INODES) then
    let! f := arr_get (fdt s) fileID in
    if inode f =? -1 then Ret (-1, s)
    else if inode f =? 0 then Ret (-1, s)
    else if loc <? 0 then Ret (-1, s)
    else
      let! nd := arr_get (inodes s) (inode f) in
      if loc >? size nd then Ret (-1, s)
      else if loc >=? MAX_DATA_BLOCKS_PER_FILE * BLOCK_SIZE then Ret (-1, s)
      else
        let! s1 := upd_fd s fileID (fun f => mk_fd (inode f) loc) in
        Ret (0, s1)
  else Ret (-1, s).

(** ** sfs_fwrite *)

(** The local variables of sfs_fwrite that live across loop iterations. *)
Record wvars := mk_wvars {
  w_did_write_to_disk : bool;
  w_bytes_to_write : Z;
  w_bytes_written : Z;
  w_current_block : Z;
  w_rwptr_size_offset : Z;
  w_did_load_ptr_buff : bool;
  w_ptr_buff : list Z
}.

Definition w_set_did_write (v : wvars) (x : bool) : wvars :=
  mk_wvars x (w_bytes_to_write v) (w_bytes_written v) (w_current_block v)
           (w_rwptr_size_offset v) (w_did_load_ptr_buff v) (w_ptr_buff v).

Definition w_set_ptr_buff (v : wvars) (loaded : bool) (x : list Z) : wvars :=
  mk_wvars (w_did_write_to_disk v) (w_bytes_to_write v) (w_bytes_written v)
           (w_current_block v) (w_rwptr_size_offset v) loaded x.

(** The branch [if (node->indirect <= 0)] of the loop body: the indirect
    index block is allocated and the pointer buffer cleared.  The boolean is
    [false] where the code leaves the loop with [break]. *)
Definition fwrite_ensure_indirect (ino : Z) (node : inode_t) (v : wvars) (s : sfs)
  : outcome (bool * wvars * sfs) :=
  if indirect node <=? 0 then
    let! pe := get_free_bitmap_address s in
    if pe =? -1 then Ret (false, v, s)
    else
      let! s1 := set_bitmap s pe 1 in
      let v1 := w_set_ptr_buff v true
                  (replicate (Z.to_nat (NUM_POINTERS_IN_INDIRECT - 1)) 0) in
      let! s2 := upd_inode s1 ino
                   (fun n => with_indirect n (to_uint (pe + DATA_BLOCKS_OFFSET))) in
      Ret (true, v1, s2)
  else Ret (true, v, s).

(** First half of the loop body: find the data block of [current_block] or
    allocate one.  The result is [None] where the code leaves the loop with
    [break], and otherwise [bitmap_entry] and the block buffer [buff]. *)
Definition fwrite_locate (ino : Z) (v : wvars) (s : sfs)
  : outcome (option (Z * block) * wvars * sfs) :=
  let cb := w_current_block v in
  let! node := arr_get (inodes s) ino in
  if cb <? NUM_DIRECT_POINTERS then
    let! d := arr_get (direct node) cb in
    if d >? 0 then
      Ret (Some (to_int (d - DATA_BLOCKS_OFFSET), read_blocks (disk s) d), v, s)
    else
      let! e := get_free_bitmap_address s in
      if e =? -1 then Ret (None, v, s)
      else
        let! s1 := set_bitmap s e 1 in
        let! dl := arr_set (direct node) cb (to_uint (e + DATA_BLOCKS_OFFSET)) in
        let! s2 := upd_inode s1 ino (fun n => with_direct n dl) in
        Ret (Some (e, zero_block), v, s2)
  else
    let! '(ok, v1, s1) := fwrite_ensure_indirect ino node v s in
    if negb ok then Ret (None, v1, s1)
    else if negb (w_did_load_ptr_buff v1) then Ret (None, v1, s1)
    else
      let ptr_address := cb - NUM_DIRECT_POINTERS in
      let! p := arr_get (w_ptr_buff v1) ptr_address in
      if p >? 0 then
        Ret (Some (to_int (p - DATA_BLOCKS_OFFSET), read_blocks (disk s1) p), v1, s1)
      else
        let! e := get_free_bitmap_address s1 in
        if e =? -1 then Ret (None, v1, s1)
        else
          let! s2 := set_bitmap s1 e 1 in
          let! pb := arr_set (w_ptr_buff v1) ptr_address (to_uint (e + DATA_BLOCKS_OFFSET)) in
          Ret (Some (e, zero_block), w_set_ptr_buff v1 (w_did_load_ptr_buff v1) pb, s2).

(** Second half of the loop body: the bytes are copied into the block
    buffer, the block is written and the counters move on. *)
Definition fwrite_commit (fileID : Z) (buf : list byte) (bitmap_entry : Z) (buff : block)
           (v1 : wvars) (s1 : sfs) : outcome (wvars * sfs) :=
  let! f := arr_get (fdt s1) fileID in
  let block_offset := rwptr f mod BLOCK_SIZE in
  let bytes_count :=
    if w_bytes_to_write v1 <=? BLOCK_SIZE - block_offset
    then w_bytes_to_write v1 else BLOCK_SIZE - block_offset in
  if bytes_count >? 0 then
    let! src := buf_read buf (w_bytes_written v1) bytes_count in
    let buff' := memcpy_at buff block_offset src in
    let s2 := set_disk s1 (write_blocks (disk s1) (bitmap_entry + DATA_BLOCKS_OFFSET) buff') in
    let! s3 := set_bitmap s2 bitmap_entry 1 in
    let! s4 := upd_fd s3 fileID (fun f => mk_fd (inode f) (to_u64 (rwptr f + bytes_count))) in
    let! f' := arr_get (fdt s4) fileID in
    Ret (mk_wvars true (w_bytes_to_write v1 - bytes_count)
                  (w_bytes_written v1 + bytes_count)
                  (to_int (rwptr f' / BLOCK_SIZE))
                  (to_int (w_rwptr_size_offset v1 + bytes_count))
                  (w_did_load_ptr_buff v1) (w_ptr_buff v1),
         s4)
  else Ret (v1, s1).

(** One iteration of the loop; the boolean is [true] on [break]. *)
Definition fwrite_body (fileID ino : Z) (buf : list byte) (v : wvars) (s : sfs)
  : outcome (bool * wvars * sfs) :=
  let! '(loc, v1, s1) := fwrite_locate ino (w_set_did_write v false) s in
  match loc with
  | None => Ret (true, v1, s1)
  | Some (bitmap_entry, buff) =>
      let! '(v2, s2) := fwrite_commit fileID buf bitmap_entry buff v1 s1 in
      Ret (false, v2, s2)
  end.

Fixpoint fwrite_loop (fuel : nat) (fileID ino : Z) (buf : list byte) (v : wvars) (s : sfs)
  : outcome (wvars * sfs) :=
  if w_did_write_to_disk v && (w_bytes_to_write v >? 0)
     && (w_current_block v <? MAX_DATA_BLOCKS_PER_FILE - 1)
  then
    match fuel with
    | O => NoFuel
    | S fuel' =>
        let! '(brk, v', s') := fwrite_body fileID ino buf v s in
        if brk : bool then Ret (v', s') else fwrite_loop fuel' fileID ino buf v' s'
    end
  else Ret (v, s).

(** The metadata update that follows the loop. *)
Definition fwrite_finish (ino len : Z) (v : wvars) (s : sfs) : outcome sfs :=
  if w_bytes_to_write v =? len then Ret s
  else
    let! s1 := if w_rwptr_size_offset v >? 0
               then upd_inode s ino
                      (fun n => with_size n (to_uint (size n + w_rwptr_size_offset v)))
               else Ret s in
    let! node := arr_get (inodes s1) ino in
    let d1 := if w_did_load_ptr_buff v
              then write_blocks (disk s1) (indirect node) (encode_ptrs (w_ptr_buff v))
              else disk s1 in
    let d2 := write_inodes d1 (inodes s1) in
    let d3 := write_bitmap d2 (free_blocks s1) in
    Ret (set_disk s1 d3).

(** Each iteration that does not end the loop moves [current_block] up by
    one, so this many iterations are never used up. *)
Definition loop_fuel : nat := Z.to_nat MAX_DATA_BLOCKS_PER_FILE.

Definition sfs_fwrite (fileID : Z) (buf : list byte) (len : Z) (s : sfs)
  : outcome (Z * sfs) :=
  if len <=? 0 then Ret (0, s)
  else
    let! f := arr_get (fdt s) fileID in
    if inode f <=? 0 then Ret (0, s)
    else
      let! node := arr_get (inodes s) (inode f) in
      if rwptr f >? size node then Ret (0, s)
      else if rwptr f >=? MAX_DATA_BLOCKS_PER_FILE * BLOCK_SIZE then Ret (0, s)
      else
        let loaded := indirect node >? 0 in
        let v := mk_wvars true len 0
                   (to_int (rwptr f / BLOCK_SIZE))
                   (to_int (- (size node - rwptr f)))
                   loaded
                   (if loaded then load_ptr_buff (disk s) (indirect node)
                    else indeterminate_ptr_buff) in
        let! '(v', s') := fwrite_loop loop_fuel fileID (inode f) buf v s in
        let! s'' := fwrite_finish (inode f) len v' s' in
        Ret (w_bytes_written v', s'').

(** ** sfs_fread *)

Record rvars := mk_rvars {
  r_did_write_to_buf : bool;
  r_bytes_to_read : Z;
  r_bytes_read : Z;
  r_current_block : Z;
  r_did_load_ptr_buff : bool;
  r_ptr_buff : list Z;
  r_out : list byte            (* the bytes stored into the caller's buffer *)
}.

(** First half of the loop body: [Some buff] when the current block was read
    ([did_read_current_block]); the pointer buffer is loaded on first use. *)
Definition fread_locate (ino : Z) (v : rvars) (s : sfs)
  : outcome (option block * bool * list Z) :=
  let cb := r_current_block v in
  let! node := arr_get (inodes s) ino in
  if cb <? NUM_DIRECT_POINTERS then
    let! d := arr_get (direct node) cb in
    if d >? 0 then Ret (Some (read_blocks (disk s) d), r_did_load_ptr_buff v, r_ptr_buff v)
    else Ret (None, r_did_load_ptr_buff v, r_ptr_buff v)
  else
    let '(loaded, pb) :=
      if negb (r_did_load_ptr_buff v) && (indirect node >? 0)
      then (true, load_ptr_buff (disk s) (indirect node))
      else (r_did_load_ptr_buff v, r_ptr_buff v) in
    let ptr_address := cb - NUM_DIRECT_POINTERS in
    if loaded : bool then
      let! p := arr_get pb ptr_address in
      if p >? 0 then Ret (Some (read_blocks (disk s) p), loaded, pb)
      else Ret (None, loaded, pb)
    else Ret (None, loaded, pb).

Definition fread_body (fileID ino : Z) (v : rvars) (s : sfs) : outcome (rvars * sfs) :=
  let! '(blk, loaded, pb) := fread_locate ino v s in
  let v1 := mk_rvars false (r_bytes_to_read v) (r_bytes_read v) (r_current_block v)
                     loaded pb (r_out v) in
  match blk with
  | None => Ret (v1, s)
  | Some buff =>
      let! f := arr_get (fdt s) fileID in
      let block_offset := rwptr f mod BLOCK_SIZE in
      let bytes_count :=
        if r_bytes_to_read v1 <=? BLOCK_SIZE - block_offset
        then r_bytes_to_read v1 else BLOCK_SIZE - block_offset in
      if bytes_count >? 0 then
        let chunk := take (Z.to_nat bytes_count) (drop (Z.to_nat block_offset) buff) in
        let! s1 := upd_fd s fileID (fun f => mk_fd (inode f) (to_u64 (rwptr f + bytes_count))) in
        let! f' := arr_get (fdt s1) fileID in
        Ret (mk_rvars true (r_bytes_to_read v1 - bytes_count)
                      (r_bytes_read v1 + bytes_count)
                      (to_int (rwptr f' / BLOCK_SIZE))
                      loaded pb (r_out v1 ++ chunk),
             s1)
      else Ret (v1, s)
  end.

Fixpoint fread_loop (fuel : nat) (fileID ino : Z) (v : rvars) (s : sfs)
  : outcome (rvars * sfs) :=
  if r_did_write_to_buf v && (r_bytes_to_read v >? 0)
     && (r_current_block v <? MAX_DATA_BLOCKS_PER_FILE - 1)
  then
    match fuel with
    | O => NoFuel
    | S fuel' =>
        let! '(v', s') := fread_body fileID ino v s in
        fread_loop fuel' fileID ino v' s'
    end
  else Ret (v, s).

(** The result is the return value, the bytes copied to the front of the
    caller's buffer, and the new state. *)
Definition sfs_fread (fileID : Z) (len : Z) (s : sfs) : outcome (Z * list byte * sfs) :=
  if len <=? 0 then Ret (0, [], s)
  else
    let! f := arr_get (fdt s) fileID in
    if inode f <=? 0 then Ret (0, [], s)
    else
      let! node := arr_get (inodes s) (inode f) in
      if rwptr f >=? size node then Ret (0, [], s)
      else
        let rwptr_size_offset := to_int (size node - rwptr f) in
        let bytes_to_read := if rwptr_size_offset <? len then rwptr_size_offset else len in
        let v := mk_rvars true bytes_to_read 0 (to_int (rwptr f / BLOCK_SIZE))
                          false indeterminate_ptr_buff [] in
        let! '(v', s') := fread_loop loop_fuel fileID (inode f) v s in
        Ret (r_bytes_read v', r_out v', s').

(** ** sfs_remove *)

(** The inner loop of the directory scan: the first descriptor bound to the
    i-node is closed. *)
Fixpoint remove_close (s : sfs) (target : Z) (n : nat) (j : Z) : outcome sfs :=
  match n with
  | O => Ret s
  | S n' =>
      let! f := arr_get (fdt s) j in
      if inode f =? target then
        let! '(_, s') := sfs_fclose j s in Ret s'
      else remove_close s target n' (j + 1)
  end.

Fixpoint remove_scan (file : string) (s : sfs) (n : nat) (i ino : Z) : outcome (Z * sfs) :=
  match n with
  | O => Ret (ino, s)
  | S n' =>
      let! e := arr_get (root s) i in
      if String.eqb (names e) file then
        let! s1 := upd_root s i (fun e => mk_dirent 0 (names e)) in
        let! s2 := upd_root s1 i (fun e => mk_dirent (entry_mode e) EmptyString) in
        let! s3 := remove_close s2 (i + 1) (Z.to_nat (NUM_INODES - 1)) 1 in
        remove_scan file s3 n' (i + 1) (i + 1)
      else remove_scan file s n' (i + 1) ino
  end.

(** Releasing one block: its bitmap byte is cleared and the block is
    overwritten with zeros. *)
Definition release_block (p : Z) (s : sfs) : outcome sfs :=
  if p >? 0 then
    let! s1 := set_bitmap s (to_int (p - DATA_BLOCKS_OFFSET)) 0 in
    Ret (set_disk s1 (write_blocks (disk s1) p zero_block))
  else Ret s.

Definition remove_direct_body (ino i : Z) (s : sfs) : outcome sfs :=
  let! n := arr_get (inodes s) ino in
  let! d := arr_get (direct n) i in
  let! s1 := release_block d s in
  let! dl := arr_set (direct n) i 0 in
  upd_inode s1 ino (fun n => with_direct n dl).

Definition remove_indirect_body (pb : list Z) (i : Z) (s : sfs) : outcome sfs :=
  let! p := arr_get pb i in
  release_block p s.

Definition remove_free (ino : Z) (s : sfs) : outcome sfs :=
  let! s1 := for_range (Z.to_nat NUM_DIRECT_POINTERS) 0 (remove_direct_body ino) s in
  let! n := arr_get (inodes s1) ino in
  let! s2 :=
    if indirect n >? 0 then
      let pb := load_ptr_buff (disk s1) (indirect n) in
      let! s' := for_range (Z.to_nat (NUM_POINTERS_IN_INDIRECT - 1)) 0
                   (remove_indirect_body pb) s1 in
      let s'' := set_disk s' (write_blocks (disk s') (indirect n) zero_block) in
      upd_inode s'' ino (fun n => with_indirect n 0)
    else Ret s1 in
  let! s3 := upd_inode s2 ino (fun n => with_mode n 0) in
  let! s4 := upd_inode s3 ino (fun n => with_size n 0) in
  let! s5 := upd_inode s4 ino (fun n => with_link_cnt n 0) in
  let s6 := set_num_files s5 (to_uint (num_files s5 - 1)) in
  let d1 := write_inodes (disk s6) (inodes s6) in
  let d2 := write_root d1 (root s6) in
  let d3 := write_bitmap d2 (free_blocks s6) in
  Ret (set_disk s6 d3).

Definition sfs_remove (file : string) (s : sfs) : outcome (Z * sfs) :=
  let! '(ino, s1) := remove_scan file s (Z.to_nat NUM_FILE_INODES) 0 (-1) in
  if ino >? 0 then
    let! n := arr_get (inodes s1) ino in
    if link_cnt n =? 1 then
      let! s2 := remove_free ino s1 in Ret (ino, s2)
    else Ret (ino, s1)
  else Ret (ino, s1).

(** ** Observations used by the statements *)

(** The number of 1-valued bytes of the free-space bitmap. *)
Definition bitmap_ones (s : sfs) : Z :=
  Z.of_nat (length (filter (fun x => x = 1) (free_blocks s))).

(** The state after [mksfs(1)] in a process that has just started. *)
Definition fresh_mount : outcome sfs := mksfs 1 boot.

(** ** Runs used by the closed statements *)

Definition bytes_of (n : Z) (b : byte) : list byte := replicate (Z.to_nat n) b.

(** [mksfs(1); fd = open(name); write(fd, buf, len)] in a new process. *)
Definition mount_open_write (name : string) (buf : list byte) (len : Z)
  : outcome (Z * Z * sfs) :=
  let! s0 := fresh_mount in
  let! '(fd, s1) := sfs_fopen name s0 in
  let! '(n, s2) := sfs_fwrite fd buf len s1 in
  Ret (fd, n, s2).

(** The i-node fields that the statements look at. *)
Definition inode_view (s : sfs) (i : Z) : outcome (Z * Z * list Z * Z) :=
  let! n := arr_get (inodes s) i in
  Ret (link_cnt n, size n, direct n, indirect n).

Definition rwptr_of (s : sfs) (fd : Z) : outcome Z :=
  let! f := arr_get (fdt s) fd in Ret (rwptr f).

(** ** Well-formedness of a state *)

(** The four global arrays have their declared numbers of elements. *)
Record shape (s : sfs) : Prop := mk_shape {
  shape_inodes : length (inodes s) = Z.to_nat NUM_INODES;
  shape_fdt : length (fdt s) = Z.to_nat NUM_INODES;
  shape_root : length (root s) = Z.to_nat NUM_FILE_INODES;
  shape_bitmap : length (free_blocks s) = Z.to_nat MAX_DATA_BLOCKS_SCALED_DOWN
}.

(** A descriptor is free (-1) or holds the index of an i-node. *)
Definition fdt_ok (s : sfs) : Prop :=
  forall (j : nat) (f : file_descriptor_t),
    fdt s !! j = Some f -> inode f = -1 \/ 0 <= inode f < NUM_INODES.

(** The conditions under which a seek is accepted, with the bound on [loc]
    as a parameter: the specification names [MAX_FILE_BYTES], the code
    compares with [MAX_DATA_BLOCKS_PER_FILE * BLOCK_SIZE]. *)
Definition seek_accepts (bound : Z) (s : sfs) (fd loc : Z) : bool :=
  (0 <? fd) && (fd <? NUM_INODES) &&
  match fdt s !! Z.to_nat fd with
  | Some f =>
      (0 <? inode f) &&
      match inodes s !! Z.to_nat (inode f) with
      | Some nd => (0 <=? loc) && (loc <=? size nd) && (loc <? bound)
      | None => false
      end
  | None => false
  end.

(** [fdt[fd].rwptr = loc] *)
Definition set_rwptr (s : sfs) (fd loc : Z) : sfs :=
  match fdt s !! Z.to_nat fd with
  | Some f => set_fdt s (<[Z.to_nat fd := mk_fd (inode f) loc]> (fdt s))
  | None => s
  end.

(** The state that [mksfs(1)] produces in a new process, written out. *)
Definition fresh_state : sfs :=
  let sb := super (init_super boot) in
  let ins := with_link_cnt zero_inode 1
             :: replicate (Z.to_nat NUM_FILE_INODES) zero_inode in
  let fds := mk_fd 0 0 :: replicate (Z.to_nat NUM_FILE_INODES) (mk_fd (-1) 0) in
  let rt := replicate (Z.to_nat NUM_FILE_INODES) (mk_dirent 0 EmptyString) in
  let fb := replicate (Z.to_nat MAX_DATA_BLOCKS_SCALED_DOWN) 0 in
  mk_sfs 0 0 sb ins fds rt fb (mk_disk sb ins rt fb (fun _ => zero_block)).

(** The directory entry that sfs_fopen resolves [name] to: the first entry,
    in table order, whose name field compares equal. *)
Definition first_match (s : sfs) (name : string) (i : Z) : Prop :=
  0 <= i /\
  (exists e, root s !! Z.to_nat i = Some e /\ names e = name) /\
  (forall (i' : Z) e', 0 <= i' < i -> root s !! Z.to_nat i' = Some e' -> names e' <> name).

(** No directory entry carries the name. *)
Definition no_match (s : sfs) (name : string) : Prop :=
  forall (i : nat) e, root s !! i = Some e -> names e <> name.

(** No i-node of a file is free. *)
Definition no_free_inode (s : sfs) : Prop :=
  forall (i : Z) nd, 1 <= i < NUM_INODES -> inodes s !! Z.to_nat i = Some nd ->
                     link_cnt nd <> 0.

(** No descriptor slot 1..NUM_INODES-1 is free. *)
Definition no_free_fd (s : sfs) : Prop :=
  forall (j : Z) f, 1 <= j < NUM_INODES -> fdt s !! Z.to_nat j = Some f -> inode f <> -1.

(** The state after [open(name)] on the freshly mounted file system, for a
    name that is not empty and shorter than MAX_FILENAME. *)
Definition opened_state (name : string) : sfs :=
  let sb := super (init_super boot) in
  let ins := with_link_cnt zero_inode 1
             :: mk_inode 1 1 0 (replicate (Z.to_nat NUM_DIRECT_POINTERS) 0) 0
             :: replicate (Z.to_nat (NUM_FILE_INODES - 1)) zero_inode in
  let fds := mk_fd 0 0 :: mk_fd 1 0
             :: replicate (Z.to_nat (NUM_FILE_INODES - 1)) (mk_fd (-1) 0) in
  let rt := mk_dirent 1 name
            :: replicate (Z.to_nat (NUM_FILE_INODES - 1)) (mk_dirent 0 EmptyString) in
  let fb := replicate (Z.to_nat MAX_DATA_BLOCKS_SCALED_DOWN) 0 in
  mk_sfs 1 0 sb ins fds rt fb (mk_disk sb ins rt fb (fun _ => zero_block)).



(** Descriptors 1..NUM_INODES-1 are free or bound to the i-node of a file,
    and no two of them are bound to the same i-node. *)
Definition fdt_files_ok (s : sfs) : Prop :=
  (forall (j : Z) f, 1 <= j < NUM_INODES -> fdt s !! Z.to_nat j = Some f ->
                     inode f = -1 \/ 1 <= inode f < NUM_INODES) /\
  (forall (j1 j2 : Z) f1 f2,
      1 <= j1 < NUM_INODES -> 1 <= j2 < NUM_INODES ->
      fdt s !! Z.to_nat j1 = Some f1 -> fdt s !! Z.to_nat j2 = Some f2 ->
      inode f1 = inode f2 -> inode f1 <> -1 -> j1 = j2).

(** No descriptor is bound to i-node [ino]. *)
Definition not_open (s : sfs) (ino : Z) : Prop :=
  forall (j : Z) f, 1 <= j < NUM_INODES -> fdt s !! Z.to_nat j = Some f -> inode f <> ino.

(** Entry [i] of the directory is the only one with this name. *)
Definition only_match (s : sfs) (name : string) (i : Z) : Prop :=
  0 <= i /\
  (exists e, root s !! Z.to_nat i = Some e /\ names e = name) /\
  (forall (k : Z) e', 0 <= k -> root s !! Z.to_nat k = Some e' -> names e' = name -> k = i).

(** Scenario 4 of the specification, run in a new process after [mksfs(1)]:
    open "a", write "xxx", close, open "a" again, write "y", close.  The
    result lists the r/w pointer handed out by the second open, the size
    reported afterwards, the first bytes of the file's first block on disk,
    and what a third open, a seek to 0 and a read of 10 bytes deliver. *)
Definition append_scenario : outcome (Z * Z * list byte * Z * list byte) :=
  let! s0 := fresh_mount in
  let! '(fd, s1) := sfs_fopen "a" s0 in
  let! '(_, s2) := sfs_fwrite fd [x78; x78; x78] 3 s1 in
  let! '(_, s3) := sfs_fclose fd s2 in
  let! '(fd2, s4) := sfs_fopen "a" s3 in
  let! p := rwptr_of s4 fd2 in
  let! '(_, s5) := sfs_fwrite fd2 [x79] 1 s4 in
  let! '(_, s6) := sfs_fclose fd2 s5 in
  let! sz := sfs_getfilesize "a" s6 in
  let! '(_, _, dir, _) := inode_view s6 1 in
  let! b := arr_get dir 0 in
  let! '(fd3, s7) := sfs_fopen "a" s6 in
  let! '(_, s8) := sfs_fseek fd3 0 s7 in
  let! '(n, out, _) := sfs_fread fd3 10 s8 in
  Ret (p, sz, take 4 (read_blocks (disk s6) b), n, out).


(** The state after [open(name); close(fd)] on the freshly mounted file
    system: the file exists, is empty and is not open. *)
Definition closed_state (name : string) : sfs :=
  set_fdt (opened_state name)
          (mk_fd 0 0 :: replicate (Z.to_nat NUM_FILE_INODES) (mk_fd (-1) 0)).

(** ** The contents of a file *)

(** The block pointer of file-relative block [b], found the way the read
    path finds it: in [direct] for the first blocks, in the indirect index
    block on disk for the others; 0 stands for a hole. *)
Definition block_ptr (s : sfs) (nd : inode_t) (b : Z) : Z :=
  if b <? NUM_DIRECT_POINTERS then default 0 (direct nd !! Z.to_nat b)
  else if indirect nd >? 0
       then default 0 (load_ptr_buff (disk s) (indirect nd) !! Z.to_nat (b - NUM_DIRECT_POINTERS))
       else 0.

(** Byte [k] of the file. *)
Definition file_byte (s : sfs) (nd : inode_t) (k : Z) : option byte :=
  read_blocks (disk s) (block_ptr s nd (k / BLOCK_SIZE)) !! Z.to_nat (k mod BLOCK_SIZE).

(** The body of the file is a contiguous allocated prefix: every block below
    the size has a pointer, and the block it points to is a whole block. *)
Definition no_holes (s : sfs) (nd : inode_t) : Prop :=
  forall b : Z, 0 <= b -> b * BLOCK_SIZE < size nd ->
    0 < block_ptr s nd b /\
    length (read_blocks (disk s) (block_ptr s nd b)) = Z.to_nat BLOCK_SIZE.

(** The state [s] with descriptor [fd] bound to [ino] at offset [r]. *)
Definition at_rwptr (s : sfs) (fd ino r : Z) : sfs :=
  set_fdt s (<[Z.to_nat fd := mk_fd ino r]> (fdt s)).

(** The invariant of the loop of sfs_fread: [n] bytes are to be delivered
    from offset [p] on, the r/w pointer has reached [r]. *)
Record read_inv (s : sfs) (nd : inode_t) (p n : Z) (v : rvars) (r : Z) : Prop := mk_read_inv {
  ri_pos : r = p + r_bytes_read v;
  ri_todo : r_bytes_to_read v = n - r_bytes_read v;
  ri_range : 0 <= r_bytes_read v <= n;
  ri_flag : r_did_write_to_buf v = true;
  ri_block : r_current_block v = r / BLOCK_SIZE;
  ri_ptrs : r_did_load_ptr_buff v = true ->
            r_ptr_buff v = load_ptr_buff (disk s) (indirect nd);
  ri_len : Z.of_nat (length (r_out v)) = r_bytes_read v;
  ri_out : forall k : Z, 0 <= k < r_bytes_read v ->
                         r_out v !! Z.to_nat k = file_byte s nd (p + k)
}.

(** Scenario 1 of the specification up to the seek: after [mksfs(1)], open
    "a", write "hello" and seek to 0, descriptor 1 is at offset 0 of a file
    of 5 bytes. *)
Definition hello_state : sfs :=
  match (let! '(fd, _, s) := mount_open_write "a" [x68; x65; x6c; x6c; x6f] 5 in
         let! '(_, s') := sfs_fseek fd 0 s in Ret s') with
  | Ret s => s
  | _ => boot
  end.

Definition hello_inode : inode_t :=
  mk_inode 1 1 5 (18 :: replicate (Z.to_nat (NUM_DIRECT_POINTERS - 1)) 0) 0.

(** ** Well-formedness seen by sfs_fwrite *)

(** A block pointer is 0 (no block) or the number of a data block. *)
Definition ptr_ok (p : Z) : Prop :=
  p = 0 \/ DATA_BLOCKS_OFFSET <= p < BITMAP_BLOCK_OFFSET.

(** The pointers of an i-node, including those stored in its index block. *)
Definition inode_ptrs_ok (s : sfs) (nd : inode_t) : Prop :=
  length (direct nd) = Z.to_nat NUM_DIRECT_POINTERS /\
  Forall ptr_ok (direct nd) /\ ptr_ok (indirect nd) /\
  (0 < indirect nd ->
   length (load_ptr_buff (disk s) (indirect nd)) = Z.to_nat (NUM_POINTERS_IN_INDIRECT - 1) /\
   Forall ptr_ok (load_ptr_buff (disk s) (indirect nd))).

(** The invariant of the loop of sfs_fwrite on descriptor [fd], bound to
    i-node [ino] of size [sz]: the call started at offset [p] with [len]
    bytes to write and the r/w pointer has reached [r]. *)
Record write_inv (fd ino p len sz : Z) (v : wvars) (s : sfs) (r : Z) : Prop := mk_write_inv {
  wi_shape : shape s;
  wi_fd : fdt s !! Z.to_nat fd = Some (mk_fd ino r);
  wi_node : exists n, inodes s !! Z.to_nat ino = Some n /\ size n = sz /\
                      length (direct n) = Z.to_nat NUM_DIRECT_POINTERS /\
                      Forall ptr_ok (direct n) /\ ptr_ok (indirect n) /\
                      (0 < indirect n -> w_did_load_ptr_buff v = true);
  wi_written : w_bytes_written v = r - p;
  wi_todo : w_bytes_to_write v = len - (r - p);
  wi_range : p <= r <= p + len;
  wi_max : r <= MAX_FILE_BYTES;
  wi_block : w_current_block v = r / BLOCK_SIZE;
  wi_offset : w_rwptr_size_offset v = r - sz;
  wi_ptrs : w_did_load_ptr_buff v = true ->
            length (w_ptr_buff v) = Z.to_nat (NUM_POINTERS_IN_INDIRECT - 1) /\
            Forall ptr_ok (w_ptr_buff v)
}.

(** ** The round trip *)

(** The i-node holds no block pointers. *)
Definition no_block_pointers (nd : inode_t) : Prop :=
  direct nd = replicate (Z.to_nat NUM_DIRECT_POINTERS) 0 /\ indirect nd = 0.

(** [mksfs(1); fd = open("f"); write(fd, B, |B|); close(fd); fd2 = open("f");
    seek(fd2, 0); read(fd2, out, |B|)] in a process whose globals are [s]
    when it calls [mksfs(1)]: the value returned by the read and the bytes
    it stored in [out]. *)
Definition round_trip (s : sfs) (B : list byte) : outcome (Z * list byte) :=
  let len := Z.of_nat (length B) in
  let! s0 := mksfs 1 s in
  let! '(fd, s1) := sfs_fopen "f" s0 in
  let! '(_, s2) := sfs_fwrite fd B len s1 in
  let! '(_, s3) := sfs_fclose fd s2 in
  let! '(fd2, s4) := sfs_fopen "f" s3 in
  let! '(_, s5) := sfs_fseek fd2 0 s4 in
  let! '(r, out, _) := sfs_fread fd2 len s5 in
  Ret (r, out).

(** The round trip on a file system that a process mounts afresh after it
    has used it: [mksfs(1); open("a"); write(fd, A, |A|)], then [mksfs(1)]
    again and the sequence of [round_trip] with [B].  The result lists the
    value returned by the read, the number of bytes it stored, and the four
    bytes at offset [k] of what it stored and of [B]. *)
Definition round_trip_after_use (A B : list byte) (k : Z)
  : outcome (Z * Z * list byte * list byte) :=
  let! '(_, _, s) := mount_open_write "a" A (Z.of_nat (length A)) in
  let! '(r, out) := round_trip s B in
  Ret (r, Z.of_nat (length out), take 4 (drop (Z.to_nat k) out), take 4 (drop (Z.to_nat k) B)).

(** The block that the first file written on a fresh file system gets for
    its file-relative block [b]: the blocks are handed out in order, and
    the index block takes the slot after the twelve direct blocks. *)
Definition fresh_addr (b : Z) : Z :=
  if b <? NUM_DIRECT_POINTERS then DATA_BLOCKS_OFFSET + b else DATA_BLOCKS_OFFSET + b + 1.

(** The number of bitmap bytes in use when the file has [nb] data blocks. *)
Definition fresh_used (nb : Z) : Z :=
  if nb <=? NUM_DIRECT_POINTERS then nb else nb + 1.

(** The first [a] bytes of the bitmap are 1 and the others are 0. *)
Definition bitmap_prefix (fb : list Z) (a : Z) : Prop :=
  forall k : Z, 0 <= k < MAX_DATA_BLOCKS_SCALED_DOWN ->
                fb !! Z.to_nat k = Some (if k <? a then 1 else 0).

(** The allocation state of the round trip when the file has [nb] data
    blocks: the bitmap, the pointers of i-node 1 and the pointer buffer. *)
Record fresh_alloc (nb : Z) (v : wvars) (s : sfs) : Prop := mk_fresh_alloc {
  fa_bitmap : bitmap_prefix (free_blocks s) (fresh_used nb);
  fa_node : exists n, inodes s !! 1%nat = Some n /\ link_cnt n = 1 /\
      (forall b : Z, 0 <= b < NUM_DIRECT_POINTERS ->
         direct n !! Z.to_nat b = Some (if b <? nb then fresh_addr b else 0)) /\
      indirect n = (if NUM_DIRECT_POINTERS <? nb
                    then DATA_BLOCKS_OFFSET + NUM_DIRECT_POINTERS else 0);
  fa_loaded : w_did_load_ptr_buff v = (NUM_DIRECT_POINTERS <? nb);
  fa_ptr_buff : w_did_load_ptr_buff v = true ->
      forall k : Z, 0 <= k < NUM_POINTERS_IN_INDIRECT - 1 ->
        w_ptr_buff v !! Z.to_nat k
        = Some (if NUM_DIRECT_POINTERS + k <? nb
                then fresh_addr (NUM_DIRECT_POINTERS + k) else 0)
}.

(** What the round trip keeps fixed while it writes to the first file of
    state [t0]: the descriptor table but for the r/w pointer [r] of
    descriptor 1, the directory, and whole blocks on disk. *)
Record fresh_frame (t0 s : sfs) (r : Z) : Prop := mk_fresh_frame {
  ff_fdt : fdt s = <[1%nat := mk_fd 1 r]> (fdt t0);
  ff_root : root s = root t0;
  ff_blocks : forall a : Z, length (disk_data (disk s) a) = Z.to_nat BLOCK_SIZE
}.

(** The bytes of [B] below offset [r] are on disk. *)
Definition fresh_data (B : list byte) (s : sfs) (r : Z) : Prop :=
  forall k : Z, 0 <= k < r ->
    disk_data (disk s) (fresh_addr (k / BLOCK_SIZE)) !! Z.to_nat (k mod BLOCK_SIZE)
    = B !! Z.to_nat k.

(** The invariant of the loop of sfs_fwrite in the round trip: the bytes
    [B] are being written to the new file "f" of state [t0] and the r/w
    pointer has reached [r]. *)
Record fresh_inv (t0 : sfs) (B : list byte) (v : wvars) (s : sfs) (r : Z) : Prop :=
  mk_fresh_inv {
  fi_inv : write_inv 1 1 0 (Z.of_nat (length B)) 0 v s r;
  fi_aligned : r mod BLOCK_SIZE = 0 \/ r = Z.of_nat (length B);
  fi_flag : w_did_write_to_disk v = true;
  fi_frame : fresh_frame t0 s r;
  fi_alloc : fresh_alloc ((r + BLOCK_SIZE - 1) / BLOCK_SIZE) v s;
  fi_data : fresh_data B s r
}.

(** ** Name resolution by sfs_getfilesize *)

(** The directory entry whose i-node sfs_getfilesize reports: its loop has
    no [break], so the last entry, in table order, whose name field compares
    equal decides the result. *)
Definition last_match (s : sfs) (name : string) (i : Z) : Prop :=
  0 <= i /\
  (exists e, root s !! Z.to_nat i = Some e /\ names e = name) /\
  (forall (k : Z) e', i < k -> root s !! Z.to_nat k = Some e' -> names e' <> name).

(** ** The directory listing *)

(** The names of the active directory entries (mode flag 1), in table
    order: what successive calls of sfs_getnextfilename go through. *)
Definition active_names (s : sfs) : list string :=
  names <$> filter (fun e => entry_mode e = 1) (root s).

(** ** What the creation path of sfs_fopen picks *)

(** I-node [i] is the first free i-node of a file ([link_cnt] 0). *)
Definition first_free_inode (s : sfs) (i : Z) : Prop :=
  1 <= i < NUM_INODES /\
  (exists nd, inodes s !! Z.to_nat i = Some nd /\ link_cnt nd = 0) /\
  (forall (k : Z) nd', 1 <= k < i -> inodes s !! Z.to_nat k = Some nd' -> link_cnt nd' <> 0).

(** Descriptor [j] is the first free descriptor among 1..NUM_INODES-1. *)
Definition first_free_fd (s : sfs) (j : Z) : Prop :=
  1 <= j < NUM_INODES /\
  (exists f, fdt s !! Z.to_nat j = Some f /\ inode f = -1) /\
  (forall (k : Z) f', 1 <= k < j -> fdt s !! Z.to_nat k = Some f' -> inode f' <> -1).

(** ** The states that mksfs produces *)

(** The state after [mksfs(1)] in a process whose globals are [s]: the
    loop resets the link counts, the descriptors' i-node fields and the
    directory; the other fields of the i-nodes and the r/w pointers of the
    descriptors 1..NUM_INODES-1 are whatever they were. *)
Definition formatted (s : sfs) : sfs :=
  let sb := super (init_super s) in
  let ins := imap (fun k n => with_link_cnt n (match k with O => 1 | _ => 0 end)) (inodes s) in
  let fds := imap (fun k f => match k with O => mk_fd 0 0 | _ => mk_fd (-1) (rwptr f) end)
                  (fdt s) in
  let rt := replicate (Z.to_nat NUM_FILE_INODES) (mk_dirent 0 EmptyString) in
  let fb := replicate (Z.to_nat MAX_DATA_BLOCKS_SCALED_DOWN) 0 in
  mk_sfs 0 0 sb ins fds rt fb (mk_disk sb ins rt fb (fun _ => zero_block)).

(** The number of i-nodes of files that are in use on disk [d]. *)
Definition files_on_disk (d : disk_t) : Z :=
  Z.of_nat (length (filter (fun n => link_cnt n <> 0) (drop 1 (disk_inodes d)))).

(** The state after [mksfs(0)] on disk [d]. *)
Definition mounted (d : disk_t) : sfs :=
  mk_sfs (files_on_disk d) 0 (disk_super d) (disk_inodes d)
         (mk_fd 0 0 :: replicate (Z.to_nat NUM_FILE_INODES) (mk_fd (-1) 0))
         (disk_root d) (disk_bitmap d) d.

(** ** What sfs_fwrite leaves alone *)

(** The parts of the state that a write through descriptor [fd], bound to
    i-node [ino], does not touch: the directory, the counters, the
    superblock, the other descriptors and i-nodes, the binding of [fd], the
    mode and link count of [ino], the directory and superblock regions of
    the disk.  Bitmap bytes that are 1 stay 1. *)
Record write_frame (fd ino : Z) (s s' : sfs) : Prop := mk_write_frame {
  wf_root : root s' = root s;
  wf_num_files : num_files s' = num_files s;
  wf_curr_file : curr_file s' = curr_file s;
  wf_super : super s' = super s;
  wf_fdt : forall j : Z, 0 <= j -> j <> fd -> fdt s' !! Z.to_nat j = fdt s !! Z.to_nat j;
  wf_fd : forall f, fdt s !! Z.to_nat fd = Some f ->
                    exists f', fdt s' !! Z.to_nat fd = Some f' /\ inode f' = inode f;
  wf_inodes : forall i : Z, 0 <= i -> i <> ino ->
                            inodes s' !! Z.to_nat i = inodes s !! Z.to_nat i;
  wf_node : forall n, inodes s !! Z.to_nat ino = Some n ->
                      exists n', inodes s' !! Z.to_nat ino = Some n' /\
                                 mode n' = mode n /\ link_cnt n' = link_cnt n;
  wf_bitmap : forall k : Z, 0 <= k -> free_blocks s !! Z.to_nat k = Some 1 ->
                            free_blocks s' !! Z.to_nat k = Some 1;
  wf_disk_super : disk_super (disk s') = disk_super (disk s);
  wf_disk_root : disk_root (disk s') = disk_root (disk s)
}.

(** ** What sfs_remove releases *)

(** The bitmap after the bytes of the non-zero pointers [ps] were cleared. *)
Definition clear_bytes (ps : list Z) (fb : list Z) : list Z :=
  foldl (fun fb p => if p >? 0 then <[Z.to_nat (p - DATA_BLOCKS_OFFSET) := 0]> fb else fb)
        fb ps.

(** The disk after the blocks of the non-zero pointers [ps] were overwritten
    with zeros. *)
Definition zero_blocks (ps : list Z) (d : disk_t) : disk_t :=
  foldl (fun d p => if p >? 0 then write_blocks d p zero_block else d) d ps.

(** The pointers that sfs_remove goes through for i-node [nd]: the direct
    pointers, then the entries of the index block when there is one. *)
Definition file_ptrs (s : sfs) (nd : inode_t) : list Z :=
  direct nd ++ (if indirect nd >? 0 then load_ptr_buff (disk s) (indirect nd) else []).

(** The state [s] after the blocks of the pointers [ps] were released. *)
Definition released (ps : list Z) (s : sfs) : sfs :=
  set_disk (set_free_blocks s (clear_bytes ps (free_blocks s))) (zero_blocks ps (disk s)).

(** The state inside the first loop of the release in sfs_remove, after
    [k] direct pointers of i-node [ino] were gone through. *)
Definition direct_released (s : sfs) (ino : Z) (nd : inode_t) (k : nat) : sfs :=
  set_inodes (released (take k (direct nd)) s)
             (<[Z.to_nat ino := with_direct nd (replicate k 0 ++ drop k (direct nd))]>
                (inodes s)).

(** The state after the release in sfs_remove of i-node [ino], whose value
    was [nd]: the blocks of its pointers are released, the index block is
    overwritten with zeros, the i-node is cleared, the file is taken off
    [num_files], and the three tables are written to disk. *)
Definition removed (s : sfs) (ino : Z) (nd : inode_t) : sfs :=
  let ps := file_ptrs s nd in
  let ins := <[Z.to_nat ino := mk_inode 0 0 0 (replicate (length (direct nd)) 0) 0]>
               (inodes s) in
  let fb := clear_bytes ps (free_blocks s) in
  let d0 := zero_blocks ps (disk s) in
  let d1 := if indirect nd >? 0 then write_blocks d0 (indirect nd) zero_block else d0 in
  mk_sfs (to_uint (num_files s - 1)) (curr_file s) (super s) ins (fdt s) (root s) fb
         (write_bitmap (write_root (write_inodes d1 ins) (root s)) fb).

(** ** Written data and a restart of the process *)

(** The state after [mksfs(1); open(name)] in a process whose globals were
    [s], with [nd] the i-node 1 of [s]: the first file takes descriptor 1,
    i-node 1 and directory slot 0; the i-node has size 0 and the block
    pointers of [nd]. *)
Definition first_file (s : sfs) (name : string) (nd : inode_t) : sfs :=
  let t := formatted s in
  let ins := <[1%nat := mk_inode 1 1 0 (direct nd) (indirect nd)]> (inodes t) in
  let rt := <[0%nat := mk_dirent 1 name]> (root t) in
  mk_sfs 1 0 (super t) ins (<[1%nat := mk_fd 1 0]> (fdt t)) rt (free_blocks t)
         (write_root (write_inodes (disk t) ins) rt).

(** A process does [mksfs(1); fd = open("f"); write(fd, B, |B|)] and ends;
    a new process mounts the disk it left with [mksfs(0)] and does
    [fd2 = open("f"); seek(fd2, 0); read(fd2, out, |B|)].  [s] holds the
    globals of the first process when it calls [mksfs(1)]; the result is
    the value returned by the read and the bytes it stored in [out]. *)
Definition restart_round_trip (s : sfs) (B : list byte) : outcome (Z * list byte) :=
  let len := Z.of_nat (length B) in
  let! s0 := mksfs 1 s in
  let! '(fd, s1) := sfs_fopen "f" s0 in
  let! '(_, s2) := sfs_fwrite fd B len s1 in
  let! s3 := mksfs 0 (set_disk boot (disk s2)) in
  let! '(fd2, s4) := sfs_fopen "f" s3 in
  let! '(_, s5) := sfs_fseek fd2 0 s4 in
  let! '(r, out, _) := sfs_fread fd2 len s5 in
  Ret (r, out).

(** ** Writing to a file that has contents *)

(** Every block of the device holds BLOCK_SIZE bytes. *)
Definition disk_whole (d : disk_t) : Prop :=
  forall a : Z, length (disk_data d a) = Z.to_nat BLOCK_SIZE.

(** The block pointer of file-relative block [b] as the loop of sfs_fwrite
    finds it: in [direct] of the i-node in memory for the first blocks, in
    the local array [ptr_buff] for the others once that array is loaded. *)
Definition cur_ptr (n : inode_t) (v : wvars) (b : Z) : Z :=
  if b <? NUM_DIRECT_POINTERS then default 0 (direct n !! Z.to_nat b)
  else if w_did_load_ptr_buff v
       then default 0 (w_ptr_buff v !! Z.to_nat (b - NUM_DIRECT_POINTERS))
       else 0.

(** The discipline of the blocks of one file, with block map [q] and index
    block [idx], under the bitmap [fb]: the bitmap byte of every block in
    use is not 0, no block serves two places of the file, and the index
    block holds no data. *)
Record blocks_ok (q : Z -> Z) (idx : Z) (fb : list Z) : Prop := mk_blocks_ok {
  bo_marked : forall b : Z, 0 <= b -> 0 < q b ->
                            fb !! Z.to_nat (q b - DATA_BLOCKS_OFFSET) <> Some 0;
  bo_index : 0 < idx -> fb !! Z.to_nat (idx - DATA_BLOCKS_OFFSET) <> Some 0;
  bo_inj : forall b1 b2 : Z, 0 <= b1 -> 0 <= b2 -> 0 < q b1 -> q b1 = q b2 -> b1 = b2;
  bo_sep : forall b : Z, 0 <= b -> 0 < q b -> q b <> idx
}.

(** A file that sfs_fwrite and sfs_fread handle as intended: its pointers
    are block numbers, its body has no holes, its blocks follow the
    discipline above, and the device holds whole blocks. *)
Definition file_ok (s : sfs) (nd : inode_t) : Prop :=
  inode_ptrs_ok s nd /\ no_holes s nd /\
  blocks_ok (block_ptr s nd) (indirect nd) (free_blocks s) /\
  disk_whole (disk s).

(** The bytes of the file after [buf] was written at offset [p] up to
    offset [r], in terms of the bytes it had in state [s0]. *)
Definition written_byte (s0 : sfs) (nd0 : inode_t) (p r : Z) (buf : list byte) (k : Z)
  : option byte :=
  if (p <=? k) && (k <? r) then buf !! Z.to_nat (k - p) else file_byte s0 nd0 k.

(** The invariant of the loop of sfs_fwrite on a file with contents: the
    call started in state [s0] on the i-node [nd0] at offset [p], and the
    r/w pointer has reached [r]. *)
Record gen_inv (s0 : sfs) (nd0 : inode_t) (fd ino p len : Z) (buf : list byte)
       (v : wvars) (s : sfs) (r : Z) (n : inode_t) : Prop := mk_gen_inv {
  gi_inv : write_inv fd ino p len (size nd0) v s r;
  gi_node : inodes s !! Z.to_nat ino = Some n;
  gi_whole : disk_whole (disk s);
  gi_loaded : w_did_load_ptr_buff v = true -> 0 < indirect n;
  gi_blocks : blocks_ok (cur_ptr n v) (indirect n) (free_blocks s);
  gi_filled : forall b : Z, 0 <= b -> b * BLOCK_SIZE < Z.max (size nd0) r ->
                            0 < cur_ptr n v b;
  gi_data : forall k : Z, 0 <= k < Z.max (size nd0) r ->
      disk_data (disk s) (cur_ptr n v (k / BLOCK_SIZE)) !! Z.to_nat (k mod BLOCK_SIZE)
      = written_byte s0 nd0 p r buf k;
  gi_start : r = p ->
      disk s = disk s0 /\ direct n = direct nd0 /\
      (indirect n = indirect nd0 \/ indirect nd0 <= 0)
}.

(** [write(fd, buf, len); seek(fd, p); read(fd, out, n)] where [n] is what
    the write returned: that count, the value returned by the read and the
    bytes it stored in [out]. *)
Definition write_seek_read (fd : Z) (buf : list byte) (len p : Z) (s : sfs)
  : outcome (Z * Z * list byte) :=
  let! '(n, s1) := sfs_fwrite fd buf len s in
  let! '(_, s2) := sfs_fseek fd p s1 in
  let! '(r, out, _) := sfs_fread fd n s2 in
  Ret (n, r, out).

(** ** Basic facts *)

Lemma constants_values :
  NUM_FILE_INODES = 127 /\ NUM_POINTERS_IN_INDIRECT = 257 /\
  MAX_DATA_BLOCKS_PER_FILE = 269 /\ MAX_DATA_BLOCKS_SCALED_DOWN = 2135 /\
  NUM_INODE_BLOCKS = 9 /\ NUM_DATA_BLOCKS_FOR_DIR = 8 /\
  NUM_DATA_BLOCKS_FOR_BITMAP = 3 /\ NUM_TOTAL_BLOCKS = 2156 /\
  DATA_BLOCKS_OFFSET = 18 /\ BITMAP_BLOCK_OFFSET = 2153 /\ MAX_FILE_BYTES = 274432.
Proof. repeat split; reflexivity. Qed.

Ltac consts :=
  change NUM_FILE_INODES with 127 in *;
  change NUM_INODES with 128 in *;
  change NUM_DIRECT_POINTERS with 12 in *;
  change NUM_POINTERS_IN_INDIRECT with 257 in *;
  change MAX_DATA_BLOCKS_PER_FILE with 269 in *;
  change MAX_DATA_BLOCKS_SCALED_DOWN with 2135 in *;
  change DATA_BLOCKS_OFFSET with 18 in *;
  change BITMAP_BLOCK_OFFSET with 2153 in *;
  change MAX_FILE_BYTES with 274432 in *;
  change MAX_FILENAME with 60 in *;
  change BLOCK_SIZE with 1024 in *.

Lemma bind_Ret {A B : Type} (a : A) (k : A -> outcome B) : bind (Ret a) k = k a.
Proof. reflexivity. Qed.

Lemma bind_inv {A B : Type} (m : outcome A) (k : A -> outcome B) (b : B) :
  bind m k = Ret b -> exists a, m = Ret a /\ k a = Ret b.
Proof. destruct m; simpl; intros H; try discriminate. eauto. Qed.

Lemma arr_get_Ret {A : Type} (l : list A) (i : Z) (x : A) :
  0 <= i -> l !! Z.to_nat i = Some x -> arr_get l i = Ret x.
Proof.
  intros Hi Hx. unfold arr_get.
  destruct (Z.ltb_spec i 0); [lia|]. now rewrite Hx.
Qed.

Lemma arr_get_inv {A : Type} (l : list A) (i : Z) (x : A) :
  arr_get l i = Ret x -> 0 <= i /\ l !! Z.to_nat i = Some x.
Proof.
  unfold arr_get. destruct (Z.ltb_spec i 0); [discriminate|].
  destruct (l !! Z.to_nat i) eqn:E; [|discriminate].
  intros [= ->]. auto.
Qed.

Lemma arr_get_lt {A : Type} (l : list A) (i : Z) :
  0 <= i < Z.of_nat (length l) -> exists x, arr_get l i = Ret x /\ l !! Z.to_nat i = Some x.
Proof.
  intros Hi. destruct (lookup_lt_is_Some_2 l (Z.to_nat i)) as [x Hx]; [lia|].
  exists x. split; [apply arr_get_Ret; [lia|exact Hx]|exact Hx].
Qed.

Lemma arr_get_out {A : Type} (l : list A) (i : Z) :
  i < 0 \/ Z.of_nat (length l) <= i -> arr_get l i = Fault.
Proof.
  intros Hi. unfold arr_get. destruct (Z.ltb_spec i 0); [reflexivity|].
  rewrite lookup_ge_None_2; [reflexivity|lia].
Qed.

Lemma arr_set_Ret {A : Type} (l : list A) (i : Z) (x : A) :
  0 <= i < Z.of_nat (length l) -> arr_set l i x = Ret (<[Z.to_nat i := x]> l).
Proof.
  intros Hi. unfold arr_set.
  destruct (Z.ltb_spec i 0); [lia|].
  destruct (Z.leb_spec (Z.of_nat (length l)) i); [lia|]. reflexivity.
Qed.

Lemma to_int_small (x : Z) : - 2 ^ 31 <= x < 2 ^ 31 -> to_int x = x.
Proof. unfold to_int. intros H. lia. Qed.

Lemma to_uint_small (x : Z) : 0 <= x < 2 ^ 32 -> to_uint x = x.
Proof. unfold to_uint. intros H. lia. Qed.

Lemma to_u64_small (x : Z) : 0 <= x < 2 ^ 64 -> to_u64 x = x.
Proof. unfold to_u64. intros H. lia. Qed.

Ltac zbool :=
  repeat match goal with
  | |- context [?a >? ?b] => rewrite (Z.gtb_ltb a b)
  | |- context [?a >=? ?b] => rewrite (Z.geb_leb a b)
  | |- context [?a <? ?b] => destruct (Z.ltb_spec a b)
  | |- context [?a <=? ?b] => destruct (Z.leb_spec a b)
  | |- context [?a =? ?b] => destruct (Z.eqb_spec a b)
  end.

(** ** The state after a fresh mount *)

Lemma fresh_mount_eq : fresh_mount = Ret fresh_state.
Proof. vm_compute. reflexivity. Qed.

Lemma fresh_state_shape : shape fresh_state.
Proof. split; reflexivity. Qed.

Lemma fresh_state_fdt_ok : fdt_ok fresh_state.
Proof.
  intros j f Hf. apply list_elem_of_lookup_2 in Hf.
  cbn [fdt fresh_state] in Hf.
  rewrite elem_of_cons in Hf. destruct Hf as [->|Hf]; [right; simpl; consts; lia|].
  apply elem_of_replicate in Hf. destruct Hf as [-> _]. left. reflexivity.
Qed.

Lemma fopen_fresh_f : sfs_fopen "f" fresh_state = Ret (1, opened_state "f").
Proof. vm_compute. reflexivity. Qed.

Lemma opened_state_shape (name : string) : shape (opened_state name).
Proof. split; reflexivity. Qed.

Lemma opened_state_fdt_ok (name : string) : fdt_ok (opened_state name).
Proof.
  intros j f Hf. apply list_elem_of_lookup_2 in Hf.
  cbn [fdt opened_state] in Hf.
  rewrite !elem_of_cons in Hf.
  destruct Hf as [->|[->|Hf]]; [right; simpl; consts; lia|right; simpl; consts; lia|].
  apply elem_of_replicate in Hf. destruct Hf as [-> _]. left. reflexivity.
Qed.

(** ** Handles that sfs_fwrite and sfs_fread do not check *)

(** C9.  sfs_fwrite and sfs_fread read [fdt[fileID]] without the range check
    that sfs_fclose and sfs_fseek make: for a positive length and a handle
    below 0 or at least NUM_INODES the access to the descriptor table is
    outside the array, so the call does not return 0.  Handles inside the
    table that are not bound to a file (descriptor 0, free descriptors) are
    answered with 0 and an unchanged state. *)
Theorem fwrite_fread_handle_check (s : sfs) (fd : Z) (buf : list byte) (len : Z) :
  shape s -> 0 < len ->
  ((fd < 0 \/ NUM_INODES <= fd) ->
   sfs_fwrite fd buf len s = Fault /\ sfs_fread fd len s = Fault) /\
  (forall f, 0 <= fd -> fdt s !! Z.to_nat fd = Some f -> inode f <= 0 ->
   sfs_fwrite fd buf len s = Ret (0, s) /\ sfs_fread fd len s = Ret (0, [], s)).
Proof.
  intros Hs Hlen. split.
  - intros Hfd. unfold sfs_fwrite, sfs_fread.
    destruct (Z.leb_spec len 0); [lia|].
    rewrite arr_get_out; [split; reflexivity|].
    rewrite (shape_fdt s Hs). consts. lia.
  - intros f Hfd Hf Hino. unfold sfs_fwrite, sfs_fread.
    destruct (Z.leb_spec len 0); [lia|].
    rewrite (arr_get_Ret _ _ f Hfd Hf). simpl.
    destruct (Z.leb_spec (inode f) 0); [|lia]. split; reflexivity.
Qed.

Lemma fwrite_fread_handle_check_witness :
  (sfs_fwrite NUM_INODES [x00] 1 fresh_state = Fault /\
   sfs_fread NUM_INODES 1 fresh_state = Fault) /\
  (sfs_fwrite 0 [x00] 1 fresh_state = Ret (0, fresh_state) /\
   sfs_fread 0 1 fresh_state = Ret (0, [], fresh_state)).
Proof.
  destruct (fwrite_fread_handle_check fresh_state NUM_INODES [x00] 1
              fresh_state_shape ltac:(lia)) as [H1 _].
  destruct (fwrite_fread_handle_check fresh_state 0 [x00] 1
              fresh_state_shape ltac:(lia)) as [_ H2].
  split.
  - apply H1. right. lia.
  - apply (H2 (mk_fd 0 0)); [lia|reflexivity|simpl; lia].
Defined.

(** ** Closed runs *)

(** C2.  A file of 13 blocks owns 13 data blocks and an indirect index
    block (14 bitmap bytes are 1 after the write).  sfs_remove clears the
    bitmap bytes of the 13 data blocks only: the byte of the index block,
    [free_blocks[30 - DATA_BLOCKS_OFFSET]], is still 1 afterwards, so the
    count goes down by 13 and not by 14. *)
Theorem remove_keeps_indirect_bitmap_byte :
  (let! '(_, _, s) := mount_open_write "f" (bytes_of 13312 x41) 13312 in
   let! nd := inode_view s 1 in
   let! '(r, s') := sfs_remove "f" s in
   let! b := arr_get (free_blocks s') (30 - DATA_BLOCKS_OFFSET) in
   Ret (nd, bitmap_ones s, r, bitmap_ones s', b))
  = Ret ((1, 13312, [18; 19; 20; 21; 22; 23; 24; 25; 26; 27; 28; 29], 30), 14, 1, 1, 1).
Proof. vm_compute. reflexivity. Qed.

(** C3.  [mksfs(1)] on a process that already holds a file resets only
    [link_cnt], and the creation path of sfs_fopen resets [size] but not the
    block pointers: after mount, open "a", write one byte, mount afresh and
    open "b", i-node 1 is allocated with size 0 and still references block
    18, so it references one data block where the claim requires none. *)
Theorem fresh_remount_keeps_block_pointers :
  (let! '(_, _, s) := mount_open_write "a" [x78] 1 in
   let! s1 := mksfs 1 s in
   let! '(_, s2) := sfs_fopen "b" s1 in
   inode_view s2 1)
  = Ret (1, 0, [18; 0; 0; 0; 0; 0; 0; 0; 0; 0; 0; 0], 0).
Proof. vm_compute. reflexivity. Qed.

(** ** sfs_fseek *)

Lemma set_rwptr_eq (s : sfs) (fd loc : Z) (f : file_descriptor_t) :
  0 <= fd -> fdt s !! Z.to_nat fd = Some f ->
  upd_fd s fd (fun f => mk_fd (inode f) loc) = Ret (set_rwptr s fd loc).
Proof.
  intros Hfd Hf. unfold upd_fd, set_rwptr.
  rewrite (arr_get_Ret _ _ f Hfd Hf). simpl.
  rewrite Hf. apply lookup_lt_Some in Hf.
  rewrite arr_set_Ret by lia. reflexivity.
Qed.

(** C5 (amended).  sfs_fseek sets the r/w pointer to [loc] and returns 0
    exactly when 0 < fd < NUM_INODES, the descriptor is bound to a file
    i-node, 0 <= loc <= size and loc < MAX_DATA_BLOCKS_PER_FILE * BLOCK_SIZE
    (269 blocks); in every other case it returns -1 and changes nothing.  In
    particular every loc above the size is refused. *)
Theorem fseek_spec (s : sfs) (fd loc : Z) :
  shape s -> fdt_ok s ->
  sfs_fseek fd loc s =
    (if seek_accepts (MAX_DATA_BLOCKS_PER_FILE * BLOCK_SIZE) s fd loc
     then Ret (0, set_rwptr s fd loc) else Ret (-1, s))
  /\ (forall f nd, fdt s !! Z.to_nat fd = Some f ->
        inodes s !! Z.to_nat (inode f) = Some nd -> size nd < loc ->
        sfs_fseek fd loc s = Ret (-1, s)).
Proof.
  intros Hs Hok.
  assert (Hmain : sfs_fseek fd loc s =
    (if seek_accepts (MAX_DATA_BLOCKS_PER_FILE * BLOCK_SIZE) s fd loc
     then Ret (0, set_rwptr s fd loc) else Ret (-1, s))).
  { unfold sfs_fseek, seek_accepts.
    rewrite (Z.gtb_ltb fd 0).
    destruct (Z.ltb_spec 0 fd) as [Hfd|Hfd]; [|reflexivity].
    destruct (Z.ltb_spec fd NUM_INODES) as [Hfd'|Hfd']; [|reflexivity].
    cbn [andb].
    destruct (arr_get_lt (fdt s) fd) as (f & Hget & Hf).
    { rewrite (shape_fdt s Hs). lia. }
    rewrite Hget, Hf. cbn [bind].
    destruct (Hok _ _ Hf) as [Hm1|Hrange].
    { rewrite Hm1. reflexivity. }
    destruct (Z.eqb_spec (inode f) (-1)) as [E|_]; [lia|].
    destruct (Z.eqb_spec (inode f) 0) as [E|Hne0]; [rewrite E; reflexivity|].
    destruct (Z.ltb_spec 0 (inode f)); [|lia]. cbn [andb].
    destruct (arr_get_lt (inodes s) (inode f)) as (nd & Hgetn & Hnd).
    { rewrite (shape_inodes s Hs). lia. }
    rewrite Hnd.
    destruct (Z.ltb_spec loc 0); [destruct (Z.leb_spec 0 loc); [lia|reflexivity]|].
    destruct (Z.leb_spec 0 loc); [|lia].
    rewrite Hgetn. cbn [bind andb].
    rewrite (Z.gtb_ltb loc (size nd)), (Z.geb_leb loc).
    destruct (Z.ltb_spec (size nd) loc); destruct (Z.leb_spec loc (size nd)); try lia;
      [reflexivity|]. cbn [andb].
    destruct (Z.leb_spec (MAX_DATA_BLOCKS_PER_FILE * BLOCK_SIZE) loc);
      destruct (Z.ltb_spec loc (MAX_DATA_BLOCKS_PER_FILE * BLOCK_SIZE)); try lia;
      [reflexivity|].
    rewrite (set_rwptr_eq s fd loc f) by (lia || assumption). reflexivity. }
  split; [exact Hmain|].
  intros f nd Hf Hnd Hlt. rewrite Hmain. unfold seek_accepts.
  rewrite Hf, Hnd.
  destruct (Z.leb_spec loc (size nd)); [lia|].
  destruct (0 <? fd), (fd <? NUM_INODES), (0 <? inode f), (0 <=? loc); reflexivity.
Qed.

Lemma fseek_spec_witness :
  sfs_fseek 1 0 (opened_state "f") = Ret (0, set_rwptr (opened_state "f") 1 0) /\
  sfs_fseek 1 1 (opened_state "f") = Ret (-1, opened_state "f").
Proof.
  destruct (fseek_spec (opened_state "f") 1 0 (opened_state_shape "f")
              (opened_state_fdt_ok "f")) as [H0 _].
  destruct (fseek_spec (opened_state "f") 1 1 (opened_state_shape "f")
              (opened_state_fdt_ok "f")) as [_ H1].
  split; [exact H0|].
  apply (H1 (mk_fd 1 0) (mk_inode 1 1 0 (replicate (Z.to_nat NUM_DIRECT_POINTERS) 0) 0));
    [reflexivity|reflexivity|simpl; lia].
Defined.

(** C5 as stated fails on a full file: after writing 268 blocks the size is
    268 * 1024 = MAX_FILE_BYTES; a seek to that offset does not satisfy
    loc < MAX_FILE_BYTES, yet sfs_fseek accepts it, returns 0 and moves the
    r/w pointer there. *)
Lemma fseek_accepts_max_file_bytes :
  (let! '(fd, _, s) := mount_open_write "f" (bytes_of MAX_FILE_BYTES x41) MAX_FILE_BYTES in
   let! '(_, s1) := sfs_fseek fd 0 s in
   let! '(r, s2) := sfs_fseek fd MAX_FILE_BYTES s1 in
   let! p := rwptr_of s2 fd in
   Ret (seek_accepts MAX_FILE_BYTES s1 fd MAX_FILE_BYTES, r, p))
  = Ret (false, 0, MAX_FILE_BYTES).
Proof. vm_compute. reflexivity. Qed.

(** ** sfs_fopen: the refusals *)

Lemma fopen_scan_hit (fds : list file_descriptor_t) (target : Z) :
  forall (n : nat) (j0 free_fd : Z),
    0 <= j0 -> j0 + Z.of_nat n <= Z.of_nat (length fds) ->
    (exists j f, j0 <= j < j0 + Z.of_nat n /\ fds !! Z.to_nat j = Some f /\ inode f = target) ->
    fopen_scan fds target n j0 free_fd = Ret None.
Proof.
  induction n as [|n IH]; intros j0 free_fd Hj0 Hlen (j & f & Hj & Hf & Hino).
  - lia.
  - cbn [fopen_scan].
    destruct (arr_get_lt fds j0) as (f0 & Hget & Hf0); [lia|].
    rewrite Hget. cbn [bind].
    destruct (Z.eqb_spec (inode f0) target) as [|Hne]; [reflexivity|].
    apply IH; [lia|lia|].
    exists j, f. repeat split; try assumption; try lia.
    destruct (Z.eq_dec j j0) as [->|]; [|lia]. congruence.
Qed.

Lemma fopen_scan_no_free (fds : list file_descriptor_t) (target : Z) :
  forall (n : nat) (j0 : Z),
    0 <= j0 -> j0 + Z.of_nat n <= Z.of_nat (length fds) ->
    (forall j f, j0 <= j < j0 + Z.of_nat n -> fds !! Z.to_nat j = Some f -> inode f <> -1) ->
    fopen_scan fds target n j0 (-1) = Ret None \/
    fopen_scan fds target n j0 (-1) = Ret (Some (-1)).
Proof.
  induction n as [|n IH]; intros j0 Hj0 Hlen Hfull.
  - right. reflexivity.
  - cbn [fopen_scan].
    destruct (arr_get_lt fds j0) as (f0 & Hget & Hf0); [lia|].
    rewrite Hget. cbn [bind].
    destruct (Z.eqb_spec (inode f0) target); [left; reflexivity|].
    destruct (Z.eqb_spec (inode f0) (-1)) as [E|_].
    { exfalso. apply (Hfull j0 f0); [lia|assumption|assumption]. }
    cbn [andb]. rewrite andb_false_r.
    apply IH; [lia|lia|]. intros j f Hj. apply Hfull. lia.
Qed.

Lemma fopen_existing_skip (name : string) (s : sfs) :
  forall (n : nat) (i0 : Z),
    0 <= i0 -> i0 + Z.of_nat (S n) <= Z.of_nat (length (root s)) ->
    (forall e, root s !! Z.to_nat i0 = Some e -> names e <> name) ->
    fopen_existing name s (S n) i0 = fopen_existing name s n (i0 + 1).
Proof.
  intros n i0 Hi0 Hlen Hne. cbn [fopen_existing].
  destruct (arr_get_lt (root s) i0) as (e & Hget & He); [lia|].
  rewrite Hget. cbn [bind].
  destruct (String.eqb_spec name (names e)) as [E|_]; [|reflexivity].
  exfalso. apply (Hne e He). congruence.
Qed.

Lemma fopen_existing_none (name : string) (s : sfs) :
  forall (n : nat) (i0 : Z),
    0 <= i0 -> i0 + Z.of_nat n <= Z.of_nat (length (root s)) ->
    (forall (i : Z) e, i0 <= i < i0 + Z.of_nat n -> root s !! Z.to_nat i = Some e ->
                       names e <> name) ->
    fopen_existing name s n i0 = Ret None.
Proof.
  induction n as [|n IH]; intros i0 Hi0 Hlen Hne; [reflexivity|].
  rewrite fopen_existing_skip; [|lia|lia|].
  - apply IH; [lia|lia|]. intros i e Hi. apply Hne. lia.
  - intros e. apply Hne. lia.
Qed.

Lemma fopen_existing_reach (name : string) (s : sfs) (i : Z) :
  forall (n : nat) (i0 : Z),
    0 <= i0 <= i -> i < i0 + Z.of_nat n -> i0 + Z.of_nat n <= Z.of_nat (length (root s)) ->
    (forall (i' : Z) e', i0 <= i' < i -> root s !! Z.to_nat i' = Some e' -> names e' <> name) ->
    fopen_existing name s n i0 =
    fopen_existing name s (S (Z.to_nat (i0 + Z.of_nat n - i - 1))) i.
Proof.
  induction n as [|n IH]; intros i0 Hi0 Hlt Hlen Hne; [lia|].
  destruct (Z.eq_dec i0 i) as [->|Hneq].
  - f_equal. lia.
  - rewrite fopen_existing_skip; [|lia|lia|].
    + rewrite IH; [f_equal; lia|lia|lia|lia|].
      intros i' e' Hi'. apply Hne. lia.
    + intros e. apply Hne. lia.
Qed.

Lemma fopen_existing_duplicate (name : string) (s : sfs) (i j : Z) (f : file_descriptor_t) :
  shape s -> first_match s name i ->
  1 <= j < NUM_INODES -> fdt s !! Z.to_nat j = Some f -> inode f = i + 1 ->
  fopen_existing name s (Z.to_nat NUM_FILE_INODES) 0 = Ret (Some (-1, s)).
Proof.
  intros Hs (Hi & (e & He & Hname) & Hfirst) Hj Hf Hino.
  pose proof (lookup_lt_Some _ _ _ He) as Hlt.
  rewrite (shape_root s Hs) in Hlt.
  rewrite (fopen_existing_reach name s i); [|lia|lia|rewrite (shape_root s Hs); lia|].
  2:{ intros i' e' Hi'. apply Hfirst. lia. }
  cbn [fopen_existing].
  rewrite (arr_get_Ret _ _ e Hi He). cbn [bind].
  rewrite Hname, String.eqb_refl.
  rewrite fopen_scan_hit; [reflexivity|lia| |].
  - rewrite (shape_fdt s Hs). consts. lia.
  - exists j, f. consts. repeat split; try assumption; lia.
Qed.

Lemma fopen_existing_no_free_fd (name : string) (s : sfs) :
  shape s -> no_free_fd s ->
  forall (n : nat) (i0 : Z),
    0 <= i0 -> i0 + Z.of_nat n <= Z.of_nat (length (root s)) ->
    fopen_existing name s n i0 = Ret None \/
    fopen_existing name s n i0 = Ret (Some (-1, s)).
Proof.
  intros Hs Hfull. induction n as [|n IH]; intros i0 Hi0 Hlen; [left; reflexivity|].
  cbn [fopen_existing].
  destruct (arr_get_lt (root s) i0) as (e & Hget & He); [lia|].
  rewrite Hget. cbn [bind].
  destruct (String.eqb name (names e)).
  - right.
    destruct (fopen_scan_no_free (fdt s) (i0 + 1) (Z.to_nat (NUM_INODES - 1)) 1) as [H|H].
    + lia.
    + rewrite (shape_fdt s Hs). consts. lia.
    + intros j f Hj. apply Hfull. consts. lia.
    + rewrite H. reflexivity.
    + rewrite H. reflexivity.
  - apply IH; lia.
Qed.

Lemma fopen_free_fd_none (fds : list file_descriptor_t) :
  forall (n : nat) (j0 : Z),
    0 <= j0 -> j0 + Z.of_nat n <= Z.of_nat (length fds) ->
    (forall j f, j0 <= j < j0 + Z.of_nat n -> fds !! Z.to_nat j = Some f -> inode f <> -1) ->
    fopen_free_fd fds n j0 = Ret None.
Proof.
  induction n as [|n IH]; intros j0 Hj0 Hlen Hfull; [reflexivity|].
  cbn [fopen_free_fd].
  destruct (arr_get_lt fds j0) as (f0 & Hget & Hf0); [lia|].
  rewrite Hget. cbn [bind].
  destruct (Z.eqb_spec (inode f0) (-1)) as [E|_].
  { exfalso. apply (Hfull j0 f0); [lia|assumption|assumption]. }
  apply IH; [lia|lia|]. intros j f Hj. apply Hfull. lia.
Qed.

Lemma fopen_create_refuses (name : string) (s : sfs) :
  shape s -> no_free_inode s \/ no_free_fd s ->
  forall (n : nat) (i0 : Z),
    1 <= i0 -> i0 + Z.of_nat n <= NUM_INODES ->
    fopen_create name s n i0 = Ret (-1, s).
Proof.
  intros Hs Hno. induction n as [|n IH]; intros i0 Hi0 Hlen; [reflexivity|].
  cbn [fopen_create].
  destruct (arr_get_lt (inodes s) i0) as (nd & Hget & Hnd).
  { rewrite (shape_inodes s Hs). lia. }
  rewrite Hget. cbn [bind].
  destruct (Z.eqb_spec (link_cnt nd) 0) as [E|_]; [|apply IH; lia].
  destruct Hno as [Hino|Hfd].
  - exfalso. apply (Hino i0 nd); [lia|assumption|assumption].
  - rewrite fopen_free_fd_none.
    + cbn [bind]. apply IH; lia.
    + lia.
    + rewrite (shape_fdt s Hs). consts. lia.
    + intros j f Hj. apply Hfd. consts. lia.
Qed.

(** C7.  sfs_fopen returns -1 and leaves the state as it was when a
    descriptor already references the i-node that the name resolves to, when
    the name has MAX_FILENAME characters or more, when the name is new and
    no i-node is free, and when no descriptor slot is free. *)
Theorem fopen_refusals (s : sfs) (name : string) :
  shape s ->
  (forall i j f, first_match s name i -> 1 <= j < NUM_INODES ->
     fdt s !! Z.to_nat j = Some f -> inode f = i + 1 ->
     sfs_fopen name s = Ret (-1, s)) /\
  (MAX_FILENAME <= strlen name -> sfs_fopen name s = Ret (-1, s)) /\
  (no_match s name -> no_free_inode s -> sfs_fopen name s = Ret (-1, s)) /\
  (no_free_fd s -> sfs_fopen name s = Ret (-1, s)).
Proof.
  intros Hs. repeat split.
  - intros i j f Hfirst Hj Hf Hino. unfold sfs_fopen.
    destruct (strlen name >=? MAX_FILENAME); [reflexivity|].
    rewrite (fopen_existing_duplicate name s i j f); auto.
  - intros Hlong. unfold sfs_fopen. rewrite Z.geb_leb.
    destruct (Z.leb_spec MAX_FILENAME (strlen name)); [reflexivity|lia].
  - intros Hnone Hino. unfold sfs_fopen.
    destruct (strlen name >=? MAX_FILENAME); [reflexivity|].
    rewrite fopen_existing_none.
    + cbn [bind]. apply fopen_create_refuses; [assumption|left; assumption|lia|consts; lia].
    + lia.
    + rewrite (shape_root s Hs). lia.
    + intros i e _. apply Hnone.
  - intros Hfd. unfold sfs_fopen.
    destruct (strlen name >=? MAX_FILENAME); [reflexivity|].
    destruct (fopen_existing_no_free_fd name s Hs Hfd (Z.to_nat NUM_FILE_INODES) 0) as [H|H].
    + lia.
    + rewrite (shape_root s Hs). lia.
    + rewrite H. cbn [bind].
      apply fopen_create_refuses; [assumption|right; assumption|lia|consts; lia].
    + rewrite H. reflexivity.
Qed.

Lemma fopen_refusals_witness :
  sfs_fopen "f" (opened_state "f") = Ret (-1, opened_state "f").
Proof.
  destruct (fopen_refusals (opened_state "f") "f" (opened_state_shape "f")) as [H _].
  apply (H 0 1 (mk_fd 1 0)).
  - split; [lia|]. split.
    + exists (mk_dirent 1 "f"). split; reflexivity.
    + intros i' e' Hi'. lia.
  - consts. lia.
  - reflexivity.
  - reflexivity.
Defined.

(** ** Name resolution and the empty name *)




Lemma upd_fd_Ret (s : sfs) (j : Z) (g : file_descriptor_t -> file_descriptor_t)
      (f : file_descriptor_t) :
  0 <= j -> fdt s !! Z.to_nat j = Some f ->
  upd_fd s j g = Ret (set_fdt s (<[Z.to_nat j := g f]> (fdt s))).
Proof.
  intros Hj Hf. unfold upd_fd. rewrite (arr_get_Ret _ _ f Hj Hf). cbn [bind].
  apply lookup_lt_Some in Hf. rewrite arr_set_Ret by lia. reflexivity.
Qed.

Lemma upd_root_Ret (s : sfs) (i : Z) (g : directory_entry_t -> directory_entry_t)
      (e : directory_entry_t) :
  0 <= i -> root s !! Z.to_nat i = Some e ->
  upd_root s i g = Ret (set_root s (<[Z.to_nat i := g e]> (root s))).
Proof.
  intros Hi He. unfold upd_root. rewrite (arr_get_Ret _ _ e Hi He). cbn [bind].
  apply lookup_lt_Some in He. rewrite arr_set_Ret by lia. reflexivity.
Qed.

Lemma upd_inode_Ret (s : sfs) (i : Z) (g : inode_t -> inode_t) (nd : inode_t) :
  0 <= i -> inodes s !! Z.to_nat i = Some nd ->
  upd_inode s i g = Ret (set_inodes s (<[Z.to_nat i := g nd]> (inodes s))).
Proof.
  intros Hi Hn. unfold upd_inode. rewrite (arr_get_Ret _ _ nd Hi Hn). cbn [bind].
  apply lookup_lt_Some in Hn. rewrite arr_set_Ret by lia. reflexivity.
Qed.

Lemma set_root_twice (s : sfs) (x y : list directory_entry_t) :
  set_root (set_root s x) y = set_root s y.
Proof. reflexivity. Qed.

Lemma set_fdt_twice (s : sfs) (x y : list file_descriptor_t) :
  set_fdt (set_fdt s x) y = set_fdt s y.
Proof. reflexivity. Qed.

Lemma set_inodes_twice (s : sfs) (x y : list inode_t) :
  set_inodes (set_inodes s x) y = set_inodes s y.
Proof. reflexivity. Qed.

Lemma set_free_blocks_twice (s : sfs) (x y : list Z) :
  set_free_blocks (set_free_blocks s x) y = set_free_blocks s y.
Proof. reflexivity. Qed.

Lemma set_disk_twice (s : sfs) (x y : disk_t) :
  set_disk (set_disk s x) y = set_disk s y.
Proof. reflexivity. Qed.

Lemma fclose_frame (s : sfs) (j : Z) :
  shape s -> 0 < j < NUM_INODES ->
  exists r s', sfs_fclose j s = Ret (r, s') /\ shape s' /\
               root s' = root s /\ inodes s' = inodes s.
Proof.
  intros Hs Hj. unfold sfs_fclose.
  rewrite Z.gtb_ltb.
  destruct (Z.ltb_spec 0 j); [|lia]. destruct (Z.ltb_spec j NUM_INODES); [|lia].
  cbn [andb].
  destruct (arr_get_lt (fdt s) j) as (f & Hget & Hf).
  { rewrite (shape_fdt s Hs). lia. }
  rewrite Hget. cbn [bind].
  destruct (negb (inode f =? -1)); [|exists (-1), s; auto].
  rewrite (upd_fd_Ret s j _ f) by (lia || assumption). cbn [bind].
  erewrite upd_fd_Ret; [|lia|].
  2:{ cbn [fdt set_fdt]. apply list_lookup_insert_eq. apply lookup_lt_Some in Hf. exact Hf. }
  cbn [bind]. eexists _, _. split; [reflexivity|].
  split; [|split; reflexivity].
  destruct Hs as [H1 H2 H3 H4]. split; cbn; rewrite ?length_insert; assumption.
Qed.

Lemma remove_close_frame (target : Z) :
  forall (n : nat) (j0 : Z) (s : sfs),
    shape s -> 1 <= j0 -> j0 + Z.of_nat n <= NUM_INODES ->
    exists s', remove_close s target n j0 = Ret s' /\ shape s' /\
               root s' = root s /\ inodes s' = inodes s.
Proof.
  induction n as [|n IH]; intros j0 s Hs Hj0 Hlen.
  - exists s. auto.
  - cbn [remove_close].
    destruct (arr_get_lt (fdt s) j0) as (f & Hget & Hf).
    { rewrite (shape_fdt s Hs). lia. }
    rewrite Hget. cbn [bind].
    destruct (inode f =? target).
    + destruct (fclose_frame s j0 Hs) as (r & s' & Hc & Hs' & Hr & Hi); [lia|].
      rewrite Hc. cbn [bind]. exists s'. auto.
    + apply IH; [assumption|lia|lia].
Qed.


(** ** sfs_fopen on a file of the directory *)

Lemma free_fd_exists (s : sfs) (ino : Z) :
  shape s -> fdt_files_ok s -> 1 <= ino < NUM_INODES -> not_open s ino ->
  exists (j : Z) f, 1 <= j < NUM_INODES /\ fdt s !! Z.to_nat j = Some f /\ inode f = -1.
Proof.
  intros Hs [Hrange Hinj] Hino Hclosed.
  pose proof (shape_fdt s Hs) as Hlen.
  destruct (decide (Exists (fun f => inode f = -1) (drop 1 (fdt s)))) as [Hex|Hnex].
  - apply Exists_exists in Hex. destruct Hex as (f & Hin & Hfree).
    apply list_elem_of_lookup in Hin. destruct Hin as [i Hi].
    pose proof (lookup_lt_Some _ _ _ Hi) as Hlt. rewrite length_drop in Hlt.
    rewrite lookup_drop in Hi.
    exists (Z.of_nat (1 + i)), f. rewrite Nat2Z.id.
    split; [consts; lia|]. split; assumption.
  - exfalso. apply not_Exists_Forall in Hnex; [|intros f; apply _].
    set (M := inode <$> drop 1 (fdt s)).
    assert (Hat : forall (a : nat) x, M !! a = Some x ->
              exists f, fdt s !! Z.to_nat (Z.of_nat (1 + a)) = Some f /\ inode f = x /\
                        (a < 127)%nat /\ x <> -1).
    { intros a x Ha. unfold M in Ha. apply list_lookup_fmap_Some in Ha.
      destruct Ha as (f & -> & Hf).
      pose proof (lookup_lt_Some _ _ _ Hf) as Hlt. rewrite length_drop in Hlt.
      pose proof (Forall_lookup_1 _ _ _ _ Hnex Hf) as Hne.
      rewrite lookup_drop in Hf. exists f. rewrite Nat2Z.id.
      repeat split; try assumption. consts. lia. }
    assert (Hnd : NoDup (ino :: M)).
    { apply NoDup_cons. split.
      - intros Hin. apply list_elem_of_lookup in Hin. destruct Hin as [a Ha].
        destruct (Hat a ino Ha) as (f & Hf & Hfi & Ha' & _).
        apply (Hclosed (Z.of_nat (1 + a)) f); [consts; lia|assumption|assumption].
      - apply NoDup_alt. intros a b x Ha Hb.
        destruct (Hat a x Ha) as (f1 & Hf1 & Hx1 & Ha' & Hne).
        destruct (Hat b x Hb) as (f2 & Hf2 & Hx2 & Hb' & _).
        assert (Z.of_nat (1 + a) = Z.of_nat (1 + b)); [|lia].
        apply (Hinj _ _ f1 f2); try assumption; try (consts; lia); congruence. }
    assert (Hsub : forall x, x ∈ ino :: M -> x ∈ seqZ 1 (NUM_INODES - 1)).
    { intros x Hx. apply elem_of_seqZ. apply elem_of_cons in Hx.
      destruct Hx as [->|Hx]; [consts; lia|].
      apply list_elem_of_lookup in Hx. destruct Hx as [a Ha].
      destruct (Hat a x Ha) as (f & Hf & Hfi & Ha' & Hne).
      destruct (Hrange (Z.of_nat (1 + a)) f) as [E|E]; [consts; lia|assumption| |];
        consts; lia. }
    pose proof (submseteq_length _ _ (NoDup_submseteq _ _ Hnd Hsub)) as Hle.
    rewrite length_seqZ in Hle. cbn [length] in Hle. unfold M in Hle.
    rewrite length_fmap, length_drop, Hlen in Hle. consts. lia.
Qed.

Lemma fopen_scan_free (fds : list file_descriptor_t) (target : Z) :
  forall (n : nat) (j0 free_fd : Z),
    1 <= j0 -> j0 + Z.of_nat n <= Z.of_nat (length fds) ->
    (forall j f, j0 <= j < j0 + Z.of_nat n -> fds !! Z.to_nat j = Some f -> inode f <> target) ->
    exists r, fopen_scan fds target n j0 free_fd = Ret (Some r) /\
      (free_fd <> -1 -> r = free_fd) /\
      (free_fd = -1 ->
       (exists j f, j0 <= j < j0 + Z.of_nat n /\ fds !! Z.to_nat j = Some f /\ inode f = -1) ->
       j0 <= r < j0 + Z.of_nat n).
Proof.
  induction n as [|n IH]; intros j0 free_fd Hj0 Hlen Hnot.
  - exists free_fd. split; [reflexivity|]. split; [auto|].
    intros _ (j & f & Hj & _). lia.
  - cbn [fopen_scan].
    destruct (arr_get_lt fds j0) as (f0 & Hget & Hf0); [lia|].
    rewrite Hget. cbn [bind].
    destruct (Z.eqb_spec (inode f0) target) as [E|_].
    { exfalso. apply (Hnot j0 f0); [lia|assumption|assumption]. }
    assert (Hnot' : forall j f, j0 + 1 <= j < j0 + 1 + Z.of_nat n ->
                      fds !! Z.to_nat j = Some f -> inode f <> target).
    { intros j f Hj. apply Hnot. lia. }
    destruct (Z.eqb_spec free_fd (-1)) as [Efree|Hnfree];
      [destruct (Z.eqb_spec (inode f0) (-1)) as [E0|Hne0]|]; cbn [andb].
    + destruct (IH (j0 + 1) j0) as (r & Hrun & Hkeep & _); [lia|lia|exact Hnot'|].
      exists r. split; [exact Hrun|]. split; [intros; lia|].
      intros _ _. rewrite Hkeep by lia. lia.
    + destruct (IH (j0 + 1) free_fd) as (r & Hrun & _ & Hfind); [lia|lia|exact Hnot'|].
      exists r. split; [exact Hrun|]. split; [intros; lia|].
      intros _ (j & f & Hj & Hf & Hfree).
      assert (j <> j0) by (intros ->; congruence).
      assert (j0 + 1 <= r < j0 + 1 + Z.of_nat n); [|lia].
      apply Hfind; [assumption|]. exists j, f. repeat split; try assumption; lia.
    + destruct (IH (j0 + 1) free_fd) as (r & Hrun & Hkeep & _); [lia|lia|exact Hnot'|].
      exists r. split; [exact Hrun|]. split; [exact Hkeep|]. intros; lia.
Qed.

Lemma getfilesize_loop_frame (path : string) (s s' : sfs) :
  root s' = root s -> inodes s' = inodes s ->
  forall (n : nat) (i0 sz : Z),
    getfilesize_loop path s' n i0 sz = getfilesize_loop path s n i0 sz.
Proof.
  intros Hr Hi. induction n as [|n IH]; intros i0 sz; [reflexivity|].
  cbn [getfilesize_loop]. rewrite Hr, Hi.
  destruct (arr_get (root s) i0) as [e| |]; cbn [bind]; try reflexivity.
  destruct (String.eqb path (names e)); [|apply IH].
  destruct (arr_get (inodes s) (i0 + 1)); cbn [bind]; [apply IH|reflexivity|reflexivity].
Qed.

Lemma getfilesize_loop_only (name : string) (s : sfs) (i : Z) (nd : inode_t) :
  shape s -> only_match s name i -> inodes s !! Z.to_nat (i + 1) = Some nd ->
  forall (n : nat) (i0 sz : Z),
    0 <= i0 -> i0 + Z.of_nat n <= NUM_FILE_INODES ->
    getfilesize_loop name s n i0 sz =
    Ret (if (i0 <=? i) && (i <? i0 + Z.of_nat n) then to_int (size nd) else sz).
Proof.
  intros Hs (Hi & (e & He & Hname) & Honly) Hnd.
  induction n as [|n IH]; intros i0 sz Hi0 Hlen.
  - cbn [getfilesize_loop]. f_equal.
    destruct (Z.leb_spec i0 i); destruct (Z.ltb_spec i (i0 + Z.of_nat 0)); try reflexivity; lia.
  - cbn [getfilesize_loop].
    destruct (arr_get_lt (root s) i0) as (e0 & Hget & He0).
    { rewrite (shape_root s Hs). lia. }
    rewrite Hget. cbn [bind].
    destruct (String.eqb_spec name (names e0)) as [E|Hne].
    + assert (i0 = i) as -> by (apply (Honly i0 e0); auto).
      rewrite (arr_get_Ret _ _ nd) by (lia || assumption). cbn [bind].
      rewrite IH by lia. f_equal.
      destruct (Z.leb_spec (i + 1) i); [lia|]. cbn [andb].
      destruct (Z.leb_spec i i); [|lia].
      destruct (Z.ltb_spec i (i + Z.of_nat (S n))); [reflexivity|lia].
    + assert (i0 <> i) by (intros ->; congruence).
      rewrite IH by lia. f_equal.
      destruct (Z.leb_spec (i0 + 1) i); destruct (Z.leb_spec i0 i); try lia;
        destruct (Z.ltb_spec i (i0 + 1 + Z.of_nat n));
        destruct (Z.ltb_spec i (i0 + Z.of_nat (S n))); try lia; reflexivity.
Qed.

Lemma fopen_reopen (s : sfs) (name : string) (i : Z) (nd : inode_t) :
  shape s -> fdt_files_ok s -> strlen name < MAX_FILENAME ->
  only_match s name i -> inodes s !! Z.to_nat (i + 1) = Some nd ->
  not_open s (i + 1) -> 0 <= size nd < 2 ^ 31 ->
  exists fd s',
    sfs_fopen name s = Ret (fd, s') /\ 1 <= fd < NUM_INODES /\ shape s' /\
    fdt s' = <[Z.to_nat fd := mk_fd (i + 1) (size nd)]> (fdt s) /\
    inodes s' = <[Z.to_nat (i + 1) := with_link_cnt nd 1]> (inodes s) /\
    free_blocks s' = free_blocks s /\ disk s' = disk s /\ num_files s' = num_files s.
Proof.
  intros Hs Hfd Hlen Honly Hnd Hclosed Hsize.
  pose proof Honly as (Hi & (e & He & Hname) & Huniq).
  pose proof (lookup_lt_Some _ _ _ He) as Hlt. rewrite (shape_root s Hs) in Hlt.
  destruct (free_fd_exists s (i + 1) Hs Hfd) as (jf & ff & Hjf & Hff & Hfree);
    [consts; lia|assumption|].
  unfold sfs_fopen. rewrite Z.geb_leb.
  destruct (Z.leb_spec MAX_FILENAME (strlen name)); [lia|].
  rewrite (fopen_existing_reach name s i); [|lia|lia|rewrite (shape_root s Hs); lia|].
  2:{ intros i' e' Hi' He' Hn. specialize (Huniq i' e' ltac:(lia) He' Hn). lia. }
  cbn [fopen_existing].
  rewrite (arr_get_Ret _ _ e Hi He). cbn [bind].
  rewrite Hname, String.eqb_refl.
  destruct (fopen_scan_free (fdt s) (i + 1) (Z.to_nat (NUM_INODES - 1)) 1 (-1))
    as (r & Hscan & _ & Hr); [lia|rewrite (shape_fdt s Hs); consts; lia| |].
  { intros j f Hj. apply Hclosed. consts. lia. }
  assert (Hr' : 1 <= r < NUM_INODES).
  { assert (1 <= r < 1 + Z.of_nat (Z.to_nat (NUM_INODES - 1))); [|consts; lia].
    apply Hr; [reflexivity|]. exists jf, ff. repeat split; try assumption; consts; lia. }
  rewrite Hscan. cbn [bind].
  destruct (Z.eqb_spec r (-1)); [lia|].
  destruct (lookup_lt_is_Some_2 (fdt s) (Z.to_nat r)) as [fr Hfr].
  { rewrite (shape_fdt s Hs). consts. lia. }
  rewrite (upd_fd_Ret s r _ fr) by (lia || assumption). cbn [bind].
  unfold sfs_getfilesize.
  rewrite (getfilesize_loop_frame name s) by reflexivity.
  rewrite (getfilesize_loop_only name s i nd Hs Honly Hnd) by lia.
  destruct (Z.leb_spec 0 i); [|lia].
  destruct (Z.ltb_spec i (0 + Z.of_nat (Z.to_nat NUM_FILE_INODES))); [|lia].
  cbn [andb bind].
  erewrite upd_fd_Ret; [|lia|].
  2:{ cbn [fdt set_fdt]. apply list_lookup_insert_eq. apply lookup_lt_Some in Hfr. exact Hfr. }
  cbn [bind fdt set_fdt inode]. rewrite list_insert_insert_eq.
  change (set_fdt (set_fdt ?a ?b) ?c) with (set_fdt a c).
  erewrite upd_root_Ret; [|lia|cbn; exact He]. cbn [bind].
  erewrite upd_inode_Ret; [|lia|cbn; exact Hnd]. cbn [bind].
  rewrite to_int_small by lia. rewrite to_u64_small by lia.
  eexists _, _. split; [reflexivity|]. split; [assumption|].
  split; [|repeat split; reflexivity].
  destruct Hs as [Ha Hb Hc Hd]. split; cbn; rewrite ?length_insert; assumption.
Qed.

(** C8.  Opening a file that is in the directory and not open returns a
    descriptor whose r/w pointer is the file's size; and the sequence open
    "a", write "xxx", close, open "a", write "y", close on a fresh file
    system leaves "a" with the contents "xxxy" and size 4. *)
Theorem fopen_appends_at_end :
  (forall (s : sfs) (name : string) (i : Z) (nd : inode_t),
      shape s -> fdt_files_ok s -> strlen name < MAX_FILENAME ->
      only_match s name i -> inodes s !! Z.to_nat (i + 1) = Some nd ->
      0 <= size nd <= MAX_FILE_BYTES -> not_open s (i + 1) ->
      exists fd s',
        sfs_fopen name s = Ret (fd, s') /\ 1 <= fd < NUM_INODES /\
        fdt s' !! Z.to_nat fd = Some (mk_fd (i + 1) (size nd))) /\
  append_scenario = Ret (3, 4, [x78; x78; x78; x79], 4, [x78; x78; x78; x79]).
Proof.
  split; [|vm_compute; reflexivity].
  intros s name i nd Hs Hfd Hlen Honly Hnd Hsize Hclosed.
  destruct (fopen_reopen s name i nd Hs Hfd Hlen Honly Hnd Hclosed)
    as (fd & s' & Hrun & Hrange & Hs' & Hfdt & _); [consts; lia|].
  exists fd, s'. split; [exact Hrun|]. split; [exact Hrange|].
  rewrite Hfdt. apply list_lookup_insert_eq.
  rewrite (shape_fdt s Hs). consts. lia.
Qed.

Lemma closed_state_lookup (name : string) (j : Z) (f : file_descriptor_t) :
  1 <= j -> fdt (closed_state name) !! Z.to_nat j = Some f -> inode f = -1.
Proof.
  intros Hj Hf. destruct (Z.to_nat j) as [|j'] eqn:E; [lia|].
  cbn [closed_state set_fdt fdt lookup list_lookup] in Hf.
  apply list_elem_of_lookup_2, elem_of_replicate in Hf. destruct Hf as [-> _]. reflexivity.
Qed.

Lemma fopen_appends_at_end_witness :
  exists fd s',
    sfs_fopen "f" (closed_state "f") = Ret (fd, s') /\ 1 <= fd < NUM_INODES /\
    fdt s' !! Z.to_nat fd = Some (mk_fd (0 + 1) 0).
Proof.
  destruct fopen_appends_at_end as [H _].
  apply (H (closed_state "f") "f"%string 0 (mk_inode 1 1 0 (replicate (Z.to_nat NUM_DIRECT_POINTERS) 0) 0)).
  - split; reflexivity.
  - split.
    + intros j f Hj Hf. left. apply (closed_state_lookup "f" j f); [lia|exact Hf].
    + intros j1 j2 f1 f2 Hj1 Hj2 Hf1 Hf2 _ Hne. exfalso. apply Hne.
      apply (closed_state_lookup "f" j1 f1); [lia|exact Hf1].
  - vm_compute. reflexivity.
  - split; [lia|]. split.
    + exists (mk_dirent 1 "f"). split; reflexivity.
    + intros k e' Hk He' Hname.
      destruct (Z.to_nat k) as [|k'] eqn:E; [lia|].
      cbn [closed_state opened_state set_fdt root lookup list_lookup] in He'.
      apply list_elem_of_lookup_2, elem_of_replicate in He'. destruct He' as [-> _].
      discriminate Hname.
  - reflexivity.
  - cbn [size]. consts. lia.
  - intros j f Hj Hf. rewrite (closed_state_lookup "f" j f); [lia|lia|exact Hf].
Defined.

(** ** sfs_fread *)

Lemma at_rwptr_id (s : sfs) (fd : Z) (f : file_descriptor_t) :
  fdt s !! Z.to_nat fd = Some f -> at_rwptr s fd (inode f) (rwptr f) = s.
Proof.
  intros Hf. unfold at_rwptr. destruct f as [i r]. cbn [inode rwptr].
  rewrite list_insert_id by exact Hf. destruct s. reflexivity.
Qed.

Lemma at_rwptr_twice (s : sfs) (fd ino r ino' r' : Z) :
  at_rwptr (at_rwptr s fd ino r) fd ino' r' = at_rwptr s fd ino' r'.
Proof.
  unfold at_rwptr. cbn [fdt set_fdt]. rewrite list_insert_insert_eq. reflexivity.
Qed.

Lemma at_rwptr_lookup (s : sfs) (fd ino r : Z) (f : file_descriptor_t) :
  fdt s !! Z.to_nat fd = Some f ->
  fdt (at_rwptr s fd ino r) !! Z.to_nat fd = Some (mk_fd ino r).
Proof.
  intros Hf. unfold at_rwptr. cbn [fdt set_fdt].
  apply list_lookup_insert_eq. apply lookup_lt_Some in Hf. exact Hf.
Qed.

Lemma set_rwptr_at (s : sfs) (fd r : Z) (f : file_descriptor_t) :
  fdt s !! Z.to_nat fd = Some f -> set_rwptr s fd r = at_rwptr s fd (inode f) r.
Proof. intros Hf. unfold set_rwptr. rewrite Hf. reflexivity. Qed.

Section ReadLoop.

Variables (s : sfs) (fd : Z) (f : file_descriptor_t) (nd : inode_t) (n : Z).
Hypothesis Hfd : 0 <= fd.
Hypothesis Hf : fdt s !! Z.to_nat fd = Some f.
Hypothesis Hino : 0 < inode f.
Hypothesis Hnd : inodes s !! Z.to_nat (inode f) = Some nd.
Hypothesis Hp : 0 <= rwptr f.
Hypothesis Hn : rwptr f + n <= size nd.
Hypothesis Hsize : size nd <= MAX_FILE_BYTES.
Hypothesis Hholes : no_holes s nd.

Lemma fread_locate_ok (v : rvars) (r : Z) :
  read_inv s nd (rwptr f) n v r -> r < rwptr f + n ->
  exists loaded pb,
    fread_locate (inode f) v (at_rwptr s fd (inode f) r)
    = Ret (Some (read_blocks (disk s) (block_ptr s nd (r / BLOCK_SIZE))), loaded, pb) /\
    (loaded = true -> pb = load_ptr_buff (disk s) (indirect nd)).
Proof using All.
  intros Hinv Hr. destruct Hinv as [Hpos Htodo Hrange Hflag Hblock Hptrs Hlen Hout].
  destruct (Hholes (r / BLOCK_SIZE)) as [Hptr _]; [consts; lia|consts; lia|].
  unfold fread_locate. cbn [at_rwptr inodes set_fdt disk].
  rewrite (arr_get_Ret _ _ nd) by (lia || assumption). cbn [bind].
  rewrite Hblock. unfold block_ptr in *.
  destruct (Z.ltb_spec (r / BLOCK_SIZE) NUM_DIRECT_POINTERS) as [Hd|Hd].
  - destruct (direct nd !! Z.to_nat (r / BLOCK_SIZE)) as [d|] eqn:Ed; cbn [default from_option id] in *;
      [|lia].
    rewrite (arr_get_Ret _ _ d) by (consts; lia || assumption). cbn [bind].
    rewrite Z.gtb_ltb. destruct (Z.ltb_spec 0 d); [|lia].
    eexists _, _. split; [reflexivity|]. exact Hptrs.
  - rewrite Z.gtb_ltb in *. destruct (Z.ltb_spec 0 (indirect nd)) as [Hi|Hi]; [|lia].
    set (pb := load_ptr_buff (disk s) (indirect nd)) in *.
    destruct (pb !! Z.to_nat (r / BLOCK_SIZE - NUM_DIRECT_POINTERS)) as [q|] eqn:Eq;
      cbn [default from_option id] in *; [|lia].
    assert (Hget : arr_get pb (r / BLOCK_SIZE - NUM_DIRECT_POINTERS) = Ret q)
      by (apply arr_get_Ret; [lia|exact Eq]).
    destruct (r_did_load_ptr_buff v) eqn:El; cbn [negb andb].
    + rewrite (Hptrs eq_refl). fold pb. rewrite Hget. cbn [bind].
      rewrite Z.gtb_ltb. destruct (Z.ltb_spec 0 q); [|lia].
      eexists _, _. split; [reflexivity|]. reflexivity.
    + rewrite Hget. cbn [bind].
      rewrite Z.gtb_ltb. destruct (Z.ltb_spec 0 q); [|lia].
      eexists _, _. split; [reflexivity|]. reflexivity.
Qed.

Lemma fread_body_ok (v : rvars) (r : Z) :
  read_inv s nd (rwptr f) n v r -> r < rwptr f + n ->
  exists v' r',
    fread_body fd (inode f) v (at_rwptr s fd (inode f) r)
    = Ret (v', at_rwptr s fd (inode f) r') /\
    read_inv s nd (rwptr f) n v' r' /\
    (r' = rwptr f + n \/ (r' < rwptr f + n /\ r' / BLOCK_SIZE = r / BLOCK_SIZE + 1)).
Proof using All.
  intros Hinv Hr.
  destruct (fread_locate_ok v r Hinv Hr) as (loaded & pb & Hloc & Hpb).
  destruct Hinv as [Hpos Htodo Hrange Hflag Hblock Hptrs Hlen Hout].
  destruct (Hholes (r / BLOCK_SIZE)) as [_ Hblk]; [consts; lia|consts; lia|].
  unfold fread_body. rewrite Hloc. cbn [bind].
  rewrite (arr_get_Ret _ _ (mk_fd (inode f) r)) by
    (try lia; apply (at_rwptr_lookup s fd (inode f) r f Hf)).
  cbn [bind rwptr r_bytes_to_read r_bytes_read r_out r_current_block].
  set (bc := if r_bytes_to_read v <=? BLOCK_SIZE - r mod BLOCK_SIZE
             then r_bytes_to_read v else BLOCK_SIZE - r mod BLOCK_SIZE).
  assert (Hbc : 0 < bc /\ bc <= r_bytes_to_read v /\ bc <= BLOCK_SIZE - r mod BLOCK_SIZE /\
                (bc = r_bytes_to_read v \/ bc = BLOCK_SIZE - r mod BLOCK_SIZE)).
  { unfold bc. consts.
    destruct (Z.leb_spec (r_bytes_to_read v) (1024 - r mod 1024)); lia. }
  rewrite Z.gtb_ltb. destruct (Z.ltb_spec 0 bc); [|lia].
  erewrite upd_fd_Ret; [|lia|apply (at_rwptr_lookup s fd (inode f) r f Hf)].
  cbn [bind inode rwptr].
  change (set_fdt (at_rwptr s fd (inode f) r) ?l) with (set_fdt s l).
  unfold at_rwptr at 1 2. cbn [fdt set_fdt]. rewrite list_insert_insert_eq.
  rewrite to_u64_small by (consts; lia).
  fold (at_rwptr s fd (inode f) (r + bc)).
  rewrite (arr_get_Ret _ _ (mk_fd (inode f) (r + bc))) by
    (try lia; apply (at_rwptr_lookup s fd (inode f) (r + bc) f Hf)).
  cbn [bind rwptr].
  rewrite to_int_small by (consts; lia).
  eexists _, (r + bc). split; [reflexivity|]. split.
  - set (buff := read_blocks (disk s) (block_ptr s nd (r / BLOCK_SIZE))) in *.
    assert (Hchunk : length (take (Z.to_nat bc) (drop (Z.to_nat (r mod BLOCK_SIZE)) buff))
                     = Z.to_nat bc).
    { rewrite length_take, length_drop, Hblk. consts. lia. }
    split; cbn [r_bytes_read r_bytes_to_read r_did_write_to_buf r_current_block
                r_did_load_ptr_buff r_ptr_buff r_out]; try lia; try reflexivity.
    + exact Hpb.
    + rewrite length_app, Hchunk. lia.
    + intros k Hk.
      destruct (Z.lt_ge_cases k (r_bytes_read v)) as [Hlt|Hge].
      * rewrite lookup_app_l by lia. apply Hout. lia.
      * rewrite lookup_app_r by lia.
        rewrite lookup_take_lt by lia. rewrite lookup_drop.
        unfold file_byte.
        replace ((rwptr f + k) / BLOCK_SIZE) with (r / BLOCK_SIZE) by (consts; lia).
        fold buff. f_equal. consts. lia.
  - destruct (Z.eq_dec (r + bc) (rwptr f + n)); [left; assumption|right].
    consts. lia.
Qed.

Lemma fread_loop_ok :
  forall (fuel : nat) (v : rvars) (r : Z),
    read_inv s nd (rwptr f) n v r ->
    (r < rwptr f + n -> (rwptr f + n - 1) / BLOCK_SIZE - r / BLOCK_SIZE < Z.of_nat fuel) ->
    exists v',
      fread_loop fuel fd (inode f) v (at_rwptr s fd (inode f) r)
      = Ret (v', at_rwptr s fd (inode f) (rwptr f + n)) /\
      read_inv s nd (rwptr f) n v' (rwptr f + n).
Proof using All.
  induction fuel as [|fuel IH]; intros v r Hinv Hfuel.
  - assert (Hdone : r = rwptr f + n).
    { destruct Hinv. destruct (Z.lt_ge_cases r (rwptr f + n)) as [Hlt|]; [|lia].
      specialize (Hfuel Hlt). consts. lia. }
    subst r. exists v. split; [|exact Hinv].
    cbn [fread_loop]. destruct Hinv as [Hpos Htodo _ _ _ _ _ _].
    rewrite Z.gtb_ltb. destruct (Z.ltb_spec 0 (r_bytes_to_read v)); [lia|].
    rewrite andb_false_r. reflexivity.
  - destruct (Z.lt_ge_cases r (rwptr f + n)) as [Hlt|Hge].
    + destruct (fread_body_ok v r Hinv Hlt) as (v1 & r1 & Hbody & Hinv1 & Hr1).
      cbn [fread_loop]. pose proof Hinv as [Hpos Htodo Hrange Hflag Hblock _ _ _].
      rewrite Hflag, Z.gtb_ltb.
      destruct (Z.ltb_spec 0 (r_bytes_to_read v)); [|lia].
      destruct (Z.ltb_spec (r_current_block v) (MAX_DATA_BLOCKS_PER_FILE - 1));
        [|consts; lia].
      cbn [andb]. rewrite Hbody. cbn [bind].
      apply IH; [exact Hinv1|].
      intros Hlt1. specialize (Hfuel Hlt). destruct Hr1 as [->|[_ Hr1]]; lia.
    + assert (r = rwptr f + n) as -> by (destruct Hinv; lia).
      exists v. split; [|exact Hinv].
      cbn [fread_loop]. destruct Hinv as [Hpos Htodo _ _ _ _ _ _].
      rewrite Z.gtb_ltb. destruct (Z.ltb_spec 0 (r_bytes_to_read v)); [lia|].
      rewrite andb_false_r. reflexivity.
Qed.

End ReadLoop.

Lemma decode_ptrs_length_le (n : nat) :
  forall b : list byte, (length (decode_ptrs n b) <= n)%nat.
Proof.
  induction n as [|n IH]; intros b; [cbn; lia|].
  destruct b as [|b0 [|b1 [|b2 [|b3 r]]]]; cbn [decode_ptrs length]; try lia.
  specialize (IH r). lia.
Qed.

Lemma no_holes_size (s : sfs) (nd : inode_t) :
  no_holes s nd -> size nd <= MAX_FILE_BYTES.
Proof.
  intros Hholes. destruct (Z.le_gt_cases (size nd) MAX_FILE_BYTES) as [|Hbig]; [assumption|].
  exfalso. destruct (Hholes 268) as [Hptr _]; [lia|consts; lia|].
  unfold block_ptr in Hptr. change (268 <? NUM_DIRECT_POINTERS) with false in Hptr.
  cbn match in Hptr.
  destruct (indirect nd >? 0); [|lia].
  rewrite lookup_ge_None_2 in Hptr; [cbn in Hptr; lia|].
  unfold load_ptr_buff.
  pose proof (decode_ptrs_length_le (Z.to_nat (NUM_POINTERS_IN_INDIRECT - 1))
                (read_blocks (disk s) (indirect nd))).
  consts. lia.
Qed.

Lemma fread_delivers (s : sfs) (fd len : Z) (f : file_descriptor_t) (nd : inode_t) :
  0 <= fd -> fdt s !! Z.to_nat fd = Some f ->
  0 < len -> 0 < inode f -> inodes s !! Z.to_nat (inode f) = Some nd ->
  0 <= rwptr f < size nd -> no_holes s nd ->
  exists out,
    sfs_fread fd len s
    = Ret (Z.min len (size nd - rwptr f), out,
           set_rwptr s fd (rwptr f + Z.min len (size nd - rwptr f))) /\
    Z.of_nat (length out) = Z.min len (size nd - rwptr f) /\
    forall k : Z, 0 <= k < Z.min len (size nd - rwptr f) ->
                  out !! Z.to_nat k = file_byte s nd (rwptr f + k).
Proof.
  intros Hfd Hf Hlen Hino Hnd Hp Hholes.
  set (n := Z.min len (size nd - rwptr f)).
  pose proof (no_holes_size s nd Hholes) as Hsize.
  unfold sfs_fread. destruct (Z.leb_spec len 0); [lia|].
  rewrite (arr_get_Ret _ _ f Hfd Hf). cbn [bind].
  destruct (Z.leb_spec (inode f) 0); [lia|].
  rewrite (arr_get_Ret _ _ nd) by (lia || assumption). cbn [bind].
  rewrite Z.geb_leb. destruct (Z.leb_spec (size nd) (rwptr f)); [lia|].
  rewrite !to_int_small by (consts; lia).
  set (v0 := mk_rvars _ _ _ _ _ _ _).
  assert (Hn : r_bytes_to_read v0 = n).
  { unfold v0, n. cbn [r_bytes_to_read].
    destruct (Z.ltb_spec (size nd - rwptr f) len); lia. }
  assert (Hinv : read_inv s nd (rwptr f) n v0 (rwptr f)).
  { split; rewrite ?Hn; unfold v0;
      cbn [r_bytes_read r_did_write_to_buf r_current_block r_did_load_ptr_buff r_out length];
      try lia; try reflexivity; try discriminate. }
  destruct (fread_loop_ok s fd f nd n Hfd Hf Hino Hnd ltac:(lia) ltac:(lia) Hsize Hholes
              loop_fuel v0 (rwptr f) Hinv) as (v' & Hloop & Hinv').
  { intros _. unfold loop_fuel. consts. lia. }
  rewrite (at_rwptr_id s fd f Hf) in Hloop. rewrite Hloop. cbn [bind].
  destruct Hinv' as [Hpos Htodo Hrange Hflag Hblock Hptrs Hlen' Hout].
  assert (Hread : r_bytes_read v' = n) by lia.
  exists (r_out v'). rewrite (set_rwptr_at s fd _ f Hf), Hread.
  split; [reflexivity|]. split; [lia|].
  intros k Hk. apply Hout. lia.
Qed.

(** C6.  sfs_fread returns 0 and changes nothing when the length is not
    positive, when the descriptor is not bound to a file, or when the r/w
    pointer is at or beyond the size.  Otherwise, on a file without holes,
    it delivers exactly min(length, size - rwptr) bytes, which are the bytes
    of the file from the r/w pointer on, returns that count and advances the
    r/w pointer by it; nothing else changes. *)
Theorem fread_spec (s : sfs) (fd len : Z) (f : file_descriptor_t) :
  0 <= fd -> fdt s !! Z.to_nat fd = Some f ->
  (len <= 0 -> sfs_fread fd len s = Ret (0, [], s)) /\
  (inode f <= 0 -> sfs_fread fd len s = Ret (0, [], s)) /\
  (forall nd, 0 < inode f -> inodes s !! Z.to_nat (inode f) = Some nd ->
              size nd <= rwptr f -> sfs_fread fd len s = Ret (0, [], s)) /\
  (forall nd, 0 < len -> 0 < inode f -> inodes s !! Z.to_nat (inode f) = Some nd ->
              0 <= rwptr f < size nd -> no_holes s nd ->
              let n := Z.min len (size nd - rwptr f) in
              exists out,
                sfs_fread fd len s = Ret (n, out, set_rwptr s fd (rwptr f + n)) /\
                Z.of_nat (length out) = n /\
                forall k : Z, 0 <= k < n ->
                              out !! Z.to_nat k = file_byte s nd (rwptr f + k)).
Proof.
  intros Hfd Hf. repeat split.
  - intros Hlen. unfold sfs_fread. destruct (Z.leb_spec len 0); [reflexivity|lia].
  - intros Hino. unfold sfs_fread. destruct (Z.leb_spec len 0); [reflexivity|].
    rewrite (arr_get_Ret _ _ f Hfd Hf). cbn [bind].
    destruct (Z.leb_spec (inode f) 0); [reflexivity|lia].
  - intros nd Hino Hnd Heof. unfold sfs_fread. destruct (Z.leb_spec len 0); [reflexivity|].
    rewrite (arr_get_Ret _ _ f Hfd Hf). cbn [bind].
    destruct (Z.leb_spec (inode f) 0); [lia|].
    rewrite (arr_get_Ret _ _ nd) by (lia || assumption). cbn [bind].
    rewrite Z.geb_leb. destruct (Z.leb_spec (size nd) (rwptr f)); [reflexivity|lia].
  - intros nd Hlen Hino Hnd Hp Hholes n.
    apply (fread_delivers s fd len f nd); assumption.
Qed.

Lemma hello_state_eq :
  fdt hello_state !! Z.to_nat 1 = Some (mk_fd 1 0) /\
  inodes hello_state !! Z.to_nat 1 = Some hello_inode.
Proof. split; vm_compute; reflexivity. Qed.

Lemma fread_spec_witness :
  exists out,
    sfs_fread 1 5 hello_state = Ret (5, out, set_rwptr hello_state 1 5) /\
    Z.of_nat (length out) = 5 /\
    forall k : Z, 0 <= k < 5 -> out !! Z.to_nat k = file_byte hello_state hello_inode k.
Proof.
  destruct hello_state_eq as [Hf Hnd].
  destruct (fread_spec hello_state 1 5 (mk_fd 1 0) ltac:(lia) Hf) as (_ & _ & _ & H).
  apply (H hello_inode); try assumption; try (cbn; consts; lia).
  intros b Hb Hlt. cbn [size hello_inode] in Hlt. consts.
  assert (b = 0) as -> by lia. split; vm_compute; reflexivity.
Defined.

(** ** sfs_fwrite: allocation *)

Lemma gfba_loop_spec (fb : list Z) :
  forall (n : nat) (i : Z),
    0 <= i -> i + Z.of_nat n <= Z.of_nat (length fb) ->
    exists e, gfba_loop fb n i = Ret e /\
      ((e = -1 /\ forall k : Z, i <= k < i + Z.of_nat n -> fb !! Z.to_nat k <> Some 0) \/
       (i <= e < i + Z.of_nat n /\ fb !! Z.to_nat e = Some 0 /\
        forall k : Z, i <= k < e -> fb !! Z.to_nat k <> Some 0)).
Proof.
  induction n as [|n IH]; intros i Hi Hlen.
  - exists (-1). split; [reflexivity|]. left. split; [reflexivity|]. intros k Hk. lia.
  - cbn [gfba_loop].
    destruct (arr_get_lt fb i) as (x & Hget & Hx); [lia|].
    rewrite Hget. cbn [bind].
    destruct (Z.eqb_spec x 0) as [->|Hne].
    + exists i. split; [reflexivity|]. right. split; [lia|]. split; [assumption|].
      intros k Hk. lia.
    + destruct (IH (i + 1)) as (e & Hrun & Hres); [lia|lia|].
      exists e. split; [exact Hrun|].
      assert (Hi0 : fb !! Z.to_nat i <> Some 0) by congruence.
      destruct Hres as [[-> Hno]|(He & Hz & Hno)].
      * left. split; [reflexivity|]. intros k Hk.
        destruct (Z.eq_dec k i) as [->|]; [assumption|apply Hno; lia].
      * right. split; [lia|]. split; [assumption|]. intros k Hk.
        destruct (Z.eq_dec k i) as [->|]; [assumption|apply Hno; lia].
Qed.

Lemma get_free_bitmap_address_spec (s : sfs) :
  shape s ->
  exists e, get_free_bitmap_address s = Ret e /\
    ((e = -1 /\ forall k : Z, 0 <= k < MAX_DATA_BLOCKS_SCALED_DOWN ->
                              free_blocks s !! Z.to_nat k <> Some 0) \/
     (0 <= e < MAX_DATA_BLOCKS_SCALED_DOWN /\ free_blocks s !! Z.to_nat e = Some 0 /\
      forall k : Z, 0 <= k < e -> free_blocks s !! Z.to_nat k <> Some 0)).
Proof.
  intros Hs. unfold get_free_bitmap_address.
  destruct (gfba_loop_spec (free_blocks s) (Z.to_nat MAX_DATA_BLOCKS_SCALED_DOWN) 0)
    as (e & Hrun & Hres); [lia|rewrite (shape_bitmap s Hs); lia|].
  exists e. split; [exact Hrun|].
  destruct Hres as [[-> Hno]|(He & Hz & Hno)].
  - left. split; [reflexivity|]. intros k Hk. apply Hno. lia.
  - right. split; [lia|]. split; [assumption|]. intros k Hk. apply Hno. lia.
Qed.

Lemma set_bitmap_Ret (s : sfs) (e x : Z) :
  shape s -> 0 <= e < MAX_DATA_BLOCKS_SCALED_DOWN ->
  set_bitmap s e x = Ret (set_free_blocks s (<[Z.to_nat e := x]> (free_blocks s))).
Proof.
  intros Hs He. unfold set_bitmap. rewrite arr_set_Ret; [reflexivity|].
  rewrite (shape_bitmap s Hs). lia.
Qed.

Lemma shape_set_free_blocks (s : sfs) (e : nat) (x : Z) :
  shape s -> shape (set_free_blocks s (<[e := x]> (free_blocks s))).
Proof.
  intros [Ha Hb Hc Hd]. split; cbn; rewrite ?length_insert; assumption.
Qed.

Lemma shape_set_inodes (s : sfs) (i : nat) (x : inode_t) :
  shape s -> shape (set_inodes s (<[i := x]> (inodes s))).
Proof.
  intros [Ha Hb Hc Hd]. split; cbn; rewrite ?length_insert; assumption.
Qed.

Lemma shape_set_fdt (s : sfs) (i : nat) (x : file_descriptor_t) :
  shape s -> shape (set_fdt s (<[i := x]> (fdt s))).
Proof.
  intros [Ha Hb Hc Hd]. split; cbn; rewrite ?length_insert; assumption.
Qed.

Lemma shape_set_disk (s : sfs) (d : disk_t) : shape s -> shape (set_disk s d).
Proof. intros [Ha Hb Hc Hd]. split; assumption. Qed.

Lemma ptr_ok_alloc (e : Z) :
  0 <= e < MAX_DATA_BLOCKS_SCALED_DOWN ->
  to_uint (e + DATA_BLOCKS_OFFSET) = e + DATA_BLOCKS_OFFSET /\
  ptr_ok (e + DATA_BLOCKS_OFFSET).
Proof.
  intros He. split; [apply to_uint_small; consts; lia|].
  right. consts. lia.
Qed.

Lemma ptr_ok_entry (p : Z) :
  ptr_ok p -> 0 < p ->
  to_int (p - DATA_BLOCKS_OFFSET) = p - DATA_BLOCKS_OFFSET /\
  0 <= p - DATA_BLOCKS_OFFSET < MAX_DATA_BLOCKS_SCALED_DOWN.
Proof.
  intros [->|Hp] Hpos; [lia|]. split; [apply to_int_small|]; consts; lia.
Qed.

Ltac proj_simpl :=
  cbn [w_bytes_written w_bytes_to_write w_current_block w_rwptr_size_offset
       w_did_load_ptr_buff w_ptr_buff w_did_write_to_disk w_set_did_write w_set_ptr_buff
       fdt inodes free_blocks disk root num_files curr_file super
       set_fdt set_inodes set_free_blocks set_disk set_root
       mode link_cnt size direct indirect inode rwptr
       with_direct with_indirect with_size with_mode with_link_cnt] in *.

Ltac shape_tac :=
  match goal with
  | H : shape _ |- shape _ =>
      let Ha := fresh in let Hb := fresh in let Hc := fresh in let Hd := fresh in
      destruct H as [Ha Hb Hc Hd]; split; proj_simpl; rewrite ?length_insert; assumption
  end.

Section WriteLoop.

Variables (fd ino p len sz : Z) (buf : list byte).
Hypothesis Hfd : 0 <= fd.
Hypothesis Hino : 0 < ino.
Hypothesis Hp : 0 <= p.
Hypothesis Hbuf : len <= Z.of_nat (length buf).
Hypothesis Hsz : 0 <= sz <= MAX_FILE_BYTES.

Lemma fwrite_locate_ok (v : wvars) (s : sfs) (r : Z) :
  write_inv fd ino p len sz v s r ->
  r / BLOCK_SIZE < MAX_DATA_BLOCKS_PER_FILE - 1 ->
  exists res v1 s1,
    fwrite_locate ino (w_set_did_write v false) s = Ret (res, v1, s1) /\
    write_inv fd ino p len sz v1 s1 r /\
    (forall e buff, res = Some (e, buff) -> 0 <= e < MAX_DATA_BLOCKS_SCALED_DOWN).
Proof using All.
  intros Hinv Hcb.
  destruct Hinv as [Hs Hfdt (n & Hn & Hsize & Hdl & Hdok & Hiok & Hload)
                       Hw Ht Hr Hmax Hb Hoff Hptrs].
  unfold fwrite_locate. cbn [w_set_did_write w_current_block]. rewrite Hb.
  rewrite (arr_get_Ret _ _ n) by (lia || assumption). cbn [bind].
  destruct (Z.ltb_spec (r / BLOCK_SIZE) NUM_DIRECT_POINTERS) as [Hd|Hd].
  - destruct (arr_get_lt (direct n) (r / BLOCK_SIZE)) as (d & Hget & Hdd).
    { rewrite Hdl. consts. lia. }
    rewrite Hget. cbn [bind].
    pose proof (Forall_lookup_1 _ _ _ _ Hdok Hdd) as Hd_ok.
    rewrite Z.gtb_ltb. destruct (Z.ltb_spec 0 d) as [Hpos|Hzero].
    + eexists _, _, _. split; [reflexivity|]. split.
      * split; proj_simpl; eauto 10.
      * intros e buff [= <- _]. destruct (ptr_ok_entry d Hd_ok Hpos) as [-> ?]. assumption.
    + destruct (get_free_bitmap_address_spec s Hs) as (e & Hg & [[-> _]|(He & _)]);
        rewrite Hg; cbn [bind].
      * eexists _, _, _. split; [reflexivity|]. split; [|discriminate].
        split; proj_simpl; eauto 10.
      * destruct (Z.eqb_spec e (-1)); [lia|].
        rewrite (set_bitmap_Ret s e 1 Hs He). cbn [bind].
        rewrite arr_set_Ret by (rewrite Hdl; consts; lia). cbn [bind].
        erewrite upd_inode_Ret; [|lia|proj_simpl; exact Hn]. cbn [bind].
        destruct (ptr_ok_alloc e He) as [Hu Hok].
        eexists _, _, _. split; [reflexivity|]. split.
        -- split; proj_simpl; try assumption; [shape_tac|].
           eexists. split; [apply list_lookup_insert_eq; apply lookup_lt_Some in Hn; exact Hn|].
           proj_simpl. rewrite length_insert. repeat split; try assumption.
           apply Forall_insert; [assumption|]. rewrite Hu. exact Hok.
        -- intros e' buff [= <- _]. assumption.
  - assert (Hstage : exists (ok : bool) v1 s1,
      fwrite_ensure_indirect ino n (w_set_did_write v false) s = Ret (ok, v1, s1) /\
      write_inv fd ino p len sz v1 s1 r /\
      (ok = true -> w_did_load_ptr_buff v1 = true)).
    { unfold fwrite_ensure_indirect.
      destruct (Z.leb_spec (indirect n) 0) as [Hzero|Hpos].
      - destruct (get_free_bitmap_address_spec s Hs) as (e & Hg & [[-> _]|(He & _)]);
          rewrite Hg; cbn [bind].
        + eexists _, _, _. split; [reflexivity|]. split; [|discriminate].
          split; proj_simpl; eauto 10.
        + destruct (Z.eqb_spec e (-1)); [lia|].
          rewrite (set_bitmap_Ret s e 1 Hs He). cbn [bind].
          erewrite upd_inode_Ret; [|lia|proj_simpl; exact Hn]. cbn [bind].
          destruct (ptr_ok_alloc e He) as [Hu Hok].
          eexists _, _, _. split; [reflexivity|]. split; [|reflexivity].
          split; proj_simpl; try assumption; [shape_tac| |].
          * eexists. split; [apply list_lookup_insert_eq; apply lookup_lt_Some in Hn; exact Hn|].
            proj_simpl. repeat split; try assumption. rewrite Hu. exact Hok.
          * intros _. rewrite length_replicate. split; [reflexivity|].
            apply Forall_replicate. left. reflexivity.
      - eexists _, _, _. split; [reflexivity|]. split.
        + split; proj_simpl; eauto 10.
        + intros _. proj_simpl. apply Hload. lia. }
    destruct Hstage as (ok & v1 & s1 & Hrun & Hinv1 & Hok).
    rewrite Hrun. cbn [bind].
    destruct ok; cbn [negb].
    + rewrite (Hok eq_refl). cbn [negb].
      destruct Hinv1 as [Hs1 Hfdt1 Hnode1 Hw1 Ht1 Hr1 Hmax1 Hb1 Hoff1 Hptrs1].
      destruct (Hptrs1 (Hok eq_refl)) as [Hpl Hpok].
      destruct (arr_get_lt (w_ptr_buff v1) (r / BLOCK_SIZE - NUM_DIRECT_POINTERS))
        as (q & Hget & Hq).
      { rewrite Hpl. consts. lia. }
      rewrite Hget. cbn [bind].
      pose proof (Forall_lookup_1 _ _ _ _ Hpok Hq) as Hq_ok.
      rewrite Z.gtb_ltb. destruct (Z.ltb_spec 0 q) as [Hpos|Hzero].
      * eexists _, _, _. split; [reflexivity|]. split.
        -- split; assumption.
        -- intros e buff [= <- _]. destruct (ptr_ok_entry q Hq_ok Hpos) as [-> ?]. assumption.
      * destruct (get_free_bitmap_address_spec s1 Hs1) as (e & Hg & [[-> _]|(He & _)]);
          rewrite Hg; cbn [bind].
        -- eexists _, _, _. split; [reflexivity|]. split; [|discriminate].
           split; assumption.
        -- destruct (Z.eqb_spec e (-1)); [lia|].
           rewrite (set_bitmap_Ret s1 e 1 Hs1 He). cbn [bind].
           rewrite arr_set_Ret by (rewrite Hpl; consts; lia). cbn [bind].
           destruct (ptr_ok_alloc e He) as [Hu Hok'].
           eexists _, _, _. split; [reflexivity|]. split.
           ++ split; proj_simpl; try assumption; [shape_tac| |].
              ** destruct Hnode1 as (n1 & Hn1 & Hrest). exists n1.
                 split; [exact Hn1|]. intuition.
              ** intros _. rewrite length_insert. split; [assumption|].
                 apply Forall_insert; [assumption|]. rewrite Hu. exact Hok'.
           ++ intros e' buff [= <- _]. assumption.
    + eexists _, _, _. split; [reflexivity|]. split; [assumption|discriminate].
Qed.

Lemma fwrite_body_ok (v : wvars) (s : sfs) (r : Z) :
  write_inv fd ino p len sz v s r ->
  0 < w_bytes_to_write v -> r / BLOCK_SIZE < MAX_DATA_BLOCKS_PER_FILE - 1 ->
  exists (brk : bool) v' s' r',
    fwrite_body fd ino buf v s = Ret (brk, v', s') /\
    write_inv fd ino p len sz v' s' r' /\
    (brk = true -> r' = r) /\
    (brk = false ->
     w_did_write_to_disk v' = true /\ r < r' /\
     (w_bytes_to_write v' = 0 \/ r' / BLOCK_SIZE = r / BLOCK_SIZE + 1)).
Proof using All.
  intros Hinv Htodo Hcb.
  assert (Ht0 : w_bytes_to_write v = len - (r - p)) by (destruct Hinv; assumption).
  destruct (fwrite_locate_ok v s r Hinv Hcb) as (res & v1 & s1 & Hloc & Hinv1 & Hres).
  unfold fwrite_body. rewrite Hloc. cbn [bind].
  destruct res as [[e buff]|].
  - specialize (Hres e buff eq_refl). unfold fwrite_commit.
    destruct Hinv1 as [Hs1 Hfdt1 Hnode1 Hw1 Ht1 Hr1 Hmax1 Hb1 Hoff1 Hptrs1].
    rewrite (arr_get_Ret _ _ (mk_fd ino r)) by (lia || assumption).
    cbn [bind rwptr].
    set (bc := if w_bytes_to_write v1 <=? BLOCK_SIZE - r mod BLOCK_SIZE
               then w_bytes_to_write v1 else BLOCK_SIZE - r mod BLOCK_SIZE).
    assert (Hbc : 0 < bc /\ bc <= w_bytes_to_write v1 /\
                  bc <= BLOCK_SIZE - r mod BLOCK_SIZE /\
                  (bc = w_bytes_to_write v1 \/ bc = BLOCK_SIZE - r mod BLOCK_SIZE)).
    { unfold bc. consts.
      destruct (Z.leb_spec (w_bytes_to_write v1) (1024 - r mod 1024)); lia. }
    rewrite Z.gtb_ltb. destruct (Z.ltb_spec 0 bc); [|lia].
    unfold buf_read.
    destruct (Z.ltb_spec (Z.of_nat (length buf)) (w_bytes_written v1 + bc)); [lia|].
    cbn [bind].
    rewrite set_bitmap_Ret by (try apply shape_set_disk; assumption). cbn [bind].
    erewrite upd_fd_Ret; [|lia|proj_simpl; exact Hfdt1]. cbn [bind].
    proj_simpl.
    rewrite (arr_get_Ret _ _ (mk_fd ino (to_u64 (r + bc)))).
    2: lia.
    2:{ apply list_lookup_insert_eq. apply lookup_lt_Some in Hfdt1. exact Hfdt1. }
    cbn [bind rwptr].
    rewrite to_u64_small by (consts; lia).
    rewrite !to_int_small by (consts; lia).
    exists false. eexists _, _, (r + bc). split; [reflexivity|]. split; [|split].
    + split; proj_simpl; try assumption; try lia.
      * shape_tac.
      * apply list_lookup_insert_eq. apply lookup_lt_Some in Hfdt1. exact Hfdt1.
      * consts. lia.
    + discriminate.
    + intros _. proj_simpl. split; [reflexivity|]. split; [lia|]. consts. lia.
  - exists true, v1, s1, r. split; [reflexivity|]. split; [exact Hinv1|].
    split; [reflexivity|discriminate].
Qed.

Lemma fwrite_loop_ok :
  forall (fuel : nat) (v : wvars) (s : sfs) (r : Z),
    write_inv fd ino p len sz v s r ->
    (0 < w_bytes_to_write v -> r / BLOCK_SIZE < MAX_DATA_BLOCKS_PER_FILE - 1 ->
     MAX_DATA_BLOCKS_PER_FILE - 1 - r / BLOCK_SIZE <= Z.of_nat fuel) ->
    exists v' s' r',
      fwrite_loop fuel fd ino buf v s = Ret (v', s') /\
      write_inv fd ino p len sz v' s' r' /\ r <= r'.
Proof using All.
  induction fuel as [|fuel IH]; intros v s r Hinv Hfuel.
  - cbn [fwrite_loop].
    destruct (w_did_write_to_disk v); cbn [andb]; [|exists v, s, r; auto with zarith].
    rewrite Z.gtb_ltb. destruct (Z.ltb_spec 0 (w_bytes_to_write v)); cbn [andb];
      [|exists v, s, r; auto with zarith].
    pose proof (wi_block _ _ _ _ _ _ _ _ Hinv) as Hb. rewrite Hb.
    destruct (Z.ltb_spec (r / BLOCK_SIZE) (MAX_DATA_BLOCKS_PER_FILE - 1));
      [|exists v, s, r; auto with zarith].
    specialize (Hfuel ltac:(assumption) ltac:(assumption)). lia.
  - cbn [fwrite_loop].
    destruct (w_did_write_to_disk v); cbn [andb]; [|exists v, s, r; auto with zarith].
    rewrite Z.gtb_ltb. destruct (Z.ltb_spec 0 (w_bytes_to_write v)) as [Htodo|];
      cbn [andb]; [|exists v, s, r; auto with zarith].
    pose proof (wi_block _ _ _ _ _ _ _ _ Hinv) as Hb. rewrite Hb.
    destruct (Z.ltb_spec (r / BLOCK_SIZE) (MAX_DATA_BLOCKS_PER_FILE - 1)) as [Hcb|];
      [|exists v, s, r; auto with zarith].
    destruct (fwrite_body_ok v s r Hinv Htodo Hcb)
      as (brk & v1 & s1 & r1 & Hbody & Hinv1 & Hbrk & Hcont).
    rewrite Hbody. cbn [bind].
    destruct brk.
    + exists v1, s1, r1. rewrite (Hbrk eq_refl). split; [reflexivity|].
      split; [rewrite <- (Hbrk eq_refl); exact Hinv1|lia].
    + destruct (Hcont eq_refl) as (_ & Hlt & Hstep).
      destruct (IH v1 s1 r1 Hinv1) as (v' & s' & r' & Hloop & Hinv' & Hle).
      { intros Ht1 Hcb1. specialize (Hfuel Htodo Hcb). lia. }
      exists v', s', r'. split; [exact Hloop|]. split; [exact Hinv'|lia].
Qed.

End WriteLoop.

(** C4.  A call of sfs_fwrite on an open descriptor returns; when it wrote
    at least one byte the size of the i-node has grown by exactly
    max(0, rwptr_final - size_initial), where rwptr_final is the
    descriptor's r/w pointer after the call, and when it wrote nothing the
    size is what it was.  The bytes written are rwptr_final - rwptr_initial. *)
Theorem fwrite_size_update (s : sfs) (fd : Z) (buf : list byte) (len : Z)
        (f : file_descriptor_t) (nd : inode_t) :
  shape s -> 0 <= fd -> fdt s !! Z.to_nat fd = Some f ->
  0 < inode f -> inodes s !! Z.to_nat (inode f) = Some nd ->
  0 <= rwptr f -> 0 <= size nd <= MAX_FILE_BYTES -> inode_ptrs_ok s nd ->
  len <= Z.of_nat (length buf) ->
  exists n s' f' nd',
    sfs_fwrite fd buf len s = Ret (n, s') /\
    fdt s' !! Z.to_nat fd = Some f' /\
    inodes s' !! Z.to_nat (inode f) = Some nd' /\
    n = rwptr f' - rwptr f /\ 0 <= n /\
    (0 < n -> size nd' = size nd + Z.max 0 (rwptr f' - size nd)) /\
    (n = 0 -> size nd' = size nd).
Proof.
  intros Hs Hfd Hf Hino Hnd Hp Hsize (Hdl & Hdok & Hiok & Hload) Hbuf.
  unfold sfs_fwrite.
  destruct (Z.leb_spec len 0) as [Hlen|Hlen].
  { exists 0, s, f, nd. repeat split; auto; lia. }
  rewrite (arr_get_Ret _ _ f Hfd Hf). cbn [bind].
  destruct (Z.leb_spec (inode f) 0); [lia|].
  rewrite (arr_get_Ret _ _ nd) by (lia || assumption). cbn [bind].
  rewrite Z.gtb_ltb. destruct (Z.ltb_spec (size nd) (rwptr f)) as [Hpast|Hin].
  { exists 0, s, f, nd. repeat split; auto; lia. }
  rewrite Z.geb_leb.
  destruct (Z.leb_spec (MAX_DATA_BLOCKS_PER_FILE * BLOCK_SIZE) (rwptr f)); [consts; lia|].
  rewrite !to_int_small by (consts; lia).
  set (v0 := mk_wvars _ _ _ _ _ _ _).
  assert (Hinv : write_inv fd (inode f) (rwptr f) len (size nd) v0 s (rwptr f)).
  { unfold v0. split; proj_simpl; try assumption; try lia; try reflexivity.
    - destruct f; exact Hf.
    - exists nd. repeat split; try assumption.
      intros Hpos. rewrite Z.gtb_ltb. destruct (Z.ltb_spec 0 (indirect nd)); [reflexivity|lia].
    - rewrite Z.gtb_ltb. destruct (Z.ltb_spec 0 (indirect nd)) as [Hpos|]; [|discriminate].
      intros _. exact (Hload Hpos). }
  destruct (fwrite_loop_ok fd (inode f) (rwptr f) len (size nd) buf Hfd Hino Hp Hbuf Hsize
              loop_fuel v0 s (rwptr f) Hinv) as (v' & s' & r' & Hloop & Hinv' & Hle).
  { intros _ _. unfold loop_fuel. consts. lia. }
  rewrite Hloop. cbn [bind].
  destruct Hinv' as [Hs' Hfdt' (n' & Hn' & Hsize' & Hrest') Hw' Ht' Hr' Hmax' Hb' Hoff' Hptrs'].
  unfold fwrite_finish.
  destruct (Z.eqb_spec (w_bytes_to_write v') len) as [Hnone|Hsome].
  - cbn [bind]. exists (w_bytes_written v'), s', (mk_fd (inode f) r'), n'.
    split; [reflexivity|]. repeat split; proj_simpl; try assumption; try lia.
  - rewrite Z.gtb_ltb.
    destruct (Z.ltb_spec 0 (w_rwptr_size_offset v')) as [Hgrow|Hsame].
    + erewrite upd_inode_Ret; [|lia|exact Hn']. cbn [bind].
      rewrite (arr_get_Ret _ _ (with_size n' (to_uint (size n' + w_rwptr_size_offset v')))).
      2: lia.
      2:{ proj_simpl. apply list_lookup_insert_eq. apply lookup_lt_Some in Hn'. exact Hn'. }
      cbn [bind].
      eexists (w_bytes_written v'), _, (mk_fd (inode f) r'), _.
      split; [reflexivity|]. proj_simpl.
      split; [assumption|].
      split; [apply list_lookup_insert_eq; apply lookup_lt_Some in Hn'; exact Hn'|].
      proj_simpl. rewrite to_uint_small by (consts; lia).
      repeat split; try lia.
    + cbn [bind]. rewrite (arr_get_Ret _ _ n') by (lia || assumption). cbn [bind].
      eexists (w_bytes_written v'), _, (mk_fd (inode f) r'), n'.
      split; [reflexivity|]. proj_simpl.
      repeat split; try assumption; try lia.
Qed.

Lemma fwrite_size_update_witness :
  exists n s' f' nd',
    sfs_fwrite 1 [x68; x65; x6c; x6c; x6f] 5 (opened_state "f") = Ret (n, s') /\
    fdt s' !! Z.to_nat 1 = Some f' /\
    inodes s' !! Z.to_nat 1 = Some nd' /\
    n = rwptr f' - 0 /\ 0 <= n /\
    (0 < n -> size nd' = 0 + Z.max 0 (rwptr f' - 0)) /\
    (n = 0 -> size nd' = 0).
Proof.
  apply (fwrite_size_update (opened_state "f") 1 [x68; x65; x6c; x6c; x6f] 5 (mk_fd 1 0)
           (mk_inode 1 1 0 (replicate (Z.to_nat NUM_DIRECT_POINTERS) 0) 0)).
  - apply opened_state_shape.
  - lia.
  - reflexivity.
  - cbn. lia.
  - reflexivity.
  - cbn. lia.
  - cbn. consts. lia.
  - split; [reflexivity|]. split; [apply Forall_replicate; left; reflexivity|].
    split; [left; reflexivity|]. cbn. lia.
  - cbn. lia.
Defined.

(** ** The image of the pointer buffer on disk *)

Lemma Z_of_byte_of_Z (z : Z) : Z_of_byte (byte_of_Z z) = z mod 256.
Proof.
  unfold Z_of_byte, byte_of_Z.
  destruct (Byte.of_N (Z.to_N (z mod 256))) as [b|] eqn:E.
  - apply Byte.to_of_N in E. rewrite E. lia.
  - apply Byte.of_N_None_iff in E. lia.
Qed.

Lemma decode_encode_uint (z : Z) (r : list byte) (n : nat) :
  0 <= z < 2 ^ 32 ->
  decode_ptrs (S n) (encode_uint z ++ r) = z :: decode_ptrs n r.
Proof.
  intros Hz. cbn [encode_uint app decode_ptrs]. f_equal.
  unfold decode_uint. rewrite !Z_of_byte_of_Z. lia.
Qed.

Lemma decode_encode_ptrs (l : list Z) :
  Forall (fun z => 0 <= z < 2 ^ 32) l ->
  decode_ptrs (length l) (encode_ptrs l) = l.
Proof.
  induction 1 as [|z l Hz Hl IH]; [reflexivity|].
  cbn [length encode_ptrs flat_map]. rewrite decode_encode_uint by assumption.
  f_equal. exact IH.
Qed.

Lemma encode_ptrs_length (l : list Z) : length (encode_ptrs l) = (4 * length l)%nat.
Proof.
  induction l as [|z l IH]; [reflexivity|].
  cbn [encode_ptrs flat_map length app encode_uint]. unfold encode_ptrs in IH. lia.
Qed.

(** ** The round trip: writing to the new file *)

Lemma lookup_insert_Z {A : Type} (l : list A) (i j : Z) (x : A) :
  0 <= i < Z.of_nat (length l) -> 0 <= j ->
  <[Z.to_nat i := x]> l !! Z.to_nat j = if j =? i then Some x else l !! Z.to_nat j.
Proof.
  intros Hi Hj. destruct (Z.eqb_spec j i) as [->|Hne].
  - apply list_lookup_insert_eq. lia.
  - apply list_lookup_insert_ne. lia.
Qed.

Lemma gfba_prefix (s : sfs) (a : Z) :
  shape s -> 0 <= a < MAX_DATA_BLOCKS_SCALED_DOWN -> bitmap_prefix (free_blocks s) a ->
  get_free_bitmap_address s = Ret a.
Proof.
  intros Hs Ha Hpre.
  assert (Hat : free_blocks s !! Z.to_nat a = Some 0).
  { rewrite (Hpre a Ha). destruct (Z.ltb_spec a a); [lia|reflexivity]. }
  destruct (get_free_bitmap_address_spec s Hs) as (e & Hg & [[_ Hno]|(He & Hz & Hno)]).
  - exfalso. apply (Hno a Ha Hat).
  - rewrite Hg. f_equal.
    destruct (Z.lt_trichotomy e a) as [Hlt|[->|Hgt]]; [|reflexivity|].
    + rewrite (Hpre e) in Hz by lia. destruct (Z.ltb_spec e a); [discriminate|lia].
    + exfalso. apply (Hno a); [lia|exact Hat].
Qed.

Lemma bitmap_prefix_alloc (fb : list Z) (a : Z) :
  length fb = Z.to_nat MAX_DATA_BLOCKS_SCALED_DOWN ->
  0 <= a < MAX_DATA_BLOCKS_SCALED_DOWN ->
  bitmap_prefix fb a -> bitmap_prefix (<[Z.to_nat a := 1]> fb) (a + 1).
Proof.
  intros Hlen Ha Hpre k Hk. rewrite lookup_insert_Z by lia.
  destruct (Z.eqb_spec k a) as [->|Hne].
  - destruct (Z.ltb_spec a (a + 1)); [reflexivity|lia].
  - rewrite (Hpre k Hk).
    destruct (Z.ltb_spec k a); destruct (Z.ltb_spec k (a + 1)); try reflexivity; lia.
Qed.

Lemma bitmap_prefix_again (fb : list Z) (a e : Z) :
  length fb = Z.to_nat MAX_DATA_BLOCKS_SCALED_DOWN ->
  0 <= e < a -> a <= MAX_DATA_BLOCKS_SCALED_DOWN ->
  bitmap_prefix fb a -> bitmap_prefix (<[Z.to_nat e := 1]> fb) a.
Proof.
  intros Hlen He Ha Hpre k Hk. rewrite lookup_insert_Z by lia.
  destruct (Z.eqb_spec k e) as [->|Hne]; [|apply Hpre; assumption].
  destruct (Z.ltb_spec e a); [reflexivity|lia].
Qed.

Lemma fresh_addr_inj (a b : Z) : 0 <= a -> 0 <= b -> fresh_addr a = fresh_addr b -> a = b.
Proof.
  unfold fresh_addr. consts. intros Ha Hb.
  destruct (Z.ltb_spec a 12); destruct (Z.ltb_spec b 12); lia.
Qed.

Lemma fresh_locate (B : list byte) (v : wvars) (s : sfs) (r : Z) :
  write_inv 1 1 0 (Z.of_nat (length B)) 0 v s r ->
  fresh_alloc (r / BLOCK_SIZE) v s ->
  0 <= r -> r / BLOCK_SIZE < MAX_DATA_BLOCKS_PER_FILE - 1 ->
  exists v1 s1,
    fwrite_locate 1 (w_set_did_write v false) s
    = Ret (Some (fresh_addr (r / BLOCK_SIZE) - DATA_BLOCKS_OFFSET, zero_block), v1, s1) /\
    fresh_alloc (r / BLOCK_SIZE + 1) v1 s1 /\
    fdt s1 = fdt s /\ root s1 = root s /\ disk s1 = disk s.
Proof.
  intros Hinv [Hbm (n & Hn & Hlink & Hdir & Hind) Hloaded Hpb] Hr Hcb.
  destruct Hinv as [Hs _ (n' & Hn' & _ & Hdl & _) _ _ _ _ Hb _ Hptrs].
  change (Z.to_nat 1) with 1%nat in Hn'. rewrite Hn in Hn'. injection Hn' as <-.
  set (cb := r / BLOCK_SIZE) in *.
  assert (Hcb0 : 0 <= cb) by (unfold cb; consts; lia).
  pose proof (shape_bitmap s Hs) as Hfbl.
  unfold fwrite_locate. cbn [w_set_did_write w_current_block]. rewrite Hb.
  rewrite (arr_get_Ret _ _ n) by (lia || exact Hn). cbn [bind].
  destruct (Z.ltb_spec cb NUM_DIRECT_POINTERS) as [Hd|Hd].
  - (* a direct block *)
    rewrite (arr_get_Ret _ _ 0).
    2: lia.
    2:{ rewrite (Hdir cb) by lia. destruct (Z.ltb_spec cb cb); [lia|reflexivity]. }
    cbn [bind]. change (0 >? 0) with false. cbn match.
    assert (Hused : fresh_used cb = cb).
    { unfold fresh_used. destruct (Z.leb_spec cb NUM_DIRECT_POINTERS); lia. }
    rewrite Hused in Hbm.
    rewrite (gfba_prefix s cb Hs) by (consts; lia || assumption). cbn [bind].
    destruct (Z.eqb_spec cb (-1)); [lia|].
    rewrite (set_bitmap_Ret s cb 1 Hs) by (consts; lia). cbn [bind].
    rewrite arr_set_Ret by (rewrite Hdl; lia). cbn [bind].
    erewrite upd_inode_Ret; [|lia|proj_simpl; exact Hn]. cbn [bind].
    rewrite to_uint_small by (consts; lia).
    replace (fresh_addr cb - DATA_BLOCKS_OFFSET) with cb
      by (unfold fresh_addr; destruct (Z.ltb_spec cb NUM_DIRECT_POINTERS); lia).
    eexists _, _. split; [reflexivity|].
    split; [|repeat split; reflexivity].
    split; proj_simpl.
    + replace (fresh_used (cb + 1)) with (cb + 1).
      2:{ unfold fresh_used. destruct (Z.leb_spec (cb + 1) NUM_DIRECT_POINTERS); lia. }
      apply bitmap_prefix_alloc; [assumption|consts; lia|assumption].
    + eexists. split; [apply list_lookup_insert_eq; apply lookup_lt_Some in Hn; exact Hn|].
      proj_simpl. split; [assumption|]. split.
      * intros b Hb'. rewrite lookup_insert_Z by (rewrite ?Hdl; lia).
        destruct (Z.eqb_spec b cb) as [->|Hne].
        -- destruct (Z.ltb_spec cb (cb + 1)); [|lia].
           f_equal. unfold fresh_addr. destruct (Z.ltb_spec cb NUM_DIRECT_POINTERS); lia.
        -- rewrite (Hdir b Hb').
           destruct (Z.ltb_spec b cb); destruct (Z.ltb_spec b (cb + 1)); try reflexivity; lia.
      * rewrite Hind.
        destruct (Z.ltb_spec NUM_DIRECT_POINTERS cb);
          destruct (Z.ltb_spec NUM_DIRECT_POINTERS (cb + 1)); try reflexivity; lia.
    + rewrite Hloaded.
      destruct (Z.ltb_spec NUM_DIRECT_POINTERS cb);
        destruct (Z.ltb_spec NUM_DIRECT_POINTERS (cb + 1)); try reflexivity; lia.
    + intros Hl. rewrite Hloaded in Hl.
      destruct (Z.ltb_spec NUM_DIRECT_POINTERS cb); [lia|discriminate].
  - (* a block behind the index block *)
    assert (Hstage : exists v1 s1,
      fwrite_ensure_indirect 1 n (w_set_did_write v false) s = Ret (true, v1, s1) /\
      shape s1 /\ bitmap_prefix (free_blocks s1) (cb + 1) /\
      inodes s1 !! 1%nat = Some (with_indirect n (DATA_BLOCKS_OFFSET + NUM_DIRECT_POINTERS)) /\
      w_did_load_ptr_buff v1 = true /\
      length (w_ptr_buff v1) = Z.to_nat (NUM_POINTERS_IN_INDIRECT - 1) /\
      (forall k : Z, 0 <= k < NUM_POINTERS_IN_INDIRECT - 1 ->
         w_ptr_buff v1 !! Z.to_nat k
         = Some (if NUM_DIRECT_POINTERS + k <? cb
                 then fresh_addr (NUM_DIRECT_POINTERS + k) else 0)) /\
      fdt s1 = fdt s /\ root s1 = root s /\ disk s1 = disk s).
    { unfold fwrite_ensure_indirect.
      destruct (Z.eq_dec cb NUM_DIRECT_POINTERS) as [E12|Hgt].
      - assert (Hused : fresh_used cb = cb).
        { unfold fresh_used. destruct (Z.leb_spec cb NUM_DIRECT_POINTERS); lia. }
        rewrite Hused in Hbm. rewrite Hind.
        destruct (Z.ltb_spec NUM_DIRECT_POINTERS cb); [lia|].
        change (0 <=? 0) with true. cbn match.
        rewrite (gfba_prefix s cb Hs) by (consts; lia || assumption). cbn [bind].
        destruct (Z.eqb_spec cb (-1)); [lia|].
        rewrite (set_bitmap_Ret s cb 1 Hs) by (consts; lia). cbn [bind].
        erewrite upd_inode_Ret; [|lia|proj_simpl; exact Hn]. cbn [bind].
        rewrite to_uint_small by (consts; lia).
        eexists _, _. split; [reflexivity|]. proj_simpl.
        split; [shape_tac|].
        split; [apply bitmap_prefix_alloc; [assumption|consts; lia|assumption]|].
        split.
        { change (Z.to_nat 1) with 1%nat.
          rewrite list_lookup_insert_eq by (apply lookup_lt_Some in Hn; exact Hn).
          rewrite E12. reflexivity. }
        split; [reflexivity|]. split; [apply length_replicate|].
        split; [|repeat split; reflexivity].
        intros k Hk. rewrite lookup_replicate_2 by (consts; lia).
        destruct (Z.ltb_spec (NUM_DIRECT_POINTERS + k) cb); [lia|reflexivity].
      - assert (Hused : fresh_used cb = cb + 1).
        { unfold fresh_used. destruct (Z.leb_spec cb NUM_DIRECT_POINTERS); lia. }
        rewrite Hused in Hbm.
        destruct (Z.ltb_spec NUM_DIRECT_POINTERS cb) as [Hlt|]; [|lia].
        rewrite Hind. change (DATA_BLOCKS_OFFSET + NUM_DIRECT_POINTERS <=? 0) with false.
        cbn match. destruct (Hptrs Hloaded) as [Hpl _].
        eexists _, _. split; [reflexivity|]. proj_simpl.
        split; [assumption|]. split; [assumption|].
        split.
        { rewrite Hn. f_equal. destruct n; cbn in Hind |- *. rewrite Hind. reflexivity. }
        split; [assumption|]. split; [assumption|].
        split; [|repeat split; reflexivity].
        intros k Hk. apply (Hpb Hloaded k Hk). }
    destruct Hstage as (v1 & s1 & Hrun & Hs1 & Hbm1 & Hn1 & Hl1 & Hpl1 & Hpb1 & Hf1 & Hr1 & Hd1).
    rewrite Hrun. cbn [bind negb]. rewrite Hl1. cbn [negb].
    rewrite (arr_get_Ret _ _ 0).
    2: lia.
    2:{ rewrite (Hpb1 (cb - NUM_DIRECT_POINTERS)) by (consts; lia).
        destruct (Z.ltb_spec (NUM_DIRECT_POINTERS + (cb - NUM_DIRECT_POINTERS)) cb);
          [lia|reflexivity]. }
    cbn [bind]. change (0 >? 0) with false. cbn match.
    rewrite (gfba_prefix s1 (cb + 1) Hs1) by (consts; lia || assumption). cbn [bind].
    destruct (Z.eqb_spec (cb + 1) (-1)); [lia|].
    rewrite (set_bitmap_Ret s1 (cb + 1) 1 Hs1) by (consts; lia). cbn [bind].
    rewrite arr_set_Ret by (rewrite Hpl1; consts; lia). cbn [bind].
    rewrite to_uint_small by (consts; lia).
    replace (fresh_addr cb - DATA_BLOCKS_OFFSET) with (cb + 1)
      by (unfold fresh_addr; destruct (Z.ltb_spec cb NUM_DIRECT_POINTERS); lia).
    eexists _, _. split; [reflexivity|].
    split; [|repeat split; proj_simpl; assumption].
    assert (Hused' : fresh_used (cb + 1) = cb + 1 + 1).
    { unfold fresh_used. destruct (Z.leb_spec (cb + 1) NUM_DIRECT_POINTERS); lia. }
    split; proj_simpl.
    + rewrite Hused'.
      apply bitmap_prefix_alloc; [apply (shape_bitmap s1 Hs1)|consts; lia|assumption].
    + eexists. split; [exact Hn1|]. proj_simpl. split; [assumption|]. split.
      * intros b Hb'. rewrite (Hdir b Hb').
        destruct (Z.ltb_spec b cb); destruct (Z.ltb_spec b (cb + 1)); try reflexivity; lia.
      * destruct (Z.ltb_spec NUM_DIRECT_POINTERS (cb + 1)); [reflexivity|lia].
    + destruct (Z.ltb_spec NUM_DIRECT_POINTERS (cb + 1)); [reflexivity|lia].
    + intros _ k Hk. rewrite lookup_insert_Z by (rewrite ?Hpl1; consts; lia).
      destruct (Z.eqb_spec k (cb - NUM_DIRECT_POINTERS)) as [->|Hne].
      * destruct (Z.ltb_spec (NUM_DIRECT_POINTERS + (cb - NUM_DIRECT_POINTERS)) (cb + 1)); [|lia].
        f_equal. unfold fresh_addr.
        destruct (Z.ltb_spec (NUM_DIRECT_POINTERS + (cb - NUM_DIRECT_POINTERS))
                             NUM_DIRECT_POINTERS); lia.
      * rewrite (Hpb1 k Hk).
        destruct (Z.ltb_spec (NUM_DIRECT_POINTERS + k) cb);
          destruct (Z.ltb_spec (NUM_DIRECT_POINTERS + k) (cb + 1)); try reflexivity; lia.
Qed.

Lemma fresh_commit (t0 : sfs) (B : list byte) (v1 : wvars) (s1 : sfs) (r a : Z) :
  write_inv 1 1 0 (Z.of_nat (length B)) 0 v1 s1 r ->
  fresh_frame t0 s1 r -> fresh_data B s1 r ->
  r mod BLOCK_SIZE = 0 -> 0 <= r < Z.of_nat (length B) ->
  bitmap_prefix (free_blocks s1) a ->
  0 <= fresh_addr (r / BLOCK_SIZE) - DATA_BLOCKS_OFFSET < a ->
  a <= MAX_DATA_BLOCKS_SCALED_DOWN ->
  exists v2 s2,
    fwrite_commit 1 B (fresh_addr (r / BLOCK_SIZE) - DATA_BLOCKS_OFFSET) zero_block v1 s1
    = Ret (v2, s2) /\
    fresh_frame t0 s2 (r + Z.min (Z.of_nat (length B) - r) BLOCK_SIZE) /\
    fresh_data B s2 (r + Z.min (Z.of_nat (length B) - r) BLOCK_SIZE) /\
    bitmap_prefix (free_blocks s2) a /\ inodes s2 = inodes s1 /\
    w_did_load_ptr_buff v2 = w_did_load_ptr_buff v1 /\ w_ptr_buff v2 = w_ptr_buff v1 /\
    w_did_write_to_disk v2 = true.
Proof.
  intros Hinv [Hfdt Hroot Hblk] Hdata Hal Hr Hbm He Ha.
  destruct Hinv as [Hs1 Hfd1 _ Hw1 Ht1 _ Hmax1 _ _ _].
  set (e := fresh_addr (r / BLOCK_SIZE) - DATA_BLOCKS_OFFSET) in *.
  set (bc := Z.min (Z.of_nat (length B) - r) BLOCK_SIZE).
  unfold fwrite_commit.
  rewrite (arr_get_Ret _ _ (mk_fd 1 r)) by (lia || assumption).
  cbn [bind rwptr]. rewrite Hal, Z.sub_0_r.
  replace (if w_bytes_to_write v1 <=? BLOCK_SIZE then w_bytes_to_write v1 else BLOCK_SIZE)
    with bc by (unfold bc; destruct (Z.leb_spec (w_bytes_to_write v1) BLOCK_SIZE); lia).
  assert (Hbc : 0 < bc <= BLOCK_SIZE /\ r + bc <= Z.of_nat (length B))
    by (unfold bc; consts; lia).
  rewrite Z.gtb_ltb. destruct (Z.ltb_spec 0 bc); [|lia].
  unfold buf_read.
  destruct (Z.ltb_spec (Z.of_nat (length B)) (w_bytes_written v1 + bc)); [lia|].
  cbn [bind].
  rewrite set_bitmap_Ret by (try apply shape_set_disk; try assumption; lia). cbn [bind].
  erewrite upd_fd_Ret; [|lia|proj_simpl; exact Hfd1]. cbn [bind]. proj_simpl.
  rewrite (arr_get_Ret _ _ (mk_fd 1 (to_u64 (r + bc)))).
  2: lia.
  2:{ apply list_lookup_insert_eq. apply lookup_lt_Some in Hfd1. exact Hfd1. }
  cbn [bind]. rewrite to_u64_small by (consts; lia).
  set (src := take (Z.to_nat bc) (drop (Z.to_nat (w_bytes_written v1)) B)).
  assert (Hsrc : length src = Z.to_nat bc).
  { unfold src. rewrite length_take, length_drop. lia. }
  set (buff' := memcpy_at zero_block 0 src).
  assert (Hbuff : length buff' = Z.to_nat BLOCK_SIZE).
  { unfold buff', memcpy_at, zero_block.
    rewrite !length_app, length_take, length_drop, length_replicate, Hsrc. lia. }
  eexists _, _. split; [reflexivity|]. proj_simpl.
  split; [|split; [|split; [|repeat split; reflexivity]]].
  - split; proj_simpl.
    + rewrite Hfdt. change (Z.to_nat 1) with 1%nat. apply list_insert_insert_eq.
    + assumption.
    + intros x. cbn [write_blocks disk_data].
      destruct (x =? e + DATA_BLOCKS_OFFSET); [exact Hbuff|apply Hblk].
  - intros k Hk. proj_simpl. cbn [write_blocks disk_data].
    replace (e + DATA_BLOCKS_OFFSET) with (fresh_addr (r / BLOCK_SIZE)) by (unfold e; lia).
    destruct (Z.lt_ge_cases k r) as [Hlt|Hge].
    + destruct (Z.eqb_spec (fresh_addr (k / BLOCK_SIZE)) (fresh_addr (r / BLOCK_SIZE))) as [E|_].
      { apply fresh_addr_inj in E; consts; lia. }
      apply Hdata. lia.
    + replace (k / BLOCK_SIZE) with (r / BLOCK_SIZE) by (consts; lia).
      rewrite Z.eqb_refl. unfold buff', memcpy_at.
      change (take (Z.to_nat 0) zero_block) with (@nil byte). cbn [app].
      rewrite lookup_app_l by (rewrite Hsrc; consts; lia).
      unfold src. rewrite lookup_take_lt by (consts; lia). rewrite lookup_drop.
      f_equal. rewrite Hw1. consts. lia.
  - apply bitmap_prefix_again; [apply (shape_bitmap s1 Hs1)|lia|lia|assumption].
Qed.

Lemma fresh_body (t0 : sfs) (B : list byte) (v : wvars) (s : sfs) (r : Z) :
  Z.of_nat (length B) <= MAX_FILE_BYTES ->
  fresh_inv t0 B v s r -> r < Z.of_nat (length B) ->
  exists v' s',
    fwrite_body 1 1 B v s = Ret (false, v', s') /\
    fresh_inv t0 B v' s' (r + Z.min (Z.of_nat (length B) - r) BLOCK_SIZE).
Proof.
  intros Hmax [Hinv Hal Hflag Hframe Halloc Hdata] Hr.
  assert (Hr0 : 0 <= r) by (destruct Hinv; lia).
  destruct Hal as [Hal|Hal]; [|lia].
  assert (Hcb : r / BLOCK_SIZE < MAX_DATA_BLOCKS_PER_FILE - 1) by (consts; lia).
  replace ((r + BLOCK_SIZE - 1) / BLOCK_SIZE) with (r / BLOCK_SIZE) in Halloc
    by (consts; lia).
  set (r' := r + Z.min (Z.of_nat (length B) - r) BLOCK_SIZE).
  (* the general result gives the counters of the next state *)
  assert (H0 : 0 <= 1) by lia. assert (H1 : 0 < 1) by lia. assert (H2 : 0 <= 0) by lia.
  assert (H3 : Z.of_nat (length B) <= Z.of_nat (length B)) by lia.
  assert (H4 : 0 <= 0 <= MAX_FILE_BYTES) by (consts; lia).
  destruct (fwrite_body_ok 1 1 0 (Z.of_nat (length B)) 0 B H0 H1 H2 H3 H4 v s r Hinv)
    as (brk & vg & sg & rg & Hbody & Hinvg & _ & _);
    [destruct Hinv; lia|exact Hcb|].
  (* the run on the fresh file system *)
  destruct (fresh_locate B v s r Hinv Halloc Hr0 Hcb)
    as (v1 & s1 & Hloc & Halloc1 & Hf1 & Hr1 & Hd1).
  destruct (fwrite_locate_ok 1 1 0 (Z.of_nat (length B)) 0 B H0 H1 H2 H3 H4 v s r Hinv Hcb)
    as (res & v1' & s1' & Hloc' & Hinv1 & _).
  rewrite Hloc in Hloc'. injection Hloc' as <- <- <-.
  assert (Hframe1 : fresh_frame t0 s1 r).
  { destruct Hframe as [Ha Hb Hc]. split; [rewrite Hf1|rewrite Hr1|rewrite Hd1]; assumption. }
  assert (Hdata1 : fresh_data B s1 r).
  { intros k Hk. rewrite Hd1. apply Hdata. exact Hk. }
  assert (He : 0 <= fresh_addr (r / BLOCK_SIZE) - DATA_BLOCKS_OFFSET
               < fresh_used (r / BLOCK_SIZE + 1) /\
               fresh_used (r / BLOCK_SIZE + 1) <= MAX_DATA_BLOCKS_SCALED_DOWN).
  { unfold fresh_addr, fresh_used. consts.
    destruct (Z.ltb_spec (r / 1024) 12); destruct (Z.leb_spec (r / 1024 + 1) 12); lia. }
  destruct (fresh_commit t0 B v1 s1 r (fresh_used (r / BLOCK_SIZE + 1)) Hinv1 Hframe1 Hdata1
              Hal ltac:(lia) (fa_bitmap _ _ _ Halloc1) (proj1 He) (proj2 He))
    as (v2 & s2 & Hcommit & Hframe2 & Hdata2 & Hbm2 & Hin2 & Hl2 & Hpb2 & Hflag2).
  assert (Hrun : fwrite_body 1 1 B v s = Ret (false, v2, s2)).
  { unfold fwrite_body. rewrite Hloc. cbn [bind]. rewrite Hcommit. reflexivity. }
  rewrite Hrun in Hbody. injection Hbody as <- <- <-.
  assert (Hrg : rg = r').
  { pose proof (wi_fd _ _ _ _ _ _ _ _ Hinvg) as Hfd.
    pose proof (shape_fdt _ (wi_shape _ _ _ _ _ _ _ _ Hinvg)) as Hl.
    rewrite (ff_fdt _ _ _ Hframe2) in Hfd, Hl. rewrite length_insert in Hl.
    change (Z.to_nat 1) with 1%nat in Hfd.
    rewrite list_lookup_insert_eq in Hfd by (rewrite Hl; consts; lia).
    injection Hfd as <-. reflexivity. }
  subst rg.
  exists v2, s2. split; [exact Hrun|].
  split; try assumption.
  - unfold r'. consts. lia.
  - replace ((r' + BLOCK_SIZE - 1) / BLOCK_SIZE) with (r / BLOCK_SIZE + 1)
      by (unfold r'; consts; lia).
    destruct Halloc1 as [_ Hnode1 Hload1 Hptr1].
    split; [assumption|rewrite Hin2; assumption|rewrite Hl2; assumption|].
    rewrite Hl2, Hpb2. assumption.
Qed.

Lemma fresh_loop (t0 : sfs) (B : list byte) :
  Z.of_nat (length B) <= MAX_FILE_BYTES ->
  forall (fuel : nat) (v : wvars) (s : sfs) (r : Z),
    fresh_inv t0 B v s r ->
    (r < Z.of_nat (length B) ->
     MAX_DATA_BLOCKS_PER_FILE - 1 - r / BLOCK_SIZE <= Z.of_nat fuel) ->
    exists v' s',
      fwrite_loop fuel 1 1 B v s = Ret (v', s') /\
      fresh_inv t0 B v' s' (Z.of_nat (length B)).
Proof.
  intros Hmax. induction fuel as [|fuel IH]; intros v s r Hinv Hfuel.
  - pose proof (fi_inv _ _ _ _ _ Hinv) as Hw.
    assert (r = Z.of_nat (length B)) as ->.
    { destruct Hw. destruct (Z.lt_ge_cases r (Z.of_nat (length B))) as [Hlt|]; [|lia].
      specialize (Hfuel Hlt). consts. lia. }
    exists v, s. split; [|exact Hinv]. cbn [fwrite_loop].
    rewrite (wi_todo _ _ _ _ _ _ _ _ Hw), Z.gtb_ltb.
    destruct (Z.ltb_spec 0 (Z.of_nat (length B) - (Z.of_nat (length B) - 0))); [lia|].
    rewrite andb_false_r. reflexivity.
  - pose proof (fi_inv _ _ _ _ _ Hinv) as Hw.
    destruct (Z.lt_ge_cases r (Z.of_nat (length B))) as [Hlt|Hge].
    + destruct (fresh_body t0 B v s r Hmax Hinv Hlt) as (v1 & s1 & Hbody & Hinv1).
      cbn [fwrite_loop]. rewrite (fi_flag _ _ _ _ _ Hinv).
      rewrite (wi_todo _ _ _ _ _ _ _ _ Hw), (wi_block _ _ _ _ _ _ _ _ Hw), Z.gtb_ltb.
      destruct (Z.ltb_spec 0 (Z.of_nat (length B) - (r - 0))); [|lia].
      destruct (Z.ltb_spec (r / BLOCK_SIZE) (MAX_DATA_BLOCKS_PER_FILE - 1)); [|consts; lia].
      cbn [andb]. rewrite Hbody. cbn [bind].
      apply (IH v1 s1 _ Hinv1).
      intros Hlt1. specialize (Hfuel Hlt).
      destruct (fi_aligned _ _ _ _ _ Hinv) as [Hal|Hal]; [|lia]. consts. lia.
    + assert (r = Z.of_nat (length B)) as -> by (destruct Hw; lia).
      exists v, s. split; [|exact Hinv]. cbn [fwrite_loop].
      rewrite (wi_todo _ _ _ _ _ _ _ _ Hw), Z.gtb_ltb.
      destruct (Z.ltb_spec 0 (Z.of_nat (length B) - (Z.of_nat (length B) - 0))); [lia|].
      rewrite andb_false_r. reflexivity.
Qed.

Lemma fresh_inv_start (t0 : sfs) (n0 : inode_t) (B : list byte) :
  shape t0 -> fdt t0 !! 1%nat = Some (mk_fd 1 0) ->
  inodes t0 !! 1%nat = Some n0 -> link_cnt n0 = 1 -> size n0 = 0 ->
  no_block_pointers n0 ->
  free_blocks t0 = replicate (Z.to_nat MAX_DATA_BLOCKS_SCALED_DOWN) 0 ->
  disk_whole (disk t0) ->
  0 < Z.of_nat (length B) ->
  fresh_inv t0 B (mk_wvars true (Z.of_nat (length B)) 0 0 0 false indeterminate_ptr_buff)
            t0 0.
Proof.
  intros Hs Hfd Hn Hlink Hsize [Hdir Hind] Hfb Hwhole Hlen. split.
  - split; proj_simpl; try reflexivity; try lia; try discriminate.
    + exact Hs.
    + exact Hfd.
    + exists n0. split; [exact Hn|]. split; [exact Hsize|]. rewrite Hdir, Hind.
      split; [apply length_replicate|].
      split; [apply Forall_replicate; left; reflexivity|].
      split; [left; reflexivity|]. lia.
  - left. reflexivity.
  - reflexivity.
  - split; [|reflexivity|exact Hwhole].
    symmetry. apply list_insert_id. exact Hfd.
  - change ((0 + BLOCK_SIZE - 1) / BLOCK_SIZE) with 0. split; proj_simpl.
    + intros k Hk. change (fresh_used 0) with 0.
      rewrite Hfb, lookup_replicate_2 by lia.
      destruct (Z.ltb_spec k 0); [lia|reflexivity].
    + exists n0. split; [exact Hn|]. split; [exact Hlink|]. rewrite Hdir, Hind.
      split; [|reflexivity].
      intros b Hb. rewrite lookup_replicate_2 by lia.
      destruct (Z.ltb_spec b 0); [lia|reflexivity].
    + reflexivity.
    + discriminate.
  - intros k Hk. lia.
Qed.

Lemma ptr_ok_uint (l : list Z) :
  Forall ptr_ok l -> Forall (fun z => 0 <= z < 2 ^ 32) l.
Proof.
  intros H. eapply Forall_impl; [exact H|].
  intros z [->|Hz]; [lia|]. consts. lia.
Qed.

Lemma fresh_addr_not_index (b : Z) :
  0 <= b -> fresh_addr b <> DATA_BLOCKS_OFFSET + NUM_DIRECT_POINTERS /\ 0 < fresh_addr b.
Proof.
  intros Hb. unfold fresh_addr. consts. destruct (Z.ltb_spec b 12); lia.
Qed.

Lemma fresh_write (t0 : sfs) (ni : inode_t) (B : list byte) :
  shape t0 -> fdt t0 !! 1%nat = Some (mk_fd 1 0) ->
  inodes t0 !! 1%nat = Some ni -> link_cnt ni = 1 -> size ni = 0 ->
  no_block_pointers ni ->
  free_blocks t0 = replicate (Z.to_nat MAX_DATA_BLOCKS_SCALED_DOWN) 0 ->
  disk_whole (disk t0) ->
  0 < Z.of_nat (length B) <= MAX_FILE_BYTES ->
  exists s2 nd,
    sfs_fwrite 1 B (Z.of_nat (length B)) t0 = Ret (Z.of_nat (length B), s2) /\
    shape s2 /\
    fdt s2 = <[1%nat := mk_fd 1 (Z.of_nat (length B))]> (fdt t0) /\
    root s2 = root t0 /\
    inodes s2 !! 1%nat = Some nd /\ size nd = Z.of_nat (length B) /\ link_cnt nd = 1 /\
    no_holes s2 nd /\
    (forall k : Z, 0 <= k < Z.of_nat (length B) -> file_byte s2 nd k = B !! Z.to_nat k).
Proof.
  intros Hs0 Hfd0 Hn0 Hlink0 Hsize0 Hclean Hfb0 Hwhole0 Hlen.
  pose proof Hclean as [_ Hind0].
  unfold sfs_fwrite. destruct (Z.leb_spec (Z.of_nat (length B)) 0); [lia|].
  rewrite (arr_get_Ret _ 1 (mk_fd 1 0)) by (lia || exact Hfd0).
  cbn [bind inode rwptr].
  change (1 <=? 0) with false. cbn match.
  rewrite (arr_get_Ret _ 1 ni) by (lia || exact Hn0).
  cbn [bind]. rewrite Hsize0, Hind0.
  change (0 >? 0) with false. change (0 >=? MAX_DATA_BLOCKS_PER_FILE * BLOCK_SIZE) with false.
  cbn match. change (to_int (0 / BLOCK_SIZE)) with 0. change (to_int (- (0 - 0))) with 0.
  destruct (fresh_loop t0 B ltac:(lia) loop_fuel _ _ 0
              (fresh_inv_start t0 ni B Hs0 Hfd0 Hn0 Hlink0 Hsize0 Hclean Hfb0 Hwhole0
                 ltac:(lia)))
    as (v' & s' & Hloop & [Hinv _ _ Hframe Halloc Hdata]).
  { intros _. unfold loop_fuel. consts. lia. }
  rewrite Hloop. cbn [bind].
  set (L := Z.of_nat (length B)) in *.
  destruct Hinv as [Hs' Hfd' (n' & Hn' & Hsz' & _) Hw' Ht' _ _ _ Hoff' Hptrs'].
  destruct Halloc as [_ (n & Hn & Hlink & Hdir & Hind) Hloaded Hpb].
  change (Z.to_nat 1) with 1%nat in Hn'. rewrite Hn in Hn'. injection Hn' as <-.
  destruct Hframe as [Hfdt Hroot Hblk].
  set (nb := (L + BLOCK_SIZE - 1) / BLOCK_SIZE) in *.
  unfold fwrite_finish.
  destruct (Z.eqb_spec (w_bytes_to_write v') L); [lia|].
  rewrite Z.gtb_ltb. destruct (Z.ltb_spec 0 (w_rwptr_size_offset v')); [|lia].
  erewrite upd_inode_Ret; [|lia|exact Hn]. cbn [bind].
  rewrite Hsz', Hoff', Z.sub_0_r, Z.add_0_l, to_uint_small by (consts; lia).
  set (n1 := with_size n L).
  rewrite (arr_get_Ret _ _ n1).
  2: lia.
  2:{ proj_simpl. apply list_lookup_insert_eq. apply lookup_lt_Some in Hn. exact Hn. }
  cbn [bind]. rewrite Hw', Z.sub_0_r.
  match goal with |- exists s2 nd, Ret (_, ?X) = _ /\ _ => set (sf := X) end.
  exists sf, n1. split; [reflexivity|].
  assert (Hkey : forall b : Z, 0 <= b < nb ->
            block_ptr sf n1 b = fresh_addr b /\
            disk_data (disk sf) (fresh_addr b) = disk_data (disk s') (fresh_addr b)).
  { intros b Hb.
    destruct (fresh_addr_not_index b ltac:(lia)) as [Hne _].
    assert (Hsame : disk_data (disk sf) (fresh_addr b) = disk_data (disk s') (fresh_addr b)).
    { unfold sf. proj_simpl. cbn [write_bitmap write_inodes disk_data].
      destruct (w_did_load_ptr_buff v'); [|reflexivity].
      cbn [write_blocks disk_data]. unfold n1. proj_simpl. rewrite Hind.
      destruct (NUM_DIRECT_POINTERS <? nb).
      - destruct (Z.eqb_spec (fresh_addr b) (DATA_BLOCKS_OFFSET + NUM_DIRECT_POINTERS));
          [contradiction|reflexivity].
      - destruct (Z.eqb_spec (fresh_addr b) 0); [|reflexivity].
        destruct (fresh_addr_not_index b ltac:(lia)). lia. }
    split; [|exact Hsame].
    unfold block_ptr.
    destruct (Z.ltb_spec b NUM_DIRECT_POINTERS) as [Hd|Hd].
    - unfold n1. proj_simpl. rewrite (Hdir b) by lia.
      destruct (Z.ltb_spec b nb); [reflexivity|lia].
    - assert (Hl : w_did_load_ptr_buff v' = true).
      { rewrite Hloaded. destruct (Z.ltb_spec NUM_DIRECT_POINTERS nb); [reflexivity|lia]. }
      destruct (Hptrs' Hl) as [Hpl Hpok].
      unfold n1. proj_simpl. rewrite Hind.
      destruct (Z.ltb_spec NUM_DIRECT_POINTERS nb); [|lia].
      change (DATA_BLOCKS_OFFSET + NUM_DIRECT_POINTERS >? 0) with true. cbn match.
      unfold load_ptr_buff, read_blocks, sf. proj_simpl.
      cbn [write_bitmap write_inodes disk_data]. rewrite Hl.
      cbn [write_blocks disk_data]. unfold n1. proj_simpl. rewrite Hind.
      destruct (Z.ltb_spec NUM_DIRECT_POINTERS nb); [|lia].
      rewrite Z.eqb_refl. rewrite <- Hpl.
      rewrite decode_encode_ptrs by (apply ptr_ok_uint; exact Hpok).
      rewrite (Hpb Hl (b - NUM_DIRECT_POINTERS)) by (unfold nb in Hb; consts; lia).
      replace (NUM_DIRECT_POINTERS + (b - NUM_DIRECT_POINTERS)) with b by lia.
      destruct (Z.ltb_spec b nb); [reflexivity|lia]. }
  split; [unfold sf; shape_tac|].
  split; [exact Hfdt|]. split; [exact Hroot|].
  split.
  { unfold sf. proj_simpl. apply list_lookup_insert_eq. apply lookup_lt_Some in Hn. exact Hn. }
  split; [reflexivity|]. split; [exact Hlink|]. split.
  - intros b Hb Hlt. change (size n1) with L in Hlt.
    destruct (Hkey b) as [Hptr Hsame]; [unfold nb; consts; lia|].
    rewrite Hptr. unfold read_blocks. rewrite Hsame.
    split; [apply fresh_addr_not_index; lia|apply Hblk].
  - intros k Hk. unfold file_byte.
    destruct (Hkey (k / BLOCK_SIZE)) as [Hptr Hsame]; [unfold nb; consts; lia|].
    rewrite Hptr. unfold read_blocks. rewrite Hsame. apply Hdata. exact Hk.
Qed.

(** ** The round trip: reading back *)

Lemma block_ptr_transfer (s s' : sfs) (nd nd' : inode_t) (b : Z) :
  disk s' = disk s -> direct nd' = direct nd -> indirect nd' = indirect nd ->
  block_ptr s' nd' b = block_ptr s nd b.
Proof. intros Hd Hdir Hind. unfold block_ptr. rewrite Hd, Hdir, Hind. reflexivity. Qed.

(** ** Equality of states *)

Lemma sfs_ext (s t : sfs) :
  num_files s = num_files t -> curr_file s = curr_file t -> super s = super t ->
  inodes s = inodes t -> fdt s = fdt t -> root s = root t ->
  free_blocks s = free_blocks t -> disk s = disk t -> s = t.
Proof. destruct s, t. cbn. intros. subst. reflexivity. Qed.

(** ** get_free_bitmap_address: first fit *)

(** X1.  get_free_bitmap_address returns the smallest index whose bitmap
    byte is 0, and -1 exactly when no byte of the bitmap is 0. *)
Theorem get_free_bitmap_address_first_fit (s : sfs) :
  shape s ->
  exists e, get_free_bitmap_address s = Ret e /\
    ((e = -1 /\ forall k : Z, 0 <= k < MAX_DATA_BLOCKS_SCALED_DOWN ->
                              free_blocks s !! Z.to_nat k <> Some 0) \/
     (0 <= e < MAX_DATA_BLOCKS_SCALED_DOWN /\ free_blocks s !! Z.to_nat e = Some 0 /\
      forall k : Z, 0 <= k < e -> free_blocks s !! Z.to_nat k <> Some 0)).
Proof.
  intros Hs. unfold get_free_bitmap_address.
  destruct (gfba_loop_spec (free_blocks s) (Z.to_nat MAX_DATA_BLOCKS_SCALED_DOWN) 0)
    as (e & Hrun & Hres); [lia|rewrite (shape_bitmap s Hs); lia|].
  exists e. split; [exact Hrun|].
  destruct Hres as [[-> Hno]|(He & Hz & Hno)].
  - left. split; [reflexivity|]. intros k Hk. apply Hno. lia.
  - right. split; [lia|]. split; [assumption|]. intros k Hk. apply Hno. lia.
Qed.

Lemma get_free_bitmap_address_first_fit_witness :
  exists e, get_free_bitmap_address (opened_state "f") = Ret e /\
    ((e = -1 /\ forall k : Z, 0 <= k < MAX_DATA_BLOCKS_SCALED_DOWN ->
                              free_blocks (opened_state "f") !! Z.to_nat k <> Some 0) \/
     (0 <= e < MAX_DATA_BLOCKS_SCALED_DOWN /\
      free_blocks (opened_state "f") !! Z.to_nat e = Some 0 /\
      forall k : Z, 0 <= k < e -> free_blocks (opened_state "f") !! Z.to_nat k <> Some 0)).
Proof.
  apply (get_free_bitmap_address_first_fit (opened_state "f")).
  split; reflexivity.
Defined.

(** ** sfs_fclose *)

(** X2.  sfs_fclose returns -1 and changes nothing for a handle outside
    1..NUM_INODES-1 (descriptor 0, the root directory's, included) and for a
    descriptor that is free. *)
Theorem fclose_refuses (s : sfs) (fd : Z) :
  ((fd <= 0 \/ NUM_INODES <= fd) -> sfs_fclose fd s = Ret (-1, s)) /\
  (forall f, 0 <= fd -> fdt s !! Z.to_nat fd = Some f -> inode f = -1 ->
             sfs_fclose fd s = Ret (-1, s)).
Proof.
  split.
  - intros Hfd. unfold sfs_fclose. rewrite Z.gtb_ltb.
    destruct (Z.ltb_spec 0 fd); destruct (Z.ltb_spec fd NUM_INODES); try reflexivity; lia.
  - intros f Hfd Hf Hfree. unfold sfs_fclose.
    destruct ((fd >? 0) && (fd <? NUM_INODES)); [|reflexivity].
    rewrite (arr_get_Ret _ _ f Hfd Hf). cbn [bind]. rewrite Hfree. reflexivity.
Qed.

Lemma fclose_refuses_witness :
  sfs_fclose 0 (opened_state "f") = Ret (-1, opened_state "f") /\
  sfs_fclose NUM_INODES (opened_state "f") = Ret (-1, opened_state "f") /\
  sfs_fclose 2 (opened_state "f") = Ret (-1, opened_state "f").
Proof.
  destruct (fclose_refuses (opened_state "f") 0) as [H0 _].
  destruct (fclose_refuses (opened_state "f") NUM_INODES) as [H1 _].
  destruct (fclose_refuses (opened_state "f") 2) as [_ H2].
  split; [apply H0; left; lia|]. split; [apply H1; right; lia|].
  apply (H2 (mk_fd (-1) 0)); [lia|reflexivity|reflexivity].
Defined.

Lemma fclose_Ret (s : sfs) (fd : Z) (f : file_descriptor_t) :
  0 < fd < NUM_INODES -> fdt s !! Z.to_nat fd = Some f -> inode f <> -1 ->
  sfs_fclose fd s = Ret (0, set_fdt s (<[Z.to_nat fd := mk_fd (-1) 0]> (fdt s))).
Proof.
  intros Hfd Hf Hused.
  pose proof (lookup_lt_Some _ _ _ Hf) as Hlt.
  unfold sfs_fclose. rewrite Z.gtb_ltb.
  destruct (Z.ltb_spec 0 fd); [|lia]. destruct (Z.ltb_spec fd NUM_INODES); [|lia].
  cbn [andb].
  rewrite (arr_get_Ret _ _ f) by (lia || exact Hf). cbn [bind].
  destruct (Z.eqb_spec (inode f) (-1)); [contradiction|]. cbn [negb].
  rewrite (upd_fd_Ret s fd _ f) by (lia || exact Hf). cbn [bind].
  erewrite upd_fd_Ret; [|lia|cbn [fdt set_fdt]; apply list_lookup_insert_eq; exact Hlt].
  cbn [bind fdt set_fdt inode]. rewrite list_insert_insert_eq. reflexivity.
Qed.

(** X3.  sfs_fclose on a descriptor in use returns 0 and resets that
    descriptor to (-1, 0), touching nothing else.  The handle is dead
    afterwards: a second close and a seek return -1, a write and a read
    return 0, and none of them changes the state. *)
Theorem fclose_releases_descriptor (s : sfs) (fd : Z) (f : file_descriptor_t) :
  0 < fd < NUM_INODES -> fdt s !! Z.to_nat fd = Some f -> inode f <> -1 ->
  let s' := set_fdt s (<[Z.to_nat fd := mk_fd (-1) 0]> (fdt s)) in
  sfs_fclose fd s = Ret (0, s') /\
  sfs_fclose fd s' = Ret (-1, s') /\
  (forall loc, sfs_fseek fd loc s' = Ret (-1, s')) /\
  (forall buf len, sfs_fwrite fd buf len s' = Ret (0, s')) /\
  (forall len, sfs_fread fd len s' = Ret (0, [], s')).
Proof.
  intros Hfd Hf Hused s'.
  pose proof (lookup_lt_Some _ _ _ Hf) as Hlt.
  assert (Hf' : fdt s' !! Z.to_nat fd = Some (mk_fd (-1) 0)).
  { unfold s'. cbn [fdt set_fdt]. apply list_lookup_insert_eq. exact Hlt. }
  assert (Hrange : (fd >? 0) && (fd <? NUM_INODES) = true).
  { rewrite Z.gtb_ltb. destruct (Z.ltb_spec 0 fd); [|lia].
    destruct (Z.ltb_spec fd NUM_INODES); [reflexivity|lia]. }
  split; [|split; [|split; [|split]]].
  - apply (fclose_Ret s fd f Hfd Hf Hused).
  - unfold sfs_fclose. rewrite Hrange.
    rewrite (arr_get_Ret _ fd _) by (lia || exact Hf'). reflexivity.
  - intros loc. unfold sfs_fseek. rewrite Hrange.
    rewrite (arr_get_Ret _ fd _) by (lia || exact Hf'). reflexivity.
  - intros buf len. unfold sfs_fwrite. destruct (len <=? 0); [reflexivity|].
    rewrite (arr_get_Ret _ fd _) by (lia || exact Hf'). reflexivity.
  - intros len. unfold sfs_fread. destruct (len <=? 0); [reflexivity|].
    rewrite (arr_get_Ret _ fd _) by (lia || exact Hf'). reflexivity.
Qed.

Lemma fclose_releases_descriptor_witness :
  let s' := set_fdt (opened_state "f")
              (<[Z.to_nat 1 := mk_fd (-1) 0]> (fdt (opened_state "f"))) in
  sfs_fclose 1 (opened_state "f") = Ret (0, s') /\
  sfs_fclose 1 s' = Ret (-1, s') /\
  (forall loc, sfs_fseek 1 loc s' = Ret (-1, s')) /\
  (forall buf len, sfs_fwrite 1 buf len s' = Ret (0, s')) /\
  (forall len, sfs_fread 1 len s' = Ret (0, [], s')).
Proof.
  apply (fclose_releases_descriptor (opened_state "f") 1 (mk_fd 1 0)).
  - consts. lia.
  - reflexivity.
  - cbn. lia.
Defined.

(** ** sfs_getfilesize *)

Lemma getfilesize_loop_none (name : string) (s : sfs) :
  shape s ->
  forall (n : nat) (i0 sz : Z),
    0 <= i0 -> i0 + Z.of_nat n <= NUM_FILE_INODES ->
    (forall (k : Z) e, i0 <= k < i0 + Z.of_nat n -> root s !! Z.to_nat k = Some e ->
                       names e <> name) ->
    getfilesize_loop name s n i0 sz = Ret sz.
Proof.
  intros Hs. induction n as [|n IH]; intros i0 sz Hi0 Hlen Hno; [reflexivity|].
  cbn [getfilesize_loop].
  destruct (arr_get_lt (root s) i0) as (e & Hget & He).
  { rewrite (shape_root s Hs). lia. }
  rewrite Hget. cbn [bind].
  destruct (String.eqb_spec name (names e)) as [E|_].
  - exfalso. apply (Hno i0 e); [lia|exact He|congruence].
  - apply IH; [lia|lia|]. intros k e' Hk. apply Hno. lia.
Qed.

Lemma getfilesize_loop_last (name : string) (s : sfs) (i : Z) (nd : inode_t) :
  shape s -> last_match s name i -> inodes s !! Z.to_nat (i + 1) = Some nd ->
  forall (n : nat) (i0 sz : Z),
    0 <= i0 <= i -> i < i0 + Z.of_nat n -> i0 + Z.of_nat n <= NUM_FILE_INODES ->
    getfilesize_loop name s n i0 sz = Ret (to_int (size nd)).
Proof.
  intros Hs (Hi & (e & He & Hname) & Hlast) Hnd.
  induction n as [|n IH]; intros i0 sz Hi0 Hlt Hlen; [lia|].
  cbn [getfilesize_loop].
  destruct (arr_get_lt (root s) i0) as (e0 & Hget & He0).
  { rewrite (shape_root s Hs). lia. }
  rewrite Hget. cbn [bind].
  destruct (Z.eq_dec i0 i) as [->|Hne].
  - rewrite He in He0. injection He0 as <-.
    rewrite Hname, String.eqb_refl.
    rewrite (arr_get_Ret _ _ nd) by (lia || assumption). cbn [bind].
    apply getfilesize_loop_none; [assumption|lia|lia|].
    intros k e' Hk. apply Hlast. lia.
  - destruct (String.eqb name (names e0)).
    + destruct (arr_get_lt (inodes s) (i0 + 1)) as (n0 & Hgetn & _).
      { rewrite (shape_inodes s Hs). consts. lia. }
      rewrite Hgetn. cbn [bind]. apply IH; lia.
    + apply IH; lia.
Qed.

(** X4.  sfs_getfilesize returns -1 when no directory entry carries the
    name; otherwise it returns the size field of the i-node of the last
    entry, in table order, that carries the name (the scan does not stop at
    the first hit). *)
Theorem getfilesize_last_match (s : sfs) (name : string) :
  shape s ->
  (no_match s name -> sfs_getfilesize name s = Ret (-1)) /\
  (forall i nd, last_match s name i -> inodes s !! Z.to_nat (i + 1) = Some nd ->
                sfs_getfilesize name s = Ret (to_int (size nd))).
Proof.
  intros Hs. split.
  - intros Hno. unfold sfs_getfilesize.
    apply getfilesize_loop_none; [assumption|lia|consts; lia|].
    intros k e _. apply Hno.
  - intros i nd Hlast Hnd. unfold sfs_getfilesize.
    pose proof Hlast as (Hi & (e & He & _) & _).
    pose proof (lookup_lt_Some _ _ _ He) as Hlt. rewrite (shape_root s Hs) in Hlt.
    apply (getfilesize_loop_last name s i nd Hs Hlast Hnd); consts; lia.
Qed.

Lemma opened_state_root_tail (name : string) (k : Z) (e : directory_entry_t) :
  1 <= k -> root (opened_state name) !! Z.to_nat k = Some e -> names e = EmptyString.
Proof.
  intros Hk He. destruct (Z.to_nat k) as [|k'] eqn:E; [lia|].
  cbn [opened_state root lookup list_lookup] in He.
  apply list_elem_of_lookup_2, elem_of_replicate in He. destruct He as [-> _]. reflexivity.
Qed.

Lemma getfilesize_last_match_witness :
  sfs_getfilesize "g" (opened_state "f") = Ret (-1) /\
  sfs_getfilesize "f" (opened_state "f") = Ret (to_int 0).
Proof.
  destruct (getfilesize_last_match (opened_state "f") "g" (opened_state_shape "f")) as [Hg _].
  destruct (getfilesize_last_match (opened_state "f") "f" (opened_state_shape "f")) as [_ Hf].
  split.
  - apply Hg. intros i e He.
    destruct i as [|i]; [cbn in He; injection He as <-; discriminate|].
    rewrite (opened_state_root_tail "f" (Z.of_nat (S i)) e); [discriminate|lia|].
    rewrite Nat2Z.id. exact He.
  - apply (Hf 0 (mk_inode 1 1 0 (replicate (Z.to_nat NUM_DIRECT_POINTERS) 0) 0)); [|reflexivity].
    split; [lia|]. split.
    + exists (mk_dirent 1 "f"). split; reflexivity.
    + intros k e' Hk He' Hname.
      rewrite (opened_state_root_tail "f" k e') in Hname; [discriminate|lia|exact He'].
Defined.

(** ** sfs_getnextfilename *)

Lemma getnextfilename_loop_spec (s : sfs) :
  forall (n : nat) (i counter : Z),
    0 <= i -> i + Z.of_nat n <= Z.of_nat (length (root s)) ->
    0 <= counter <= curr_file s ->
    getnextfilename_loop s n i counter
    = Ret ((names <$> filter (fun e => entry_mode e = 1)
                             (take n (drop (Z.to_nat i) (root s))))
           !! Z.to_nat (curr_file s - counter)).
Proof.
  induction n as [|n IH]; intros i c Hi Hlen Hc.
  - cbn [getnextfilename_loop]. rewrite take_0, filter_nil. reflexivity.
  - cbn [getnextfilename_loop].
    destruct (arr_get_lt (root s) i) as (e & Hget & He); [lia|].
    rewrite Hget. cbn [bind].
    rewrite (drop_S _ _ _ He), firstn_cons, filter_cons.
    replace (S (Z.to_nat i)) with (Z.to_nat (i + 1)) by lia.
    destruct (Z.eqb_spec (entry_mode e) 1) as [E|Hne]; cbn [negb].
    + rewrite decide_True by exact E.
      destruct (Z.eqb_spec c (curr_file s)) as [->|Hcne].
      * rewrite Z.sub_diag. reflexivity.
      * rewrite IH by lia. f_equal. cbn [fmap list_fmap].
        replace (Z.to_nat (curr_file s - c)) with (S (Z.to_nat (curr_file s - (c + 1)))) by lia.
        reflexivity.
    + rewrite decide_False by exact Hne. apply IH; lia.
Qed.

(** X5.  With [num_files > 0] the call of sfs_getnextfilename made when
    [curr_file] is k delivers the name of the k-th directory entry whose
    mode flag is 1, in table order, returns 1 and moves [curr_file] to
    k + 1; when there is no such entry, or when [num_files] is 0, it
    returns 0 and rewinds [curr_file] to 0.  Nothing but [curr_file]
    changes. *)
Theorem getnextfilename_enumerates (s : sfs) :
  shape s -> 0 <= curr_file s ->
  sfs_getnextfilename s =
    match (if num_files s >? 0 then active_names s !! Z.to_nat (curr_file s) else None) with
    | Some fname => Ret (1, Some fname, set_curr_file s (to_uint (curr_file s + 1)))
    | None => Ret (0, None, set_curr_file s 0)
    end.
Proof.
  intros Hs Hc. unfold sfs_getnextfilename.
  destruct (num_files s >? 0); [|reflexivity].
  rewrite getnextfilename_loop_spec; [|lia|rewrite (shape_root s Hs); lia|lia].
  cbn [bind]. change (Z.to_nat 0) with 0%nat. rewrite drop_0.
  rewrite firstn_all2 by (rewrite (shape_root s Hs); lia).
  rewrite Z.sub_0_r. reflexivity.
Qed.

Lemma getnextfilename_enumerates_witness :
  sfs_getnextfilename (opened_state "f") =
    match (if num_files (opened_state "f") >? 0
           then active_names (opened_state "f") !! Z.to_nat (curr_file (opened_state "f"))
           else None) with
    | Some fname => Ret (1, Some fname,
                         set_curr_file (opened_state "f")
                                       (to_uint (curr_file (opened_state "f") + 1)))
    | None => Ret (0, None, set_curr_file (opened_state "f") 0)
    end.
Proof.
  apply (getnextfilename_enumerates (opened_state "f") (opened_state_shape "f")).
  cbn. lia.
Defined.

(** ** sfs_fopen: creating a file *)

Lemma fopen_free_fd_first (s : sfs) (j : Z) :
  shape s -> first_free_fd s j ->
  forall (n : nat) (j0 : Z),
    1 <= j0 <= j -> j < j0 + Z.of_nat n -> j0 + Z.of_nat n <= NUM_INODES ->
    fopen_free_fd (fdt s) n j0 = Ret (Some j).
Proof.
  intros Hs (Hj & (f & Hf & Hfree) & Hfirst).
  induction n as [|n IH]; intros j0 Hj0 Hlt Hlen; [lia|].
  cbn [fopen_free_fd].
  destruct (arr_get_lt (fdt s) j0) as (f0 & Hget & Hf0).
  { rewrite (shape_fdt s Hs). lia. }
  rewrite Hget. cbn [bind].
  destruct (Z.eq_dec j0 j) as [->|Hne].
  - rewrite Hf in Hf0. injection Hf0 as <-. rewrite Hfree. reflexivity.
  - destruct (Z.eqb_spec (inode f0) (-1)) as [E|_].
    + exfalso. apply (Hfirst j0 f0); [lia|assumption|assumption].
    + apply IH; lia.
Qed.

Lemma fopen_create_first (name : string) (s : sfs) (i j : Z) :
  shape s -> first_free_inode s i -> first_free_fd s j ->
  forall (n : nat) (i0 : Z),
    1 <= i0 <= i -> i < i0 + Z.of_nat n -> i0 + Z.of_nat n <= NUM_INODES ->
    fopen_create name s n i0 = let! s' := fopen_bind name s i j in Ret (j, s').
Proof.
  intros Hs (Hi & (nd & Hnd & Hfree) & Hfirst) Hj.
  pose proof Hj as (Hjr & _).
  induction n as [|n IH]; intros i0 Hi0 Hlt Hlen; [lia|].
  cbn [fopen_create].
  destruct (arr_get_lt (inodes s) i0) as (n0 & Hget & Hn0).
  { rewrite (shape_inodes s Hs). lia. }
  rewrite Hget. cbn [bind].
  destruct (Z.eq_dec i0 i) as [->|Hne].
  - rewrite Hnd in Hn0. injection Hn0 as <-. rewrite Hfree. cbn [Z.eqb].
    rewrite (fopen_free_fd_first s j Hs Hj) by (consts; lia). reflexivity.
  - destruct (Z.eqb_spec (link_cnt n0) 0) as [E|_].
    + exfalso. apply (Hfirst i0 n0); [lia|assumption|assumption].
    + apply IH; lia.
Qed.

Lemma fopen_bind_Ret (name : string) (s : sfs) (i j : Z) (nd : inode_t) :
  shape s -> 1 <= i < NUM_INODES -> 1 <= j < NUM_INODES ->
  inodes s !! Z.to_nat i = Some nd ->
  fopen_bind name s i j =
  Ret (let ins := <[Z.to_nat i := mk_inode 1 1 0 (direct nd) (indirect nd)]> (inodes s) in
       let rt := <[Z.to_nat (i - 1) := mk_dirent 1 name]> (root s) in
       mk_sfs (to_uint (num_files s + 1)) (curr_file s) (super s) ins
              (<[Z.to_nat j := mk_fd i 0]> (fdt s)) rt (free_blocks s)
              (write_root (write_inodes (disk s) ins) rt)).
Proof.
  intros Hs Hi Hj Hnd.
  pose proof (lookup_lt_Some _ _ _ Hnd) as Hlti.
  destruct (lookup_lt_is_Some_2 (fdt s) (Z.to_nat j)) as [f Hf].
  { rewrite (shape_fdt s Hs). lia. }
  pose proof (lookup_lt_Some _ _ _ Hf) as Hltj.
  destruct (lookup_lt_is_Some_2 (root s) (Z.to_nat (i - 1))) as [e He].
  { rewrite (shape_root s Hs). consts. lia. }
  pose proof (lookup_lt_Some _ _ _ He) as Hlte.
  unfold fopen_bind.
  rewrite (upd_fd_Ret s j _ f) by (lia || exact Hf). cbn [bind].
  erewrite upd_fd_Ret; [|lia|cbn [fdt set_fdt]; apply list_lookup_insert_eq; exact Hltj].
  cbn [bind fdt set_fdt inode]. rewrite list_insert_insert_eq.
  erewrite upd_inode_Ret; [|lia|cbn; exact Hnd]. cbn [bind].
  erewrite upd_inode_Ret;
    [|lia|cbn [inodes set_inodes]; apply list_lookup_insert_eq; exact Hlti].
  cbn [bind inodes set_inodes]. rewrite list_insert_insert_eq.
  erewrite upd_inode_Ret;
    [|lia|cbn [inodes set_inodes]; apply list_lookup_insert_eq; exact Hlti].
  cbn [bind inodes set_inodes]. rewrite list_insert_insert_eq.
  erewrite upd_root_Ret; [|lia|cbn; exact He]. cbn [bind].
  erewrite upd_root_Ret;
    [|lia|cbn [root set_root]; apply list_lookup_insert_eq; exact Hlte].
  cbn [bind root set_root]. rewrite list_insert_insert_eq.
  reflexivity.
Qed.

Lemma fopen_create_Ret (s : sfs) (name : string) (i j : Z) (nd : inode_t) :
  shape s -> strlen name < MAX_FILENAME -> no_match s name ->
  first_free_inode s i -> inodes s !! Z.to_nat i = Some nd -> first_free_fd s j ->
  sfs_fopen name s =
  Ret (j, let ins := <[Z.to_nat i := mk_inode 1 1 0 (direct nd) (indirect nd)]> (inodes s) in
          let rt := <[Z.to_nat (i - 1) := mk_dirent 1 name]> (root s) in
          mk_sfs (to_uint (num_files s + 1)) (curr_file s) (super s) ins
                 (<[Z.to_nat j := mk_fd i 0]> (fdt s)) rt (free_blocks s)
                 (write_root (write_inodes (disk s) ins) rt)).
Proof.
  intros Hs Hlen Hno Hi Hnd Hj.
  pose proof Hi as (Hir & _). pose proof Hj as (Hjr & _).
  unfold sfs_fopen. rewrite Z.geb_leb.
  destruct (Z.leb_spec MAX_FILENAME (strlen name)); [lia|].
  rewrite fopen_existing_none; [|lia|rewrite (shape_root s Hs); lia|].
  2:{ intros k e _. apply Hno. }
  cbn [bind].
  rewrite (fopen_create_first name s i j Hs Hi Hj) by (consts; lia).
  rewrite (fopen_bind_Ret name s i j nd Hs Hir Hjr Hnd). reflexivity.
Qed.

(** X6.  For a name shorter than MAX_FILENAME that no directory entry
    carries, sfs_fopen takes the first free i-node i and the first free
    descriptor j: it returns j, binds descriptor j to i-node i at offset 0,
    sets the i-node's mode and link count to 1 and its size to 0 while
    leaving its block pointers as they were, enters the name in
    directory slot i - 1, counts the file in [num_files] and writes the
    i-node table and the directory to disk.  Afterwards the size query
    reports 0 for the name and a second open of it is refused. *)
Theorem fopen_creates (s : sfs) (name : string) (i j : Z) (nd : inode_t) :
  shape s -> strlen name < MAX_FILENAME -> no_match s name ->
  first_free_inode s i -> inodes s !! Z.to_nat i = Some nd -> first_free_fd s j ->
  let ins := <[Z.to_nat i := mk_inode 1 1 0 (direct nd) (indirect nd)]> (inodes s) in
  let rt := <[Z.to_nat (i - 1) := mk_dirent 1 name]> (root s) in
  let s' := mk_sfs (to_uint (num_files s + 1)) (curr_file s) (super s) ins
                   (<[Z.to_nat j := mk_fd i 0]> (fdt s)) rt (free_blocks s)
                   (write_root (write_inodes (disk s) ins) rt) in
  sfs_fopen name s = Ret (j, s') /\
  sfs_getfilesize name s' = Ret 0 /\
  sfs_fopen name s' = Ret (-1, s').
Proof.
  intros Hs Hlen Hno Hi Hnd Hj ins rt s'.
  pose proof Hi as (Hir & _). pose proof Hj as (Hjr & _).
  pose proof (lookup_lt_Some _ _ _ Hnd) as Hlti.
  assert (Hs' : shape s').
  { destruct Hs as [Ha Hb Hc Hd]. split; cbn; unfold ins, rt; rewrite ?length_insert; assumption. }
  assert (Hlte : (Z.to_nat (i - 1) < length (root s))%nat).
  { rewrite (shape_root s Hs). consts. lia. }
  assert (Hlast : last_match s' name (i - 1) /\ first_match s' name (i - 1)).
  { assert (He : root s' !! Z.to_nat (i - 1) = Some (mk_dirent 1 name)).
    { cbn [s' root]. unfold rt. apply list_lookup_insert_eq. exact Hlte. }
    assert (Hother : forall (k : Z) e', 0 <= k -> k <> i - 1 ->
              root s' !! Z.to_nat k = Some e' -> names e' <> name).
    { intros k e' Hk Hne He'. cbn [s' root] in He'. unfold rt in He'.
      rewrite list_lookup_insert_ne in He' by lia. apply (Hno _ _ He'). }
    split; (split; [lia|]; split; [exists (mk_dirent 1 name); split; [exact He|reflexivity]|]).
    - intros k e' Hk. apply Hother; lia.
    - intros k e' Hk. apply Hother; lia. }
  destruct Hlast as [Hlast Hfst].
  split; [|split].
  - apply (fopen_create_Ret s name i j nd Hs Hlen Hno Hi Hnd Hj).
  - unfold sfs_getfilesize.
    rewrite (getfilesize_loop_last name s' (i - 1) (mk_inode 1 1 0 (direct nd) (indirect nd))
               Hs' Hlast); [reflexivity| |consts; lia|consts; lia|consts; lia].
    replace (i - 1 + 1) with i by lia. cbn [s' inodes]. unfold ins.
    apply list_lookup_insert_eq. exact Hlti.
  - unfold sfs_fopen. rewrite Z.geb_leb.
    destruct (Z.leb_spec MAX_FILENAME (strlen name)); [lia|].
    rewrite (fopen_existing_duplicate name s' (i - 1) j (mk_fd i 0) Hs' Hfst Hjr);
      [reflexivity| |cbn; lia].
    cbn [s' fdt]. apply list_lookup_insert_eq. rewrite (shape_fdt s Hs). lia.
Qed.

Lemma fopen_creates_witness :
  sfs_fopen "g" (opened_state "f") =
  Ret (2, mk_sfs (to_uint (1 + 1)) 0 (super (opened_state "f"))
            (<[Z.to_nat 2 := mk_inode 1 1 0 (direct zero_inode) (indirect zero_inode)]>
               (inodes (opened_state "f")))
            (<[Z.to_nat 2 := mk_fd 2 0]> (fdt (opened_state "f")))
            (<[Z.to_nat (2 - 1) := mk_dirent 1 "g"]> (root (opened_state "f")))
            (free_blocks (opened_state "f"))
            (write_root
               (write_inodes (disk (opened_state "f"))
                  (<[Z.to_nat 2 := mk_inode 1 1 0 (direct zero_inode) (indirect zero_inode)]>
                     (inodes (opened_state "f"))))
               (<[Z.to_nat (2 - 1) := mk_dirent 1 "g"]> (root (opened_state "f"))))).
Proof.
  apply (fopen_creates (opened_state "f") "g" 2 2 zero_inode).
  - apply opened_state_shape.
  - vm_compute. reflexivity.
  - intros k e He.
    destruct k as [|k]; [cbn in He; injection He as <-; discriminate|].
    rewrite (opened_state_root_tail "f" (Z.of_nat (S k)) e); [discriminate|lia|].
    rewrite Nat2Z.id. exact He.
  - split; [consts; lia|]. split.
    + exists zero_inode. split; reflexivity.
    + intros k nd' Hk Hnd'. assert (k = 1) as -> by lia.
      cbn in Hnd'. injection Hnd' as <-. cbn. lia.
  - reflexivity.
  - split; [consts; lia|]. split.
    + exists (mk_fd (-1) 0). split; reflexivity.
    + intros k f' Hk Hf'. assert (k = 1) as -> by lia.
      cbn in Hf'. injection Hf' as <-. cbn. lia.
Defined.

(** ** mksfs *)

Lemma mksfs_fresh_loop :
  forall (n : nat) (i0 : Z) (s : sfs),
    shape s -> 1 <= i0 -> i0 + Z.of_nat n <= NUM_INODES ->
    exists s', for_range n i0 mksfs_fresh_body s = Ret s' /\ shape s' /\
      num_files s' = num_files s /\ curr_file s' = curr_file s /\ super s' = super s /\
      free_blocks s' = free_blocks s /\ disk s' = disk s /\
      (forall k : Z, 0 <= k ->
         inodes s' !! Z.to_nat k =
         if (i0 <=? k) && (k <? i0 + Z.of_nat n)
         then (fun nd => with_link_cnt nd 0) <$> inodes s !! Z.to_nat k
         else inodes s !! Z.to_nat k) /\
      (forall k : Z, 0 <= k ->
         fdt s' !! Z.to_nat k =
         if (i0 <=? k) && (k <? i0 + Z.of_nat n)
         then (fun f => mk_fd (-1) (rwptr f)) <$> fdt s !! Z.to_nat k
         else fdt s !! Z.to_nat k) /\
      (forall k : Z, 0 <= k ->
         root s' !! Z.to_nat k =
         if (i0 - 1 <=? k) && (k <? i0 - 1 + Z.of_nat n)
         then (fun _ => mk_dirent 0 EmptyString) <$> root s !! Z.to_nat k
         else root s !! Z.to_nat k).
Proof.
  induction n as [|n IH]; intros i0 s Hs Hi0 Hlen.
  - exists s. cbn [for_range]. repeat (split; [reflexivity || assumption|]).
    split; [|split]; intros k Hk.
    + destruct (Z.leb_spec i0 k); destruct (Z.ltb_spec k (i0 + Z.of_nat 0)); try reflexivity; lia.
    + destruct (Z.leb_spec i0 k); destruct (Z.ltb_spec k (i0 + Z.of_nat 0)); try reflexivity; lia.
    + destruct (Z.leb_spec (i0 - 1) k); destruct (Z.ltb_spec k (i0 - 1 + Z.of_nat 0));
        try reflexivity; lia.
  - cbn [for_range]. unfold mksfs_fresh_body at 1.
    destruct (lookup_lt_is_Some_2 (inodes s) (Z.to_nat i0)) as [nd Hnd].
    { rewrite (shape_inodes s Hs). lia. }
    destruct (lookup_lt_is_Some_2 (fdt s) (Z.to_nat i0)) as [f Hf].
    { rewrite (shape_fdt s Hs). lia. }
    destruct (lookup_lt_is_Some_2 (root s) (Z.to_nat (i0 - 1))) as [e He].
    { rewrite (shape_root s Hs). consts. lia. }
    pose proof (lookup_lt_Some _ _ _ Hnd) as Hltn.
    pose proof (lookup_lt_Some _ _ _ Hf) as Hltf.
    pose proof (lookup_lt_Some _ _ _ He) as Hlte.
    rewrite (upd_inode_Ret s i0 _ nd) by (lia || exact Hnd). cbn [bind].
    erewrite upd_fd_Ret; [|lia|cbn; exact Hf]. cbn [bind].
    erewrite upd_root_Ret; [|lia|cbn; exact He]. cbn [bind].
    erewrite upd_root_Ret; [|lia|cbn [root set_root]; apply list_lookup_insert_eq; exact Hlte].
    cbn [bind root set_root fdt set_fdt inodes set_inodes entry_mode names].
    rewrite list_insert_insert_eq.
    match goal with |- exists s', for_range n (i0 + 1) mksfs_fresh_body ?X = _ /\ _ =>
      set (s1 := X) end.
    assert (Hs1 : shape s1).
    { destruct Hs as [Ha Hb Hc Hd]. split; cbn; rewrite ?length_insert; assumption. }
    destruct (IH (i0 + 1) s1 Hs1) as
      (s' & Hrun & Hs' & Hnf & Hcf & Hsu & Hfb & Hd & Hin & Hfd & Hrt); [lia|lia|].
    exists s'. split; [exact Hrun|]. split; [exact Hs'|].
    split; [rewrite Hnf; reflexivity|]. split; [rewrite Hcf; reflexivity|].
    split; [rewrite Hsu; reflexivity|]. split; [rewrite Hfb; reflexivity|].
    split; [rewrite Hd; reflexivity|].
    split; [|split]; intros k Hk.
    + rewrite (Hin k Hk). unfold s1. cbn [inodes set_inodes set_fdt set_root].
      rewrite (lookup_insert_Z (inodes s) i0 k) by lia.
      destruct (Z.eqb_spec k i0) as [->|Hne].
      * rewrite Hnd.
        destruct (Z.leb_spec (i0 + 1) i0); [lia|]. cbn [andb].
        destruct (Z.leb_spec i0 i0); [|lia].
        destruct (Z.ltb_spec i0 (i0 + Z.of_nat (S n))); [reflexivity|lia].
      * destruct (Z.leb_spec (i0 + 1) k); destruct (Z.leb_spec i0 k); try lia;
          destruct (Z.ltb_spec k (i0 + 1 + Z.of_nat n));
          destruct (Z.ltb_spec k (i0 + Z.of_nat (S n))); try lia; reflexivity.
    + rewrite (Hfd k Hk). unfold s1. cbn [fdt set_inodes set_fdt set_root].
      rewrite (lookup_insert_Z (fdt s) i0 k) by lia.
      destruct (Z.eqb_spec k i0) as [->|Hne].
      * rewrite Hf.
        destruct (Z.leb_spec (i0 + 1) i0); [lia|]. cbn [andb].
        destruct (Z.leb_spec i0 i0); [|lia].
        destruct (Z.ltb_spec i0 (i0 + Z.of_nat (S n))); [reflexivity|lia].
      * destruct (Z.leb_spec (i0 + 1) k); destruct (Z.leb_spec i0 k); try lia;
          destruct (Z.ltb_spec k (i0 + 1 + Z.of_nat n));
          destruct (Z.ltb_spec k (i0 + Z.of_nat (S n))); try lia; reflexivity.
    + rewrite (Hrt k Hk). unfold s1. cbn [root set_inodes set_fdt set_root].
      rewrite (lookup_insert_Z (root s) (i0 - 1) k) by lia.
      replace (i0 + 1 - 1) with (i0 - 1 + 1) by lia.
      destruct (Z.eqb_spec k (i0 - 1)) as [->|Hne].
      * rewrite He.
        destruct (Z.leb_spec (i0 - 1 + 1) (i0 - 1)); [lia|]. cbn [andb].
        destruct (Z.leb_spec (i0 - 1) (i0 - 1)); [|lia].
        destruct (Z.ltb_spec (i0 - 1) (i0 - 1 + Z.of_nat (S n))); [reflexivity|lia].
      * destruct (Z.leb_spec (i0 - 1 + 1) k); destruct (Z.leb_spec (i0 - 1) k); try lia;
          destruct (Z.ltb_spec k (i0 - 1 + 1 + Z.of_nat n));
          destruct (Z.ltb_spec k (i0 - 1 + Z.of_nat (S n))); try lia; reflexivity.
Qed.

Lemma mksfs_fresh_eq (s : sfs) (fresh : Z) :
  shape s -> fresh <> 0 -> mksfs fresh s = Ret (formatted s).
Proof.
  intros Hs Hfresh. unfold mksfs.
  destruct (Z.eqb_spec fresh 0) as [|_]; [contradiction|].
  assert (Hs0 : shape (init_super s)) by (destruct Hs; split; assumption).
  destruct (mksfs_fresh_loop (Z.to_nat (NUM_INODES - 1)) 1 (init_super s) Hs0)
    as (s1 & Hrun & Hs1 & _ & _ & Hsu & _ & _ & Hin & Hfd & Hrt); [lia|consts; lia|].
  rewrite Hrun. cbn [bind].
  destruct (lookup_lt_is_Some_2 (fdt s) 0) as [f0 Hf0].
  { rewrite (shape_fdt s Hs). consts. lia. }
  destruct (lookup_lt_is_Some_2 (inodes s) 0) as [n0 Hn0].
  { rewrite (shape_inodes s Hs). consts. lia. }
  assert (Hf1 : fdt s1 !! Z.to_nat 0 = Some f0) by (rewrite (Hfd 0) by lia; exact Hf0).
  assert (Hn1 : inodes s1 !! Z.to_nat 0 = Some n0) by (rewrite (Hin 0) by lia; exact Hn0).
  pose proof (lookup_lt_Some _ _ _ Hf1) as Hltf.
  erewrite upd_fd_Ret; [|lia|cbn; exact Hf1]. cbn [bind].
  erewrite upd_fd_Ret; [|lia|cbn [fdt set_fdt]; apply list_lookup_insert_eq; exact Hltf].
  cbn [bind fdt set_fdt inode]. rewrite list_insert_insert_eq.
  erewrite upd_inode_Ret; [|lia|cbn; exact Hn1]. cbn [bind].
  f_equal.
  assert (Ei : <[Z.to_nat 0 := with_link_cnt n0 1]> (inodes s1)
               = imap (fun k n => with_link_cnt n (match k with O => 1 | _ => 0 end)) (inodes s)).
  { apply list_eq. intros k. rewrite list_lookup_imap.
    destruct k as [|k].
    - change (Z.to_nat 0) with 0%nat.
      rewrite list_lookup_insert_eq by (apply lookup_lt_Some in Hn1; exact Hn1).
      change (Z.to_nat 0) with 0%nat in Hn0. rewrite Hn0. reflexivity.
    - change (Z.to_nat 0) with 0%nat. rewrite list_lookup_insert_ne by lia.
      specialize (Hin (Z.of_nat (S k)) ltac:(lia)). rewrite Nat2Z.id in Hin.
      rewrite Hin. cbn [init_super set_super inodes].
      destruct (Z.leb_spec 1 (Z.of_nat (S k))); [|lia]. cbn [andb].
      destruct (Z.ltb_spec (Z.of_nat (S k)) (1 + Z.of_nat (Z.to_nat (NUM_INODES - 1))));
        [reflexivity|].
      rewrite lookup_ge_None_2; [reflexivity|].
      rewrite (shape_inodes s Hs). consts. lia. }
  assert (Ef : <[Z.to_nat 0 := mk_fd 0 0]> (fdt s1)
               = imap (fun k f => match k with O => mk_fd 0 0 | _ => mk_fd (-1) (rwptr f) end)
                      (fdt s)).
  { apply list_eq. intros k. rewrite list_lookup_imap.
    destruct k as [|k].
    - change (Z.to_nat 0) with 0%nat.
      rewrite list_lookup_insert_eq by exact Hltf.
      change (Z.to_nat 0) with 0%nat in Hf0. rewrite Hf0. reflexivity.
    - change (Z.to_nat 0) with 0%nat. rewrite list_lookup_insert_ne by lia.
      specialize (Hfd (Z.of_nat (S k)) ltac:(lia)). rewrite Nat2Z.id in Hfd.
      rewrite Hfd. cbn [init_super set_super fdt].
      destruct (Z.leb_spec 1 (Z.of_nat (S k))); [|lia]. cbn [andb].
      destruct (Z.ltb_spec (Z.of_nat (S k)) (1 + Z.of_nat (Z.to_nat (NUM_INODES - 1))));
        [reflexivity|].
      rewrite lookup_ge_None_2; [reflexivity|].
      rewrite (shape_fdt s Hs). consts. lia. }
  assert (Er : root s1 = replicate (Z.to_nat NUM_FILE_INODES) (mk_dirent 0 EmptyString)).
  { apply list_eq. intros k.
    specialize (Hrt (Z.of_nat k) ltac:(lia)). rewrite Nat2Z.id in Hrt.
    rewrite Hrt. cbn [init_super set_super root].
    destruct (Z.leb_spec (1 - 1) (Z.of_nat k)); [|lia]. cbn [andb].
    destruct (Z.ltb_spec (Z.of_nat k) (1 - 1 + Z.of_nat (Z.to_nat (NUM_INODES - 1)))) as [Hk|Hk].
    - destruct (lookup_lt_is_Some_2 (root s) k) as [e He].
      { rewrite (shape_root s Hs). consts. lia. }
      rewrite He. cbn. symmetry. apply lookup_replicate_2. consts. lia.
    - rewrite lookup_ge_None_2 by (rewrite (shape_root s Hs); consts; lia).
      symmetry. apply lookup_ge_None_2. rewrite length_replicate. consts. lia. }
  apply sfs_ext;
    cbn [num_files curr_file super inodes fdt root free_blocks disk formatted
         set_disk set_free_blocks set_inodes set_fdt set_curr_file set_num_files];
    rewrite ?Ei, ?Ef, ?Er, ?Hsu; reflexivity.
Qed.

Lemma formatted_shape (s : sfs) : shape s -> shape (formatted s).
Proof.
  intros [Ha Hb Hc Hd]. split; cbn [formatted inodes fdt root free_blocks];
    rewrite ?length_imap, ?length_replicate; auto.
Qed.

Lemma formatted_no_match (s : sfs) (name : string) :
  name <> EmptyString -> no_match (formatted s) name.
Proof.
  intros Hname i e He. cbn [formatted root] in He.
  apply list_elem_of_lookup_2, elem_of_replicate in He. destruct He as [-> _].
  cbn. congruence.
Qed.

(** X7.  [mksfs(fresh)] with a non-zero argument turns any state of the
    globals into [formatted]: the superblock holds its constants, every
    link count is 0 but that of i-node 0, every descriptor but descriptor 0
    is free, the directory and the bitmap are cleared, both counters are 0,
    and the new disk holds these tables and zero blocks.  On the result the
    listing is empty, no name that is not empty resolves, and no block is
    in use. *)
Theorem mksfs_fresh_formats (s : sfs) (fresh : Z) :
  shape s -> fresh <> 0 ->
  mksfs fresh s = Ret (formatted s) /\
  sfs_getnextfilename (formatted s) = Ret (0, None, formatted s) /\
  (forall name, name <> EmptyString -> sfs_getfilesize name (formatted s) = Ret (-1)) /\
  bitmap_ones (formatted s) = 0.
Proof.
  intros Hs Hfresh. split; [apply mksfs_fresh_eq; assumption|].
  split; [reflexivity|]. split.
  - intros name Hname. unfold sfs_getfilesize.
    apply getfilesize_loop_none; [apply formatted_shape; exact Hs|lia|consts; lia|].
    intros k e _ He. apply (formatted_no_match s name Hname _ _ He).
  - unfold bitmap_ones. cbn [formatted free_blocks].
    induction (Z.to_nat MAX_DATA_BLOCKS_SCALED_DOWN) as [|n IH]; [reflexivity|].
    cbn [replicate]. rewrite filter_cons, decide_False by lia. exact IH.
Qed.

Lemma mksfs_fresh_formats_witness :
  mksfs 1 (opened_state "f") = Ret (formatted (opened_state "f")) /\
  sfs_getnextfilename (formatted (opened_state "f"))
  = Ret (0, None, formatted (opened_state "f")) /\
  (forall name, name <> EmptyString ->
                sfs_getfilesize name (formatted (opened_state "f")) = Ret (-1)) /\
  bitmap_ones (formatted (opened_state "f")) = 0.
Proof.
  apply (mksfs_fresh_formats (opened_state "f") 1 (opened_state_shape "f")). lia.
Defined.

Lemma mksfs_load_loop :
  forall (n : nat) (i0 : Z) (s : sfs),
    length (inodes s) = Z.to_nat NUM_INODES -> length (fdt s) = Z.to_nat NUM_INODES ->
    1 <= i0 -> i0 + Z.of_nat n <= NUM_INODES ->
    0 <= num_files s -> num_files s + Z.of_nat n < 2 ^ 32 ->
    exists s', for_range n i0 mksfs_load_body s = Ret s' /\
      inodes s' = inodes s /\ root s' = root s /\ free_blocks s' = free_blocks s /\
      disk s' = disk s /\ super s' = super s /\ curr_file s' = curr_file s /\
      num_files s' = num_files s +
        Z.of_nat (length (filter (fun nd => link_cnt nd <> 0)
                                 (take n (drop (Z.to_nat i0) (inodes s))))) /\
      length (fdt s') = Z.to_nat NUM_INODES /\
      (forall k : Z, 0 <= k ->
         fdt s' !! Z.to_nat k =
         if (i0 <=? k) && (k <? i0 + Z.of_nat n) then Some (mk_fd (-1) 0)
         else fdt s !! Z.to_nat k).
Proof.
  induction n as [|n IH]; intros i0 s Hli Hlf Hi0 Hlen Hnf Hmax.
  - exists s. cbn [for_range]. rewrite take_0, filter_nil. cbn [length].
    repeat (split; [reflexivity || assumption || lia|]).
    intros k Hk.
    destruct (Z.leb_spec i0 k); destruct (Z.ltb_spec k (i0 + Z.of_nat 0)); try reflexivity; lia.
  - cbn [for_range]. unfold mksfs_load_body at 1.
    destruct (lookup_lt_is_Some_2 (inodes s) (Z.to_nat i0)) as [nd Hnd]; [lia|].
    destruct (lookup_lt_is_Some_2 (fdt s) (Z.to_nat i0)) as [f Hf]; [lia|].
    pose proof (lookup_lt_Some _ _ _ Hf) as Hltf.
    rewrite (arr_get_Ret _ _ nd) by (lia || exact Hnd). cbn [bind].
    set (s1 := if link_cnt nd =? 0 then s else set_num_files s (to_uint (num_files s + 1))).
    assert (Hs1 : inodes s1 = inodes s /\ fdt s1 = fdt s /\ root s1 = root s /\
                  free_blocks s1 = free_blocks s /\ disk s1 = disk s /\
                  super s1 = super s /\ curr_file s1 = curr_file s /\
                  num_files s1 = num_files s + (if link_cnt nd =? 0 then 0 else 1)).
    { unfold s1. destruct (link_cnt nd =? 0); cbn; repeat split; try lia.
      apply to_uint_small. lia. }
    destruct Hs1 as (Ei & Ef & Er & Eb & Ed & Es & Ec & En).
    erewrite upd_fd_Ret; [|lia|rewrite Ef; exact Hf]. cbn [bind].
    erewrite upd_fd_Ret;
      [|lia|cbn [fdt set_fdt]; apply list_lookup_insert_eq; rewrite Ef; exact Hltf].
    cbn [bind fdt set_fdt inode]. rewrite list_insert_insert_eq.
    match goal with |- exists s', for_range n (i0 + 1) mksfs_load_body ?X = _ /\ _ =>
      set (s2 := X) end.
    destruct (IH (i0 + 1) s2) as
      (s' & Hrun & Hin & Hrt & Hfb & Hd & Hsu & Hcf & Hn & Hl & Hfd).
    { unfold s2. cbn. rewrite Ei. exact Hli. }
    { unfold s2. cbn. rewrite length_insert, Ef. exact Hlf. }
    { lia. }
    { lia. }
    { unfold s2. cbn. rewrite En. destruct (link_cnt nd =? 0); lia. }
    { unfold s2. cbn. rewrite En. destruct (link_cnt nd =? 0); lia. }
    exists s'. split; [exact Hrun|].
    split; [rewrite Hin; unfold s2; cbn; exact Ei|].
    split; [rewrite Hrt; unfold s2; cbn; exact Er|].
    split; [rewrite Hfb; unfold s2; cbn; exact Eb|].
    split; [rewrite Hd; unfold s2; cbn; exact Ed|].
    split; [rewrite Hsu; unfold s2; cbn; exact Es|].
    split; [rewrite Hcf; unfold s2; cbn; exact Ec|].
    split; [|split; [exact Hl|]].
    + rewrite Hn. unfold s2. cbn [num_files inodes set_fdt]. rewrite En, Ei.
      rewrite (drop_S _ _ _ Hnd), firstn_cons, filter_cons.
      replace (S (Z.to_nat i0)) with (Z.to_nat (i0 + 1)) by lia.
      destruct (Z.eqb_spec (link_cnt nd) 0) as [E|Hne].
      * rewrite decide_False by lia. lia.
      * rewrite decide_True by exact Hne. cbn [length]. lia.
    + intros k Hk. rewrite (Hfd k Hk). unfold s2. cbn [fdt set_fdt].
      rewrite (lookup_insert_Z (fdt s1) i0 k) by (rewrite ?Ef; lia). rewrite Ef.
      destruct (Z.eqb_spec k i0) as [->|Hne].
      * destruct (Z.leb_spec (i0 + 1) i0); [lia|]. cbn [andb].
        destruct (Z.leb_spec i0 i0); [|lia].
        destruct (Z.ltb_spec i0 (i0 + Z.of_nat (S n))); [reflexivity|lia].
      * destruct (Z.leb_spec (i0 + 1) k); destruct (Z.leb_spec i0 k); try lia;
          destruct (Z.ltb_spec k (i0 + 1 + Z.of_nat n));
          destruct (Z.ltb_spec k (i0 + Z.of_nat (S n))); try lia; reflexivity.
Qed.

Lemma mksfs_load_eq (s : sfs) :
  length (fdt s) = Z.to_nat NUM_INODES ->
  length (disk_inodes (disk s)) = Z.to_nat NUM_INODES ->
  mksfs 0 s = Ret (mounted (disk s)).
Proof.
  intros Hlf Hli. unfold mksfs. cbn [Z.eqb].
  match goal with |- (let! s6 := for_range _ 1 mksfs_load_body ?X in _) = _ =>
    set (s5 := X) end.
  destruct (mksfs_load_loop (Z.to_nat (NUM_INODES - 1)) 1 s5)
    as (s6 & Hrun & Hin & Hrt & Hfb & Hd & Hsu & Hcf & Hn & Hl & Hfd);
    try (unfold s5; cbn; consts; lia || assumption).
  rewrite Hrun. cbn [bind].
  destruct (lookup_lt_is_Some_2 (fdt s6) 0) as [f0 Hf0]; [rewrite Hl; consts; lia|].
  pose proof (lookup_lt_Some _ _ _ Hf0) as Hlt0.
  erewrite upd_fd_Ret; [|lia|exact Hf0]. cbn [bind].
  erewrite upd_fd_Ret; [|lia|cbn [fdt set_fdt]; apply list_lookup_insert_eq; exact Hlt0].
  cbn [bind fdt set_fdt inode]. rewrite list_insert_insert_eq.
  f_equal. unfold mounted, files_on_disk, set_fdt.
  rewrite Hin, Hrt, Hfb, Hd, Hsu, Hcf, Hn. unfold s5.
  cbn [num_files curr_file super inodes fdt root free_blocks disk
       set_num_files set_curr_file set_free_blocks set_root set_inodes set_super].
  rewrite firstn_all2 by (rewrite length_drop, Hli; consts; lia).
  change (Z.to_nat 1) with 1%nat. rewrite Z.add_0_l.
  f_equal. apply list_eq. intros k.
  destruct k as [|k].
  - change (Z.to_nat 0) with 0%nat. rewrite list_lookup_insert_eq by exact Hlt0. reflexivity.
  - change (Z.to_nat 0) with 0%nat. rewrite list_lookup_insert_ne by lia.
    specialize (Hfd (Z.of_nat (S k)) ltac:(lia)). rewrite Nat2Z.id in Hfd. rewrite Hfd.
    destruct (Z.leb_spec 1 (Z.of_nat (S k))); [|lia]. cbn [andb].
    destruct (Z.ltb_spec (Z.of_nat (S k)) (1 + Z.of_nat (Z.to_nat (NUM_INODES - 1)))) as [Hk|Hk].
    + cbn [lookup list_lookup]. symmetry. apply lookup_replicate_2. consts. lia.
    + unfold s5. cbn [fdt set_num_files set_curr_file set_free_blocks set_root set_inodes
                      set_super].
      rewrite lookup_ge_None_2 by (rewrite Hlf; consts; lia).
      symmetry. apply lookup_ge_None_2. cbn [length]. rewrite length_replicate. consts. lia.
Qed.

(** X8.  [mksfs(0)] replaces the superblock, the i-node table, the
    directory and the bitmap by the tables stored on disk, frees every
    descriptor but descriptor 0, rewinds [curr_file] and sets [num_files] to
    the number of i-nodes 1..NUM_INODES-1 whose link count is not 0.  The
    result does not depend on what the globals held before, and the disk
    is not written. *)
Theorem mksfs_load_mounts (s : sfs) :
  length (fdt s) = Z.to_nat NUM_INODES ->
  length (disk_inodes (disk s)) = Z.to_nat NUM_INODES ->
  mksfs 0 s = Ret (mounted (disk s)) /\
  mksfs 0 (set_disk boot (disk s)) = Ret (mounted (disk s)) /\
  disk (mounted (disk s)) = disk s.
Proof.
  intros Hlf Hli. split; [apply mksfs_load_eq; assumption|]. split; [|reflexivity].
  apply (mksfs_load_eq (set_disk boot (disk s))); [reflexivity|exact Hli].
Qed.

Lemma mksfs_load_mounts_witness :
  mksfs 0 (opened_state "f") = Ret (mounted (disk (opened_state "f"))) /\
  mksfs 0 (set_disk boot (disk (opened_state "f")))
  = Ret (mounted (disk (opened_state "f"))) /\
  disk (mounted (disk (opened_state "f"))) = disk (opened_state "f").
Proof.
  apply (mksfs_load_mounts (opened_state "f")); reflexivity.
Defined.

(** ** sfs_fwrite: what a write leaves alone *)

Lemma write_frame_refl (fd ino : Z) (s : sfs) : write_frame fd ino s s.
Proof. split; eauto. Qed.

Lemma write_frame_trans (fd ino : Z) (s1 s2 s3 : sfs) :
  write_frame fd ino s1 s2 -> write_frame fd ino s2 s3 -> write_frame fd ino s1 s3.
Proof.
  intros [A1 A2 A3 A4 A5 A6 A7 A8 A9 A10 A11] [B1 B2 B3 B4 B5 B6 B7 B8 B9 B10 B11].
  split; try congruence.
  - intros j Hj Hne. rewrite B5, A5 by assumption. reflexivity.
  - intros f Hf. destruct (A6 f Hf) as (f' & Hf' & E). destruct (B6 f' Hf') as (f'' & Hf'' & E').
    exists f''. split; [assumption|congruence].
  - intros i Hi Hne. rewrite B7, A7 by assumption. reflexivity.
  - intros n Hn. destruct (A8 n Hn) as (n' & Hn' & E1 & E2).
    destruct (B8 n' Hn') as (n'' & Hn'' & E1' & E2').
    exists n''. split; [assumption|split; congruence].
  - intros k Hk H1. apply B9, A9; assumption.
Qed.

Lemma arr_set_inv {A : Type} (l : list A) (i : Z) (x : A) (l' : list A) :
  arr_set l i x = Ret l' -> 0 <= i < Z.of_nat (length l) /\ l' = <[Z.to_nat i := x]> l.
Proof.
  unfold arr_set. destruct (Z.ltb_spec i 0); [discriminate|].
  destruct (Z.leb_spec (Z.of_nat (length l)) i); [discriminate|].
  intros [= <-]. split; [lia|reflexivity].
Qed.

Lemma write_frame_set_bitmap (fd ino : Z) (s s' : sfs) (e : Z) :
  set_bitmap s e 1 = Ret s' -> write_frame fd ino s s'.
Proof.
  unfold set_bitmap. intros H. apply bind_inv in H. destruct H as (l & Hl & [= <-]).
  apply arr_set_inv in Hl. destruct Hl as [He ->].
  split; cbn; eauto.
  intros k Hk H1. rewrite lookup_insert_Z by lia.
  destruct (k =? e); [reflexivity|exact H1].
Qed.

Lemma write_frame_upd_inode (fd ino : Z) (s s' : sfs) (g : inode_t -> inode_t) :
  (forall n, mode (g n) = mode n /\ link_cnt (g n) = link_cnt n) ->
  upd_inode s ino g = Ret s' -> write_frame fd ino s s'.
Proof.
  intros Hg H. unfold upd_inode in H.
  apply bind_inv in H. destruct H as (n & Hn & H).
  apply bind_inv in H. destruct H as (l & Hl & [= <-]).
  apply arr_get_inv in Hn. destruct Hn as [Hi Hn].
  apply arr_set_inv in Hl. destruct Hl as [Hlt ->].
  split; cbn; eauto.
  - intros i Hi' Hne. apply list_lookup_insert_ne. lia.
  - intros n0 Hn0. rewrite Hn in Hn0. injection Hn0 as <-.
    exists (g n). split; [apply list_lookup_insert_eq; lia|apply Hg].
Qed.

Lemma write_frame_upd_fd (fd ino : Z) (s s' : sfs)
      (g : file_descriptor_t -> file_descriptor_t) :
  (forall f, inode (g f) = inode f) ->
  upd_fd s fd g = Ret s' -> write_frame fd ino s s'.
Proof.
  intros Hg H. unfold upd_fd in H.
  apply bind_inv in H. destruct H as (f & Hf & H).
  apply bind_inv in H. destruct H as (l & Hl & [= <-]).
  apply arr_get_inv in Hf. destruct Hf as [Hi Hf].
  apply arr_set_inv in Hl. destruct Hl as [Hlt ->].
  split; cbn; eauto.
  - intros j Hj Hne. apply list_lookup_insert_ne. lia.
  - intros f0 Hf0. rewrite Hf in Hf0. injection Hf0 as <-.
    exists (g f). split; [apply list_lookup_insert_eq; lia|apply Hg].
Qed.

Lemma write_frame_write_blocks (fd ino : Z) (s : sfs) (a : Z) (b : list byte) :
  write_frame fd ino s (set_disk s (write_blocks (disk s) a b)).
Proof. split; cbn; eauto. Qed.

Lemma fwrite_ensure_indirect_frame (fd ino : Z) (node : inode_t) (v v1 : wvars)
      (s s1 : sfs) (ok : bool) :
  fwrite_ensure_indirect ino node v s = Ret (ok, v1, s1) ->
  write_frame fd ino s s1 /\
  w_bytes_to_write v1 = w_bytes_to_write v /\ w_bytes_written v1 = w_bytes_written v.
Proof.
  unfold fwrite_ensure_indirect. intros H.
  destruct (indirect node <=? 0).
  - apply bind_inv in H. destruct H as (pe & _ & H).
    destruct (pe =? -1).
    + injection H as <- <- <-. split; [apply write_frame_refl|split; reflexivity].
    + apply bind_inv in H. destruct H as (sa & Ha & H).
      apply bind_inv in H. destruct H as (sb & Hb & [= <- <- <-]).
      split; [|split; reflexivity].
      eapply write_frame_trans; [eapply write_frame_set_bitmap; exact Ha|].
      eapply write_frame_upd_inode; [|exact Hb]. intros n. split; reflexivity.
  - injection H as <- <- <-. split; [apply write_frame_refl|split; reflexivity].
Qed.

Lemma fwrite_locate_frame (fd ino : Z) (v v1 : wvars) (s s1 : sfs)
      (res : option (Z * list byte)) :
  fwrite_locate ino v s = Ret (res, v1, s1) ->
  write_frame fd ino s s1 /\
  w_bytes_to_write v1 = w_bytes_to_write v /\ w_bytes_written v1 = w_bytes_written v.
Proof.
  unfold fwrite_locate. intros H.
  apply bind_inv in H. destruct H as (node & _ & H).
  destruct (w_current_block v <? NUM_DIRECT_POINTERS).
  - apply bind_inv in H. destruct H as (d & _ & H).
    destruct (d >? 0).
    + injection H as <- <- <-. split; [apply write_frame_refl|split; reflexivity].
    + apply bind_inv in H. destruct H as (e & _ & H).
      destruct (e =? -1).
      * injection H as <- <- <-. split; [apply write_frame_refl|split; reflexivity].
      * apply bind_inv in H. destruct H as (sa & Ha & H).
        apply bind_inv in H. destruct H as (dl & _ & H).
        apply bind_inv in H. destruct H as (sb & Hb & [= <- <- <-]).
        split; [|split; reflexivity].
        eapply write_frame_trans; [eapply write_frame_set_bitmap; exact Ha|].
        eapply write_frame_upd_inode; [|exact Hb]. intros n. split; reflexivity.
  - apply bind_inv in H. destruct H as ([[ok va] sa] & Ha & H).
    apply (fwrite_ensure_indirect_frame fd) in Ha. destruct Ha as (Fa & Ta & Wa).
    destruct (negb ok).
    { injection H as <- <- <-. auto. }
    destruct (negb (w_did_load_ptr_buff va)).
    { injection H as <- <- <-. auto. }
    apply bind_inv in H. destruct H as (p & _ & H).
    destruct (p >? 0).
    { injection H as <- <- <-. auto. }
    apply bind_inv in H. destruct H as (e & _ & H).
    destruct (e =? -1).
    { injection H as <- <- <-. auto. }
    apply bind_inv in H. destruct H as (sb & Hb & H).
    apply bind_inv in H. destruct H as (pb & _ & [= <- <- <-]).
    split; [|split; assumption].
    eapply write_frame_trans; [exact Fa|]. eapply write_frame_set_bitmap; exact Hb.
Qed.

Lemma fwrite_commit_frame (fd ino : Z) (buf : list byte) (e : Z) (buff : list byte)
      (v1 v2 : wvars) (s1 s2 : sfs) :
  fwrite_commit fd buf e buff v1 s1 = Ret (v2, s2) ->
  write_frame fd ino s1 s2 /\
  w_bytes_to_write v2 + w_bytes_written v2 = w_bytes_to_write v1 + w_bytes_written v1 /\
  w_bytes_written v1 <= w_bytes_written v2.
Proof.
  unfold fwrite_commit. intros H.
  apply bind_inv in H. destruct H as (f & _ & H).
  match type of H with (if ?c >? 0 then _ else _) = _ => set (bc := c) in * end.
  rewrite Z.gtb_ltb in H. destruct (Z.ltb_spec 0 bc) as [Hbc|Hbc].
  - apply bind_inv in H. destruct H as (src & _ & H).
    apply bind_inv in H. destruct H as (s3 & H3 & H).
    apply bind_inv in H. destruct H as (s4 & H4 & H).
    apply bind_inv in H. destruct H as (f' & _ & [= <- <-]).
    cbn [w_bytes_to_write w_bytes_written]. split; [|lia].
    eapply write_frame_trans; [apply (write_frame_write_blocks fd ino s1)|].
    eapply write_frame_trans; [eapply write_frame_set_bitmap; exact H3|].
    eapply write_frame_upd_fd; [|exact H4]. intros g. reflexivity.
  - injection H as <- <-. split; [apply write_frame_refl|lia].
Qed.

Lemma fwrite_body_frame (fd ino : Z) (buf : list byte) (v v' : wvars) (s s' : sfs)
      (brk : bool) :
  fwrite_body fd ino buf v s = Ret (brk, v', s') ->
  write_frame fd ino s s' /\
  w_bytes_to_write v' + w_bytes_written v' = w_bytes_to_write v + w_bytes_written v /\
  w_bytes_written v <= w_bytes_written v'.
Proof.
  unfold fwrite_body. intros H.
  apply bind_inv in H. destruct H as ([[loc v1] s1] & Hl & H).
  apply (fwrite_locate_frame fd) in Hl. cbn [w_set_did_write w_bytes_to_write w_bytes_written] in Hl.
  destruct Hl as (Fl & Tl & Wl).
  destruct loc as [[e buff]|].
  - apply bind_inv in H. destruct H as ([v2 s2] & Hc & [= <- <- <-]).
    apply (fwrite_commit_frame fd ino) in Hc. destruct Hc as (Fc & Tc & Wc).
    split; [eapply write_frame_trans; eassumption|lia].
  - injection H as <- <- <-. split; [exact Fl|lia].
Qed.

Lemma fwrite_loop_frame (fd ino : Z) (buf : list byte) :
  forall (fuel : nat) (v v' : wvars) (s s' : sfs),
    fwrite_loop fuel fd ino buf v s = Ret (v', s') ->
    write_frame fd ino s s' /\
    w_bytes_to_write v' + w_bytes_written v' = w_bytes_to_write v + w_bytes_written v /\
    w_bytes_written v <= w_bytes_written v'.
Proof.
  induction fuel as [|fuel IH]; intros v v' s s' H; cbn [fwrite_loop] in H.
  - destruct (_ && _) in H; [discriminate|].
    injection H as <- <-. split; [apply write_frame_refl|lia].
  - destruct (_ && _) in H.
    + apply bind_inv in H. destruct H as ([[brk v1] s1] & Hb & H).
      apply fwrite_body_frame in Hb. destruct Hb as (Fb & Tb & Wb).
      destruct brk.
      * injection H as <- <-. auto.
      * apply IH in H. destruct H as (Fl & Tl & Wl).
        split; [eapply write_frame_trans; eassumption|lia].
    + injection H as <- <-. split; [apply write_frame_refl|lia].
Qed.

Lemma fwrite_runs (s : sfs) (fd : Z) (buf : list byte) (len : Z)
      (f : file_descriptor_t) (nd : inode_t) :
  shape s -> 0 <= fd -> fdt s !! Z.to_nat fd = Some f ->
  0 < inode f -> inodes s !! Z.to_nat (inode f) = Some nd ->
  0 <= rwptr f <= size nd -> size nd <= MAX_FILE_BYTES -> inode_ptrs_ok s nd ->
  0 < len <= Z.of_nat (length buf) ->
  exists v0 v' s1 r',
    w_bytes_to_write v0 = len /\ w_bytes_written v0 = 0 /\
    fwrite_loop loop_fuel fd (inode f) buf v0 s = Ret (v', s1) /\
    write_inv fd (inode f) (rwptr f) len (size nd) v' s1 r' /\
    sfs_fwrite fd buf len s
    = (let! s'' := fwrite_finish (inode f) len v' s1 in Ret (w_bytes_written v', s'')).
Proof.
  intros Hs Hfd Hf Hino Hnd Hp Hsize (Hdl & Hdok & Hiok & Hload) Hlen.
  unfold sfs_fwrite.
  destruct (Z.leb_spec len 0) as [|_]; [lia|].
  rewrite (arr_get_Ret _ _ f Hfd Hf). cbn [bind].
  destruct (Z.leb_spec (inode f) 0); [lia|].
  rewrite (arr_get_Ret _ _ nd) by (lia || assumption). cbn [bind].
  rewrite Z.gtb_ltb. destruct (Z.ltb_spec (size nd) (rwptr f)); [lia|].
  rewrite Z.geb_leb.
  destruct (Z.leb_spec (MAX_DATA_BLOCKS_PER_FILE * BLOCK_SIZE) (rwptr f)); [consts; lia|].
  rewrite !to_int_small by (consts; lia).
  set (v0 := mk_wvars _ _ _ _ _ _ _).
  assert (Hinv : write_inv fd (inode f) (rwptr f) len (size nd) v0 s (rwptr f)).
  { unfold v0. split; proj_simpl; try assumption; try lia; try reflexivity.
    - destruct f; exact Hf.
    - exists nd. repeat split; try assumption.
      intros Hpos. rewrite Z.gtb_ltb. destruct (Z.ltb_spec 0 (indirect nd)); [reflexivity|lia].
    - rewrite Z.gtb_ltb. destruct (Z.ltb_spec 0 (indirect nd)) as [Hpos|]; [|discriminate].
      intros _. exact (Hload Hpos). }
  destruct (fwrite_loop_ok fd (inode f) (rwptr f) len (size nd) buf Hfd Hino ltac:(lia)
              ltac:(lia) ltac:(lia) loop_fuel v0 s (rwptr f) Hinv)
    as (v' & s' & r' & Hloop & Hinv' & Hle).
  { intros _ _. unfold loop_fuel. consts. lia. }
  exists v0, v', s', r'. split; [reflexivity|]. split; [reflexivity|].
  split; [exact Hloop|]. split; [exact Hinv'|].
  rewrite Hloop. reflexivity.
Qed.

Lemma fwrite_rejects (s : sfs) (fd : Z) (buf : list byte) (len : Z)
      (f : file_descriptor_t) (nd : inode_t) :
  0 <= fd -> fdt s !! Z.to_nat fd = Some f ->
  0 < inode f -> inodes s !! Z.to_nat (inode f) = Some nd ->
  len <= 0 \/ size nd < rwptr f ->
  sfs_fwrite fd buf len s = Ret (0, s).
Proof.
  intros Hfd Hf Hino Hnd Hcase. unfold sfs_fwrite.
  destruct (Z.leb_spec len 0) as [|Hlen]; [reflexivity|].
  rewrite (arr_get_Ret _ _ f Hfd Hf). cbn [bind].
  destruct (Z.leb_spec (inode f) 0); [reflexivity|].
  rewrite (arr_get_Ret _ _ nd) by (lia || assumption). cbn [bind].
  rewrite Z.gtb_ltb. destruct (Z.ltb_spec (size nd) (rwptr f)); [reflexivity|lia].
Qed.

Lemma fwrite_finish_frame (fd ino len : Z) (v : wvars) (s s' : sfs) :
  fwrite_finish ino len v s = Ret s' ->
  write_frame fd ino s s' /\
  (w_bytes_to_write v <> len ->
   disk_inodes (disk s') = inodes s' /\ disk_bitmap (disk s') = free_blocks s').
Proof.
  unfold fwrite_finish. intros H.
  destruct (Z.eqb_spec (w_bytes_to_write v) len) as [E|Hne].
  - injection H as <-. split; [apply write_frame_refl|contradiction].
  - apply bind_inv in H. destruct H as (s1 & H1 & H).
    apply bind_inv in H. destruct H as (node & _ & [= <-]).
    split; [|intros _; split; reflexivity].
    assert (F1 : write_frame fd ino s s1).
    { destruct (w_rwptr_size_offset v >? 0).
      - apply (write_frame_upd_inode fd ino s s1
                 (fun n => with_size n (to_uint (size n + w_rwptr_size_offset v))));
          [intros n; split; reflexivity|exact H1].
      - injection H1 as <-. apply write_frame_refl. }
    eapply write_frame_trans; [exact F1|].
    destruct (w_did_load_ptr_buff v); split; cbn; eauto.
Qed.

Lemma sfs_fwrite_frame (s s' : sfs) (fd : Z) (buf : list byte) (len n : Z)
      (f : file_descriptor_t) :
  0 <= fd -> fdt s !! Z.to_nat fd = Some f ->
  sfs_fwrite fd buf len s = Ret (n, s') ->
  write_frame fd (inode f) s s' /\
  (0 < n -> disk_inodes (disk s') = inodes s' /\ disk_bitmap (disk s') = free_blocks s').
Proof.
  intros Hfd Hf H. unfold sfs_fwrite in H.
  destruct (len <=? 0).
  { injection H as <- <-. split; [apply write_frame_refl|lia]. }
  rewrite (arr_get_Ret _ _ f Hfd Hf) in H. cbn [bind] in H.
  destruct (inode f <=? 0).
  { injection H as <- <-. split; [apply write_frame_refl|lia]. }
  apply bind_inv in H. destruct H as (node & _ & H).
  destruct (rwptr f >? size node).
  { injection H as <- <-. split; [apply write_frame_refl|lia]. }
  destruct (rwptr f >=? MAX_DATA_BLOCKS_PER_FILE * BLOCK_SIZE).
  { injection H as <- <-. split; [apply write_frame_refl|lia]. }
  apply bind_inv in H. destruct H as ([v1 s1] & Hloop & H).
  apply bind_inv in H. destruct H as (s2 & Hfin & [= <- <-]).
  apply fwrite_loop_frame in Hloop. cbn [w_bytes_to_write w_bytes_written] in Hloop.
  destruct Hloop as (Fl & Tl & Wl).
  apply (fwrite_finish_frame fd) in Hfin. destruct Hfin as (Ff & Hflush).
  split; [eapply write_frame_trans; eassumption|].
  intros Hn. apply Hflush. lia.
Qed.

Lemma fwrite_returns (s : sfs) (fd : Z) (buf : list byte) (len : Z)
      (f : file_descriptor_t) (nd : inode_t) :
  shape s -> 0 <= fd -> fdt s !! Z.to_nat fd = Some f ->
  0 < inode f -> inodes s !! Z.to_nat (inode f) = Some nd ->
  0 <= rwptr f -> 0 <= size nd <= MAX_FILE_BYTES -> inode_ptrs_ok s nd ->
  len <= Z.of_nat (length buf) ->
  exists n s', sfs_fwrite fd buf len s = Ret (n, s').
Proof.
  intros Hs Hfd Hf Hino Hnd Hp Hsize Hok Hbuf.
  destruct (Z_le_gt_dec len 0) as [Hlen|Hlen];
    [|destruct (Z_lt_le_dec (size nd) (rwptr f)) as [Hpast|Hin]].
  - exists 0, s. apply (fwrite_rejects s fd buf len f nd); auto.
  - exists 0, s. apply (fwrite_rejects s fd buf len f nd); auto.
  - destruct (fwrite_runs s fd buf len f nd) as
      (v0 & v' & s1 & r' & Ht0 & Hw0 & Hloop & Hinv & Hrun); try assumption; try lia.
    rewrite Hrun.
    destruct Hinv as [Hs1 Hfdt1 (n1 & Hn1 & Hsz1 & _) _ _ _ _ _ _ _].
    unfold fwrite_finish.
    destruct (w_bytes_to_write v' =? len); [eexists _, _; reflexivity|].
    destruct (w_rwptr_size_offset v' >? 0).
    + rewrite (upd_inode_Ret s1 (inode f) _ n1) by (lia || exact Hn1). cbn [bind].
      erewrite arr_get_Ret; [|lia|].
      2:{ cbn [inodes set_inodes]. apply list_lookup_insert_eq.
          apply lookup_lt_Some in Hn1. exact Hn1. }
      cbn [bind]. eexists _, _. reflexivity.
    + cbn [bind]. rewrite (arr_get_Ret _ _ n1) by (lia || exact Hn1).
      cbn [bind]. eexists _, _. reflexivity.
Qed.

(** X9.  A call of sfs_fwrite on an open descriptor changes nothing but the
    r/w pointer of that descriptor, the size and block pointers of its
    i-node, the bitmap and the disk: the directory, both counters, the
    superblock, every other descriptor and i-node, and the directory and
    superblock regions of the disk are as before, and no bitmap byte goes
    from 1 to another value.  When it wrote at least one byte, the i-node
    table and the bitmap on disk are the ones in memory afterwards. *)
Theorem fwrite_frame_and_flush (s : sfs) (fd : Z) (buf : list byte) (len : Z)
        (f : file_descriptor_t) (nd : inode_t) :
  shape s -> 0 <= fd -> fdt s !! Z.to_nat fd = Some f ->
  0 < inode f -> inodes s !! Z.to_nat (inode f) = Some nd ->
  0 <= rwptr f -> 0 <= size nd <= MAX_FILE_BYTES -> inode_ptrs_ok s nd ->
  len <= Z.of_nat (length buf) ->
  exists n s',
    sfs_fwrite fd buf len s = Ret (n, s') /\
    write_frame fd (inode f) s s' /\
    (0 < n -> disk_inodes (disk s') = inodes s' /\ disk_bitmap (disk s') = free_blocks s').
Proof.
  intros Hs Hfd Hf Hino Hnd Hp Hsize Hok Hbuf.
  destruct (fwrite_returns s fd buf len f nd) as (n & s' & Hrun); try assumption.
  exists n, s'. split; [exact Hrun|].
  apply (sfs_fwrite_frame s s' fd buf len n f Hfd Hf Hrun).
Qed.

Lemma opened_state_ptrs_ok (name : string) :
  inode_ptrs_ok (opened_state name)
                (mk_inode 1 1 0 (replicate (Z.to_nat NUM_DIRECT_POINTERS) 0) 0).
Proof.
  split; [reflexivity|]. split; [apply Forall_replicate; left; reflexivity|].
  split; [left; reflexivity|]. cbn. lia.
Qed.

Lemma fwrite_frame_and_flush_witness :
  exists n s',
    sfs_fwrite 1 [x68; x69] 2 (opened_state "f") = Ret (n, s') /\
    write_frame 1 1 (opened_state "f") s' /\
    (0 < n -> disk_inodes (disk s') = inodes s' /\ disk_bitmap (disk s') = free_blocks s').
Proof.
  apply (fwrite_frame_and_flush (opened_state "f") 1 [x68; x69] 2 (mk_fd 1 0)
           (mk_inode 1 1 0 (replicate (Z.to_nat NUM_DIRECT_POINTERS) 0) 0)).
  - apply opened_state_shape.
  - lia.
  - reflexivity.
  - cbn. lia.
  - reflexivity.
  - cbn. lia.
  - cbn. consts. lia.
  - apply opened_state_ptrs_ok.
  - cbn. lia.
Defined.

(** X10.  A call of sfs_fwrite on an open descriptor of a well-formed file
    keeps the file well-formed: the arrays keep their lengths, the
    descriptor stays bound to the same i-node and its r/w pointer moves
    forward by the number of bytes written, which is at most the requested
    length; the size never shrinks and never exceeds 268 blocks, the r/w
    pointer stays within the size, and every block pointer of the i-node
    is 0 or the number of a data block. *)
Theorem fwrite_keeps_wellformed (s : sfs) (fd : Z) (buf : list byte) (len : Z)
        (f : file_descriptor_t) (nd : inode_t) :
  shape s -> 0 <= fd -> fdt s !! Z.to_nat fd = Some f ->
  0 < inode f -> inodes s !! Z.to_nat (inode f) = Some nd ->
  0 <= rwptr f -> 0 <= size nd <= MAX_FILE_BYTES -> inode_ptrs_ok s nd ->
  len <= Z.of_nat (length buf) ->
  exists n s' f' nd',
    sfs_fwrite fd buf len s = Ret (n, s') /\ shape s' /\
    fdt s' !! Z.to_nat fd = Some f' /\ inode f' = inode f /\
    rwptr f' = rwptr f + n /\ 0 <= n <= Z.max 0 len /\
    inodes s' !! Z.to_nat (inode f) = Some nd' /\
    size nd <= size nd' <= MAX_FILE_BYTES /\
    (rwptr f <= size nd -> rwptr f' <= size nd') /\
    length (direct nd') = Z.to_nat NUM_DIRECT_POINTERS /\
    Forall ptr_ok (direct nd') /\ ptr_ok (indirect nd').
Proof.
  intros Hs Hfd Hf Hino Hnd Hp Hsize Hok Hbuf.
  pose proof Hok as (Hdl & Hdok & Hiok & _).
  destruct (Z_le_gt_dec len 0) as [Hlen|Hlen];
    [|destruct (Z_lt_le_dec (size nd) (rwptr f)) as [Hpast|Hin]].
  - exists 0, s, f, nd. rewrite (fwrite_rejects s fd buf len f nd) by auto.
    do 7 (split; [reflexivity || assumption || lia|]).
    split; [lia|]. split; [lia|]. auto.
  - exists 0, s, f, nd. rewrite (fwrite_rejects s fd buf len f nd) by auto.
    do 7 (split; [reflexivity || assumption || lia|]).
    split; [lia|]. split; [lia|]. auto.
  - destruct (fwrite_runs s fd buf len f nd) as
      (v0 & v' & s1 & r' & Ht0 & Hw0 & Hloop & Hinv & Hrun); try assumption; try lia.
    rewrite Hrun.
    destruct Hinv as [Hs1 Hfdt1 (n1 & Hn1 & Hsz1 & Hdl1 & Hdok1 & Hiok1 & _)
                          Hw Ht Hr Hmax _ Hoff _].
    unfold fwrite_finish.
    destruct (Z.eqb_spec (w_bytes_to_write v') len) as [Hnone|Hsome].
    + cbn [bind]. exists (w_bytes_written v'), s1, (mk_fd (inode f) r'), n1.
      split; [reflexivity|]. cbn [inode rwptr].
      do 6 (split; [reflexivity || assumption || lia|]).
      split; [lia|]. split; [lia|]. auto.
    + rewrite Z.gtb_ltb.
      destruct (Z.ltb_spec 0 (w_rwptr_size_offset v')) as [Hgrow|Hsame].
      * erewrite upd_inode_Ret; [|lia|exact Hn1]. cbn [bind].
        rewrite (arr_get_Ret _ _ (with_size n1 (to_uint (size n1 + w_rwptr_size_offset v')))).
        2: lia.
        2:{ proj_simpl. apply list_lookup_insert_eq. apply lookup_lt_Some in Hn1. exact Hn1. }
        cbn [bind].
        eexists (w_bytes_written v'), _, (mk_fd (inode f) r'), _.
        split; [reflexivity|]. proj_simpl.
        split; [shape_tac|]. split; [assumption|]. split; [reflexivity|].
        split; [lia|]. split; [lia|].
        split; [apply list_lookup_insert_eq; apply lookup_lt_Some in Hn1; exact Hn1|].
        proj_simpl. rewrite to_uint_small by (consts; lia).
        split; [lia|]. split; [lia|]. auto.
      * cbn [bind]. rewrite (arr_get_Ret _ _ n1) by (lia || assumption). cbn [bind].
        eexists (w_bytes_written v'), _, (mk_fd (inode f) r'), n1.
        split; [reflexivity|]. proj_simpl.
        split; [shape_tac|].
        do 5 (split; [reflexivity || assumption || lia|]).
        split; [lia|]. split; [lia|]. auto.
Qed.

Lemma fwrite_keeps_wellformed_witness :
  exists n s' f' nd',
    sfs_fwrite 1 [x68; x69] 2 (opened_state "f") = Ret (n, s') /\ shape s' /\
    fdt s' !! Z.to_nat 1 = Some f' /\ inode f' = 1 /\
    rwptr f' = 0 + n /\ 0 <= n <= Z.max 0 2 /\
    inodes s' !! Z.to_nat 1 = Some nd' /\
    0 <= size nd' <= MAX_FILE_BYTES /\
    (0 <= 0 -> rwptr f' <= size nd') /\
    length (direct nd') = Z.to_nat NUM_DIRECT_POINTERS /\
    Forall ptr_ok (direct nd') /\ ptr_ok (indirect nd').
Proof.
  apply (fwrite_keeps_wellformed (opened_state "f") 1 [x68; x69] 2 (mk_fd 1 0)
           (mk_inode 1 1 0 (replicate (Z.to_nat NUM_DIRECT_POINTERS) 0) 0)).
  - apply opened_state_shape.
  - lia.
  - reflexivity.
  - cbn. lia.
  - reflexivity.
  - cbn. lia.
  - cbn. consts. lia.
  - apply opened_state_ptrs_ok.
  - cbn. lia.
Defined.

Lemma gfba_full (s : sfs) :
  shape s ->
  (forall k : Z, 0 <= k < MAX_DATA_BLOCKS_SCALED_DOWN -> free_blocks s !! Z.to_nat k <> Some 0) ->
  get_free_bitmap_address s = Ret (-1).
Proof.
  intros Hs Hfull.
  destruct (get_free_bitmap_address_spec s Hs) as (e & Hg & [[-> _]|(He & Hz & _)]);
    [exact Hg|].
  exfalso. apply (Hfull e He Hz).
Qed.

(** X11.  sfs_fwrite cannot make a file grow beyond what the disk and the
    block map allow: with the r/w pointer at 268 blocks or beyond, and also
    with the r/w pointer in a block that is not allocated while no bitmap
    byte is 0, the call returns 0 and changes nothing. *)
Theorem fwrite_no_room (s : sfs) (fd : Z) (buf : list byte) (len : Z)
        (f : file_descriptor_t) (nd : inode_t) :
  0 <= fd -> fdt s !! Z.to_nat fd = Some f ->
  0 < inode f -> inodes s !! Z.to_nat (inode f) = Some nd ->
  (MAX_FILE_BYTES <= rwptr f -> sfs_fwrite fd buf len s = Ret (0, s)) /\
  (shape s -> 0 <= rwptr f -> inode_ptrs_ok s nd ->
   block_ptr s nd (rwptr f / BLOCK_SIZE) = 0 ->
   (forall k : Z, 0 <= k < MAX_DATA_BLOCKS_SCALED_DOWN ->
                  free_blocks s !! Z.to_nat k <> Some 0) ->
   sfs_fwrite fd buf len s = Ret (0, s)).
Proof.
  intros Hfd Hf Hino Hnd.
  assert (Hfull : MAX_FILE_BYTES <= rwptr f -> sfs_fwrite fd buf len s = Ret (0, s)).
  { intros Hcap. unfold sfs_fwrite.
    destruct (Z.leb_spec len 0) as [|Hlen]; [reflexivity|].
    rewrite (arr_get_Ret _ _ f Hfd Hf). cbn [bind].
    destruct (Z.leb_spec (inode f) 0); [lia|].
    rewrite (arr_get_Ret _ _ nd) by (lia || assumption). cbn [bind].
    destruct (rwptr f >? size nd); [reflexivity|].
    rewrite Z.geb_leb.
    destruct (Z.leb_spec (MAX_DATA_BLOCKS_PER_FILE * BLOCK_SIZE) (rwptr f)); [reflexivity|].
    replace (rwptr f / BLOCK_SIZE) with 268 by (consts; lia).
    change (to_int 268) with 268.
    unfold loop_fuel. destruct (Z.to_nat MAX_DATA_BLOCKS_PER_FILE);
      cbn [fwrite_loop w_did_write_to_disk w_bytes_to_write w_current_block];
      change (268 <? MAX_DATA_BLOCKS_PER_FILE - 1) with false;
      rewrite andb_false_r; cbn [bind]; unfold fwrite_finish; cbn [w_bytes_to_write];
      rewrite Z.eqb_refl; reflexivity. }
  split; [exact Hfull|].
  intros Hs Hp (Hdl & Hdok & Hiok & Hload) Hptr Hnofree.
  destruct (Z_le_gt_dec MAX_FILE_BYTES (rwptr f)) as [Hcap|Hcap]; [apply Hfull; exact Hcap|].
  pose proof (gfba_full s Hs Hnofree) as Hg.
  unfold sfs_fwrite.
  destruct (Z.leb_spec len 0) as [|Hlen]; [reflexivity|].
  rewrite (arr_get_Ret _ _ f Hfd Hf). cbn [bind].
  destruct (Z.leb_spec (inode f) 0); [lia|].
  rewrite (arr_get_Ret _ _ nd) by (lia || assumption). cbn [bind].
  destruct (rwptr f >? size nd); [reflexivity|].
  rewrite Z.geb_leb.
  destruct (Z.leb_spec (MAX_DATA_BLOCKS_PER_FILE * BLOCK_SIZE) (rwptr f)); [reflexivity|].
  rewrite (to_int_small (rwptr f / BLOCK_SIZE)) by (consts; lia).
  set (cb := rwptr f / BLOCK_SIZE) in *.
  assert (Hcb : 0 <= cb < MAX_DATA_BLOCKS_PER_FILE - 1) by (unfold cb; consts; lia).
  unfold loop_fuel. change (Z.to_nat MAX_DATA_BLOCKS_PER_FILE) with (S 268).
  cbn [fwrite_loop w_did_write_to_disk w_bytes_to_write w_current_block andb].
  rewrite Z.gtb_ltb. destruct (Z.ltb_spec 0 len); [|lia].
  destruct (Z.ltb_spec cb (MAX_DATA_BLOCKS_PER_FILE - 1)); [|lia].
  cbn [andb].
  assert (Hloc : exists v1,
            fwrite_locate (inode f)
              (w_set_did_write
                 (mk_wvars true len 0 cb (to_int (- (size nd - rwptr f))) (indirect nd >? 0)
                    (if indirect nd >? 0 then load_ptr_buff (disk s) (indirect nd)
                     else indeterminate_ptr_buff)) false) s
            = Ret (None, v1, s) /\ w_bytes_to_write v1 = len /\ w_bytes_written v1 = 0).
  { unfold fwrite_locate. cbn [w_set_did_write w_current_block].
    rewrite (arr_get_Ret _ _ nd) by (lia || assumption). cbn [bind].
    unfold block_ptr in Hptr.
    destruct (Z.ltb_spec cb NUM_DIRECT_POINTERS) as [Hd|Hd].
    - destruct (arr_get_lt (direct nd) cb) as (d & Hget & Hdd); [rewrite Hdl; lia|].
      rewrite Hdd in Hptr. cbn [default from_option id] in Hptr. subst d.
      rewrite Hget. cbn [bind]. change (0 >? 0) with false. cbn match.
      rewrite Hg. cbn [bind Z.eqb]. eexists. split; [reflexivity|]. split; reflexivity.
    - unfold fwrite_ensure_indirect. rewrite Z.gtb_ltb in *.
      destruct (Z.leb_spec (indirect nd) 0) as [Hz|Hpos].
      + rewrite Hg. cbn [bind Z.eqb negb].
        eexists. split; [reflexivity|]. split; reflexivity.
      + destruct (Z.ltb_spec 0 (indirect nd)); [|lia].
        cbn [bind negb w_did_load_ptr_buff w_ptr_buff w_set_did_write].
        destruct (Hload Hpos) as [Hpl _].
        destruct (arr_get_lt (load_ptr_buff (disk s) (indirect nd)) (cb - NUM_DIRECT_POINTERS))
          as (q & Hget & Hq); [rewrite Hpl; consts; lia|].
        rewrite Hq in Hptr. cbn [default from_option id] in Hptr. subst q.
        rewrite Hget. cbn [bind]. change (0 >? 0) with false. cbn match.
        rewrite Hg. cbn [bind Z.eqb]. eexists. split; [reflexivity|]. split; reflexivity. }
  destruct Hloc as (v1 & Hloc & Ht1 & Hw1).
  unfold fwrite_body. rewrite Hloc. cbn [bind].
  unfold fwrite_finish. rewrite Ht1, Z.eqb_refl, Hw1. reflexivity.
Qed.

Lemma fwrite_no_room_witness :
  sfs_fwrite 1 [x68] 1 (set_rwptr (opened_state "f") 1 MAX_FILE_BYTES)
  = Ret (0, set_rwptr (opened_state "f") 1 MAX_FILE_BYTES) /\
  sfs_fwrite 1 [x68] 1
    (set_free_blocks (opened_state "f") (replicate (Z.to_nat MAX_DATA_BLOCKS_SCALED_DOWN) 1))
  = Ret (0, set_free_blocks (opened_state "f")
              (replicate (Z.to_nat MAX_DATA_BLOCKS_SCALED_DOWN) 1)).
Proof.
  split.
  - destruct (fwrite_no_room (set_rwptr (opened_state "f") 1 MAX_FILE_BYTES) 1 [x68] 1
                (mk_fd 1 MAX_FILE_BYTES)
                (mk_inode 1 1 0 (replicate (Z.to_nat NUM_DIRECT_POINTERS) 0) 0))
      as [H _]; [lia|reflexivity|cbn; lia|reflexivity|].
    apply H. cbn. lia.
  - destruct (fwrite_no_room
                (set_free_blocks (opened_state "f")
                   (replicate (Z.to_nat MAX_DATA_BLOCKS_SCALED_DOWN) 1))
                1 [x68] 1 (mk_fd 1 0)
                (mk_inode 1 1 0 (replicate (Z.to_nat NUM_DIRECT_POINTERS) 0) 0))
      as [_ H]; [lia|reflexivity|cbn; lia|reflexivity|].
    apply H.
    + split; reflexivity.
    + cbn. lia.
    + split; [reflexivity|]. split; [apply Forall_replicate; left; reflexivity|].
      split; [left; reflexivity|]. cbn. lia.
    + reflexivity.
    + intros k Hk. cbn [set_free_blocks free_blocks].
      rewrite lookup_replicate_2 by lia. discriminate.
Defined.

(** ** sfs_remove *)

Lemma remove_scan_none (file : string) (s : sfs) :
  shape s ->
  forall (n : nat) (i0 ino : Z),
    0 <= i0 -> i0 + Z.of_nat n <= NUM_FILE_INODES ->
    (forall (k : Z) e, i0 <= k < i0 + Z.of_nat n -> root s !! Z.to_nat k = Some e ->
                       names e <> file) ->
    remove_scan file s n i0 ino = Ret (ino, s).
Proof.
  intros Hs. induction n as [|n IH]; intros i0 ino Hi0 Hlen Hno; [reflexivity|].
  cbn [remove_scan].
  destruct (arr_get_lt (root s) i0) as (e & Hget & He).
  { rewrite (shape_root s Hs). lia. }
  rewrite Hget. cbn [bind].
  destruct (String.eqb_spec (names e) file) as [E|_].
  - exfalso. apply (Hno i0 e); [lia|exact He|exact E].
  - apply IH; [lia|lia|]. intros k e' Hk. apply Hno. lia.
Qed.

(** X12.  sfs_remove of a name that no directory entry carries returns -1
    and changes nothing. *)
Theorem remove_unknown_name (s : sfs) (file : string) :
  shape s -> no_match s file -> sfs_remove file s = Ret (-1, s).
Proof.
  intros Hs Hno. unfold sfs_remove.
  rewrite (remove_scan_none file s Hs); [reflexivity|lia|consts; lia|].
  intros k e _ He. apply (Hno _ _ He).
Qed.

Lemma remove_unknown_name_witness :
  sfs_remove "g" (opened_state "f") = Ret (-1, opened_state "f").
Proof.
  apply (remove_unknown_name (opened_state "f") "g" (opened_state_shape "f")).
  intros i e He.
  destruct i as [|i]; [cbn in He; injection He as <-; discriminate|].
  rewrite (opened_state_root_tail "f" (Z.of_nat (S i)) e); [discriminate|lia|].
  rewrite Nat2Z.id. exact He.
Defined.

Lemma remove_close_spec (target : Z) :
  target <> -1 ->
  forall (n : nat) (j0 : Z) (s : sfs),
    shape s -> 1 <= j0 -> j0 + Z.of_nat n <= NUM_INODES ->
    ((forall j f, j0 <= j < j0 + Z.of_nat n -> fdt s !! Z.to_nat j = Some f ->
                  inode f <> target) /\
     remove_close s target n j0 = Ret s) \/
    (exists j f, j0 <= j < j0 + Z.of_nat n /\ fdt s !! Z.to_nat j = Some f /\
                 inode f = target /\
                 remove_close s target n j0
                 = Ret (set_fdt s (<[Z.to_nat j := mk_fd (-1) 0]> (fdt s)))).
Proof.
  intros Htarget. induction n as [|n IH]; intros j0 s Hs Hj0 Hlen.
  - left. split; [intros j f Hj; lia|reflexivity].
  - cbn [remove_close].
    destruct (arr_get_lt (fdt s) j0) as (f & Hget & Hf).
    { rewrite (shape_fdt s Hs). lia. }
    rewrite Hget. cbn [bind].
    destruct (Z.eqb_spec (inode f) target) as [E|Hne].
    + right. exists j0, f. split; [lia|]. split; [exact Hf|]. split; [exact E|].
      rewrite (fclose_Ret s j0 f); [reflexivity|lia|exact Hf|congruence].
    + destruct (IH (j0 + 1) s Hs) as [[Hno Hrun]|(j & fj & Hj & Hfj & Ej & Hrun)]; [lia|lia| |].
      * left. split; [|exact Hrun]. intros j fj Hj Hfj.
        destruct (Z.eq_dec j j0) as [->|]; [congruence|apply (Hno j fj); [lia|exact Hfj]].
      * right. exists j, fj. split; [lia|]. auto.
Qed.

Lemma remove_scan_only (file : string) (s : sfs) (i : Z) :
  shape s -> only_match s file i ->
  forall (n : nat) (i0 ino : Z),
    0 <= i0 <= i -> i < i0 + Z.of_nat n -> i0 + Z.of_nat n <= NUM_FILE_INODES ->
    remove_scan file s n i0 ino =
    let! s3 := remove_close (set_root s (<[Z.to_nat i := mk_dirent 0 EmptyString]> (root s)))
                            (i + 1) (Z.to_nat (NUM_INODES - 1)) 1 in
    Ret (i + 1, s3).
Proof.
  intros Hs (Hi & (e & He & Hname) & Honly).
  induction n as [|n IH]; intros i0 ino Hi0 Hlt Hlen; [lia|].
  cbn [remove_scan].
  destruct (arr_get_lt (root s) i0) as (e0 & Hget & He0).
  { rewrite (shape_root s Hs). lia. }
  rewrite Hget. cbn [bind].
  destruct (Z.eq_dec i0 i) as [->|Hne].
  - rewrite He in He0. injection He0 as <-.
    rewrite Hname, String.eqb_refl.
    pose proof (lookup_lt_Some _ _ _ He) as Hlte.
    rewrite (upd_root_Ret s i _ e Hi He). cbn [bind].
    erewrite upd_root_Ret; [|lia|cbn [root set_root]; apply list_lookup_insert_eq; exact Hlte].
    cbn [bind root set_root entry_mode]. rewrite list_insert_insert_eq.
    change (set_root (set_root s ?a) ?b) with (set_root s b).
    set (s2 := set_root s (<[Z.to_nat i := mk_dirent 0 EmptyString]> (root s))).
    assert (Hs2 : shape s2).
    { destruct Hs as [H1 H2 H3 H4]. split; cbn; rewrite ?length_insert; assumption. }
    destruct (remove_close_frame (i + 1) (Z.to_nat (NUM_INODES - 1)) 1 s2 Hs2)
      as (s3 & Hc & Hs3 & Hr3 & Hi3); [lia|consts; lia|].
    rewrite Hc. cbn [bind].
    apply remove_scan_none; [exact Hs3|lia|lia|].
    intros k e' Hk He' Hn'. rewrite Hr3 in He'. unfold s2 in He'. cbn [root set_root] in He'.
    rewrite list_lookup_insert_ne in He' by lia.
    specialize (Honly k e' ltac:(lia) He' Hn'). lia.
  - destruct (String.eqb_spec (names e0) file) as [E|_].
    + specialize (Honly i0 e0 ltac:(lia) He0 E). lia.
    + apply IH; lia.
Qed.

(** *** The blocks *)

Lemma clear_bytes_length (ps : list Z) :
  forall fb, length (clear_bytes ps fb) = length fb.
Proof.
  unfold clear_bytes. induction ps as [|p ps IH]; intros fb; [reflexivity|].
  cbn [foldl]. rewrite IH. destruct (p >? 0); [apply length_insert|reflexivity].
Qed.

Lemma clear_bytes_app (ps qs : list Z) (fb : list Z) :
  clear_bytes (ps ++ qs) fb = clear_bytes qs (clear_bytes ps fb).
Proof. unfold clear_bytes. apply foldl_app. Qed.

Lemma zero_blocks_app (ps qs : list Z) (d : disk_t) :
  zero_blocks (ps ++ qs) d = zero_blocks qs (zero_blocks ps d).
Proof. unfold zero_blocks. apply foldl_app. Qed.

Lemma clear_bytes_keep (ps : list Z) (k : nat) :
  forall fb,
    (forall p, p ∈ ps -> 0 < p -> Z.to_nat (p - DATA_BLOCKS_OFFSET) <> k) ->
    clear_bytes ps fb !! k = fb !! k.
Proof.
  unfold clear_bytes. induction ps as [|p ps IH]; intros fb Hno; [reflexivity|].
  cbn [foldl]. rewrite IH.
  - rewrite Z.gtb_ltb. destruct (Z.ltb_spec 0 p) as [Hp|]; [|reflexivity].
    apply list_lookup_insert_ne. apply Hno; [left|exact Hp].
  - intros q Hq. apply Hno. right. exact Hq.
Qed.

Lemma clear_bytes_zero_stays (ps : list Z) (k : nat) :
  forall fb, fb !! k = Some 0 -> clear_bytes ps fb !! k = Some 0.
Proof.
  unfold clear_bytes. induction ps as [|p ps IH]; intros fb Hk; [exact Hk|].
  cbn [foldl]. apply IH. destruct (p >? 0); [|exact Hk].
  destruct (decide (Z.to_nat (p - DATA_BLOCKS_OFFSET) = k)) as [->|Hne].
  - apply list_lookup_insert_eq. apply lookup_lt_Some in Hk. exact Hk.
  - rewrite list_lookup_insert_ne by exact Hne. exact Hk.
Qed.

Lemma clear_bytes_cleared (ps : list Z) (p : Z) :
  forall fb,
    p ∈ ps -> 0 < p -> (Z.to_nat (p - DATA_BLOCKS_OFFSET) < length fb)%nat ->
    clear_bytes ps fb !! Z.to_nat (p - DATA_BLOCKS_OFFSET) = Some 0.
Proof.
  induction ps as [|q ps IH]; intros fb Hin Hp Hlt; [inversion Hin|].
  apply elem_of_cons in Hin.
  change (clear_bytes (q :: ps) fb)
    with (clear_bytes ps (if q >? 0 then <[Z.to_nat (q - DATA_BLOCKS_OFFSET) := 0]> fb else fb)).
  destruct Hin as [<-|Hin].
  - apply clear_bytes_zero_stays. rewrite Z.gtb_ltb.
    destruct (Z.ltb_spec 0 p); [|lia]. apply list_lookup_insert_eq. exact Hlt.
  - apply IH; [exact Hin|exact Hp|].
    destruct (q >? 0); [rewrite length_insert|]; exact Hlt.
Qed.

Lemma zero_blocks_tables (ps : list Z) :
  forall d,
    disk_super (zero_blocks ps d) = disk_super d /\
    disk_inodes (zero_blocks ps d) = disk_inodes d /\
    disk_root (zero_blocks ps d) = disk_root d /\
    disk_bitmap (zero_blocks ps d) = disk_bitmap d.
Proof.
  unfold zero_blocks. induction ps as [|p ps IH]; intros d; [auto|].
  cbn [foldl]. destruct (IH (if p >? 0 then write_blocks d p zero_block else d))
    as (H1 & H2 & H3 & H4).
  rewrite H1, H2, H3, H4. destruct (p >? 0); auto.
Qed.

Lemma zero_blocks_keep (ps : list Z) (a : Z) :
  forall d,
    (forall p, p ∈ ps -> 0 < p -> p <> a) ->
    disk_data (zero_blocks ps d) a = disk_data d a.
Proof.
  unfold zero_blocks. induction ps as [|p ps IH]; intros d Hno; [reflexivity|].
  cbn [foldl]. rewrite IH.
  - rewrite Z.gtb_ltb. destruct (Z.ltb_spec 0 p) as [Hp|]; [|reflexivity].
    cbn [write_blocks disk_data].
    destruct (Z.eqb_spec a p) as [->|]; [|reflexivity].
    exfalso. apply (Hno p); [left|exact Hp|reflexivity].
  - intros q Hq. apply Hno. right. exact Hq.
Qed.

Lemma zero_blocks_zero_stays (ps : list Z) (a : Z) :
  forall d, disk_data d a = zero_block -> disk_data (zero_blocks ps d) a = zero_block.
Proof.
  unfold zero_blocks. induction ps as [|p ps IH]; intros d Ha; [exact Ha|].
  cbn [foldl]. apply IH. destruct (p >? 0); [|exact Ha].
  cbn [write_blocks disk_data]. destruct (a =? p); [reflexivity|exact Ha].
Qed.

Lemma zero_blocks_zeroed (ps : list Z) (p : Z) :
  forall d, p ∈ ps -> 0 < p -> disk_data (zero_blocks ps d) p = zero_block.
Proof.
  induction ps as [|q ps IH]; intros d Hin Hp; [inversion Hin|].
  apply elem_of_cons in Hin.
  change (zero_blocks (q :: ps) d)
    with (zero_blocks ps (if q >? 0 then write_blocks d q zero_block else d)).
  destruct Hin as [<-|Hin]; [|apply IH; assumption].
  apply zero_blocks_zero_stays. rewrite Z.gtb_ltb.
  destruct (Z.ltb_spec 0 p); [|lia]. cbn [write_blocks disk_data].
  rewrite Z.eqb_refl. reflexivity.
Qed.

Lemma released_nil (s : sfs) : released [] s = s.
Proof. destruct s as [a b c d e f g [h i j k l]]. reflexivity. Qed.

Lemma released_shape (ps : list Z) (s : sfs) : shape s -> shape (released ps s).
Proof.
  intros [Ha Hb Hc Hd]. split; cbn; rewrite ?clear_bytes_length; assumption.
Qed.

Lemma released_app (ps qs : list Z) (s : sfs) :
  released qs (released ps s) = released (ps ++ qs) s.
Proof.
  unfold released. cbn [free_blocks disk set_disk set_free_blocks].
  rewrite clear_bytes_app, zero_blocks_app. reflexivity.
Qed.

Lemma release_block_Ret (p : Z) (s : sfs) :
  shape s -> ptr_ok p -> release_block p s = Ret (released [p] s).
Proof.
  intros Hs Hp. unfold release_block, released, clear_bytes, zero_blocks. cbn [foldl].
  rewrite Z.gtb_ltb. destruct (Z.ltb_spec 0 p) as [Hpos|Hz].
  - destruct (ptr_ok_entry p Hp Hpos) as [-> Hr].
    rewrite (set_bitmap_Ret s _ 0 Hs Hr). reflexivity.
  - destruct s as [a b c d e f g [h i j k l]]. reflexivity.
Qed.

Lemma direct_released_shape (s : sfs) (ino : Z) (nd : inode_t) (k : nat) :
  shape s -> shape (direct_released s ino nd k).
Proof.
  intros [Ha Hb Hc Hd]. split; cbn; rewrite ?length_insert, ?clear_bytes_length; assumption.
Qed.

Lemma remove_direct_loop (s : sfs) (ino : Z) (nd : inode_t) :
  shape s -> 0 <= ino -> inodes s !! Z.to_nat ino = Some nd ->
  Forall ptr_ok (direct nd) ->
  forall (n k : nat),
    (k + n <= length (direct nd))%nat ->
    for_range n (Z.of_nat k) (remove_direct_body ino) (direct_released s ino nd k)
    = Ret (direct_released s ino nd (k + n)).
Proof.
  intros Hs Hino Hnd Hok. pose proof (lookup_lt_Some _ _ _ Hnd) as Hlti.
  induction n as [|n IH]; intros k Hk.
  - cbn [for_range]. rewrite Nat.add_0_r. reflexivity.
  - cbn [for_range]. unfold remove_direct_body at 1.
    destruct (lookup_lt_is_Some_2 (direct nd) k) as [d Hd]; [lia|].
    pose proof (Forall_lookup_1 _ _ _ _ Hok Hd) as Hd_ok.
    set (node := with_direct nd (replicate k 0 ++ drop k (direct nd))).
    assert (Hnode : inodes (direct_released s ino nd k) !! Z.to_nat ino = Some node).
    { cbn [direct_released inodes set_inodes]. apply list_lookup_insert_eq. exact Hlti. }
    rewrite (arr_get_Ret _ _ node) by (lia || exact Hnode). cbn [bind].
    assert (Hdk : direct node !! Z.to_nat (Z.of_nat k) = Some d).
    { rewrite Nat2Z.id. cbn [node with_direct direct].
      rewrite lookup_app_r by (rewrite length_replicate; lia).
      rewrite length_replicate, Nat.sub_diag, lookup_drop, Nat.add_0_r. exact Hd. }
    rewrite (arr_get_Ret _ _ d) by (lia || exact Hdk). cbn [bind].
    rewrite (release_block_Ret d _ (direct_released_shape s ino nd k Hs) Hd_ok). cbn [bind].
    assert (Hlen : length (direct node) = length (direct nd)).
    { cbn [node with_direct direct]. rewrite length_app, length_replicate, length_drop. lia. }
    rewrite arr_set_Ret by lia. cbn [bind].
    erewrite upd_inode_Ret; [|lia|].
    2:{ cbn [released direct_released inodes set_inodes set_disk set_free_blocks].
        apply list_lookup_insert_eq. exact Hlti. }
    rewrite Nat2Z.id.
    replace (Z.of_nat k + 1) with (Z.of_nat (S k)) by lia.
    replace (k + S n)%nat with (S k + n)%nat by lia.
    rewrite <- IH by lia. f_equal.
    unfold direct_released, released.
    cbn [inodes free_blocks disk set_inodes set_disk set_free_blocks with_direct node
         mode link_cnt size direct indirect].
    rewrite list_insert_insert_eq.
    rewrite (take_S_r _ _ _ Hd), clear_bytes_app, zero_blocks_app.
    unfold set_inodes, set_disk, set_free_blocks.
    cbn [num_files curr_file super inodes fdt root free_blocks disk].
    do 2 f_equal.
    rewrite insert_app_r_alt by (rewrite length_replicate; lia).
    rewrite length_replicate, Nat.sub_diag, (drop_S _ _ _ Hd).
    cbn [insert list_insert]. rewrite replicate_S_end, <- app_assoc. reflexivity.
Qed.

Lemma remove_indirect_loop (pb : list Z) (t : sfs) :
  shape t -> Forall ptr_ok pb ->
  forall (n k : nat),
    (k + n <= length pb)%nat ->
    for_range n (Z.of_nat k) (remove_indirect_body pb) (released (take k pb) t)
    = Ret (released (take (k + n) pb) t).
Proof.
  intros Ht Hok. induction n as [|n IH]; intros k Hk.
  - cbn [for_range]. rewrite Nat.add_0_r. reflexivity.
  - cbn [for_range]. unfold remove_indirect_body at 1.
    destruct (lookup_lt_is_Some_2 pb k) as [p Hp]; [lia|].
    pose proof (Forall_lookup_1 _ _ _ _ Hok Hp) as Hp_ok.
    rewrite (arr_get_Ret _ _ p) by (lia || rewrite Nat2Z.id; exact Hp). cbn [bind].
    rewrite (release_block_Ret p _ (released_shape _ t Ht) Hp_ok). cbn [bind].
    rewrite released_app, <- (take_S_r _ _ _ Hp).
    replace (Z.of_nat k + 1) with (Z.of_nat (S k)) by lia.
    replace (k + S n)%nat with (S k + n)%nat by lia.
    apply IH. lia.
Qed.

Lemma direct_released_0 (s : sfs) (ino : Z) (nd : inode_t) :
  inodes s !! Z.to_nat ino = Some nd -> direct_released s ino nd 0 = s.
Proof.
  intros Hnd. unfold direct_released. rewrite take_0, released_nil, drop_0.
  cbn [replicate app].
  replace (with_direct nd (direct nd)) with nd by (destruct nd; reflexivity).
  rewrite list_insert_id by exact Hnd. destruct s. reflexivity.
Qed.

Lemma remove_free_Ret (s : sfs) (ino : Z) (nd : inode_t) :
  shape s -> 0 <= ino -> inodes s !! Z.to_nat ino = Some nd ->
  inode_ptrs_ok s nd -> (0 < indirect nd -> indirect nd ∉ direct nd) ->
  remove_free ino s = Ret (removed s ino nd).
Proof.
  intros Hs Hino Hnd (Hdl & Hdok & Hiok & Hload) Hsep.
  pose proof (lookup_lt_Some _ _ _ Hnd) as Hlti.
  unfold remove_free.
  rewrite <- (direct_released_0 s ino nd Hnd) at 1.
  change 0 with (Z.of_nat 0) at 1.
  rewrite (remove_direct_loop s ino nd Hs Hino Hnd Hdok) by (rewrite Hdl; lia).
  cbn [bind]. rewrite Nat.add_0_l. rewrite <- Hdl.
  set (s1 := direct_released s ino nd (length (direct nd))).
  set (n1 := with_direct nd (replicate (length (direct nd)) 0)).
  assert (Hs1 : shape s1) by (apply direct_released_shape; exact Hs).
  assert (Es1 : s1 = set_inodes (released (direct nd) s) (<[Z.to_nat ino := n1]> (inodes s))).
  { unfold s1, direct_released, n1. rewrite firstn_all, drop_all, app_nil_r. reflexivity. }
  assert (Hn1 : inodes s1 !! Z.to_nat ino = Some n1).
  { rewrite Es1. cbn [inodes set_inodes]. apply list_lookup_insert_eq. exact Hlti. }
  rewrite (arr_get_Ret _ _ n1) by (lia || exact Hn1). cbn [bind].
  change (indirect n1) with (indirect nd).
  unfold removed, file_ptrs.
  rewrite Z.gtb_ltb. destruct (Z.ltb_spec 0 (indirect nd)) as [Hpos|Hz].
  - destruct (Hload Hpos) as [Hpl Hpok].
    assert (Epb : load_ptr_buff (disk s1) (indirect nd)
                  = load_ptr_buff (disk s) (indirect nd)).
    { unfold load_ptr_buff, read_blocks. rewrite Es1.
      cbn [disk set_inodes released set_disk]. rewrite zero_blocks_keep; [reflexivity|].
      intros p Hp _ ->. apply (Hsep Hpos Hp). }
    rewrite Epb. set (pb := load_ptr_buff (disk s) (indirect nd)) in *.
    rewrite <- (released_nil s1) at 1. rewrite <- (take_0 pb) at 1.
    change 0 with (Z.of_nat 0) at 1.
    replace (Z.to_nat (NUM_POINTERS_IN_INDIRECT - 1)) with (length pb) by exact Hpl.
    rewrite (remove_indirect_loop pb s1 Hs1 Hpok) by lia.
    cbn [bind]. rewrite Nat.add_0_l, firstn_all.
    erewrite upd_inode_Ret; [|lia|].
    2:{ cbn [released inodes set_disk set_free_blocks]. exact Hn1. }
    cbn [bind].
    erewrite upd_inode_Ret;
      [|lia|cbn [inodes set_inodes]; apply list_lookup_insert_eq;
            cbn [released inodes set_disk set_free_blocks];
            apply lookup_lt_Some in Hn1; exact Hn1].
    cbn [bind inodes set_inodes]. rewrite list_insert_insert_eq.
    erewrite upd_inode_Ret;
      [|lia|cbn [inodes set_inodes]; apply list_lookup_insert_eq;
            cbn [released inodes set_disk set_free_blocks];
            apply lookup_lt_Some in Hn1; exact Hn1].
    cbn [bind inodes set_inodes]. rewrite list_insert_insert_eq.
    erewrite upd_inode_Ret;
      [|lia|cbn [inodes set_inodes]; apply list_lookup_insert_eq;
            cbn [released inodes set_disk set_free_blocks];
            apply lookup_lt_Some in Hn1; exact Hn1].
    cbn [bind inodes set_inodes]. rewrite list_insert_insert_eq.
    f_equal. rewrite Es1.
    apply sfs_ext;
      cbn [num_files curr_file super inodes fdt root free_blocks disk
           released set_num_files set_inodes set_disk set_free_blocks];
      rewrite ?list_insert_insert_eq, ?clear_bytes_app, ?zero_blocks_app; reflexivity.
  - rewrite app_nil_r. cbn [bind].
    erewrite upd_inode_Ret; [|lia|exact Hn1]. cbn [bind].
    erewrite upd_inode_Ret;
      [|lia|cbn [inodes set_inodes]; apply list_lookup_insert_eq;
            apply lookup_lt_Some in Hn1; exact Hn1].
    cbn [bind inodes set_inodes]. rewrite list_insert_insert_eq.
    erewrite upd_inode_Ret;
      [|lia|cbn [inodes set_inodes]; apply list_lookup_insert_eq;
            apply lookup_lt_Some in Hn1; exact Hn1].
    cbn [bind inodes set_inodes]. rewrite list_insert_insert_eq.
    f_equal. rewrite Es1.
    assert (Hi0 : indirect nd = 0) by (destruct Hiok as [->|]; [reflexivity|consts; lia]).
    apply sfs_ext;
      cbn [num_files curr_file super inodes fdt root free_blocks disk
           released set_num_files set_inodes set_disk set_free_blocks];
      rewrite ?list_insert_insert_eq; try reflexivity;
      unfold n1, with_link_cnt, with_size, with_mode, with_direct;
      cbn [mode link_cnt size direct indirect]; rewrite ?Hi0; reflexivity.
Qed.

Lemma remove_runs (s : sfs) (file : string) (i : Z) (nd : inode_t) :
  shape s -> only_match s file i -> inodes s !! Z.to_nat (i + 1) = Some nd ->
  link_cnt nd = 1 -> inode_ptrs_ok s nd -> (0 < indirect nd -> indirect nd ∉ direct nd) ->
  exists fds,
    length fds = length (fdt s) /\
    (forall (j : Z) f, 0 <= j -> fdt s !! Z.to_nat j = Some f -> inode f <> i + 1 ->
                       fds !! Z.to_nat j = Some f) /\
    (fdt_files_ok s -> forall (j : Z) f, 1 <= j < NUM_INODES -> fds !! Z.to_nat j = Some f ->
                                         inode f <> i + 1) /\
    sfs_remove file s
    = Ret (i + 1,
           removed (set_fdt (set_root s (<[Z.to_nat i := mk_dirent 0 EmptyString]> (root s)))
                            fds) (i + 1) nd).
Proof.
  intros Hs Honly Hnd Hlink Hok Hsep.
  pose proof Honly as (Hi & (e & He & _) & _).
  pose proof (lookup_lt_Some _ _ _ He) as Hlte. rewrite (shape_root s Hs) in Hlte.
  set (s2 := set_root s (<[Z.to_nat i := mk_dirent 0 EmptyString]> (root s))).
  assert (Hs2 : shape s2).
  { destruct Hs as [H1 H2 H3 H4]. split; cbn; rewrite ?length_insert; assumption. }
  assert (Hclose : exists fds,
    length fds = length (fdt s) /\
    (forall (j : Z) f, 0 <= j -> fdt s !! Z.to_nat j = Some f -> inode f <> i + 1 ->
                       fds !! Z.to_nat j = Some f) /\
    (fdt_files_ok s -> forall (j : Z) f, 1 <= j < NUM_INODES -> fds !! Z.to_nat j = Some f ->
                                         inode f <> i + 1) /\
    remove_close s2 (i + 1) (Z.to_nat (NUM_INODES - 1)) 1 = Ret (set_fdt s2 fds)).
  { destruct (remove_close_spec (i + 1) ltac:(lia) (Z.to_nat (NUM_INODES - 1)) 1 s2 Hs2)
      as [[Hno Hrun]|(j & fj & Hj & Hfj & Ej & Hrun)]; [lia|consts; lia| |].
    - exists (fdt s). split; [reflexivity|]. split; [auto|]. split.
      + intros _ j f Hj Hf. apply (Hno j f); [consts; lia|exact Hf].
      + rewrite Hrun. reflexivity.
    - exists (<[Z.to_nat j := mk_fd (-1) 0]> (fdt s)).
      split; [apply length_insert|]. split; [|split; [|exact Hrun]].
      + intros k f Hk Hf Hne. rewrite list_lookup_insert_ne; [exact Hf|].
        intros E. assert (k = j) as -> by lia. cbn [s2 set_root fdt] in Hfj. congruence.
      + intros [_ Hinj] k f Hk Hf.
        cbn [s2 set_root fdt] in Hfj.
        destruct (Z.eq_dec k j) as [->|Hne].
        * rewrite list_lookup_insert_eq in Hf by (apply lookup_lt_Some in Hfj; exact Hfj).
          injection Hf as <-. cbn. lia.
        * rewrite list_lookup_insert_ne in Hf by lia.
          intros E. apply Hne. apply (Hinj k j f fj); try assumption; try (consts; lia); lia. }
  destruct Hclose as (fds & Hlen & Hkeep & Hclosed & Hrun).
  exists fds. split; [exact Hlen|]. split; [exact Hkeep|]. split; [exact Hclosed|].
  unfold sfs_remove.
  rewrite (remove_scan_only file s i Hs Honly) by (consts; lia).
  fold s2. rewrite Hrun. cbn [bind].
  rewrite Z.gtb_ltb. destruct (Z.ltb_spec 0 (i + 1)); [|lia].
  rewrite (arr_get_Ret _ _ nd) by (lia || exact Hnd). cbn [bind].
  rewrite Hlink. cbn [Z.eqb Pos.eqb].
  rewrite (remove_free_Ret _ (i + 1) nd); [reflexivity| |lia|exact Hnd|exact Hok|exact Hsep].
  destruct Hs as [H1 H2 H3 H4]. split; cbn; rewrite ?length_insert; congruence.
Qed.

(** X13.  sfs_remove of a file of the directory returns the index of its
    i-node.  Afterwards the directory slot is inactive with an empty name,
    the i-node is all zeros, [num_files] is one less, a descriptor that was
    bound to the i-node is free while the other descriptors are as before,
    and the i-node table, the directory and the bitmap on disk are the
    ones in memory.  A name that is not empty no longer resolves. *)
Theorem remove_clears_file (s : sfs) (file : string) (i : Z) (nd : inode_t) :
  shape s -> only_match s file i -> inodes s !! Z.to_nat (i + 1) = Some nd ->
  link_cnt nd = 1 -> inode_ptrs_ok s nd -> (0 < indirect nd -> indirect nd ∉ direct nd) ->
  exists s',
    sfs_remove file s = Ret (i + 1, s') /\ shape s' /\
    root s' = <[Z.to_nat i := mk_dirent 0 EmptyString]> (root s) /\
    inodes s' = <[Z.to_nat (i + 1) := zero_inode]> (inodes s) /\
    num_files s' = to_uint (num_files s - 1) /\
    curr_file s' = curr_file s /\ super s' = super s /\
    (forall (j : Z) f, 0 <= j -> fdt s !! Z.to_nat j = Some f -> inode f <> i + 1 ->
                       fdt s' !! Z.to_nat j = Some f) /\
    (fdt_files_ok s -> not_open s' (i + 1)) /\
    disk_inodes (disk s') = inodes s' /\ disk_root (disk s') = root s' /\
    disk_bitmap (disk s') = free_blocks s' /\
    (file <> EmptyString -> sfs_getfilesize file s' = Ret (-1)).
Proof.
  intros Hs Honly Hnd Hlink Hok Hsep.
  destruct (remove_runs s file i nd Hs Honly Hnd Hlink Hok Hsep)
    as (fds & Hlen & Hkeep & Hclosed & Hrun).
  pose proof Hok as (Hdl & _).
  eexists. split; [exact Hrun|].
  assert (Hs' : shape (removed (set_fdt (set_root s (<[Z.to_nat i := mk_dirent 0 EmptyString]>
                                                       (root s))) fds) (i + 1) nd)).
  { destruct Hs as [H1 H2 H3 H4].
    split; cbn; rewrite ?length_insert, ?clear_bytes_length; congruence. }
  split; [exact Hs'|].
  cbn [removed root inodes num_files curr_file super fdt disk free_blocks set_fdt set_root
       write_bitmap write_root write_inodes disk_inodes disk_root disk_bitmap].
  split; [reflexivity|]. split; [rewrite Hdl; reflexivity|].
  split; [reflexivity|]. split; [reflexivity|]. split; [reflexivity|].
  split; [exact Hkeep|]. split.
  { intros Hfd j f Hj Hf. apply (Hclosed Hfd j f Hj Hf). }
  split; [reflexivity|]. split; [reflexivity|]. split; [reflexivity|].
  intros Hname. unfold sfs_getfilesize.
  apply getfilesize_loop_none; [exact Hs'|lia|consts; lia|].
  intros k e' Hk He'. cbn [removed root set_fdt set_root] in He'.
  destruct Honly as (Hi & (e & He & _) & Honly).
  destruct (Z.eq_dec k i) as [->|Hne].
  - rewrite list_lookup_insert_eq in He' by (apply lookup_lt_Some in He; exact He).
    injection He' as <-. cbn. congruence.
  - rewrite list_lookup_insert_ne in He' by lia.
    intros E. apply Hne. apply (Honly k e'); [lia|exact He'|exact E].
Qed.

Lemma file_ptrs_ok (s : sfs) (nd : inode_t) (p : Z) :
  inode_ptrs_ok s nd -> p ∈ file_ptrs s nd -> ptr_ok p.
Proof.
  intros (_ & Hdok & _ & Hload) Hp. unfold file_ptrs in Hp.
  apply elem_of_app in Hp. destruct Hp as [Hp|Hp].
  - rewrite Forall_forall in Hdok. apply Hdok. exact Hp.
  - rewrite Z.gtb_ltb in Hp. destruct (Z.ltb_spec 0 (indirect nd)) as [Hpos|]; [|inversion Hp].
    destruct (Hload Hpos) as [_ Hpok]. rewrite Forall_forall in Hpok. apply Hpok. exact Hp.
Qed.

(** X14.  sfs_remove releases the blocks that the file's direct pointers
    and the entries of its index block name: their bitmap bytes are 0 and
    the blocks read as zeros afterwards, and the index block itself reads
    as zeros.  No other bitmap byte and no other block changes; in
    particular the bitmap byte of the index block itself is left as it was
    (unless one of the pointers names that block too). *)
Theorem remove_releases_blocks (s : sfs) (file : string) (i : Z) (nd : inode_t) :
  shape s -> only_match s file i -> inodes s !! Z.to_nat (i + 1) = Some nd ->
  link_cnt nd = 1 -> inode_ptrs_ok s nd -> (0 < indirect nd -> indirect nd ∉ direct nd) ->
  exists s',
    sfs_remove file s = Ret (i + 1, s') /\
    (forall p, p ∈ file_ptrs s nd -> 0 < p ->
       free_blocks s' !! Z.to_nat (p - DATA_BLOCKS_OFFSET) = Some 0 /\
       read_blocks (disk s') p = zero_block) /\
    (0 < indirect nd -> read_blocks (disk s') (indirect nd) = zero_block) /\
    (forall k : Z, 0 <= k ->
       (forall p, p ∈ file_ptrs s nd -> 0 < p -> p - DATA_BLOCKS_OFFSET <> k) ->
       free_blocks s' !! Z.to_nat k = free_blocks s !! Z.to_nat k) /\
    (0 < indirect nd -> indirect nd ∉ file_ptrs s nd ->
     free_blocks s' !! Z.to_nat (indirect nd - DATA_BLOCKS_OFFSET)
     = free_blocks s !! Z.to_nat (indirect nd - DATA_BLOCKS_OFFSET)) /\
    (forall a : Z,
       (forall p, p ∈ file_ptrs s nd -> 0 < p -> p <> a) ->
       (0 < indirect nd -> indirect nd <> a) ->
       read_blocks (disk s') a = read_blocks (disk s) a).
Proof.
  intros Hs Honly Hnd Hlink Hok Hsep.
  destruct (remove_runs s file i nd Hs Honly Hnd Hlink Hok Hsep)
    as (fds & _ & _ & _ & Hrun).
  eexists. split; [exact Hrun|].
  unfold read_blocks.
  cbn [removed root inodes num_files curr_file super fdt disk free_blocks set_fdt set_root
       write_bitmap write_root write_inodes disk_inodes disk_root disk_bitmap disk_data].
  change (file_ptrs (set_fdt (set_root s ?r) ?f) nd) with (file_ptrs s nd).
  assert (Hrange : forall p, p ∈ file_ptrs s nd -> 0 < p ->
                             0 <= p - DATA_BLOCKS_OFFSET < MAX_DATA_BLOCKS_SCALED_DOWN).
  { intros p Hp Hpos. apply (ptr_ok_entry p (file_ptrs_ok s nd p Hok Hp) Hpos). }
  assert (Hkeepb : forall k : Z, 0 <= k ->
            (forall p, p ∈ file_ptrs s nd -> 0 < p -> p - DATA_BLOCKS_OFFSET <> k) ->
            clear_bytes (file_ptrs s nd) (free_blocks s) !! Z.to_nat k
            = free_blocks s !! Z.to_nat k).
  { intros k Hk Hno. apply clear_bytes_keep. intros p Hp Hpos E.
    specialize (Hrange p Hp Hpos). apply (Hno p Hp Hpos). lia. }
  split; [|split; [|split; [exact Hkeepb|split]]].
  - intros p Hp Hpos. split.
    + apply clear_bytes_cleared; [exact Hp|exact Hpos|].
      specialize (Hrange p Hp Hpos). rewrite (shape_bitmap s Hs). lia.
    + destruct (indirect nd >? 0); cbn [write_blocks disk_data];
        [destruct (p =? indirect nd); [reflexivity|]|];
        apply zero_blocks_zeroed; assumption.
  - intros Hpos. rewrite Z.gtb_ltb. destruct (Z.ltb_spec 0 (indirect nd)); [|lia].
    cbn [write_blocks disk_data]. rewrite Z.eqb_refl. reflexivity.
  - intros Hpos Hnot. apply Hkeepb.
    + destruct Hok as (_ & _ & Hiok & _).
      destruct (ptr_ok_entry (indirect nd) Hiok Hpos) as [_ ?]. lia.
    + intros p Hp _ E. apply Hnot. replace (indirect nd) with p by lia. exact Hp.
  - intros a Hno Hind. rewrite Z.gtb_ltb.
    destruct (Z.ltb_spec 0 (indirect nd)) as [Hpos|]; cbn [write_blocks disk_data].
    + destruct (Z.eqb_spec a (indirect nd)) as [->|]; [specialize (Hind Hpos); lia|].
      apply zero_blocks_keep. exact Hno.
    + apply zero_blocks_keep. exact Hno.
Qed.

Lemma hello_state_facts :
  shape hello_state /\ only_match hello_state "a" 0 /\ inode_ptrs_ok hello_state hello_inode.
Proof.
  assert (Hroot : root hello_state = root (opened_state "a")) by (vm_compute; reflexivity).
  split; [split; vm_compute; reflexivity|]. split.
  - split; [lia|]. rewrite Hroot. split.
    + exists (mk_dirent 1 "a"). split; reflexivity.
    + intros k e' Hk He' Hname.
      destruct (Z.eq_dec k 0) as [->|]; [reflexivity|].
      rewrite (opened_state_root_tail "a" k e') in Hname; [discriminate|lia|exact He'].
  - split; [reflexivity|]. split.
    + apply Forall_cons. split; [right; consts; lia|].
      apply Forall_replicate. left. reflexivity.
    + split; [left; reflexivity|]. cbn. lia.
Qed.

Lemma remove_clears_file_witness :
  exists s',
    sfs_remove "a" hello_state = Ret (0 + 1, s') /\
    inodes s' = <[Z.to_nat (0 + 1) := zero_inode]> (inodes hello_state) /\
    sfs_getfilesize "a" s' = Ret (-1).
Proof.
  destruct hello_state_facts as (Hs & Honly & Hok).
  destruct (remove_clears_file hello_state "a" 0 hello_inode Hs Honly
              (proj2 hello_state_eq) eq_refl Hok)
    as (s' & Hrun & _ & _ & Hin & _ & _ & _ & _ & _ & _ & _ & _ & Hgone).
  - cbn. lia.
  - exists s'. split; [exact Hrun|]. split; [exact Hin|]. apply Hgone. discriminate.
Defined.

Lemma remove_releases_blocks_witness :
  exists s',
    sfs_remove "a" hello_state = Ret (0 + 1, s') /\
    free_blocks s' !! Z.to_nat (18 - DATA_BLOCKS_OFFSET) = Some 0 /\
    read_blocks (disk s') 18 = zero_block.
Proof.
  destruct hello_state_facts as (Hs & Honly & Hok).
  destruct (remove_releases_blocks hello_state "a" 0 hello_inode Hs Honly
              (proj2 hello_state_eq) eq_refl Hok)
    as (s' & Hrun & Hcl & _).
  - cbn. lia.
  - exists s'. split; [exact Hrun|]. apply Hcl; [|lia].
    unfold file_ptrs. cbn [hello_inode direct]. apply elem_of_app. left. left.
Defined.

(** ** Reading a file back *)

Lemma reopen_read_back (s : sfs) (name : string) (i : Z) (nd : inode_t) (B : list byte) :
  shape s -> fdt_files_ok s -> strlen name < MAX_FILENAME ->
  only_match s name i -> inodes s !! Z.to_nat (i + 1) = Some nd -> not_open s (i + 1) ->
  size nd = Z.of_nat (length B) -> 0 < Z.of_nat (length B) -> no_holes s nd ->
  (forall k : Z, 0 <= k < Z.of_nat (length B) -> file_byte s nd k = B !! Z.to_nat k) ->
  (let! '(fd2, s4) := sfs_fopen name s in
   let! '(_, s5) := sfs_fseek fd2 0 s4 in
   let! '(r, out, _) := sfs_fread fd2 (Z.of_nat (length B)) s5 in
   Ret (r, out))
  = Ret (Z.of_nat (length B), B).
Proof.
  intros Hs Hfd Hname Honly Hnd Hclosed Hsz Hlen Hholes Hbytes.
  pose proof (no_holes_size s nd Hholes) as Hmax.
  pose proof Honly as (Hi & _).
  set (L := Z.of_nat (length B)) in *.
  destruct (fopen_reopen s name i nd Hs Hfd Hname Honly Hnd Hclosed) as
    (fd2 & s4 & Hopen & Hfd2 & Hs4 & Hfdt4 & Hin4 & _ & Hd4 & _); [consts; lia|].
  rewrite Hopen. cbn [bind].
  assert (Hlt2 : (Z.to_nat fd2 < length (fdt s))%nat).
  { rewrite (shape_fdt s Hs). consts. lia. }
  assert (Hf4 : fdt s4 !! Z.to_nat fd2 = Some (mk_fd (i + 1) (size nd))).
  { rewrite Hfdt4. apply list_lookup_insert_eq. exact Hlt2. }
  assert (Hn4 : inodes s4 !! Z.to_nat (i + 1) = Some (with_link_cnt nd 1)).
  { rewrite Hin4. apply list_lookup_insert_eq. apply lookup_lt_Some in Hnd. exact Hnd. }
  assert (Hseek : sfs_fseek fd2 0 s4 = Ret (0, at_rwptr s4 fd2 (i + 1) 0)).
  { unfold sfs_fseek. rewrite Z.gtb_ltb.
    destruct (Z.ltb_spec 0 fd2); [|lia]. destruct (Z.ltb_spec fd2 NUM_INODES); [|lia].
    cbn [andb]. rewrite (arr_get_Ret _ fd2 _) by (lia || exact Hf4). cbn [bind inode].
    destruct (Z.eqb_spec (i + 1) (-1)); [lia|]. destruct (Z.eqb_spec (i + 1) 0); [lia|].
    change (0 <? 0) with false. cbn match.
    rewrite (arr_get_Ret _ (i + 1) _) by (lia || exact Hn4). cbn [bind]. proj_simpl.
    rewrite Z.gtb_ltb, Z.geb_leb.
    destruct (Z.ltb_spec (size nd) 0); [lia|].
    destruct (Z.leb_spec (MAX_DATA_BLOCKS_PER_FILE * BLOCK_SIZE) 0); [consts; lia|].
    erewrite upd_fd_Ret; [|lia|exact Hf4]. reflexivity. }
  rewrite Hseek. cbn [bind].
  set (s5 := at_rwptr s4 fd2 (i + 1) 0).
  assert (Hf5 : fdt s5 !! Z.to_nat fd2 = Some (mk_fd (i + 1) 0)).
  { apply (at_rwptr_lookup s4 fd2 (i + 1) 0 _ Hf4). }
  assert (Hd5 : disk s5 = disk s).
  { unfold s5. cbn [at_rwptr disk set_fdt]. exact Hd4. }
  assert (Hptr5 : forall b, block_ptr s5 (with_link_cnt nd 1) b = block_ptr s nd b).
  { intros b. apply block_ptr_transfer; [exact Hd5|reflexivity|reflexivity]. }
  destruct (fread_delivers s5 fd2 L (mk_fd (i + 1) 0) (with_link_cnt nd 1))
    as (out & Hrun & Hlen_out & Hout).
  { lia. }
  { exact Hf5. }
  { lia. }
  { cbn. lia. }
  { exact Hn4. }
  { cbn [rwptr size with_link_cnt]. lia. }
  { intros b Hb Hlt. cbn [size with_link_cnt] in Hlt.
    rewrite Hptr5, Hd5. apply Hholes; assumption. }
  cbn [rwptr size with_link_cnt] in Hrun, Hlen_out, Hout.
  rewrite Hsz, Z.sub_0_r, Z.min_id in Hrun, Hlen_out, Hout.
  rewrite Hrun. cbn [bind]. do 2 f_equal.
  apply list_eq. intros k.
  destruct (Nat.lt_ge_cases k (length B)) as [Hk|Hk].
  - specialize (Hout (Z.of_nat k) ltac:(lia)). rewrite Nat2Z.id in Hout.
    rewrite Hout, Z.add_0_l. unfold file_byte. rewrite Hptr5, Hd5.
    specialize (Hbytes (Z.of_nat k) ltac:(lia)). rewrite Nat2Z.id in Hbytes.
    exact Hbytes.
  - rewrite !lookup_ge_None_2 by lia. reflexivity.
Qed.

Lemma mounted_closed (d : disk_t) (j : Z) (f : file_descriptor_t) :
  1 <= j -> fdt (mounted d) !! Z.to_nat j = Some f -> inode f = -1.
Proof.
  intros Hj Hf. destruct (Z.to_nat j) as [|j'] eqn:E; [lia|].
  cbn [mounted fdt lookup list_lookup] in Hf.
  apply list_elem_of_lookup_2, elem_of_replicate in Hf. destruct Hf as [-> _]. reflexivity.
Qed.

(** ** The first file after a format *)

Lemma fopen_first_file (s : sfs) (name : string) (nd : inode_t) :
  shape s -> name <> EmptyString -> strlen name < MAX_FILENAME ->
  inodes s !! 1%nat = Some nd ->
  sfs_fopen name (formatted s) = Ret (1, first_file s name nd).
Proof.
  intros Hs Hname Hlen Hnd.
  pose proof (formatted_shape s Hs) as Hsf.
  destruct (lookup_lt_is_Some_2 (fdt s) 1) as [f1 Hf1].
  { rewrite (shape_fdt s Hs). consts. lia. }
  assert (Hn1 : inodes (formatted s) !! Z.to_nat 1 = Some (with_link_cnt nd 0)).
  { cbn [formatted inodes]. change (Z.to_nat 1) with 1%nat.
    rewrite list_lookup_imap, Hnd. reflexivity. }
  assert (Hfd1 : fdt (formatted s) !! Z.to_nat 1 = Some (mk_fd (-1) (rwptr f1))).
  { cbn [formatted fdt]. change (Z.to_nat 1) with 1%nat.
    rewrite list_lookup_imap, Hf1. reflexivity. }
  rewrite (fopen_create_Ret (formatted s) name 1 1 (with_link_cnt nd 0) Hsf Hlen).
  - reflexivity.
  - apply formatted_no_match. exact Hname.
  - split; [consts; lia|]. split.
    + exists (with_link_cnt nd 0). split; [exact Hn1|reflexivity].
    + intros k nd' Hk. lia.
  - exact Hn1.
  - split; [consts; lia|]. split.
    + exists (mk_fd (-1) (rwptr f1)). split; [exact Hfd1|reflexivity].
    + intros k f' Hk. lia.
Qed.

Lemma first_file_shape (s : sfs) (name : string) (nd : inode_t) :
  shape s -> shape (first_file s name nd).
Proof.
  intros Hs. destruct (formatted_shape s Hs) as [Ha Hb Hc Hd].
  split; cbn [first_file inodes fdt root free_blocks]; rewrite ?length_insert; assumption.
Qed.

Lemma first_file_fd (s : sfs) (name : string) (nd : inode_t) :
  shape s -> fdt (first_file s name nd) !! 1%nat = Some (mk_fd 1 0).
Proof.
  intros Hs. cbn [first_file fdt]. apply list_lookup_insert_eq.
  rewrite (shape_fdt _ (formatted_shape s Hs)). consts. lia.
Qed.

Lemma first_file_inode (s : sfs) (name : string) (nd : inode_t) :
  shape s ->
  inodes (first_file s name nd) !! 1%nat = Some (mk_inode 1 1 0 (direct nd) (indirect nd)).
Proof.
  intros Hs. cbn [first_file inodes]. apply list_lookup_insert_eq.
  rewrite (shape_inodes _ (formatted_shape s Hs)). consts. lia.
Qed.

Lemma first_file_whole (s : sfs) (name : string) (nd : inode_t) :
  disk_whole (disk (first_file s name nd)).
Proof. intros a. apply length_replicate. Qed.

(** Every descriptor but descriptor 1 is free. *)
Lemma first_file_others_free (s : sfs) (name : string) (nd : inode_t)
      (j : Z) (f : file_descriptor_t) :
  2 <= j -> fdt (first_file s name nd) !! Z.to_nat j = Some f -> inode f = -1.
Proof.
  intros Hj Hf. cbn [first_file fdt] in Hf.
  rewrite list_lookup_insert_ne in Hf by lia.
  cbn [formatted fdt] in Hf. rewrite list_lookup_imap in Hf.
  destruct (fdt s !! Z.to_nat j) as [f0|]; [|discriminate].
  destruct (Z.to_nat j) as [|j'] eqn:E; [lia|].
  cbn in Hf. injection Hf as <-. reflexivity.
Qed.

(** The directory holds the one name, in slot 0. *)
Lemma first_file_only_match (s : sfs) (name : string) (nd : inode_t) :
  shape s -> name <> EmptyString -> only_match (first_file s name nd) name 0.
Proof.
  intros Hs Hname. split; [lia|]. split.
  - exists (mk_dirent 1 name). split; [|reflexivity].
    cbn [first_file root]. apply list_lookup_insert_eq.
    rewrite (shape_root _ (formatted_shape s Hs)). consts. lia.
  - intros k e' Hk He' Hn. destruct (Z.eq_dec k 0) as [->|Hne]; [reflexivity|].
    exfalso. cbn [first_file root] in He'.
    rewrite list_lookup_insert_ne in He' by lia.
    cbn [formatted root] in He'.
    apply list_elem_of_lookup_2, elem_of_replicate in He'. destruct He' as [-> _].
    cbn in Hn. congruence.
Qed.

(** The write of the round trip, on the first file after a format. *)
Lemma first_file_write (s : sfs) (nd0 : inode_t) (B : list byte) :
  shape s -> inodes s !! 1%nat = Some nd0 -> no_block_pointers nd0 ->
  0 < Z.of_nat (length B) <= MAX_FILE_BYTES ->
  exists s2 nd,
    sfs_fwrite 1 B (Z.of_nat (length B)) (first_file s "f" nd0)
    = Ret (Z.of_nat (length B), s2) /\
    shape s2 /\
    fdt s2 = <[1%nat := mk_fd 1 (Z.of_nat (length B))]> (fdt (first_file s "f" nd0)) /\
    root s2 = root (first_file s "f" nd0) /\
    inodes s2 !! 1%nat = Some nd /\ size nd = Z.of_nat (length B) /\ link_cnt nd = 1 /\
    no_holes s2 nd /\
    (forall k : Z, 0 <= k < Z.of_nat (length B) -> file_byte s2 nd k = B !! Z.to_nat k).
Proof.
  intros Hs Hnd0 Hclean Hlen.
  apply (fresh_write (first_file s "f" nd0) (mk_inode 1 1 0 (direct nd0) (indirect nd0)) B).
  - apply first_file_shape. exact Hs.
  - apply first_file_fd. exact Hs.
  - apply first_file_inode. exact Hs.
  - reflexivity.
  - reflexivity.
  - exact Hclean.
  - reflexivity.
  - apply first_file_whole.
  - exact Hlen.
Qed.

(** X22.  The round trip of the specification holds on a file system
    formatted by a process whose i-node 1 holds no block pointers, as in
    a process that has just started: for every byte string B with
    0 < |B| <= MAX_FILE_BYTES, after [mksfs(1)] the sequence open "f",
    write B, close, open "f", seek to 0, read |B| bytes returns |B| from
    the read and delivers exactly the bytes of B. *)
Theorem round_trip_law (s : sfs) (nd0 : inode_t) (B : list byte) :
  shape s -> inodes s !! 1%nat = Some nd0 -> no_block_pointers nd0 ->
  0 < Z.of_nat (length B) <= MAX_FILE_BYTES ->
  round_trip s B = Ret (Z.of_nat (length B), B).
Proof.
  intros Hs Hnd0 Hclean Hlen. unfold round_trip.
  rewrite (mksfs_fresh_eq s 1 Hs) by lia. cbn [bind].
  rewrite (fopen_first_file s "f" nd0 Hs) by (discriminate || reflexivity || exact Hnd0).
  cbn [bind].
  destruct (first_file_write s nd0 B Hs Hnd0 Hclean Hlen)
    as (s2 & nd & Hw & Hs2 & Hfdt2 & Hroot2 & Hn2 & Hsz & Hlink & Hholes & Hbytes).
  rewrite Hw. cbn [bind].
  assert (Hl0 : (1 < length (fdt (first_file s "f" nd0)))%nat).
  { rewrite (shape_fdt _ (first_file_shape s "f" nd0 Hs)). consts. lia. }
  set (t0 := first_file s "f" nd0) in *.
  assert (Hf2 : fdt s2 !! Z.to_nat 1 = Some (mk_fd 1 (Z.of_nat (length B)))).
  { rewrite Hfdt2. apply list_lookup_insert_eq. exact Hl0. }
  rewrite (fclose_Ret s2 1 _ ltac:(consts; lia) Hf2) by (cbn; lia).
  cbn [bind].
  set (s3 := set_fdt s2 _).
  assert (Hfree : forall (j : Z) f, 1 <= j -> fdt s3 !! Z.to_nat j = Some f -> inode f = -1).
  { intros j f Hj Hf. unfold s3 in Hf. cbn [fdt set_fdt] in Hf. rewrite Hfdt2 in Hf.
    rewrite list_insert_insert_eq in Hf.
    destruct (Z.eq_dec j 1) as [->|Hne].
    - change (Z.to_nat 1) with 1%nat in Hf.
      rewrite list_lookup_insert_eq in Hf by exact Hl0. injection Hf as <-. reflexivity.
    - rewrite list_lookup_insert_ne in Hf by lia.
      apply (first_file_others_free s "f" nd0 j f); [lia|exact Hf]. }
  apply (reopen_read_back s3 "f" 0 nd B).
  - unfold s3. shape_tac.
  - split.
    + intros j f Hj Hf. left. apply (Hfree j f); [lia|exact Hf].
    + intros j1 j2 f1 f2 Hj1 Hj2 Hg1 Hg2 _ Hne. exfalso. apply Hne.
      apply (Hfree j1 f1); [lia|exact Hg1].
  - vm_compute. reflexivity.
  - destruct (first_file_only_match s "f" nd0 Hs ltac:(discriminate)) as (H0 & H1 & H2).
    split; [exact H0|]. unfold s3. cbn [root set_fdt]. rewrite Hroot2.
    split; assumption.
  - exact Hn2.
  - intros j f Hj Hf. rewrite (Hfree j f); [lia|lia|exact Hf].
  - exact Hsz.
  - lia.
  - exact Hholes.
  - exact Hbytes.
Qed.

Lemma boot_shape : shape boot.
Proof. split; reflexivity. Qed.

Lemma round_trip_law_witness :
  round_trip boot [x68; x65; x6c; x6c; x6f] = Ret (5, [x68; x65; x6c; x6c; x6f]).
Proof.
  apply (round_trip_law boot zero_inode [x68; x65; x6c; x6c; x6f]).
  - apply boot_shape.
  - reflexivity.
  - split; reflexivity.
  - cbn. consts. lia.
Defined.

(** C1.  The round trip fails on a file system that a process mounts
    afresh after it has used it: after [mksfs(1)], open "a" and a write of
    13 blocks, a second [mksfs(1)] followed by open "f", write B, close,
    open "f", seek to 0 and read |B| bytes, with B 13312 bytes of 'B',
    makes the read return 13312, but from offset 12288 on the bytes it
    delivers are not those of B: they are the image of the pointer table
    (30, 0, ...).  [mksfs(1)] clears the bitmap but leaves the block
    pointers of i-node 1, and the creation path of sfs_fopen keeps them
    too; the write then takes block 30, still the file's index block, as
    the free block for its 13th data block, and the index table written
    after the loop overwrites the data. *)
Theorem round_trip_fails_after_use :
  round_trip_after_use (bytes_of 13312 x41) (bytes_of 13312 x42) 12288
  = Ret (13312, 13312, [x1e; x00; x00; x00], [x42; x42; x42; x42]).
Proof. vm_compute. reflexivity. Qed.

(** X15.  What a write has stored survives the end of the process: when a
    process whose i-node 1 holds no block pointers (as in a process that
    has just started) does [mksfs(1)], opens "f" and writes B, with
    0 < |B| <= MAX_FILE_BYTES, a new process that mounts the disk it left
    with [mksfs(0)], opens "f", seeks to 0 and reads |B| bytes gets |B|
    from the read and exactly the bytes of B. *)
Theorem restart_round_trip_law (s : sfs) (nd0 : inode_t) (B : list byte) :
  shape s -> inodes s !! 1%nat = Some nd0 -> no_block_pointers nd0 ->
  0 < Z.of_nat (length B) <= MAX_FILE_BYTES ->
  restart_round_trip s B = Ret (Z.of_nat (length B), B).
Proof.
  intros Hs Hnd0 Hclean Hlen. unfold restart_round_trip.
  rewrite (mksfs_fresh_eq s 1 Hs) by lia. cbn [bind].
  rewrite (fopen_first_file s "f" nd0 Hs) by (discriminate || reflexivity || exact Hnd0).
  cbn [bind].
  destruct (first_file_write s nd0 B Hs Hnd0 Hclean Hlen)
    as (s2 & nd & Hw & Hs2 & Hfdt2 & Hroot2 & Hn2 & Hsz & Hlink & Hholes & Hbytes).
  set (t0 := first_file s "f" nd0) in *.
  destruct (sfs_fwrite_frame t0 s2 1 B _ _ (mk_fd 1 0) ltac:(lia)
              (first_file_fd s "f" nd0 Hs) Hw) as (Hframe & Hflush).
  destruct (Hflush ltac:(lia)) as (Hdi & Hdb).
  pose proof (wf_disk_root _ _ _ _ Hframe) as Hdr.
  rewrite Hw. cbn [bind].
  rewrite (mksfs_load_eq (set_disk boot (disk s2))).
  2: reflexivity.
  2:{ cbn [disk set_disk]. rewrite Hdi. apply (shape_inodes s2 Hs2). }
  cbn [bind disk set_disk].
  set (s3 := mounted (disk s2)).
  assert (Hr3 : root s3 = root t0).
  { cbn [s3 mounted root]. rewrite Hdr. reflexivity. }
  apply (reopen_read_back s3 "f" 0 nd B).
  - split; cbn [s3 mounted inodes fdt root free_blocks].
    + rewrite Hdi. apply (shape_inodes s2 Hs2).
    + reflexivity.
    + rewrite Hdr. apply (shape_root _ (first_file_shape s "f" nd0 Hs)).
    + rewrite Hdb. apply (shape_bitmap s2 Hs2).
  - split.
    + intros j f Hj Hf. left. apply (mounted_closed (disk s2) j f); [lia|exact Hf].
    + intros j1 j2 f1 f2 Hj1 Hj2 Hf1 Hf2 _ Hne. exfalso. apply Hne.
      apply (mounted_closed (disk s2) j1 f1); [lia|exact Hf1].
  - vm_compute. reflexivity.
  - destruct (first_file_only_match s "f" nd0 Hs ltac:(discriminate)) as (H0 & H1 & H2).
    split; [exact H0|]. rewrite Hr3. split; assumption.
  - cbn [s3 mounted inodes]. rewrite Hdi. exact Hn2.
  - intros j f Hj Hf. rewrite (mounted_closed (disk s2) j f); [lia|lia|exact Hf].
  - exact Hsz.
  - lia.
  - intros b Hb Hlt.
    rewrite (block_ptr_transfer s2 s3 nd nd b) by reflexivity. apply Hholes; assumption.
  - intros k Hk. unfold file_byte.
    rewrite (block_ptr_transfer s2 s3 nd nd) by reflexivity. apply Hbytes. exact Hk.
Qed.

Lemma restart_round_trip_law_witness :
  restart_round_trip boot [x68; x65; x6c; x6c; x6f] = Ret (5, [x68; x65; x6c; x6c; x6f]).
Proof.
  apply (restart_round_trip_law boot zero_inode [x68; x65; x6c; x6c; x6f]).
  - apply boot_shape.
  - reflexivity.
  - split; reflexivity.
  - cbn. consts. lia.
Defined.

(** ** Formatting and the first file *)

(** X16.  After [mksfs(1)], whatever the globals held before, the first
    file that is created gets descriptor 1, i-node 1 and directory slot 0,
    and [num_files] is 1.  The i-node starts with size 0 but with the block
    pointers that i-node 1 held before the format: neither [mksfs(1)] nor
    the creation path of sfs_fopen resets them. *)
Theorem format_then_create (s : sfs) (name : string) (nd : inode_t) :
  shape s -> name <> EmptyString -> strlen name < MAX_FILENAME ->
  inodes s !! 1%nat = Some nd ->
  exists s',
    (let! s1 := mksfs 1 s in sfs_fopen name s1) = Ret (1, s') /\
    fdt s' !! 1%nat = Some (mk_fd 1 0) /\
    inodes s' !! 1%nat = Some (mk_inode 1 1 0 (direct nd) (indirect nd)) /\
    root s' !! 0%nat = Some (mk_dirent 1 name) /\
    num_files s' = 1 /\
    disk_inodes (disk s') = inodes s' /\ disk_root (disk s') = root s'.
Proof.
  intros Hs Hname Hlen Hnd.
  rewrite (mksfs_fresh_eq s 1 Hs) by lia. cbn [bind].
  pose proof (formatted_shape s Hs) as Hsf.
  destruct (lookup_lt_is_Some_2 (fdt s) 1) as [f1 Hf1].
  { rewrite (shape_fdt s Hs). consts. lia. }
  assert (Hn1 : inodes (formatted s) !! Z.to_nat 1 = Some (with_link_cnt nd 0)).
  { cbn [formatted inodes]. change (Z.to_nat 1) with 1%nat.
    rewrite list_lookup_imap, Hnd. reflexivity. }
  assert (Hfd1 : fdt (formatted s) !! Z.to_nat 1 = Some (mk_fd (-1) (rwptr f1))).
  { cbn [formatted fdt]. change (Z.to_nat 1) with 1%nat.
    rewrite list_lookup_imap, Hf1. reflexivity. }
  rewrite (fopen_create_Ret (formatted s) name 1 1 (with_link_cnt nd 0) Hsf Hlen).
  - eexists. split; [reflexivity|].
    cbn [fdt inodes root num_files disk write_root write_inodes disk_inodes disk_root
         formatted with_link_cnt direct indirect].
    split; [apply list_lookup_insert_eq; rewrite length_imap, (shape_fdt s Hs); consts; lia|].
    split; [apply list_lookup_insert_eq; rewrite length_imap, (shape_inodes s Hs); consts; lia|].
    split; [apply list_lookup_insert_eq; rewrite length_replicate; consts; lia|].
    split; [reflexivity|]. split; reflexivity.
  - apply formatted_no_match. exact Hname.
  - split; [consts; lia|]. split.
    + exists (with_link_cnt nd 0). split; [exact Hn1|reflexivity].
    + intros k nd' Hk. lia.
  - exact Hn1.
  - split; [consts; lia|]. split.
    + exists (mk_fd (-1) (rwptr f1)). split; [exact Hfd1|reflexivity].
    + intros k f' Hk. lia.
Qed.

Lemma format_then_create_witness :
  exists s',
    (let! s1 := mksfs 1 hello_state in sfs_fopen "b" s1) = Ret (1, s') /\
    inodes s' !! 1%nat = Some (mk_inode 1 1 0 (direct hello_inode) (indirect hello_inode)).
Proof.
  destruct (format_then_create hello_state "b" hello_inode)
    as (s' & Hrun & _ & Hin & _).
  - split; vm_compute; reflexivity.
  - discriminate.
  - vm_compute. reflexivity.
  - exact (proj2 hello_state_eq).
  - exists s'. split; [exact Hrun|exact Hin].
Defined.

(** ** sfs_fopen on a file of the directory: the whole effect *)

Lemma fopen_scan_first (s : sfs) (target j : Z) :
  shape s -> first_free_fd s j -> not_open s target ->
  forall (n : nat) (j0 : Z),
    1 <= j0 <= j -> j < j0 + Z.of_nat n -> j0 + Z.of_nat n <= NUM_INODES ->
    fopen_scan (fdt s) target n j0 (-1) = Ret (Some j).
Proof.
  intros Hs (Hj & (fj & Hfj & Hfree) & Hfirst) Hclosed.
  assert (Hkeep : forall (n : nat) (j0 free_fd : Z),
            1 <= j0 -> j0 + Z.of_nat n <= NUM_INODES -> free_fd <> -1 ->
            fopen_scan (fdt s) target n j0 free_fd = Ret (Some free_fd)).
  { induction n as [|n IH]; intros j0 free_fd Hj0 Hlen Hne; [reflexivity|].
    cbn [fopen_scan].
    destruct (arr_get_lt (fdt s) j0) as (f0 & Hget & Hf0).
    { rewrite (shape_fdt s Hs). lia. }
    rewrite Hget. cbn [bind].
    destruct (Z.eqb_spec (inode f0) target) as [E|_].
    { exfalso. apply (Hclosed j0 f0); [lia|exact Hf0|exact E]. }
    destruct (Z.eqb_spec free_fd (-1)); [contradiction|]. cbn [andb].
    apply IH; [lia|lia|assumption]. }
  induction n as [|n IH]; intros j0 Hj0 Hlt Hlen; [lia|].
  cbn [fopen_scan].
  destruct (arr_get_lt (fdt s) j0) as (f0 & Hget & Hf0).
  { rewrite (shape_fdt s Hs). lia. }
  rewrite Hget. cbn [bind].
  destruct (Z.eqb_spec (inode f0) target) as [E|_].
  { exfalso. apply (Hclosed j0 f0); [lia|exact Hf0|exact E]. }
  change (-1 =? -1) with true.
  destruct (Z.eq_dec j0 j) as [->|Hne].
  - rewrite Hfj in Hf0. injection Hf0 as <-. rewrite Hfree.
    change (-1 =? -1) with true. cbn [andb]. apply Hkeep; lia.
  - destruct (Z.eqb_spec (inode f0) (-1)) as [E0|_]; cbn [andb].
    + exfalso. apply (Hfirst j0 f0); [lia|exact Hf0|exact E0].
    + apply IH; lia.
Qed.

(** X17.  sfs_fopen of a name that is in the directory and not open takes
    the first free descriptor j and binds it to the file's i-node with the
    r/w pointer at the file's size; it sets the mode flag of the directory
    entry and the link count of the i-node to 1.  Nothing else changes:
    [num_files] is not incremented and the disk is not written. *)
Theorem fopen_existing_effect (s : sfs) (name : string) (i j : Z)
        (nd : inode_t) (e : directory_entry_t) :
  shape s -> strlen name < MAX_FILENAME ->
  only_match s name i -> root s !! Z.to_nat i = Some e ->
  inodes s !! Z.to_nat (i + 1) = Some nd -> 0 <= size nd < 2 ^ 31 ->
  not_open s (i + 1) -> first_free_fd s j ->
  sfs_fopen name s =
  Ret (j, mk_sfs (num_files s) (curr_file s) (super s)
             (<[Z.to_nat (i + 1) := with_link_cnt nd 1]> (inodes s))
             (<[Z.to_nat j := mk_fd (i + 1) (size nd)]> (fdt s))
             (<[Z.to_nat i := mk_dirent 1 (names e)]> (root s))
             (free_blocks s) (disk s)).
Proof.
  intros Hs Hlen Honly He Hnd Hsize Hclosed Hj.
  pose proof Honly as (Hi & _ & Huniq).
  pose proof Hj as (Hjr & (fj & Hfj & _) & _).
  pose proof (lookup_lt_Some _ _ _ He) as Hlt. rewrite (shape_root s Hs) in Hlt.
  assert (Hname : names e = name).
  { destruct Honly as (_ & (e' & He' & Hn') & _). congruence. }
  unfold sfs_fopen. rewrite Z.geb_leb.
  destruct (Z.leb_spec MAX_FILENAME (strlen name)); [lia|].
  rewrite (fopen_existing_reach name s i); [|lia|lia|rewrite (shape_root s Hs); lia|].
  2:{ intros i' e' Hi' He' Hn. specialize (Huniq i' e' ltac:(lia) He' Hn). lia. }
  cbn [fopen_existing].
  rewrite (arr_get_Ret _ _ e Hi He). cbn [bind].
  rewrite Hname, String.eqb_refl.
  rewrite (fopen_scan_first s (i + 1) j Hs Hj Hclosed) by (consts; lia).
  cbn [bind]. destruct (Z.eqb_spec j (-1)); [lia|].
  rewrite (upd_fd_Ret s j _ fj) by (lia || assumption). cbn [bind].
  unfold sfs_getfilesize.
  rewrite (getfilesize_loop_frame name s) by reflexivity.
  rewrite (getfilesize_loop_only name s i nd Hs Honly Hnd) by (consts; lia).
  destruct (Z.leb_spec 0 i); [|lia].
  destruct (Z.ltb_spec i (0 + Z.of_nat (Z.to_nat NUM_FILE_INODES))); [|lia].
  cbn [andb bind].
  erewrite upd_fd_Ret; [|lia|].
  2:{ cbn [fdt set_fdt]. apply list_lookup_insert_eq. apply lookup_lt_Some in Hfj. exact Hfj. }
  cbn [bind fdt set_fdt inode]. rewrite list_insert_insert_eq.
  erewrite upd_root_Ret; [|lia|cbn; exact He]. cbn [bind].
  erewrite upd_inode_Ret; [|lia|cbn; exact Hnd]. cbn [bind].
  rewrite to_int_small by lia. rewrite to_u64_small by lia.
  rewrite Hname. reflexivity.
Qed.

Lemma fopen_existing_effect_witness :
  sfs_fopen "f" (closed_state "f") =
  Ret (1, mk_sfs (num_files (closed_state "f")) (curr_file (closed_state "f"))
            (super (closed_state "f"))
            (<[Z.to_nat (0 + 1) := with_link_cnt
                 (mk_inode 1 1 0 (replicate (Z.to_nat NUM_DIRECT_POINTERS) 0) 0) 1]>
               (inodes (closed_state "f")))
            (<[Z.to_nat 1 := mk_fd (0 + 1) 0]> (fdt (closed_state "f")))
            (<[Z.to_nat 0 := mk_dirent 1 "f"]> (root (closed_state "f")))
            (free_blocks (closed_state "f")) (disk (closed_state "f"))).
Proof.
  apply (fopen_existing_effect (closed_state "f") "f" 0 1
           (mk_inode 1 1 0 (replicate (Z.to_nat NUM_DIRECT_POINTERS) 0) 0) (mk_dirent 1 "f")).
  - split; reflexivity.
  - vm_compute. reflexivity.
  - split; [lia|]. split.
    + exists (mk_dirent 1 "f"). split; reflexivity.
    + intros k e' Hk He' Hname.
      destruct (Z.eq_dec k 0) as [->|]; [reflexivity|].
      rewrite (opened_state_root_tail "f" k e') in Hname; [discriminate|lia|exact He'].
  - reflexivity.
  - reflexivity.
  - cbn. lia.
  - intros j f Hj Hf. rewrite (closed_state_lookup "f" j f); [lia|lia|exact Hf].
  - split; [consts; lia|]. split.
    + exists (mk_fd (-1) 0). split; reflexivity.
    + intros k f' Hk. lia.
Defined.

(** ** The empty name *)





(** ** sfs_fread at a hole *)

(** X18.  When the block under the r/w pointer has no block pointer (a
    hole), sfs_fread delivers nothing: it returns 0 and changes nothing,
    whatever the size of the file says. *)
Theorem fread_stops_at_hole (s : sfs) (fd len : Z) (f : file_descriptor_t) (nd : inode_t) :
  0 <= fd -> fdt s !! Z.to_nat fd = Some f ->
  0 < inode f -> inodes s !! Z.to_nat (inode f) = Some nd ->
  0 <= rwptr f -> size nd < 2 ^ 31 ->
  length (direct nd) = Z.to_nat NUM_DIRECT_POINTERS ->
  (0 < indirect nd ->
   length (load_ptr_buff (disk s) (indirect nd)) = Z.to_nat (NUM_POINTERS_IN_INDIRECT - 1)) ->
  block_ptr s nd (rwptr f / BLOCK_SIZE) = 0 ->
  sfs_fread fd len s = Ret (0, [], s).
Proof.
  intros Hfd Hf Hino Hnd Hp Hsize Hdl Hload Hptr.
  unfold sfs_fread.
  destruct (Z.leb_spec len 0) as [|Hlen]; [reflexivity|].
  rewrite (arr_get_Ret _ _ f Hfd Hf). cbn [bind].
  destruct (Z.leb_spec (inode f) 0); [lia|].
  rewrite (arr_get_Ret _ _ nd) by (lia || assumption). cbn [bind].
  rewrite Z.geb_leb. destruct (Z.leb_spec (size nd) (rwptr f)) as [|Hlt]; [reflexivity|].
  rewrite !to_int_small by (consts; lia).
  set (cb := rwptr f / BLOCK_SIZE) in *.
  assert (Hcb : 0 <= cb) by (unfold cb; consts; lia).
  set (btr := if size nd - rwptr f <? len then size nd - rwptr f else len).
  assert (Hbtr : 0 < btr) by (unfold btr; destruct (size nd - rwptr f <? len); lia).
  unfold loop_fuel. change (Z.to_nat MAX_DATA_BLOCKS_PER_FILE) with (S (S 267)).
  cbn [fread_loop r_did_write_to_buf r_bytes_to_read r_current_block andb].
  rewrite Z.gtb_ltb. destruct (Z.ltb_spec 0 btr); [|lia].
  destruct (Z.ltb_spec cb (MAX_DATA_BLOCKS_PER_FILE - 1)) as [Hin|Hout]; [|reflexivity].
  cbn [andb].
  assert (Hloc : exists loaded pb,
            fread_locate (inode f)
              (mk_rvars true btr 0 cb false indeterminate_ptr_buff []) s
            = Ret (None, loaded, pb)).
  { unfold fread_locate. cbn [r_current_block r_did_load_ptr_buff r_ptr_buff].
    rewrite (arr_get_Ret _ _ nd) by (lia || assumption). cbn [bind].
    unfold block_ptr in Hptr.
    destruct (Z.ltb_spec cb NUM_DIRECT_POINTERS) as [Hd|Hd].
    - destruct (arr_get_lt (direct nd) cb) as (d & Hget & Hdd); [rewrite Hdl; lia|].
      rewrite Hdd in Hptr. cbn [default from_option id] in Hptr. subst d.
      rewrite Hget. cbn [bind]. eexists _, _. reflexivity.
    - cbn [negb andb]. rewrite Z.gtb_ltb in *.
      destruct (Z.ltb_spec 0 (indirect nd)) as [Hpos|Hz].
      + destruct (arr_get_lt (load_ptr_buff (disk s) (indirect nd)) (cb - NUM_DIRECT_POINTERS))
          as (q & Hget & Hq); [rewrite (Hload Hpos); consts; lia|].
        rewrite Hq in Hptr. cbn [default from_option id] in Hptr. subst q.
        rewrite Hget. cbn [bind]. eexists _, _. reflexivity.
      + eexists _, _. reflexivity. }
  destruct Hloc as (loaded & pb & Hloc).
  unfold fread_body. rewrite Hloc. cbn [bind r_did_write_to_buf andb r_bytes_read r_out].
  reflexivity.
Qed.

Lemma fread_stops_at_hole_witness :
  sfs_fread 1 4 (set_inodes (opened_state "f")
                   (<[1%nat := mk_inode 1 1 8 (replicate (Z.to_nat NUM_DIRECT_POINTERS) 0) 0]>
                      (inodes (opened_state "f"))))
  = Ret (0, [], set_inodes (opened_state "f")
                  (<[1%nat := mk_inode 1 1 8 (replicate (Z.to_nat NUM_DIRECT_POINTERS) 0) 0]>
                     (inodes (opened_state "f")))).
Proof.
  apply (fread_stops_at_hole _ 1 4 (mk_fd 1 0)
           (mk_inode 1 1 8 (replicate (Z.to_nat NUM_DIRECT_POINTERS) 0) 0)).
  - lia.
  - reflexivity.
  - cbn. lia.
  - reflexivity.
  - cbn. lia.
  - cbn. lia.
  - reflexivity.
  - cbn. lia.
  - reflexivity.
Defined.

(** ** sfs_fwrite on a file that has contents *)

Lemma cur_ptr_range (n : inode_t) (v : wvars) (b : Z) :
  Forall ptr_ok (direct n) ->
  (w_did_load_ptr_buff v = true -> Forall ptr_ok (w_ptr_buff v)) ->
  ptr_ok (cur_ptr n v b).
Proof.
  intros Hd Hp. unfold cur_ptr.
  destruct (b <? NUM_DIRECT_POINTERS).
  - destruct (direct n !! Z.to_nat b) as [x|] eqn:E; [|left; reflexivity].
    exact (Forall_lookup_1 _ _ _ _ Hd E).
  - destruct (w_did_load_ptr_buff v); [|left; reflexivity].
    destruct (w_ptr_buff v !! _) as [x|] eqn:E; [|left; reflexivity].
    exact (Forall_lookup_1 _ _ _ _ (Hp eq_refl) E).
Qed.

Lemma blocks_ok_ext (q q' : Z -> Z) (idx : Z) (fb : list Z) :
  (forall b : Z, 0 <= b -> q' b = q b) ->
  blocks_ok q idx fb -> blocks_ok q' idx fb.
Proof.
  intros E [Hm Hi Hj Hs]. split.
  - intros b Hb. rewrite (E b Hb). apply Hm. exact Hb.
  - exact Hi.
  - intros b1 b2 H1 H2. rewrite (E b1 H1), (E b2 H2). apply Hj; assumption.
  - intros b Hb. rewrite (E b Hb). apply Hs. exact Hb.
Qed.

Lemma insert_one_marked (fb : list Z) (e k : nat) :
  fb !! k <> Some 0 -> <[e := 1]> fb !! k <> Some 0.
Proof.
  intros Hk. destruct (decide (k = e)) as [->|Hne].
  - destruct (decide (e < length fb)%nat) as [Hlt|Hge].
    + rewrite list_lookup_insert_eq by exact Hlt. discriminate.
    + rewrite list_insert_ge by lia. exact Hk.
  - rewrite list_lookup_insert_ne by congruence. exact Hk.
Qed.

Lemma blocks_ok_mark (q : Z -> Z) (idx : Z) (fb : list Z) (e : nat) :
  blocks_ok q idx fb -> blocks_ok q idx (<[e := 1]> fb).
Proof.
  intros [Hm Hi Hj Hs]. split; try assumption.
  - intros b Hb Hq. apply insert_one_marked. apply Hm; assumption.
  - intros Hidx. apply insert_one_marked. apply Hi; assumption.
Qed.

(** A block taken from the bitmap enters the block map at place [cb]. *)
Lemma blocks_ok_alloc (q : Z -> Z) (idx : Z) (fb : list Z) (e cb : Z) :
  blocks_ok q idx fb ->
  0 <= e < Z.of_nat (length fb) -> fb !! Z.to_nat e = Some 0 ->
  0 <= cb -> q cb = 0 ->
  blocks_ok (fun b => if b =? cb then e + DATA_BLOCKS_OFFSET else q b) idx
            (<[Z.to_nat e := 1]> fb).
Proof.
  intros [Hm Hi Hj Hs] He Hfree Hcb Hq.
  assert (Hnew : forall x : Z, fb !! Z.to_nat (x - DATA_BLOCKS_OFFSET) <> Some 0 ->
                               x <> e + DATA_BLOCKS_OFFSET).
  { intros x Hmark ->. apply Hmark.
    replace (e + DATA_BLOCKS_OFFSET - DATA_BLOCKS_OFFSET) with e by lia. exact Hfree. }
  split.
  - intros b Hb. destruct (Z.eqb_spec b cb) as [->|Hne].
    + intros _. replace (e + DATA_BLOCKS_OFFSET - DATA_BLOCKS_OFFSET) with e by lia.
      rewrite list_lookup_insert_eq by lia. discriminate.
    + intros Hpos. apply insert_one_marked. apply Hm; assumption.
  - intros Hidx. apply insert_one_marked. apply Hi; assumption.
  - intros b1 b2 H1 H2.
    destruct (Z.eqb_spec b1 cb) as [->|N1]; destruct (Z.eqb_spec b2 cb) as [->|N2].
    + reflexivity.
    + intros _ E. exfalso. symmetry in E. revert E.
      destruct (Z_lt_le_dec 0 (q b2)) as [Hpos|Hz].
      * apply Hnew. apply Hm; assumption.
      * consts. lia.
    + intros Hpos E. exfalso. revert E. apply Hnew. apply Hm; assumption.
    + apply Hj; assumption.
  - intros b Hb. destruct (Z.eqb_spec b cb) as [->|Hne].
    + intros _ E. destruct (Z_lt_le_dec 0 idx) as [Hpos|Hz].
      * symmetry in E. revert E. apply Hnew. apply Hi; exact Hpos.
      * consts. lia.
    + apply Hs. exact Hb.
Qed.

(** A block taken from the bitmap becomes the index block. *)
Lemma blocks_ok_alloc_index (q : Z -> Z) (idx : Z) (fb : list Z) (e : Z) :
  blocks_ok q idx fb ->
  0 <= e < Z.of_nat (length fb) -> fb !! Z.to_nat e = Some 0 ->
  blocks_ok q (e + DATA_BLOCKS_OFFSET) (<[Z.to_nat e := 1]> fb).
Proof.
  intros [Hm Hi Hj Hs] He Hfree. split.
  - intros b Hb Hpos. apply insert_one_marked. apply Hm; assumption.
  - intros _. replace (e + DATA_BLOCKS_OFFSET - DATA_BLOCKS_OFFSET) with e by lia.
    rewrite list_lookup_insert_eq by lia. discriminate.
  - exact Hj.
  - intros b Hb Hpos E. apply (Hm b Hb Hpos). rewrite E.
    replace (e + DATA_BLOCKS_OFFSET - DATA_BLOCKS_OFFSET) with e by lia. exact Hfree.
Qed.

Lemma cur_ptr_set_did_write (n : inode_t) (v : wvars) (x : bool) (b : Z) :
  cur_ptr n (w_set_did_write v x) b = cur_ptr n v b.
Proof. reflexivity. Qed.

Lemma cur_ptr_direct_insert (n : inode_t) (v : wvars) (cb x b : Z) :
  0 <= cb < NUM_DIRECT_POINTERS -> length (direct n) = Z.to_nat NUM_DIRECT_POINTERS ->
  0 <= b ->
  cur_ptr (with_direct n (<[Z.to_nat cb := x]> (direct n))) v b
  = if b =? cb then x else cur_ptr n v b.
Proof.
  intros Hcb Hdl Hb. unfold cur_ptr. cbn [direct with_direct].
  destruct (Z.ltb_spec b NUM_DIRECT_POINTERS) as [Hlt|Hge].
  - rewrite lookup_insert_Z by (rewrite ?Hdl; lia).
    destruct (Z.eqb_spec b cb); reflexivity.
  - destruct (Z.eqb_spec b cb); [lia|reflexivity].
Qed.

Lemma cur_ptr_buff_insert (n : inode_t) (v : wvars) (cb x b : Z) :
  NUM_DIRECT_POINTERS <= cb < MAX_DATA_BLOCKS_PER_FILE - 1 ->
  w_did_load_ptr_buff v = true ->
  length (w_ptr_buff v) = Z.to_nat (NUM_POINTERS_IN_INDIRECT - 1) ->
  0 <= b ->
  cur_ptr n (w_set_ptr_buff v (w_did_load_ptr_buff v)
               (<[Z.to_nat (cb - NUM_DIRECT_POINTERS) := x]> (w_ptr_buff v))) b
  = if b =? cb then x else cur_ptr n v b.
Proof.
  intros Hcb Hl Hpl Hb. unfold cur_ptr. cbn [w_set_ptr_buff w_did_load_ptr_buff w_ptr_buff].
  rewrite Hl.
  destruct (Z.ltb_spec b NUM_DIRECT_POINTERS) as [Hlt|Hge].
  - destruct (Z.eqb_spec b cb); [lia|reflexivity].
  - rewrite lookup_insert_Z by (rewrite ?Hpl; consts; lia).
    destruct (Z.eqb_spec (b - NUM_DIRECT_POINTERS) (cb - NUM_DIRECT_POINTERS));
      destruct (Z.eqb_spec b cb); try lia; reflexivity.
Qed.

Lemma cur_ptr_new_index (n : inode_t) (v : wvars) (x b : Z) :
  w_did_load_ptr_buff v = false ->
  cur_ptr (with_indirect n x)
          (w_set_ptr_buff v true (replicate (Z.to_nat (NUM_POINTERS_IN_INDIRECT - 1)) 0)) b
  = cur_ptr n v b.
Proof.
  intros Hl. unfold cur_ptr.
  cbn [direct with_indirect w_set_ptr_buff w_did_load_ptr_buff w_ptr_buff]. rewrite Hl.
  destruct (b <? NUM_DIRECT_POINTERS); [reflexivity|].
  destruct (replicate _ 0 !! _) as [z|] eqn:E; [|reflexivity].
  apply lookup_replicate in E. destruct E as [-> _]. reflexivity.
Qed.

Lemma cur_ptr_direct (n : inode_t) (v : wvars) (b d : Z) :
  0 <= b < NUM_DIRECT_POINTERS -> direct n !! Z.to_nat b = Some d -> cur_ptr n v b = d.
Proof.
  intros Hb Hd. unfold cur_ptr. destruct (Z.ltb_spec b NUM_DIRECT_POINTERS); [|lia].
  rewrite Hd. reflexivity.
Qed.

Lemma cur_ptr_buff (n : inode_t) (v : wvars) (b q : Z) :
  NUM_DIRECT_POINTERS <= b -> w_did_load_ptr_buff v = true ->
  w_ptr_buff v !! Z.to_nat (b - NUM_DIRECT_POINTERS) = Some q -> cur_ptr n v b = q.
Proof.
  intros Hb Hl Hq. unfold cur_ptr. destruct (Z.ltb_spec b NUM_DIRECT_POINTERS); [lia|].
  rewrite Hl, Hq. reflexivity.
Qed.

Lemma cur_ptr_not_loaded (n : inode_t) (v : wvars) (b : Z) :
  NUM_DIRECT_POINTERS <= b -> w_did_load_ptr_buff v = false -> cur_ptr n v b = 0.
Proof.
  intros Hb Hl. unfold cur_ptr. destruct (Z.ltb_spec b NUM_DIRECT_POINTERS); [lia|].
  rewrite Hl. reflexivity.
Qed.

Lemma memcpy_at_length (dst src : list byte) (off : Z) :
  0 <= off -> off + Z.of_nat (length src) <= Z.of_nat (length dst) ->
  length (memcpy_at dst off src) = length dst.
Proof.
  intros Hoff Hfit. unfold memcpy_at.
  rewrite !length_app, length_take, length_drop. lia.
Qed.

Lemma memcpy_at_lookup (dst src : list byte) (off j : Z) :
  0 <= off -> off + Z.of_nat (length src) <= Z.of_nat (length dst) -> 0 <= j ->
  memcpy_at dst off src !! Z.to_nat j
  = if (off <=? j) && (j <? off + Z.of_nat (length src))
    then src !! Z.to_nat (j - off) else dst !! Z.to_nat j.
Proof.
  intros Hoff Hfit Hj. unfold memcpy_at.
  destruct (Z.leb_spec off j) as [Hge|Hlt]; cbn [andb].
  - rewrite lookup_app_r by (rewrite length_take; lia).
    rewrite length_take.
    replace (Z.to_nat j - Z.to_nat off `min` length dst)%nat with (Z.to_nat (j - off)) by lia.
    destruct (Z.ltb_spec j (off + Z.of_nat (length src))) as [Hin|Hout].
    + apply lookup_app_l. lia.
    + rewrite lookup_app_r by lia. rewrite lookup_drop. f_equal. lia.
  - rewrite lookup_app_l by (rewrite length_take; lia).
    apply lookup_take_lt. lia.
Qed.

Lemma cur_ptr_congr (n : inode_t) (v v' : wvars) (b : Z) :
  w_did_load_ptr_buff v' = w_did_load_ptr_buff v -> w_ptr_buff v' = w_ptr_buff v ->
  cur_ptr n v' b = cur_ptr n v b.
Proof. intros El Ep. unfold cur_ptr. rewrite El, Ep. reflexivity. Qed.

Lemma written_byte_step (s0 : sfs) (nd0 : inode_t) (p r r' : Z) (buf : list byte) (k : Z) :
  r <= r' -> k < r \/ r' <= k ->
  written_byte s0 nd0 p r' buf k = written_byte s0 nd0 p r buf k.
Proof.
  intros Hle Hk. unfold written_byte.
  destruct (Z.leb_spec p k); cbn [andb]; [|reflexivity].
  destruct (Z.ltb_spec k r'); destruct (Z.ltb_spec k r); try reflexivity; lia.
Qed.

Section GenWrite.

Variables (s0 : sfs) (nd0 : inode_t) (fd ino p len : Z) (buf : list byte).
Hypothesis Hfd : 0 <= fd.
Hypothesis Hino : 0 < ino.
Hypothesis Hp : 0 <= p.
Hypothesis Hbuf : len <= Z.of_nat (length buf).
Hypothesis Hsz : 0 <= size nd0 <= MAX_FILE_BYTES.

(** The index block of the loop body: allocated when the file has none. *)
Lemma gen_ensure_indirect (v : wvars) (s : sfs) (r : Z) (n : inode_t) :
  write_inv fd ino p len (size nd0) v s r ->
  inodes s !! Z.to_nat ino = Some n ->
  (w_did_load_ptr_buff v = true -> 0 < indirect n) ->
  blocks_ok (cur_ptr n v) (indirect n) (free_blocks s) ->
  NUM_DIRECT_POINTERS <= r / BLOCK_SIZE ->
  exists (ok : bool) v1 s1 n1,
    fwrite_ensure_indirect ino n (w_set_did_write v false) s = Ret (ok, v1, s1) /\
    disk s1 = disk s /\ inodes s1 !! Z.to_nat ino = Some n1 /\ shape s1 /\
    (w_did_load_ptr_buff v1 = true -> 0 < indirect n1) /\
    blocks_ok (cur_ptr n1 v1) (indirect n1) (free_blocks s1) /\
    (forall b : Z, cur_ptr n1 v1 b = cur_ptr n v b) /\
    direct n1 = direct n /\ (indirect n1 = indirect n \/ indirect n <= 0) /\
    (ok = true ->
     w_did_load_ptr_buff v1 = true /\
     length (w_ptr_buff v1) = Z.to_nat (NUM_POINTERS_IN_INDIRECT - 1) /\
     Forall ptr_ok (w_ptr_buff v1)) /\
    (ok = false -> cur_ptr n v (r / BLOCK_SIZE) = 0).
Proof using All.
  intros Hinv Hn Hloaded Hblocks Hcb.
  destruct Hinv as [Hs Hfdt (n' & Hn' & Hsize & Hdl & Hdok & Hiok & Hload)
                       Hw Ht Hr Hmax Hb Hoff Hptrs].
  rewrite Hn in Hn'. injection Hn' as <-.
  unfold fwrite_ensure_indirect.
  destruct (Z.leb_spec (indirect n) 0) as [Hzero|Hpos].
  - assert (Hnl : w_did_load_ptr_buff v = false).
    { destruct (w_did_load_ptr_buff v); [|reflexivity]. specialize (Hloaded eq_refl). lia. }
    destruct (get_free_bitmap_address_spec s Hs) as (e & Hg & [[-> _]|(He & Hfree & _)]);
      rewrite Hg; cbn [bind].
    + exists false, (w_set_did_write v false), s, n. cbn [Z.eqb].
      split; [reflexivity|]. split; [reflexivity|]. split; [exact Hn|].
      split; [exact Hs|]. split; [exact Hloaded|]. split; [exact Hblocks|].
      split; [reflexivity|]. split; [reflexivity|]. split; [left; reflexivity|].
      split; [discriminate|].
      intros _. apply cur_ptr_not_loaded; assumption.
    + destruct (Z.eqb_spec e (-1)); [lia|].
      rewrite (set_bitmap_Ret s e 1 Hs He). cbn [bind].
      erewrite upd_inode_Ret; [|lia|proj_simpl; exact Hn]. cbn [bind].
      destruct (ptr_ok_alloc e He) as [Hu Hok]. rewrite Hu.
      eexists true, _, _, _. split; [reflexivity|]. proj_simpl.
      split; [reflexivity|].
      split; [apply list_lookup_insert_eq; apply lookup_lt_Some in Hn; exact Hn|].
      split; [shape_tac|]. proj_simpl.
      split; [intros _; consts; lia|].
      assert (Hext : forall b : Z,
                cur_ptr (with_indirect n (e + DATA_BLOCKS_OFFSET))
                  (mk_wvars false (w_bytes_to_write v) (w_bytes_written v) (w_current_block v)
                     (w_rwptr_size_offset v) true
                     (replicate (Z.to_nat (NUM_POINTERS_IN_INDIRECT - 1)) 0)) b
                = cur_ptr n v b).
      { intros b. apply (cur_ptr_new_index n (w_set_did_write v false) _ b). exact Hnl. }
      split; [|split; [exact Hext|split; [reflexivity|split; [right; exact Hzero|
                                                      split; [|discriminate]]]]].
      * apply (blocks_ok_ext (cur_ptr n v)); [intros b _; apply Hext|].
        apply (blocks_ok_alloc_index _ (indirect n));
          [exact Hblocks|rewrite (shape_bitmap s Hs); lia|exact Hfree].
      * intros _. split; [reflexivity|]. split; [apply length_replicate|].
        apply Forall_replicate. left. reflexivity.
  - exists true, (w_set_did_write v false), s, n.
    split; [reflexivity|]. split; [reflexivity|]. split; [exact Hn|].
    split; [exact Hs|]. split; [exact Hloaded|]. split; [exact Hblocks|].
    split; [reflexivity|]. split; [reflexivity|]. split; [left; reflexivity|].
    split; [|discriminate].
    intros _. proj_simpl. specialize (Hload Hpos). split; [exact Hload|].
    apply Hptrs. exact Hload.
Qed.

(** The first half of the loop body: the block of [current_block] is found
    or allocated, and only that place of the block map changes. *)
Lemma gen_locate (v : wvars) (s : sfs) (r : Z) (n : inode_t) :
  write_inv fd ino p len (size nd0) v s r ->
  inodes s !! Z.to_nat ino = Some n ->
  (w_did_load_ptr_buff v = true -> 0 < indirect n) ->
  blocks_ok (cur_ptr n v) (indirect n) (free_blocks s) ->
  r / BLOCK_SIZE < MAX_DATA_BLOCKS_PER_FILE - 1 ->
  exists res v1 s1 n1,
    fwrite_locate ino (w_set_did_write v false) s = Ret (res, v1, s1) /\
    disk s1 = disk s /\ inodes s1 !! Z.to_nat ino = Some n1 /\
    (w_did_load_ptr_buff v1 = true -> 0 < indirect n1) /\
    blocks_ok (cur_ptr n1 v1) (indirect n1) (free_blocks s1) /\
    (forall b : Z, 0 <= b -> b <> r / BLOCK_SIZE -> cur_ptr n1 v1 b = cur_ptr n v b) /\
    match res with
    | None => cur_ptr n1 v1 (r / BLOCK_SIZE) = 0 /\ cur_ptr n v (r / BLOCK_SIZE) = 0 /\
              direct n1 = direct n /\ (indirect n1 = indirect n \/ indirect n <= 0)
    | Some (e, buff) =>
        cur_ptr n1 v1 (r / BLOCK_SIZE) = e + DATA_BLOCKS_OFFSET /\ 0 <= e /\
        (0 < cur_ptr n v (r / BLOCK_SIZE) ->
         cur_ptr n v (r / BLOCK_SIZE) = e + DATA_BLOCKS_OFFSET /\
         buff = disk_data (disk s) (e + DATA_BLOCKS_OFFSET)) /\
        (cur_ptr n v (r / BLOCK_SIZE) = 0 -> buff = zero_block)
    end.
Proof using All.
  intros Hinv Hn Hloaded Hblocks Hcb.
  pose proof Hinv as [Hs Hfdt (n' & Hn' & Hsize & Hdl & Hdok & Hiok & Hload)
                         Hw Ht Hr Hmax Hb Hoff Hptrs].
  rewrite Hn in Hn'. injection Hn' as <-.
  assert (Hcb0 : 0 <= r / BLOCK_SIZE) by (consts; lia).
  set (cb := r / BLOCK_SIZE) in *.
  unfold fwrite_locate. cbn [w_set_did_write w_current_block]. rewrite Hb.
  rewrite (arr_get_Ret _ _ n) by (lia || assumption). cbn [bind].
  destruct (Z.ltb_spec cb NUM_DIRECT_POINTERS) as [Hd|Hd].
  - (* a direct block *)
    destruct (arr_get_lt (direct n) cb) as (d & Hget & Hdd); [rewrite Hdl; consts; lia|].
    rewrite Hget. cbn [bind].
    pose proof (Forall_lookup_1 _ _ _ _ Hdok Hdd) as Hd_ok.
    pose proof (cur_ptr_direct n v cb d ltac:(lia) Hdd) as Hcur.
    rewrite Z.gtb_ltb. destruct (Z.ltb_spec 0 d) as [Hpos|Hzero].
    + destruct (ptr_ok_entry d Hd_ok Hpos) as [-> Hrange].
      eexists _, _, s, n. split; [reflexivity|].
      split; [reflexivity|]. split; [exact Hn|]. split; [exact Hloaded|].
      split; [exact Hblocks|]. split; [reflexivity|].
      rewrite cur_ptr_set_did_write, Hcur.
      replace (d - DATA_BLOCKS_OFFSET + DATA_BLOCKS_OFFSET) with d by lia.
      split; [reflexivity|]. split; [lia|]. split; [intros _; split; reflexivity|lia].
    + assert (Hd0 : d = 0) by (destruct Hd_ok as [->|?]; [reflexivity|consts; lia]).
      destruct (get_free_bitmap_address_spec s Hs) as (e & Hg & [[-> _]|(He & Hfree & _)]);
        rewrite Hg; cbn [bind].
      * cbn [Z.eqb]. eexists _, _, s, n. split; [reflexivity|].
        split; [reflexivity|]. split; [exact Hn|]. split; [exact Hloaded|].
        split; [exact Hblocks|]. split; [reflexivity|].
        rewrite cur_ptr_set_did_write, Hcur.
        split; [exact Hd0|]. split; [exact Hd0|]. split; [reflexivity|left; reflexivity].
      * destruct (Z.eqb_spec e (-1)); [lia|].
        rewrite (set_bitmap_Ret s e 1 Hs He). cbn [bind].
        rewrite arr_set_Ret by (rewrite Hdl; consts; lia). cbn [bind].
        erewrite upd_inode_Ret; [|lia|proj_simpl; exact Hn]. cbn [bind].
        destruct (ptr_ok_alloc e He) as [Hu Hok]. rewrite Hu.
        eexists _, _, _, _. split; [reflexivity|]. proj_simpl.
        split; [reflexivity|].
        split; [apply list_lookup_insert_eq; apply lookup_lt_Some in Hn; exact Hn|].
        proj_simpl. split; [exact Hloaded|].
        assert (Hext : forall b : Z, 0 <= b ->
                  cur_ptr (with_direct n (<[Z.to_nat cb := e + DATA_BLOCKS_OFFSET]> (direct n)))
                          (w_set_did_write v false) b
                  = if b =? cb then e + DATA_BLOCKS_OFFSET else cur_ptr n v b).
        { intros b Hb0. rewrite cur_ptr_direct_insert by (assumption || lia). reflexivity. }
        split; [|split; [|split; [|split; [lia|split; [lia|reflexivity]]]]].
        -- apply (blocks_ok_ext _ _ _ _ Hext).
           apply blocks_ok_alloc;
             [exact Hblocks|rewrite (shape_bitmap s Hs); lia|exact Hfree|exact Hcb0|lia].
        -- intros b Hb0 Hne. rewrite (Hext b Hb0).
           destruct (Z.eqb_spec b cb); [contradiction|reflexivity].
        -- rewrite (Hext cb Hcb0), Z.eqb_refl. reflexivity.
  - (* a block behind the index block *)
    destruct (gen_ensure_indirect v s r n Hinv Hn Hloaded Hblocks Hd)
      as (ok & v1 & s1 & n1 & Hrun & Hd1 & Hn1 & Hs1 & Hloaded1 & Hblocks1 & Hext1 &
          Edir & Eind & Hok & Hno).
    rewrite Hrun. cbn [bind].
    destruct ok; cbn [negb].
    2:{ exists None, v1, s1, n1. split; [reflexivity|].
        split; [exact Hd1|]. split; [exact Hn1|]. split; [exact Hloaded1|].
        split; [exact Hblocks1|]. split; [intros b _ _; apply Hext1|].
        rewrite Hext1. split; [apply Hno; reflexivity|].
        split; [apply Hno; reflexivity|]. split; assumption. }
    destruct (Hok eq_refl) as (Hl1 & Hpl1 & Hpok1). rewrite Hl1. cbn [negb].
    destruct (arr_get_lt (w_ptr_buff v1) (cb - NUM_DIRECT_POINTERS)) as (q & Hget & Hq).
    { rewrite Hpl1. consts. lia. }
    rewrite Hget. cbn [bind].
    pose proof (Forall_lookup_1 _ _ _ _ Hpok1 Hq) as Hq_ok.
    pose proof (cur_ptr_buff n1 v1 cb q Hd Hl1 Hq) as Hcur.
    rewrite Z.gtb_ltb. destruct (Z.ltb_spec 0 q) as [Hpos|Hzero].
    + destruct (ptr_ok_entry q Hq_ok Hpos) as [-> Hrange].
      eexists _, v1, s1, n1. split; [reflexivity|].
      split; [exact Hd1|]. split; [exact Hn1|]. split; [exact Hloaded1|].
      split; [exact Hblocks1|]. split; [intros b _ _; apply Hext1|].
      rewrite <- Hext1, Hcur, Hd1.
      replace (q - DATA_BLOCKS_OFFSET + DATA_BLOCKS_OFFSET) with q by lia.
      split; [reflexivity|]. split; [lia|]. split; [intros _; split; reflexivity|lia].
    + assert (Hq0 : q = 0) by (destruct Hq_ok as [->|?]; [reflexivity|consts; lia]).
      destruct (get_free_bitmap_address_spec s1 Hs1) as (e & Hg & [[-> _]|(He & Hfree & _)]);
        rewrite Hg; cbn [bind].
      * cbn [Z.eqb]. exists None, v1, s1, n1. split; [reflexivity|].
        split; [exact Hd1|]. split; [exact Hn1|]. split; [exact Hloaded1|].
        split; [exact Hblocks1|]. split; [intros b _ _; apply Hext1|].
        rewrite <- Hext1, Hcur. split; [exact Hq0|]. split; [exact Hq0|]. split; assumption.
      * destruct (Z.eqb_spec e (-1)); [lia|].
        rewrite (set_bitmap_Ret s1 e 1 Hs1 He). cbn [bind].
        rewrite arr_set_Ret by (rewrite Hpl1; consts; lia). cbn [bind].
        destruct (ptr_ok_alloc e He) as [Hu Hok']. rewrite Hu.
        eexists _, _, _, n1. split; [reflexivity|]. proj_simpl.
        split; [exact Hd1|]. split; [exact Hn1|]. split; [intros _; apply Hloaded1; exact Hl1|].
        assert (Hext : forall b : Z, 0 <= b ->
                  cur_ptr n1 (w_set_ptr_buff v1 (w_did_load_ptr_buff v1)
                                (<[Z.to_nat (cb - NUM_DIRECT_POINTERS) := e + DATA_BLOCKS_OFFSET]>
                                   (w_ptr_buff v1))) b
                  = if b =? cb then e + DATA_BLOCKS_OFFSET else cur_ptr n1 v1 b).
        { intros b Hb0. apply cur_ptr_buff_insert; try assumption. lia. }
        rewrite Hl1 in Hext.
        split; [|split; [|split; [|split; [lia|split; [rewrite <- Hext1; lia|reflexivity]]]]].
        -- apply (blocks_ok_ext _ _ _ _ Hext).
           apply blocks_ok_alloc;
             [exact Hblocks1|rewrite (shape_bitmap s1 Hs1); lia|exact Hfree|exact Hcb0|lia].
        -- intros b Hb0 Hne. rewrite (Hext b Hb0), Hext1.
           destruct (Z.eqb_spec b cb); [contradiction|reflexivity].
        -- rewrite (Hext cb Hcb0), Z.eqb_refl. reflexivity.
Qed.

(** The second half of the loop body, written out: the bytes go into the
    block buffer at the offset of the r/w pointer, the block is written to
    its address, and the r/w pointer moves on by the number of bytes. *)
Lemma gen_commit (v1 : wvars) (s1 : sfs) (r e : Z) (buff : list byte) :
  write_inv fd ino p len (size nd0) v1 s1 r ->
  0 <= e < MAX_DATA_BLOCKS_SCALED_DOWN -> r < p + len ->
  exists v2 s2,
    fwrite_commit fd buf e buff v1 s1 = Ret (v2, s2) /\
    inodes s2 = inodes s1 /\
    free_blocks s2 = <[Z.to_nat e := 1]> (free_blocks s1) /\
    disk s2 = write_blocks (disk s1) (e + DATA_BLOCKS_OFFSET)
                (memcpy_at buff (r mod BLOCK_SIZE)
                   (take (Z.to_nat (Z.min (p + len - r) (BLOCK_SIZE - r mod BLOCK_SIZE)))
                         (drop (Z.to_nat (r - p)) buf))) /\
    fdt s2 !! Z.to_nat fd
    = Some (mk_fd ino (r + Z.min (p + len - r) (BLOCK_SIZE - r mod BLOCK_SIZE))) /\
    w_did_load_ptr_buff v2 = w_did_load_ptr_buff v1 /\ w_ptr_buff v2 = w_ptr_buff v1 /\
    w_did_write_to_disk v2 = true.
Proof using All.
  intros Hinv1 He Hr.
  destruct Hinv1 as [Hs1 Hfdt1 Hnode1 Hw1 Ht1 Hr1 Hmax1 Hb1 Hoff1 Hptrs1].
  unfold fwrite_commit.
  rewrite (arr_get_Ret _ _ (mk_fd ino r)) by (lia || assumption).
  cbn [bind rwptr].
  set (bc := Z.min (p + len - r) (BLOCK_SIZE - r mod BLOCK_SIZE)).
  replace (if w_bytes_to_write v1 <=? BLOCK_SIZE - r mod BLOCK_SIZE
           then w_bytes_to_write v1 else BLOCK_SIZE - r mod BLOCK_SIZE) with bc.
  2:{ unfold bc. rewrite Ht1.
      destruct (Z.leb_spec (len - (r - p)) (BLOCK_SIZE - r mod BLOCK_SIZE)); lia. }
  assert (Hbc : 0 < bc /\ bc <= p + len - r /\ bc <= BLOCK_SIZE - r mod BLOCK_SIZE).
  { unfold bc. consts. lia. }
  rewrite Z.gtb_ltb. destruct (Z.ltb_spec 0 bc); [|lia].
  unfold buf_read.
  destruct (Z.ltb_spec (Z.of_nat (length buf)) (w_bytes_written v1 + bc)); [lia|].
  cbn [bind].
  rewrite set_bitmap_Ret by (try apply shape_set_disk; assumption). cbn [bind].
  erewrite upd_fd_Ret; [|lia|proj_simpl; exact Hfdt1]. cbn [bind].
  proj_simpl.
  rewrite (arr_get_Ret _ _ (mk_fd ino (to_u64 (r + bc)))).
  2: lia.
  2:{ apply list_lookup_insert_eq. apply lookup_lt_Some in Hfdt1. exact Hfdt1. }
  cbn [bind rwptr].
  rewrite to_u64_small by (consts; lia).
  eexists _, _. split; [reflexivity|]. proj_simpl.
  split; [reflexivity|]. split; [reflexivity|].
  split; [rewrite Hw1; reflexivity|].
  split; [apply list_lookup_insert_eq; apply lookup_lt_Some in Hfdt1; exact Hfdt1|].
  repeat split; reflexivity.
Qed.

(** One iteration of the loop keeps the invariant; it leaves the loop with
    [break] only at or beyond the end of the file, where a block is
    needed and none is free. *)
Lemma gen_body (v : wvars) (s : sfs) (r : Z) (n : inode_t) :
  gen_inv s0 nd0 fd ino p len buf v s r n ->
  0 < w_bytes_to_write v -> r / BLOCK_SIZE < MAX_DATA_BLOCKS_PER_FILE - 1 ->
  exists (brk : bool) v' s' r' n',
    fwrite_body fd ino buf v s = Ret (brk, v', s') /\
    gen_inv s0 nd0 fd ino p len buf v' s' r' n' /\
    (brk = true -> r' = r /\ size nd0 <= r) /\
    (brk = false ->
     w_did_write_to_disk v' = true /\ r < r' /\
     (w_bytes_to_write v' = 0 \/ r' / BLOCK_SIZE = r / BLOCK_SIZE + 1)).
Proof using All.
  intros [Hinv Hn Hwhole Hloaded Hblocks Hfilled Hdata Hstart] Htodo Hcb.
  assert (Hr0 : 0 <= r) by (destruct Hinv; lia).
  assert (Hrl : r < p + len) by (destruct Hinv as [_ _ _ _ Ht _ _ _ _ _]; lia).
  pose proof (wi_range _ _ _ _ _ _ _ _ Hinv) as Hpr.
  assert (Hq : forall b : Z, cur_ptr n v b = 0 \/ 0 < cur_ptr n v b).
  { intros b.
    destruct Hinv as [_ _ (n' & Hn' & _ & _ & Hdok & _ & _) _ _ _ _ _ _ Hptrs].
    rewrite Hn in Hn'. injection Hn' as <-.
    destruct (cur_ptr_range n v b Hdok) as [->|Hrange];
      [intros Hl; apply Hptrs; exact Hl|left; reflexivity|right; consts; lia]. }
  destruct (fwrite_body_ok fd ino p len (size nd0) buf Hfd Hino Hp Hbuf Hsz v s r Hinv Htodo Hcb)
    as (brk & vg & sg & rg & Hbody & Hinvg & Hbrk & Hcont).
  destruct (fwrite_locate_ok fd ino p len (size nd0) buf Hfd Hino Hp Hbuf Hsz v s r Hinv Hcb)
    as (res' & v1' & s1' & Hloc' & Hinv1 & Hres).
  destruct (gen_locate v s r n Hinv Hn Hloaded Hblocks Hcb)
    as (res & v1 & s1 & n1 & Hloc & Hd1 & Hn1 & Hloaded1 & Hblocks1 & Hother & Hcase).
  rewrite Hloc in Hloc'. injection Hloc' as <- <- <-.
  destruct res as [[e buff]|].
  - (* the block was found or allocated *)
    destruct Hcase as (Hcur1 & He0 & Hold & Hnew).
    specialize (Hres e buff eq_refl).
    destruct (gen_commit v1 s1 r e buff Hinv1 Hres Hrl)
      as (v2 & s2 & Hcommit & Hin2 & Hfb2 & Hdisk2 & Hfd2 & Hl2 & Hpb2 & Hflag2).
    set (bc := Z.min (p + len - r) (BLOCK_SIZE - r mod BLOCK_SIZE)) in *.
    assert (Hbc : 0 < bc /\ r + bc <= p + len /\ bc <= BLOCK_SIZE - r mod BLOCK_SIZE)
      by (unfold bc; consts; lia).
    assert (Hrun : fwrite_body fd ino buf v s = Ret (false, v2, s2)).
    { unfold fwrite_body. rewrite Hloc. cbn [bind]. rewrite Hcommit. reflexivity. }
    rewrite Hrun in Hbody. injection Hbody as <- <- <-.
    assert (Hrg : rg = r + bc).
    { pose proof (wi_fd _ _ _ _ _ _ _ _ Hinvg) as Hfdg. rewrite Hfd2 in Hfdg.
      injection Hfdg as <-. reflexivity. }
    subst rg.
    assert (Hbufflen : length buff = Z.to_nat BLOCK_SIZE).
    { destruct (Hq (r / BLOCK_SIZE)) as [Hz|Hpos].
      - rewrite (Hnew Hz). apply length_replicate.
      - destruct (Hold Hpos) as [_ ->]. apply Hwhole. }
    set (src := take (Z.to_nat bc) (drop (Z.to_nat (r - p)) buf)) in *.
    assert (Hsrc : Z.of_nat (length src) = bc).
    { unfold src. rewrite length_take, length_drop.
      destruct Hbc as (Hb1 & Hb2 & _). clear - Hb1 Hb2 Hpr Hbuf. lia. }
    assert (Hcur2 : forall b : Z, cur_ptr n1 v2 b = cur_ptr n1 v1 b).
    { intros b. apply cur_ptr_congr; assumption. }
    exists false, v2, s2, (r + bc), n1. split; [exact Hrun|].
    split; [|split; [discriminate|exact Hcont]].
    assert (Hfilled2 : forall b : Z, 0 <= b -> b * BLOCK_SIZE < Z.max (size nd0) (r + bc) ->
                                     0 < cur_ptr n1 v1 b).
    { intros b Hb0 Hlt. destruct (Z.eq_dec b (r / BLOCK_SIZE)) as [->|Hne].
      - rewrite Hcur1. consts. lia.
      - rewrite (Hother b Hb0 Hne). apply Hfilled; [exact Hb0|]. consts. lia. }
    split.
    + exact Hinvg.
    + rewrite Hin2. exact Hn1.
    + intros a. rewrite Hdisk2. cbn [write_blocks disk_data].
      destruct (a =? e + DATA_BLOCKS_OFFSET); [|rewrite Hd1; apply Hwhole].
      rewrite memcpy_at_length; [exact Hbufflen| |]; rewrite ?Hbufflen; consts; lia.
    + rewrite Hl2. exact Hloaded1.
    + apply (blocks_ok_ext (cur_ptr n1 v1)); [intros b _; apply Hcur2|].
      rewrite Hfb2. apply blocks_ok_mark. exact Hblocks1.
    + intros b Hb0 Hlt. rewrite Hcur2. apply Hfilled2; assumption.
    + intros k Hk. rewrite Hcur2, Hdisk2. cbn [write_blocks disk_data].
      destruct (Z.eq_dec (k / BLOCK_SIZE) (r / BLOCK_SIZE)) as [Ek|Hne].
      * rewrite Ek, Hcur1, Z.eqb_refl.
        rewrite memcpy_at_lookup by (rewrite ?Hbufflen; consts; lia).
        rewrite Hsrc.
        destruct (Z.leb_spec (r mod BLOCK_SIZE) (k mod BLOCK_SIZE)) as [Hge|Hlt];
          [destruct (Z.ltb_spec (k mod BLOCK_SIZE) (r mod BLOCK_SIZE + bc)) as [Hin|Hout]|];
          cbn [andb].
        -- unfold src. rewrite lookup_take_lt by (clear - Hge Hin; lia). rewrite lookup_drop.
           unfold written_byte.
           destruct (Z.leb_spec p k); [|consts; lia].
           destruct (Z.ltb_spec k (r + bc)); [|consts; lia].
           cbn [andb]. f_equal. consts. lia.
        -- rewrite (written_byte_step s0 nd0 p r (r + bc)) by (consts; lia).
           assert (Hpos : 0 < cur_ptr n v (r / BLOCK_SIZE)).
           { apply Hfilled; consts; lia. }
           destruct (Hold Hpos) as [Ecur ->]. rewrite <- Ecur, <- Ek.
           apply Hdata. consts. lia.
        -- rewrite (written_byte_step s0 nd0 p r (r + bc)) by (consts; lia).
           assert (Hpos : 0 < cur_ptr n v (r / BLOCK_SIZE)).
           { apply Hfilled; consts; lia. }
           destruct (Hold Hpos) as [Ecur ->]. rewrite <- Ecur, <- Ek.
           apply Hdata. consts. lia.
      * assert (Hk0 : 0 <= k / BLOCK_SIZE) by (consts; lia).
        assert (Hkr : k < Z.max (size nd0) r) by (consts; lia).
        assert (Hpos : 0 < cur_ptr n1 v1 (k / BLOCK_SIZE)).
        { apply Hfilled2; [exact Hk0|consts; lia]. }
        destruct (Z.eqb_spec (cur_ptr n1 v1 (k / BLOCK_SIZE)) (e + DATA_BLOCKS_OFFSET)) as [E|_].
        { exfalso. apply Hne. rewrite <- Hcur1 in E.
          apply (bo_inj _ _ _ Hblocks1); try assumption. consts. lia. }
        rewrite (Hother _ Hk0 Hne), Hd1.
        rewrite (written_byte_step s0 nd0 p r (r + bc)) by (consts; lia).
        apply Hdata. lia.
    + intros E. lia.
  - (* no block: the loop ends *)
    destruct Hcase as (Hz1 & Hz & Edir & Eind).
    assert (Hrun : fwrite_body fd ino buf v s = Ret (true, v1, s1)).
    { unfold fwrite_body. rewrite Hloc. reflexivity. }
    rewrite Hrun in Hbody. injection Hbody as <- <- <-.
    pose proof (Hbrk eq_refl) as Erg. subst rg.
    assert (Hsame : forall b : Z, 0 <= b -> cur_ptr n1 v1 b = cur_ptr n v b).
    { intros b Hb0. destruct (Z.eq_dec b (r / BLOCK_SIZE)) as [->|Hne];
        [rewrite Hz1, Hz; reflexivity|apply Hother; assumption]. }
    exists true, v1, s1, r, n1. split; [exact Hrun|].
    split; [|split; [|discriminate]].
    + split; try assumption.
      * rewrite Hd1. exact Hwhole.
      * intros b Hb0 Hlt. rewrite (Hsame b Hb0). apply Hfilled; assumption.
      * intros k Hk. rewrite Hsame by (consts; lia). rewrite Hd1. apply Hdata. exact Hk.
      * intros E. destruct (Hstart E) as (E1 & E2 & E3).
        split; [congruence|]. split; [congruence|].
        destruct Eind as [Eind|Eind]; destruct E3 as [E3|E3]; (left; congruence) || (right; lia).
    + intros _. split; [reflexivity|].
      destruct (Z_lt_le_dec (r / BLOCK_SIZE * BLOCK_SIZE) (Z.max (size nd0) r)) as [Hlt|Hge].
      * pose proof (Hfilled (r / BLOCK_SIZE) ltac:(consts; lia) Hlt). lia.
      * consts. lia.
Qed.

(** The loop as a whole: it ends, keeps the invariant, and stops short of
    [p + len] only at or beyond the end of the file. *)
Lemma gen_loop :
  forall (fuel : nat) (v : wvars) (s : sfs) (r : Z) (n : inode_t),
    gen_inv s0 nd0 fd ino p len buf v s r n ->
    w_did_write_to_disk v = true ->
    (0 < w_bytes_to_write v -> r / BLOCK_SIZE < MAX_DATA_BLOCKS_PER_FILE - 1 ->
     MAX_DATA_BLOCKS_PER_FILE - 1 - r / BLOCK_SIZE <= Z.of_nat fuel) ->
    exists v' s' r' n',
      fwrite_loop fuel fd ino buf v s = Ret (v', s') /\
      gen_inv s0 nd0 fd ino p len buf v' s' r' n' /\ r <= r' /\
      (r' = p + len \/ size nd0 <= r').
Proof using All.
  induction fuel as [|fuel IH]; intros v s r n Hg Hflag Hfuel;
    pose proof (gi_inv _ _ _ _ _ _ _ _ _ _ _ Hg) as Hinv;
    pose proof (wi_block _ _ _ _ _ _ _ _ Hinv) as Hb;
    pose proof (wi_todo _ _ _ _ _ _ _ _ Hinv) as Ht;
    pose proof (wi_range _ _ _ _ _ _ _ _ Hinv) as Hpr;
    cbn [fwrite_loop]; rewrite Hflag, Hb; cbn [andb]; rewrite Z.gtb_ltb;
    (destruct (Z.ltb_spec 0 (w_bytes_to_write v)) as [Htodo|Hdone]; cbn [andb];
     [|exists v, s, r, n; split; [reflexivity|]; split; [exact Hg|]; split; [lia|left; lia]]);
    (destruct (Z.ltb_spec (r / BLOCK_SIZE) (MAX_DATA_BLOCKS_PER_FILE - 1)) as [Hcb|Hfull];
     [|exists v, s, r, n; split; [reflexivity|]; split; [exact Hg|]; split; [lia|right];
       consts; lia]).
  - specialize (Hfuel Htodo Hcb). lia.
  - destruct (gen_body v s r n Hg Htodo Hcb)
      as (brk & v1 & s1 & r1 & n1 & Hbody & Hg1 & Hbrk & Hcont).
    rewrite Hbody. cbn [bind].
    destruct brk.
    + destruct (Hbrk eq_refl) as [-> Hend].
      exists v1, s1, r, n1. split; [reflexivity|]. split; [exact Hg1|]. split; [lia|right; exact Hend].
    + destruct (Hcont eq_refl) as (Hflag1 & Hlt & Hstep).
      destruct (IH v1 s1 r1 n1 Hg1 Hflag1) as (v' & s' & r' & n' & Hloop & Hg' & Hle & Hend).
      { intros Ht1 Hcb1. specialize (Hfuel Htodo Hcb). lia. }
      exists v', s', r', n'. split; [exact Hloop|]. split; [exact Hg'|]. split; [lia|exact Hend].
Qed.

(** What the invariant gives for a state [s''] that holds the i-node with
    its new size, and the pointer array in the index block on disk. *)
Lemma gen_result (v' : wvars) (s' : sfs) (r' : Z) (n' : inode_t) (s'' : sfs) (nd' : inode_t) :
  gen_inv s0 nd0 fd ino p len buf v' s' r' n' ->
  direct nd' = direct n' -> indirect nd' = indirect n' ->
  size nd' = Z.max (size nd0) r' ->
  free_blocks s'' = free_blocks s' ->
  (forall a : Z,
     disk_data (disk s'') a
     = if w_did_load_ptr_buff v' && (a =? indirect n')
       then encode_ptrs (w_ptr_buff v') else disk_data (disk s') a) ->
  file_ok s'' nd' /\
  forall k : Z, 0 <= k < size nd' -> file_byte s'' nd' k = written_byte s0 nd0 p r' buf k.
Proof using All.
  intros [Hinv Hn Hwhole Hloaded Hblocks Hfilled Hdata _] Edir Eind Esize Efb Edisk.
  destruct Hinv as [Hs Hfdt (n1 & Hn1 & Hsize & Hdl & Hdok & Hiok & Hload)
                       Hw Ht Hr Hmax Hb Hoff Hptrs].
  rewrite Hn in Hn1. injection Hn1 as <-.
  assert (Hpb : w_did_load_ptr_buff v' = true ->
                load_ptr_buff (disk s'') (indirect n') = w_ptr_buff v').
  { intros Hl. destruct (Hptrs Hl) as [Hpl Hpok].
    unfold load_ptr_buff, read_blocks. rewrite Edisk, Hl, Z.eqb_refl. cbn [andb].
    rewrite <- Hpl. apply decode_encode_ptrs.
    eapply Forall_impl; [exact Hpok|]. intros z [->|Hz]; consts; lia. }
  assert (Hbp : forall b : Z, block_ptr s'' nd' b = cur_ptr n' v' b).
  { intros b. unfold block_ptr, cur_ptr. rewrite Edir, Eind.
    destruct (b <? NUM_DIRECT_POINTERS); [reflexivity|].
    rewrite Z.gtb_ltb.
    destruct (w_did_load_ptr_buff v') eqn:El.
    - destruct (Z.ltb_spec 0 (indirect n')) as [_|Hz]; [|specialize (Hloaded eq_refl); lia].
      rewrite (Hpb eq_refl). reflexivity.
    - destruct (Z.ltb_spec 0 (indirect n')) as [Hpos|_]; [|reflexivity].
      specialize (Hload Hpos). congruence. }
  assert (Hwhole' : disk_whole (disk s'')).
  { intros a. rewrite Edisk.
    destruct (w_did_load_ptr_buff v') eqn:El; cbn [andb]; [|apply Hwhole].
    destruct (a =? indirect n'); [|apply Hwhole].
    rewrite encode_ptrs_length. destruct (Hptrs eq_refl) as [-> _]. reflexivity. }
  split.
  - split; [|split; [|split; [|exact Hwhole']]].
    + unfold inode_ptrs_ok. rewrite Edir, Eind. split; [exact Hdl|]. split; [exact Hdok|]. split; [exact Hiok|].
      intros Hpos. specialize (Hload Hpos). rewrite (Hpb Hload). apply Hptrs. exact Hload.
    + intros b Hb0 Hlt. rewrite Hbp. split; [|apply Hwhole'].
      apply Hfilled; [exact Hb0|lia].
    + rewrite Eind, Efb.
      apply (blocks_ok_ext (cur_ptr n' v')); [intros b _; apply Hbp|exact Hblocks].
  - intros k Hk. unfold file_byte, read_blocks. rewrite Hbp, Edisk.
    assert (Hpos : 0 < cur_ptr n' v' (k / BLOCK_SIZE)).
    { apply Hfilled; consts; lia. }
    destruct (Z.eqb_spec (cur_ptr n' v' (k / BLOCK_SIZE)) (indirect n')) as [E|_].
    { exfalso. revert E. apply (bo_sep _ _ _ Hblocks); [consts; lia|exact Hpos]. }
    rewrite andb_false_r. apply Hdata. lia.
Qed.

(** The metadata update after the loop stores the new size and the index
    block. *)
Lemma gen_finish (v' : wvars) (s' : sfs) (r' : Z) (n' : inode_t) :
  gen_inv s0 nd0 fd ino p len buf v' s' r' n' -> r' <> p ->
  exists s'' nd',
    fwrite_finish ino len v' s' = Ret s'' /\ shape s'' /\ fdt s'' = fdt s' /\
    inodes s'' !! Z.to_nat ino = Some nd' /\ size nd' = Z.max (size nd0) r' /\
    file_ok s'' nd' /\
    forall k : Z, 0 <= k < size nd' -> file_byte s'' nd' k = written_byte s0 nd0 p r' buf k.
Proof using All.
  intros Hg Hne.
  pose proof Hg as [Hinv Hn _ _ _ _ _ _].
  destruct Hinv as [Hs Hfdt (n1 & Hn1 & Hsize & _) Hw Ht Hr Hmax Hb Hoff _].
  rewrite Hn in Hn1. injection Hn1 as <-.
  unfold fwrite_finish.
  destruct (Z.eqb_spec (w_bytes_to_write v') len) as [E|_]; [lia|].
  rewrite Z.gtb_ltb.
  destruct (Z.ltb_spec 0 (w_rwptr_size_offset v')) as [Hgrow|Hsame].
  - erewrite upd_inode_Ret; [|lia|exact Hn]. cbn [bind].
    rewrite (arr_get_Ret _ _ (with_size n' (to_uint (size n' + w_rwptr_size_offset v')))).
    2: lia.
    2:{ proj_simpl. apply list_lookup_insert_eq. apply lookup_lt_Some in Hn. exact Hn. }
    cbn [bind]. rewrite to_uint_small by (consts; lia).
    eexists _, _. split; [reflexivity|]. proj_simpl.
    split; [shape_tac|]. split; [reflexivity|].
    split; [apply list_lookup_insert_eq; apply lookup_lt_Some in Hn; exact Hn|].
    proj_simpl. split; [lia|].
    apply (gen_result v' s' r' n'); proj_simpl; try reflexivity; try lia; [exact Hg|].
    intros a. destruct (w_did_load_ptr_buff v'); cbn [andb]; reflexivity.
  - cbn [bind]. rewrite (arr_get_Ret _ _ n') by (lia || assumption). cbn [bind].
    eexists _, n'. split; [reflexivity|]. proj_simpl.
    split; [shape_tac|]. split; [reflexivity|]. split; [exact Hn|]. split; [lia|].
    apply (gen_result v' s' r' n'); proj_simpl; try reflexivity; try lia; [exact Hg|].
    intros a. destruct (w_did_load_ptr_buff v'); cbn [andb]; reflexivity.
Qed.

End GenWrite.

(** sfs_fwrite on a well-formed file, in full: the count it returns, the
    new r/w pointer and size, and the bytes of the file afterwards. *)
Lemma fwrite_general (s : sfs) (fd : Z) (buf : list byte) (len : Z)
      (f : file_descriptor_t) (nd : inode_t) :
  shape s -> 0 <= fd -> fdt s !! Z.to_nat fd = Some f ->
  0 < inode f -> inodes s !! Z.to_nat (inode f) = Some nd ->
  0 <= rwptr f <= size nd -> file_ok s nd ->
  0 < len <= Z.of_nat (length buf) ->
  exists n s' nd',
    sfs_fwrite fd buf len s = Ret (n, s') /\ 0 <= n <= len /\
    (n = len \/ size nd <= rwptr f + n) /\
    shape s' /\ fdt s' !! Z.to_nat fd = Some (mk_fd (inode f) (rwptr f + n)) /\
    inodes s' !! Z.to_nat (inode f) = Some nd' /\
    size nd' = Z.max (size nd) (rwptr f + n) /\
    (0 < n -> file_ok s' nd') /\
    forall k : Z, 0 <= k < size nd' ->
      file_byte s' nd' k = written_byte s nd (rwptr f) (rwptr f + n) buf k.
Proof.
  intros Hs Hfd Hf Hino Hnd Hp (Hok & Hholes & Hblocks & Hwhole) Hlen.
  pose proof (no_holes_size s nd Hholes) as Hsize.
  pose proof Hok as (Hdl & Hdok & Hiok & Hload).
  assert (Hsz : 0 <= size nd <= MAX_FILE_BYTES) by lia.
  unfold sfs_fwrite.
  destruct (Z.leb_spec len 0) as [|_]; [lia|].
  rewrite (arr_get_Ret _ _ f Hfd Hf). cbn [bind].
  destruct (Z.leb_spec (inode f) 0); [lia|].
  rewrite (arr_get_Ret _ _ nd) by (lia || assumption). cbn [bind].
  rewrite Z.gtb_ltb. destruct (Z.ltb_spec (size nd) (rwptr f)); [lia|].
  rewrite Z.geb_leb.
  destruct (Z.leb_spec (MAX_DATA_BLOCKS_PER_FILE * BLOCK_SIZE) (rwptr f)); [consts; lia|].
  rewrite !to_int_small by (consts; lia).
  set (v0 := mk_wvars _ _ _ _ _ _ _).
  assert (Hinv : write_inv fd (inode f) (rwptr f) len (size nd) v0 s (rwptr f)).
  { unfold v0. split; proj_simpl; try assumption; try lia; try reflexivity.
    - destruct f; exact Hf.
    - exists nd. repeat split; try assumption.
      intros Hpos. rewrite Z.gtb_ltb. destruct (Z.ltb_spec 0 (indirect nd)); [reflexivity|lia].
    - rewrite Z.gtb_ltb. destruct (Z.ltb_spec 0 (indirect nd)) as [Hpos|]; [|discriminate].
      intros _. exact (Hload Hpos). }
  assert (Hcur : forall b : Z, cur_ptr nd v0 b = block_ptr s nd b).
  { intros b. unfold cur_ptr, block_ptr, v0. cbn [w_did_load_ptr_buff w_ptr_buff].
    destruct (b <? NUM_DIRECT_POINTERS); [reflexivity|].
    destruct (indirect nd >? 0); reflexivity. }
  assert (Hg : gen_inv s nd fd (inode f) (rwptr f) len buf v0 s (rwptr f) nd).
  { split; try assumption.
    - unfold v0. cbn [w_did_load_ptr_buff]. lia.
    - apply (blocks_ok_ext (block_ptr s nd)); [intros b _; apply Hcur|exact Hblocks].
    - intros b Hb0 Hlt. rewrite Hcur. apply Hholes; [exact Hb0|lia].
    - intros k Hk. rewrite Hcur. unfold written_byte.
      destruct (Z.leb_spec (rwptr f) k); destruct (Z.ltb_spec k (rwptr f)); try lia;
        reflexivity.
    - intros _. split; [reflexivity|]. split; [reflexivity|left; reflexivity]. }
  destruct (gen_loop s nd fd (inode f) (rwptr f) len buf Hfd Hino ltac:(lia) ltac:(lia) Hsz
              loop_fuel v0 s (rwptr f) nd Hg eq_refl)
    as (v' & s' & r' & n' & Hloop & Hg' & Hle & Hend).
  { intros _ _. unfold loop_fuel. consts. lia. }
  rewrite Hloop. cbn [bind].
  pose proof Hg' as [Hinv' Hn' _ _ _ _ _ Hstart'].
  destruct Hinv' as [Hs' Hfdt' (n1 & Hn1 & Hsize' & _) Hw' Ht' Hr' Hmax' _ _ _].
  rewrite Hn' in Hn1. injection Hn1 as <-.
  destruct (Z.eq_dec r' (rwptr f)) as [->|Hmoved].
  - unfold fwrite_finish. destruct (Z.eqb_spec (w_bytes_to_write v') len) as [_|]; [|lia].
    cbn [bind]. exists (w_bytes_written v'), s', n'. rewrite Hw'.
    split; [f_equal; f_equal; lia|].
    replace (rwptr f + (rwptr f - rwptr f)) with (rwptr f) by lia.
    split; [lia|]. split; [right; lia|]. split; [exact Hs'|]. split; [exact Hfdt'|].
    split; [exact Hn'|]. split; [lia|]. split; [lia|].
    destruct (Hstart' eq_refl) as (Ed & Edir & Eind).
    intros k Hk.
    assert (Eb : block_ptr s' n' (k / BLOCK_SIZE) = block_ptr s nd (k / BLOCK_SIZE)).
    { unfold block_ptr. rewrite Ed, Edir.
      destruct (Z.ltb_spec (k / BLOCK_SIZE) NUM_DIRECT_POINTERS) as [|Hbig]; [reflexivity|].
      destruct Eind as [->|Hz]; [reflexivity|].
      exfalso. destruct (Hholes NUM_DIRECT_POINTERS) as [Hpos _]; [consts; lia|consts; lia|].
      unfold block_ptr in Hpos. rewrite Z.ltb_irrefl, Z.gtb_ltb in Hpos.
      destruct (Z.ltb_spec 0 (indirect nd)); lia. }
    unfold file_byte at 1. rewrite Eb, Ed.
    unfold written_byte.
    destruct (Z.leb_spec (rwptr f) k); destruct (Z.ltb_spec k (rwptr f)); try lia;
      reflexivity.
  - destruct (gen_finish s nd fd (inode f) (rwptr f) len buf Hfd Hino ltac:(lia) ltac:(lia) Hsz
                v' s' r' n' Hg' Hmoved)
      as (s'' & nd' & Hfin & Hs'' & Hfdt'' & Hnd' & Hsize'' & Hok'' & Hbytes).
    rewrite Hfin. cbn [bind]. exists (w_bytes_written v'), s'', nd'. rewrite Hw'.
    replace (rwptr f + (r' - rwptr f)) with r' by lia.
    split; [reflexivity|]. split; [lia|]. split; [lia|]. split; [exact Hs''|].
    split; [rewrite Hfdt''; exact Hfdt'|]. split; [exact Hnd'|]. split; [exact Hsize''|].
    split; [intros _; exact Hok''|exact Hbytes].
Qed.

(** X19.  On a well-formed file with the r/w pointer within the size, a call
    of sfs_fwrite with a positive length writes some number n of bytes, at
    most the requested length, and fewer only when offset + n reaches or
    passes the old end of the file (so a write that stays inside the file is
    never cut short).  Afterwards the r/w pointer is offset + n, the size is
    the larger of the old size and offset + n, the n bytes of the buffer
    are the bytes of the file from the offset on, and every other byte the
    file had is unchanged. *)
Theorem fwrite_stores_bytes (s : sfs) (fd : Z) (buf : list byte) (len : Z)
        (f : file_descriptor_t) (nd : inode_t) :
  shape s -> 0 <= fd -> fdt s !! Z.to_nat fd = Some f ->
  0 < inode f -> inodes s !! Z.to_nat (inode f) = Some nd ->
  0 <= rwptr f <= size nd -> file_ok s nd ->
  0 < len <= Z.of_nat (length buf) ->
  exists n s' nd',
    sfs_fwrite fd buf len s = Ret (n, s') /\ 0 <= n <= len /\
    (n = len \/ size nd <= rwptr f + n) /\
    fdt s' !! Z.to_nat fd = Some (mk_fd (inode f) (rwptr f + n)) /\
    inodes s' !! Z.to_nat (inode f) = Some nd' /\
    size nd' = Z.max (size nd) (rwptr f + n) /\
    (forall k : Z, rwptr f <= k < rwptr f + n ->
       file_byte s' nd' k = buf !! Z.to_nat (k - rwptr f)) /\
    (forall k : Z, 0 <= k < size nd -> k < rwptr f \/ rwptr f + n <= k ->
       file_byte s' nd' k = file_byte s nd k).
Proof.
  intros Hs Hfd Hf Hino Hnd Hp Hok Hlen.
  destruct (fwrite_general s fd buf len f nd Hs Hfd Hf Hino Hnd Hp Hok Hlen)
    as (n & s' & nd' & Hrun & Hn & Hend & _ & Hfd' & Hnd' & Hsize & _ & Hbytes).
  exists n, s', nd'.
  do 6 (split; [assumption|]). split.
  - intros k Hk. rewrite Hbytes by lia. unfold written_byte.
    destruct (Z.leb_spec (rwptr f) k); [|lia].
    destruct (Z.ltb_spec k (rwptr f + n)); [reflexivity|lia].
  - intros k Hk Hout. rewrite Hbytes by lia. unfold written_byte.
    destruct (Z.leb_spec (rwptr f) k); [|reflexivity].
    destruct (Z.ltb_spec k (rwptr f + n)); [lia|reflexivity].
Qed.

Lemma opened_state_file_ok (name : string) :
  file_ok (opened_state name)
          (mk_inode 1 1 0 (replicate (Z.to_nat NUM_DIRECT_POINTERS) 0) 0).
Proof.
  assert (Hq : forall b : Z,
            block_ptr (opened_state name)
              (mk_inode 1 1 0 (replicate (Z.to_nat NUM_DIRECT_POINTERS) 0) 0) b = 0).
  { intros b. unfold block_ptr. cbn [direct indirect].
    destruct (b <? NUM_DIRECT_POINTERS); [|reflexivity].
    destruct (replicate _ 0 !! _) as [z|] eqn:E; [|reflexivity].
    apply lookup_replicate in E. destruct E as [-> _]. reflexivity. }
  split; [apply opened_state_ptrs_ok|]. split; [|split].
  - intros b Hb0 Hlt. cbn [size] in Hlt. consts. lia.
  - split.
    + intros b _ Hpos. rewrite Hq in Hpos. lia.
    + cbn [indirect]. lia.
    + intros b1 b2 _ _ Hpos. rewrite Hq in Hpos. lia.
    + intros b _ Hpos. rewrite Hq in Hpos. lia.
  - intros a. reflexivity.
Qed.

Lemma fwrite_stores_bytes_witness :
  exists n s' nd',
    sfs_fwrite 1 [x68; x69] 2 (opened_state "f") = Ret (n, s') /\ 0 <= n <= 2 /\
    (n = 2 \/ 0 <= 0 + n) /\
    fdt s' !! Z.to_nat 1 = Some (mk_fd 1 (0 + n)) /\
    inodes s' !! Z.to_nat 1 = Some nd' /\
    size nd' = Z.max 0 (0 + n) /\
    (forall k : Z, 0 <= k < 0 + n -> file_byte s' nd' k = [x68; x69] !! Z.to_nat (k - 0)) /\
    (forall k : Z, 0 <= k < 0 -> k < 0 \/ 0 + n <= k ->
       file_byte s' nd' k
       = file_byte (opened_state "f")
           (mk_inode 1 1 0 (replicate (Z.to_nat NUM_DIRECT_POINTERS) 0) 0) k).
Proof.
  apply (fwrite_stores_bytes (opened_state "f") 1 [x68; x69] 2 (mk_fd 1 0)
           (mk_inode 1 1 0 (replicate (Z.to_nat NUM_DIRECT_POINTERS) 0) 0)).
  - apply opened_state_shape.
  - lia.
  - reflexivity.
  - cbn. lia.
  - reflexivity.
  - cbn. lia.
  - apply opened_state_file_ok.
  - cbn. lia.
Defined.

(** X20.  A call of sfs_fwrite that writes at least one byte to a
    well-formed file leaves the file well-formed: its pointers are block
    numbers, its body up to the new size has no holes, the bitmap byte of
    each of its blocks is set, no block serves two places of the file or
    doubles as the index block, and the device holds whole blocks; the
    arrays of the state keep their lengths. *)
Theorem fwrite_keeps_file_ok (s : sfs) (fd : Z) (buf : list byte) (len : Z)
        (f : file_descriptor_t) (nd : inode_t) :
  shape s -> 0 <= fd -> fdt s !! Z.to_nat fd = Some f ->
  0 < inode f -> inodes s !! Z.to_nat (inode f) = Some nd ->
  0 <= rwptr f <= size nd -> file_ok s nd ->
  0 < len <= Z.of_nat (length buf) ->
  exists n s' nd',
    sfs_fwrite fd buf len s = Ret (n, s') /\ shape s' /\
    inodes s' !! Z.to_nat (inode f) = Some nd' /\
    (0 < n -> file_ok s' nd').
Proof.
  intros Hs Hfd Hf Hino Hnd Hp Hok Hlen.
  destruct (fwrite_general s fd buf len f nd Hs Hfd Hf Hino Hnd Hp Hok Hlen)
    as (n & s' & nd' & Hrun & _ & _ & Hs' & _ & Hnd' & _ & Hok' & _).
  exists n, s', nd'. do 3 (split; [assumption|]). exact Hok'.
Qed.

Lemma fwrite_keeps_file_ok_witness :
  exists n s' nd',
    sfs_fwrite 1 [x68; x69] 2 (opened_state "f") = Ret (n, s') /\ shape s' /\
    inodes s' !! Z.to_nat 1 = Some nd' /\
    (0 < n -> file_ok s' nd').
Proof.
  apply (fwrite_keeps_file_ok (opened_state "f") 1 [x68; x69] 2 (mk_fd 1 0)
           (mk_inode 1 1 0 (replicate (Z.to_nat NUM_DIRECT_POINTERS) 0) 0)).
  - apply opened_state_shape.
  - lia.
  - reflexivity.
  - cbn. lia.
  - reflexivity.
  - cbn. lia.
  - apply opened_state_file_ok.
  - cbn. lia.
Defined.

(** X21.  Write, seek back, read: on a well-formed file with the r/w
    pointer at offset p within the size, writing [len] bytes, seeking back
    to p and reading as many bytes as the write returned gives the read
    that count and exactly the bytes of the buffer that were written. *)
Theorem write_seek_read_law (s : sfs) (fd : Z) (buf : list byte) (len : Z)
        (f : file_descriptor_t) (nd : inode_t) :
  shape s -> 0 < fd < NUM_INODES -> fdt s !! Z.to_nat fd = Some f ->
  0 < inode f -> inodes s !! Z.to_nat (inode f) = Some nd ->
  0 <= rwptr f <= size nd -> file_ok s nd ->
  0 < len <= Z.of_nat (length buf) ->
  exists n,
    write_seek_read fd buf len (rwptr f) s = Ret (n, n, take (Z.to_nat n) buf) /\
    0 <= n <= len /\ (n = len \/ size nd <= rwptr f + n).
Proof.
  intros Hs Hfd Hf Hino Hnd Hp Hok Hlen.
  pose proof Hok as (_ & Hholes & _).
  pose proof (no_holes_size s nd Hholes) as Hsize.
  destruct (fwrite_general s fd buf len f nd Hs ltac:(lia) Hf Hino Hnd Hp Hok Hlen)
    as (n & s' & nd' & Hrun & Hn & Hend & Hs' & Hfd' & Hnd' & Hsize' & Hok' & Hbytes).
  exists n. split; [|split; assumption].
  unfold write_seek_read. rewrite Hrun. cbn [bind].
  unfold sfs_fseek.
  rewrite Z.gtb_ltb. destruct (Z.ltb_spec 0 fd); [|lia].
  destruct (Z.ltb_spec fd NUM_INODES); [|lia]. cbn [andb].
  rewrite (arr_get_Ret _ _ (mk_fd (inode f) (rwptr f + n))) by (lia || exact Hfd').
  cbn [bind inode].
  destruct (Z.eqb_spec (inode f) (-1)); [lia|].
  destruct (Z.eqb_spec (inode f) 0); [lia|].
  destruct (Z.ltb_spec (rwptr f) 0); [lia|].
  rewrite (arr_get_Ret _ _ nd') by (lia || assumption). cbn [bind].
  rewrite Z.gtb_ltb. destruct (Z.ltb_spec (size nd') (rwptr f)); [lia|].
  rewrite Z.geb_leb.
  destruct (Z.leb_spec (MAX_DATA_BLOCKS_PER_FILE * BLOCK_SIZE) (rwptr f)); [consts; lia|].
  erewrite upd_fd_Ret; [|lia|exact Hfd']. cbn [bind inode].
  destruct (Z.eq_dec n 0) as [->|Hpos].
  - unfold sfs_fread. cbn [Z.leb Z.compare bind]. reflexivity.
  - set (s2 := set_fdt s' _).
    assert (Hf2 : fdt s2 !! Z.to_nat fd = Some (mk_fd (inode f) (rwptr f))).
    { unfold s2. cbn [fdt set_fdt]. apply list_lookup_insert_eq.
      apply lookup_lt_Some in Hfd'. exact Hfd'. }
    destruct (Hok' ltac:(lia)) as (_ & Hholes' & _).
    destruct (fread_delivers s2 fd n (mk_fd (inode f) (rwptr f)) nd'
                ltac:(lia) Hf2 ltac:(lia) Hino Hnd' ltac:(cbn [rwptr]; lia) Hholes')
      as (out & Hread & Hlen' & Hout).
    cbn [rwptr] in Hread, Hlen', Hout.
    replace (Z.min n (size nd' - rwptr f)) with n in * by lia.
    rewrite Hread. cbn [bind]. f_equal. f_equal.
    apply list_eq. intros i.
    destruct (decide (i < Z.to_nat n)%nat) as [Hi|Hi].
    + rewrite lookup_take_lt by exact Hi.
      specialize (Hout (Z.of_nat i) ltac:(lia)). rewrite Nat2Z.id in Hout. rewrite Hout.
      change (file_byte s2 nd') with (file_byte s' nd').
      rewrite Hbytes by lia. unfold written_byte.
      destruct (Z.leb_spec (rwptr f) (rwptr f + Z.of_nat i)); [|lia].
      destruct (Z.ltb_spec (rwptr f + Z.of_nat i) (rwptr f + n)); [|lia].
      cbn [andb]. f_equal. lia.
    + rewrite lookup_ge_None_2 by lia.
      symmetry. apply lookup_ge_None_2. rewrite length_take. lia.
Qed.

Lemma write_seek_read_law_witness :
  exists n,
    write_seek_read 1 [x68; x69] 2 0 (opened_state "f")
    = Ret (n, n, take (Z.to_nat n) [x68; x69]) /\
    0 <= n <= 2 /\ (n = 2 \/ 0 <= 0 + n).
Proof.
  apply (write_seek_read_law (opened_state "f") 1 [x68; x69] 2 (mk_fd 1 0)
           (mk_inode 1 1 0 (replicate (Z.to_nat NUM_DIRECT_POINTERS) 0) 0)).
  - apply opened_state_shape.
  - consts. lia.
  - reflexivity.
  - cbn. lia.
  - reflexivity.
  - cbn. lia.
  - apply opened_state_file_ok.
  - cbn. lia.
Defined.
